(** * OrbiSyncNode: a shallow embedding of the session state machine,
      the tunnel demultiplexer and their helpers, with the properties
      checked against the C++ sources (OrbiSyncNode.cpp / OrbiSyncNode.h). *)

From Stdlib Require Import ZArith List String Ascii Bool Lia DecimalString.
Import ListNotations.
Open Scope string_scope.
Open Scope Z_scope.

(** ** Machine integers

    [uint32_t] and [size_t] values are integers taken modulo 2^32, the C
    [int] and [long] are 32-bit two's complement integers. *)

Definition u32 (x : Z) : Z := x mod 4294967296.

Definition int32 (x : Z) : Z := (x + 2147483648) mod 4294967296 - 2147483648.

Definition fits_int32 (x : Z) : bool := (-2147483648 <=? x) && (x <=? 2147483647).

(** ** C strings

    Strings are [string]s; where the bytes matter (base64, body buffers)
    they are lists of character codes. A [const char*] that may be null is
    an [option string]. *)

Definition codes (s : string) : list Z :=
  map (fun c => Z.of_N (N_of_ascii c)) (list_ascii_of_string s).

Definition slen (s : string) : Z := Z.of_nat (String.length s).

(** [strncpy(dst, src, n); dst[n] = 0]: the first [n] characters. *)
Fixpoint strncpy (n : nat) (s : string) : string :=
  match n, s with
  | O, _ => EmptyString
  | S _, EmptyString => EmptyString
  | S m, String c r => String c (strncpy m r)
  end.

#[global] Arguments strncpy : simpl never.

(** [s[0] != 0] *)
Definition nonempty (s : string) : bool :=
  match s with EmptyString => false | _ => true end.

(** [p && p[0]] *)
Definition is_set (p : option string) : bool :=
  match p with Some s => nonempty s | None => false end.

(** [(p && p[0]) ? p : d] *)
Definition or_default (p : option string) (d : string) : string :=
  match p with Some s => if nonempty s then s else d | None => d end.

(** [p ? p : (empty string)] *)
Definition or_empty (p : option string) : string :=
  match p with Some s => s | None => EmptyString end.

(** [strstr(hay, needle) != nullptr] *)
Definition strstr (hay needle : string) : bool :=
  match String.index 0 needle hay with Some _ => true | None => false end.

(** [strchr(s, c)] as an offset. *)
Fixpoint strchr (s : string) (c : ascii) : option nat :=
  match s with
  | EmptyString => None
  | String d r => if Ascii.eqb d c then Some O
                  else match strchr r c with Some i => Some (S i) | None => None end
  end.

(** Hexadecimal digits as printf writes them. *)
Definition hex_digit (upper : bool) (d : Z) : ascii :=
  ascii_of_N (Z.to_N (if d <? 10 then 48 + d
                      else if upper then 55 + d else 87 + d)).

(** [digits] hexadecimal digits of [n], most significant first
    ("%08x", "%02X" on values that fit). *)
Fixpoint hex_fixed (upper : bool) (digits : nat) (n : Z) : string :=
  match digits with
  | O => EmptyString
  | S k => String (hex_digit upper ((n / 16 ^ Z.of_nat k) mod 16))
                  (hex_fixed upper k n)
  end.

Fixpoint strip_zeros (s : string) : string :=
  match s with
  | String c r => if Ascii.eqb c "0" then
                    match r with EmptyString => s | _ => strip_zeros r end
                  else s
  | EmptyString => EmptyString
  end.

(** "%x" / "%llx" / [String(v, HEX)]: no padding, lower case. *)
Definition hex_plain (digits : nat) (n : Z) : string :=
  strip_zeros (hex_fixed false digits n).

(** The double quote character, as a string. *)
Definition dquote : string := String (ascii_of_N 34) EmptyString.

(** "%d" *)
Definition dec (n : Z) : string := NilZero.string_of_int (Z.to_int n).

(** ** The JSON documents exchanged with the Hub

    The JSON codec is a library outside the repository. Documents are
    modelled after parsing; numbers are the integers. *)

Module Json.

#[local] Unset Elimination Schemes.
Inductive jval : Type :=
| JNull
| JBool (b : bool)
| JInt (n : Z)
| JStr (s : string)
| JObj (fields : list (string * jval))
| JArr (items : list jval).
#[local] Set Elimination Schemes.

Fixpoint lookup (k : string) (fs : list (string * jval)) : option jval :=
  match fs with
  | [] => None
  | (k', v) :: r => if String.eqb k k' then Some v else lookup k r
  end.

(** [doc[key]]; [None] is the unbound variant. *)
Definition member (d : jval) (k : string) : option jval :=
  match d with JObj fs => lookup k fs | _ => None end.

Definition containsKey (d : jval) (k : string) : bool :=
  match member d k with Some _ => true | None => false end.

(** [a | b] on two variants: the first unless it is null. *)
Definition alt (a b : option jval) : option jval :=
  match a with
  | None | Some JNull => b
  | _ => a
  end.

(** [v.is<const char*>()] *)
Definition is_str (v : option jval) : bool :=
  match v with Some (JStr _) => true | _ => false end.

(** [v | "default"] *)
Definition str_or (v : option jval) (d : string) : string :=
  match v with Some (JStr s) => s | _ => d end.

(** [v | 3000] at type [int] *)
Definition int_or (v : option jval) (d : Z) : Z :=
  match v with
  | Some (JInt n) => if fits_int32 n then n else d
  | _ => d
  end.

(** [v | false] *)
Definition bool_or (v : option jval) (d : bool) : bool :=
  match v with Some (JBool b) => b | _ => d end.

Definition is_obj (v : option jval) : bool :=
  match v with Some (JObj _) => true | _ => false end.

(** [v.as<long>()] on the values of this model. *)
Definition as_long (v : option jval) : Z :=
  match v with
  | Some (JInt n) => if fits_int32 n then n else 0
  | Some (JBool true) => 1
  | _ => 0
  end.

(** [obj[key] = value]: replaces the member or appends it. *)
Fixpoint jset (k : string) (v : jval) (fs : list (string * jval))
  : list (string * jval) :=
  match fs with
  | [] => [(k, v)]
  | (k', v') :: r => if String.eqb k k' then (k, v) :: r
                     else (k', v') :: jset k v r
  end.

(** Compact serialization. *)
Fixpoint escape (s : string) : string :=
  match s with
  | EmptyString => EmptyString
  | String c r =>
      let n := N_of_ascii c in
      if N.eqb n 34 then String "\" (String c (escape r))
      else if N.eqb n 92 then String "\" (String c (escape r))
      else if N.eqb n 8 then String "\" (String "b" (escape r))
      else if N.eqb n 12 then String "\" (String "f" (escape r))
      else if N.eqb n 10 then String "\" (String "n" (escape r))
      else if N.eqb n 13 then String "\" (String "r" (escape r))
      else if N.eqb n 9 then String "\" (String "t" (escape r))
      else String c (escape r)
  end.

Definition quoted (s : string) : string :=
  String (ascii_of_N 34) (escape s ++ String (ascii_of_N 34) EmptyString).

Fixpoint text (v : jval) : string :=
  match v with
  | JNull => "null"
  | JBool true => "true"
  | JBool false => "false"
  | JInt n => dec n
  | JStr s => quoted s
  | JObj fs =>
      "{" ++ (fix members (fs : list (string * jval)) : string :=
                match fs with
                | [] => EmptyString
                | [(k, x)] => quoted k ++ ":" ++ text x
                | (k, x) :: r => quoted k ++ ":" ++ text x ++ "," ++ members r
                end) fs ++ "}"
  | JArr xs =>
      "[" ++ (fix items (xs : list jval) : string :=
                match xs with
                | [] => EmptyString
                | [x] => text x
                | x :: r => text x ++ "," ++ items r
                end) xs ++ "]"
  end.

Definition measureJson (v : jval) : Z := slen (text v).

(** [serializeJson(doc, buf, size)]: the number of characters written,
    which stops at the end of the buffer. *)
Definition serializeJson (v : jval) (size : Z) : Z := Z.min (measureJson v) size.

End Json.

(** ** Base64 (static helpers of OrbiSyncNode.cpp) *)

Module Base64.

Definition kBase64Chars : list Z :=
  codes "ABCDEFGHIJKLMNOPQRSTUVWXYZabcdefghijklmnopqrstuvwxyz0123456789+/".

Definition tbl (i : Z) : Z := nth (Z.to_nat i) kBase64Chars 0.

Definition pad : Z := 61.

(** [base64Encode]: the [for] loop consumes three input bytes while
    [i + 2 < inLen]; the tail handles the one or two bytes left. The result
    is the string written to [out] (its length is the returned [j]). *)
Fixpoint base64Encode (inp : list Z) : list Z :=
  match inp with
  | b0 :: b1 :: b2 :: rest =>
      tbl (Z.land (Z.shiftr b0 2) 63)
      :: tbl (Z.lor (Z.shiftl (Z.land b0 3) 4) (Z.shiftr b1 4))
      :: tbl (Z.lor (Z.shiftl (Z.land b1 15) 2) (Z.shiftr b2 6))
      :: tbl (Z.land b2 63)
      :: base64Encode rest
  | [b0; b1] =>
      [ tbl (Z.land (Z.shiftr b0 2) 63);
        tbl (Z.lor (Z.shiftl (Z.land b0 3) 4) (Z.shiftr b1 4));
        tbl (Z.shiftl (Z.land b1 15) 2);
        pad ]
  | [b0] =>
      [ tbl (Z.land (Z.shiftr b0 2) 63);
        tbl (Z.shiftl (Z.land b0 3) 4);
        pad; pad ]
  | [] => []
  end.

(** What the decoder makes of one input character. *)
Inductive sextet : Type :=
| Digit (d : Z)   (* a character of the alphabet *)
| Stop            (* '=' : break *)
| Skip.           (* anything else : continue *)

Definition classify (c : Z) : sextet :=
  if (65 <=? c) && (c <=? 90) then Digit (c - 65)
  else if (97 <=? c) && (c <=? 122) then Digit (c - 97 + 26)
  else if (48 <=? c) && (c <=? 57) then Digit (c - 48 + 52)
  else if c =? 43 then Digit 62
  else if c =? 47 then Digit 63
  else if c =? 61 then Stop
  else Skip.

(** The loop of [base64Decode] with its locals [val], [valb] and the bytes
    written to [out] so far. [val] is an [int]: it is never masked, so it
    wraps around. *)
Fixpoint decode_loop (inp : list Z) (val valb : Z) (out : list Z) : list Z :=
  match inp with
  | [] => out
  | c :: rest =>
      match classify c with
      | Stop => out
      | Skip => decode_loop rest val valb out
      | Digit d =>
          let val' := int32 (Z.shiftl val 6 + d) in
          let valb' := valb + 6 in
          if 0 <=? valb'
          then decode_loop rest val' (valb' - 8)
                 (out ++ [Z.land (Z.shiftr val' valb') 255])
          else decode_loop rest val' valb' out
      end
  end.

(** [base64Decode]: the bytes written to [out]; the returned [outLen] is
    their number. *)
Definition base64Decode (inp : list Z) : list Z := decode_loop inp 0 (-8) [].

Definition is_byte (b : Z) : Prop := 0 <= b < 256.

End Base64.

(** ** The node: the richest implementation (namespace OrbiSyncNode) *)

Module Node.
Import Json.

Inductive State : Type :=
| BOOT | HELLO | PAIR_SUBMIT | PENDING_POLL | GRANTED | ACTIVE
| TUNNEL_CONNECTING | TUNNEL_CONNECTED | ERROR.

Definition State_eqb (a b : State) : bool :=
  match a, b with
  | BOOT, BOOT | HELLO, HELLO | PAIR_SUBMIT, PAIR_SUBMIT
  | PENDING_POLL, PENDING_POLL | GRANTED, GRANTED | ACTIVE, ACTIVE
  | TUNNEL_CONNECTING, TUNNEL_CONNECTING
  | TUNNEL_CONNECTED, TUNNEL_CONNECTED | ERROR, ERROR => true
  | _, _ => false
  end.

(** Tunables *)
Definition kBackoffMinMs : Z := 2000.
Definition kBackoffMaxMs : Z := 60000.
Definition kTunnelPingIntervalMs : Z := 25000.
Definition kTunnelBackoffMs : list Z := [2000; 4000; 8000; 15000; 60000].
Definition kTunnelBackoffSteps : Z := 5.
Definition kDefaultMaxTunnelBody : Z := 4096.
Definition kPairingCodeMax : nat := 32.
Definition TUNNEL_MAX_HEADERS : nat := 8.
Definition kBodySize : Z := 2048.   (* sizeof(body_) *)

(** [struct Config]: the fields the functions below read. *)
Record Config : Type := Build_Config {
  hubBaseUrl : option string;
  slotId : option string;
  firmwareVersion : option string;
  capabilities : option (list (option string));   (* capabilityCount is the length *)
  heartbeatIntervalMs : Z;
  ledPin : Z;
  machineIdPrefix : option string;
  nodeNamePrefix : option string;
  appendUniqueSuffix : bool;
  useMacForUniqueId : bool;
  enableTunnel : bool;
  registerRetryMs : Z;
  preferRegisterBySlot : bool;
  enableSelfApprove : bool;
  approveEndpointPath : option string;
  approveRetryMs : Z;
  sessionEndpointPath : option string;
  loginToken : option string;
  maxTunnelBodyBytes : Z;
  sendReconnectHintInHello : bool
}.


Definition cfgOrDefaultU32 (v defv : Z) : Z := if v =? 0 then defv else v.
Definition cfgOrDefaultSz (v defv : Z) : Z := if v =? 0 then defv else v.

(** [struct TunnelHttpRequest] *)
Record TunnelHttpRequest : Type := Build_Request {
  requestId : string;
  streamId : string;
  tunnelId : string;
  method : string;
  path : string;
  query : string;
  body : list Z;
  headers : list (string * string)   (* headerCount is the length *)
}.

(** A user handler receives the request and the response writer. The
    writer's methods return nothing, so what a handler does with it is the
    sequence of calls it makes. *)
Inductive writer_call : Type :=
| CallSetStatus (code : Z)
| CallSetHeader (key value : option string)
| CallWrite (data : option (list Z))      (* write(const uint8_t*, size_t) *)
| CallWriteStr (str : option string)      (* write(const char* ) *)
| CallEnd.

Definition HttpRequestCallback : Type := TunnelHttpRequest -> list writer_call.

(** [class TunnelHttpResponseWriter] *)
Record TunnelHttpResponseWriter : Type := Build_Writer {
  node_ : bool;   (* node_ != nullptr *)
  requestId_ : string;   (* char[48] *)
  statusCode_ : Z;
  headers_ : list (string * string);   (* headerCount_ is the length *)
  body_ : list Z;   (* the first bodyLen_ bytes of uint8_t[2048] *)
  ended_ : bool
}.

Definition set_node_ (v : bool) (x : TunnelHttpResponseWriter) :
    TunnelHttpResponseWriter := Build_Writer v (requestId_ x) (statusCode_ x)
    (headers_ x) (body_ x) (ended_ x).
Definition set_requestId_ (v : string) (x : TunnelHttpResponseWriter) :
    TunnelHttpResponseWriter := Build_Writer (node_ x) v (statusCode_ x)
    (headers_ x) (body_ x) (ended_ x).
Definition set_statusCode_ (v : Z) (x : TunnelHttpResponseWriter) :
    TunnelHttpResponseWriter := Build_Writer (node_ x) (requestId_ x) v
    (headers_ x) (body_ x) (ended_ x).
Definition set_headers_ (v : list (string * string)) (x :
    TunnelHttpResponseWriter) : TunnelHttpResponseWriter := Build_Writer
    (node_ x) (requestId_ x) (statusCode_ x) v (body_ x) (ended_ x).
Definition set_body_ (v : list Z) (x : TunnelHttpResponseWriter) :
    TunnelHttpResponseWriter := Build_Writer (node_ x) (requestId_ x)
    (statusCode_ x) (headers_ x) v (ended_ x).
Definition set_ended_ (v : bool) (x : TunnelHttpResponseWriter) :
    TunnelHttpResponseWriter := Build_Writer (node_ x) (requestId_ x)
    (statusCode_ x) (headers_ x) (body_ x) v.

(** The members of [class OrbiSyncNode]; of the callbacks only the tunnel
    request handler is kept, the observers are recorded in the world. *)
Record node : Type := Build_node {
  cfg_ : Config;
  state_ : State;
  nodeId_ : string;   (* char[64] *)
  nodeToken_ : string;   (* char[256] *)
  tunnelUrl_ : string;   (* char[256] *)
  tunnelId_ : string;   (* char[64] *)
  sessionToken_ : string;   (* char[256] *)
  sessionExpiresAt_ : string;   (* char[32] *)
  pairingCode_ : string;   (* char[kPairingCodeMax] *)
  pairingExpiresAt_ : string;   (* char[32] *)
  pairingCodeValid_ : bool;
  nextHelloMs_ : Z;
  nextPairMs_ : Z;
  nextApproveMs_ : Z;
  nextSessionPollMs_ : Z;
  nextRegisterBySlotMs_ : Z;
  netBackoffMs_ : Z;
  pairBackoffMs_ : Z;
  nextTunnelConnectMs_ : Z;
  tunnelBackoffMs_ : Z;
  tunnelBackoffIndex_ : Z;
  lastTunnelPingMs_ : Z;
  tunnelRegistered_ : bool;
  approveMissingMacFailed_ : bool;
  lastHeartbeatMs_ : Z;
  wifiConnecting_ : bool;
  httpBusy_ : bool;
  httpRequestCb_ : option HttpRequestCallback
}.

Definition set_cfg_ (v : Config) (x : node) : node := Build_node v (state_ x)
    (nodeId_ x) (nodeToken_ x) (tunnelUrl_ x) (tunnelId_ x) (sessionToken_ x)
    (sessionExpiresAt_ x) (pairingCode_ x) (pairingExpiresAt_ x)
    (pairingCodeValid_ x) (nextHelloMs_ x) (nextPairMs_ x) (nextApproveMs_ x)
    (nextSessionPollMs_ x) (nextRegisterBySlotMs_ x) (netBackoffMs_ x)
    (pairBackoffMs_ x) (nextTunnelConnectMs_ x) (tunnelBackoffMs_ x)
    (tunnelBackoffIndex_ x) (lastTunnelPingMs_ x) (tunnelRegistered_ x)
    (approveMissingMacFailed_ x) (lastHeartbeatMs_ x) (wifiConnecting_ x)
    (httpBusy_ x) (httpRequestCb_ x).
Definition set_state_ (v : State) (x : node) : node := Build_node (cfg_ x) v
    (nodeId_ x) (nodeToken_ x) (tunnelUrl_ x) (tunnelId_ x) (sessionToken_ x)
    (sessionExpiresAt_ x) (pairingCode_ x) (pairingExpiresAt_ x)
    (pairingCodeValid_ x) (nextHelloMs_ x) (nextPairMs_ x) (nextApproveMs_ x)
    (nextSessionPollMs_ x) (nextRegisterBySlotMs_ x) (netBackoffMs_ x)
    (pairBackoffMs_ x) (nextTunnelConnectMs_ x) (tunnelBackoffMs_ x)
    (tunnelBackoffIndex_ x) (lastTunnelPingMs_ x) (tunnelRegistered_ x)
    (approveMissingMacFailed_ x) (lastHeartbeatMs_ x) (wifiConnecting_ x)
    (httpBusy_ x) (httpRequestCb_ x).
Definition set_nodeId_ (v : string) (x : node) : node := Build_node (cfg_ x)
    (state_ x) v (nodeToken_ x) (tunnelUrl_ x) (tunnelId_ x) (sessionToken_ x)
    (sessionExpiresAt_ x) (pairingCode_ x) (pairingExpiresAt_ x)
    (pairingCodeValid_ x) (nextHelloMs_ x) (nextPairMs_ x) (nextApproveMs_ x)
    (nextSessionPollMs_ x) (nextRegisterBySlotMs_ x) (netBackoffMs_ x)
    (pairBackoffMs_ x) (nextTunnelConnectMs_ x) (tunnelBackoffMs_ x)
    (tunnelBackoffIndex_ x) (lastTunnelPingMs_ x) (tunnelRegistered_ x)
    (approveMissingMacFailed_ x) (lastHeartbeatMs_ x) (wifiConnecting_ x)
    (httpBusy_ x) (httpRequestCb_ x).
Definition set_nodeToken_ (v : string) (x : node) : node := Build_node (cfg_
    x) (state_ x) (nodeId_ x) v (tunnelUrl_ x) (tunnelId_ x) (sessionToken_ x)
    (sessionExpiresAt_ x) (pairingCode_ x) (pairingExpiresAt_ x)
    (pairingCodeValid_ x) (nextHelloMs_ x) (nextPairMs_ x) (nextApproveMs_ x)
    (nextSessionPollMs_ x) (nextRegisterBySlotMs_ x) (netBackoffMs_ x)
    (pairBackoffMs_ x) (nextTunnelConnectMs_ x) (tunnelBackoffMs_ x)
    (tunnelBackoffIndex_ x) (lastTunnelPingMs_ x) (tunnelRegistered_ x)
    (approveMissingMacFailed_ x) (lastHeartbeatMs_ x) (wifiConnecting_ x)
    (httpBusy_ x) (httpRequestCb_ x).
Definition set_tunnelUrl_ (v : string) (x : node) : node := Build_node (cfg_
    x) (state_ x) (nodeId_ x) (nodeToken_ x) v (tunnelId_ x) (sessionToken_ x)
    (sessionExpiresAt_ x) (pairingCode_ x) (pairingExpiresAt_ x)
    (pairingCodeValid_ x) (nextHelloMs_ x) (nextPairMs_ x) (nextApproveMs_ x)
    (nextSessionPollMs_ x) (nextRegisterBySlotMs_ x) (netBackoffMs_ x)
    (pairBackoffMs_ x) (nextTunnelConnectMs_ x) (tunnelBackoffMs_ x)
    (tunnelBackoffIndex_ x) (lastTunnelPingMs_ x) (tunnelRegistered_ x)
    (approveMissingMacFailed_ x) (lastHeartbeatMs_ x) (wifiConnecting_ x)
    (httpBusy_ x) (httpRequestCb_ x).
Definition set_tunnelId_ (v : string) (x : node) : node := Build_node (cfg_ x)
    (state_ x) (nodeId_ x) (nodeToken_ x) (tunnelUrl_ x) v (sessionToken_ x)
    (sessionExpiresAt_ x) (pairingCode_ x) (pairingExpiresAt_ x)
    (pairingCodeValid_ x) (nextHelloMs_ x) (nextPairMs_ x) (nextApproveMs_ x)
    (nextSessionPollMs_ x) (nextRegisterBySlotMs_ x) (netBackoffMs_ x)
    (pairBackoffMs_ x) (nextTunnelConnectMs_ x) (tunnelBackoffMs_ x)
    (tunnelBackoffIndex_ x) (lastTunnelPingMs_ x) (tunnelRegistered_ x)
    (approveMissingMacFailed_ x) (lastHeartbeatMs_ x) (wifiConnecting_ x)
    (httpBusy_ x) (httpRequestCb_ x).
Definition set_sessionToken_ (v : string) (x : node) : node := Build_node
    (cfg_ x) (state_ x) (nodeId_ x) (nodeToken_ x) (tunnelUrl_ x) (tunnelId_
    x) v (sessionExpiresAt_ x) (pairingCode_ x) (pairingExpiresAt_ x)
    (pairingCodeValid_ x) (nextHelloMs_ x) (nextPairMs_ x) (nextApproveMs_ x)
    (nextSessionPollMs_ x) (nextRegisterBySlotMs_ x) (netBackoffMs_ x)
    (pairBackoffMs_ x) (nextTunnelConnectMs_ x) (tunnelBackoffMs_ x)
    (tunnelBackoffIndex_ x) (lastTunnelPingMs_ x) (tunnelRegistered_ x)
    (approveMissingMacFailed_ x) (lastHeartbeatMs_ x) (wifiConnecting_ x)
    (httpBusy_ x) (httpRequestCb_ x).
Definition set_sessionExpiresAt_ (v : string) (x : node) : node := Build_node
    (cfg_ x) (state_ x) (nodeId_ x) (nodeToken_ x) (tunnelUrl_ x) (tunnelId_
    x) (sessionToken_ x) v (pairingCode_ x) (pairingExpiresAt_ x)
    (pairingCodeValid_ x) (nextHelloMs_ x) (nextPairMs_ x) (nextApproveMs_ x)
    (nextSessionPollMs_ x) (nextRegisterBySlotMs_ x) (netBackoffMs_ x)
    (pairBackoffMs_ x) (nextTunnelConnectMs_ x) (tunnelBackoffMs_ x)
    (tunnelBackoffIndex_ x) (lastTunnelPingMs_ x) (tunnelRegistered_ x)
    (approveMissingMacFailed_ x) (lastHeartbeatMs_ x) (wifiConnecting_ x)
    (httpBusy_ x) (httpRequestCb_ x).
Definition set_pairingCode_ (v : string) (x : node) : node := Build_node (cfg_
    x) (state_ x) (nodeId_ x) (nodeToken_ x) (tunnelUrl_ x) (tunnelId_ x)
    (sessionToken_ x) (sessionExpiresAt_ x) v (pairingExpiresAt_ x)
    (pairingCodeValid_ x) (nextHelloMs_ x) (nextPairMs_ x) (nextApproveMs_ x)
    (nextSessionPollMs_ x) (nextRegisterBySlotMs_ x) (netBackoffMs_ x)
    (pairBackoffMs_ x) (nextTunnelConnectMs_ x) (tunnelBackoffMs_ x)
    (tunnelBackoffIndex_ x) (lastTunnelPingMs_ x) (tunnelRegistered_ x)
    (approveMissingMacFailed_ x) (lastHeartbeatMs_ x) (wifiConnecting_ x)
    (httpBusy_ x) (httpRequestCb_ x).
Definition set_pairingExpiresAt_ (v : string) (x : node) : node := Build_node
    (cfg_ x) (state_ x) (nodeId_ x) (nodeToken_ x) (tunnelUrl_ x) (tunnelId_
    x) (sessionToken_ x) (sessionExpiresAt_ x) (pairingCode_ x) v
    (pairingCodeValid_ x) (nextHelloMs_ x) (nextPairMs_ x) (nextApproveMs_ x)
    (nextSessionPollMs_ x) (nextRegisterBySlotMs_ x) (netBackoffMs_ x)
    (pairBackoffMs_ x) (nextTunnelConnectMs_ x) (tunnelBackoffMs_ x)
    (tunnelBackoffIndex_ x) (lastTunnelPingMs_ x) (tunnelRegistered_ x)
    (approveMissingMacFailed_ x) (lastHeartbeatMs_ x) (wifiConnecting_ x)
    (httpBusy_ x) (httpRequestCb_ x).
Definition set_pairingCodeValid_ (v : bool) (x : node) : node := Build_node
    (cfg_ x) (state_ x) (nodeId_ x) (nodeToken_ x) (tunnelUrl_ x) (tunnelId_
    x) (sessionToken_ x) (sessionExpiresAt_ x) (pairingCode_ x)
    (pairingExpiresAt_ x) v (nextHelloMs_ x) (nextPairMs_ x) (nextApproveMs_
    x) (nextSessionPollMs_ x) (nextRegisterBySlotMs_ x) (netBackoffMs_ x)
    (pairBackoffMs_ x) (nextTunnelConnectMs_ x) (tunnelBackoffMs_ x)
    (tunnelBackoffIndex_ x) (lastTunnelPingMs_ x) (tunnelRegistered_ x)
    (approveMissingMacFailed_ x) (lastHeartbeatMs_ x) (wifiConnecting_ x)
    (httpBusy_ x) (httpRequestCb_ x).
Definition set_nextHelloMs_ (v : Z) (x : node) : node := Build_node (cfg_ x)
    (state_ x) (nodeId_ x) (nodeToken_ x) (tunnelUrl_ x) (tunnelId_ x)
    (sessionToken_ x) (sessionExpiresAt_ x) (pairingCode_ x)
    (pairingExpiresAt_ x) (pairingCodeValid_ x) v (nextPairMs_ x)
    (nextApproveMs_ x) (nextSessionPollMs_ x) (nextRegisterBySlotMs_ x)
    (netBackoffMs_ x) (pairBackoffMs_ x) (nextTunnelConnectMs_ x)
    (tunnelBackoffMs_ x) (tunnelBackoffIndex_ x) (lastTunnelPingMs_ x)
    (tunnelRegistered_ x) (approveMissingMacFailed_ x) (lastHeartbeatMs_ x)
    (wifiConnecting_ x) (httpBusy_ x) (httpRequestCb_ x).
Definition set_nextPairMs_ (v : Z) (x : node) : node := Build_node (cfg_ x)
    (state_ x) (nodeId_ x) (nodeToken_ x) (tunnelUrl_ x) (tunnelId_ x)
    (sessionToken_ x) (sessionExpiresAt_ x) (pairingCode_ x)
    (pairingExpiresAt_ x) (pairingCodeValid_ x) (nextHelloMs_ x) v
    (nextApproveMs_ x) (nextSessionPollMs_ x) (nextRegisterBySlotMs_ x)
    (netBackoffMs_ x) (pairBackoffMs_ x) (nextTunnelConnectMs_ x)
    (tunnelBackoffMs_ x) (tunnelBackoffIndex_ x) (lastTunnelPingMs_ x)
    (tunnelRegistered_ x) (approveMissingMacFailed_ x) (lastHeartbeatMs_ x)
    (wifiConnecting_ x) (httpBusy_ x) (httpRequestCb_ x).
Definition set_nextApproveMs_ (v : Z) (x : node) : node := Build_node (cfg_ x)
    (state_ x) (nodeId_ x) (nodeToken_ x) (tunnelUrl_ x) (tunnelId_ x)
    (sessionToken_ x) (sessionExpiresAt_ x) (pairingCode_ x)
    (pairingExpiresAt_ x) (pairingCodeValid_ x) (nextHelloMs_ x) (nextPairMs_
    x) v (nextSessionPollMs_ x) (nextRegisterBySlotMs_ x) (netBackoffMs_ x)
    (pairBackoffMs_ x) (nextTunnelConnectMs_ x) (tunnelBackoffMs_ x)
    (tunnelBackoffIndex_ x) (lastTunnelPingMs_ x) (tunnelRegistered_ x)
    (approveMissingMacFailed_ x) (lastHeartbeatMs_ x) (wifiConnecting_ x)
    (httpBusy_ x) (httpRequestCb_ x).
Definition set_nextSessionPollMs_ (v : Z) (x : node) : node := Build_node
    (cfg_ x) (state_ x) (nodeId_ x) (nodeToken_ x) (tunnelUrl_ x) (tunnelId_
    x) (sessionToken_ x) (sessionExpiresAt_ x) (pairingCode_ x)
    (pairingExpiresAt_ x) (pairingCodeValid_ x) (nextHelloMs_ x) (nextPairMs_
    x) (nextApproveMs_ x) v (nextRegisterBySlotMs_ x) (netBackoffMs_ x)
    (pairBackoffMs_ x) (nextTunnelConnectMs_ x) (tunnelBackoffMs_ x)
    (tunnelBackoffIndex_ x) (lastTunnelPingMs_ x) (tunnelRegistered_ x)
    (approveMissingMacFailed_ x) (lastHeartbeatMs_ x) (wifiConnecting_ x)
    (httpBusy_ x) (httpRequestCb_ x).
Definition set_nextRegisterBySlotMs_ (v : Z) (x : node) : node := Build_node
    (cfg_ x) (state_ x) (nodeId_ x) (nodeToken_ x) (tunnelUrl_ x) (tunnelId_
    x) (sessionToken_ x) (sessionExpiresAt_ x) (pairingCode_ x)
    (pairingExpiresAt_ x) (pairingCodeValid_ x) (nextHelloMs_ x) (nextPairMs_
    x) (nextApproveMs_ x) (nextSessionPollMs_ x) v (netBackoffMs_ x)
    (pairBackoffMs_ x) (nextTunnelConnectMs_ x) (tunnelBackoffMs_ x)
    (tunnelBackoffIndex_ x) (lastTunnelPingMs_ x) (tunnelRegistered_ x)
    (approveMissingMacFailed_ x) (lastHeartbeatMs_ x) (wifiConnecting_ x)
    (httpBusy_ x) (httpRequestCb_ x).
Definition set_netBackoffMs_ (v : Z) (x : node) : node := Build_node (cfg_ x)
    (state_ x) (nodeId_ x) (nodeToken_ x) (tunnelUrl_ x) (tunnelId_ x)
    (sessionToken_ x) (sessionExpiresAt_ x) (pairingCode_ x)
    (pairingExpiresAt_ x) (pairingCodeValid_ x) (nextHelloMs_ x) (nextPairMs_
    x) (nextApproveMs_ x) (nextSessionPollMs_ x) (nextRegisterBySlotMs_ x) v
    (pairBackoffMs_ x) (nextTunnelConnectMs_ x) (tunnelBackoffMs_ x)
    (tunnelBackoffIndex_ x) (lastTunnelPingMs_ x) (tunnelRegistered_ x)
    (approveMissingMacFailed_ x) (lastHeartbeatMs_ x) (wifiConnecting_ x)
    (httpBusy_ x) (httpRequestCb_ x).
Definition set_pairBackoffMs_ (v : Z) (x : node) : node := Build_node (cfg_ x)
    (state_ x) (nodeId_ x) (nodeToken_ x) (tunnelUrl_ x) (tunnelId_ x)
    (sessionToken_ x) (sessionExpiresAt_ x) (pairingCode_ x)
    (pairingExpiresAt_ x) (pairingCodeValid_ x) (nextHelloMs_ x) (nextPairMs_
    x) (nextApproveMs_ x) (nextSessionPollMs_ x) (nextRegisterBySlotMs_ x)
    (netBackoffMs_ x) v (nextTunnelConnectMs_ x) (tunnelBackoffMs_ x)
    (tunnelBackoffIndex_ x) (lastTunnelPingMs_ x) (tunnelRegistered_ x)
    (approveMissingMacFailed_ x) (lastHeartbeatMs_ x) (wifiConnecting_ x)
    (httpBusy_ x) (httpRequestCb_ x).
Definition set_nextTunnelConnectMs_ (v : Z) (x : node) : node := Build_node
    (cfg_ x) (state_ x) (nodeId_ x) (nodeToken_ x) (tunnelUrl_ x) (tunnelId_
    x) (sessionToken_ x) (sessionExpiresAt_ x) (pairingCode_ x)
    (pairingExpiresAt_ x) (pairingCodeValid_ x) (nextHelloMs_ x) (nextPairMs_
    x) (nextApproveMs_ x) (nextSessionPollMs_ x) (nextRegisterBySlotMs_ x)
    (netBackoffMs_ x) (pairBackoffMs_ x) v (tunnelBackoffMs_ x)
    (tunnelBackoffIndex_ x) (lastTunnelPingMs_ x) (tunnelRegistered_ x)
    (approveMissingMacFailed_ x) (lastHeartbeatMs_ x) (wifiConnecting_ x)
    (httpBusy_ x) (httpRequestCb_ x).
Definition set_tunnelBackoffMs_ (v : Z) (x : node) : node := Build_node (cfg_
    x) (state_ x) (nodeId_ x) (nodeToken_ x) (tunnelUrl_ x) (tunnelId_ x)
    (sessionToken_ x) (sessionExpiresAt_ x) (pairingCode_ x)
    (pairingExpiresAt_ x) (pairingCodeValid_ x) (nextHelloMs_ x) (nextPairMs_
    x) (nextApproveMs_ x) (nextSessionPollMs_ x) (nextRegisterBySlotMs_ x)
    (netBackoffMs_ x) (pairBackoffMs_ x) (nextTunnelConnectMs_ x) v
    (tunnelBackoffIndex_ x) (lastTunnelPingMs_ x) (tunnelRegistered_ x)
    (approveMissingMacFailed_ x) (lastHeartbeatMs_ x) (wifiConnecting_ x)
    (httpBusy_ x) (httpRequestCb_ x).
Definition set_tunnelBackoffIndex_ (v : Z) (x : node) : node := Build_node
    (cfg_ x) (state_ x) (nodeId_ x) (nodeToken_ x) (tunnelUrl_ x) (tunnelId_
    x) (sessionToken_ x) (sessionExpiresAt_ x) (pairingCode_ x)
    (pairingExpiresAt_ x) (pairingCodeValid_ x) (nextHelloMs_ x) (nextPairMs_
    x) (nextApproveMs_ x) (nextSessionPollMs_ x) (nextRegisterBySlotMs_ x)
    (netBackoffMs_ x) (pairBackoffMs_ x) (nextTunnelConnectMs_ x)
    (tunnelBackoffMs_ x) v (lastTunnelPingMs_ x) (tunnelRegistered_ x)
    (approveMissingMacFailed_ x) (lastHeartbeatMs_ x) (wifiConnecting_ x)
    (httpBusy_ x) (httpRequestCb_ x).
Definition set_lastTunnelPingMs_ (v : Z) (x : node) : node := Build_node (cfg_
    x) (state_ x) (nodeId_ x) (nodeToken_ x) (tunnelUrl_ x) (tunnelId_ x)
    (sessionToken_ x) (sessionExpiresAt_ x) (pairingCode_ x)
    (pairingExpiresAt_ x) (pairingCodeValid_ x) (nextHelloMs_ x) (nextPairMs_
    x) (nextApproveMs_ x) (nextSessionPollMs_ x) (nextRegisterBySlotMs_ x)
    (netBackoffMs_ x) (pairBackoffMs_ x) (nextTunnelConnectMs_ x)
    (tunnelBackoffMs_ x) (tunnelBackoffIndex_ x) v (tunnelRegistered_ x)
    (approveMissingMacFailed_ x) (lastHeartbeatMs_ x) (wifiConnecting_ x)
    (httpBusy_ x) (httpRequestCb_ x).
Definition set_tunnelRegistered_ (v : bool) (x : node) : node := Build_node
    (cfg_ x) (state_ x) (nodeId_ x) (nodeToken_ x) (tunnelUrl_ x) (tunnelId_
    x) (sessionToken_ x) (sessionExpiresAt_ x) (pairingCode_ x)
    (pairingExpiresAt_ x) (pairingCodeValid_ x) (nextHelloMs_ x) (nextPairMs_
    x) (nextApproveMs_ x) (nextSessionPollMs_ x) (nextRegisterBySlotMs_ x)
    (netBackoffMs_ x) (pairBackoffMs_ x) (nextTunnelConnectMs_ x)
    (tunnelBackoffMs_ x) (tunnelBackoffIndex_ x) (lastTunnelPingMs_ x) v
    (approveMissingMacFailed_ x) (lastHeartbeatMs_ x) (wifiConnecting_ x)
    (httpBusy_ x) (httpRequestCb_ x).
Definition set_approveMissingMacFailed_ (v : bool) (x : node) : node :=
    Build_node (cfg_ x) (state_ x) (nodeId_ x) (nodeToken_ x) (tunnelUrl_ x)
    (tunnelId_ x) (sessionToken_ x) (sessionExpiresAt_ x) (pairingCode_ x)
    (pairingExpiresAt_ x) (pairingCodeValid_ x) (nextHelloMs_ x) (nextPairMs_
    x) (nextApproveMs_ x) (nextSessionPollMs_ x) (nextRegisterBySlotMs_ x)
    (netBackoffMs_ x) (pairBackoffMs_ x) (nextTunnelConnectMs_ x)
    (tunnelBackoffMs_ x) (tunnelBackoffIndex_ x) (lastTunnelPingMs_ x)
    (tunnelRegistered_ x) v (lastHeartbeatMs_ x) (wifiConnecting_ x)
    (httpBusy_ x) (httpRequestCb_ x).
Definition set_lastHeartbeatMs_ (v : Z) (x : node) : node := Build_node (cfg_
    x) (state_ x) (nodeId_ x) (nodeToken_ x) (tunnelUrl_ x) (tunnelId_ x)
    (sessionToken_ x) (sessionExpiresAt_ x) (pairingCode_ x)
    (pairingExpiresAt_ x) (pairingCodeValid_ x) (nextHelloMs_ x) (nextPairMs_
    x) (nextApproveMs_ x) (nextSessionPollMs_ x) (nextRegisterBySlotMs_ x)
    (netBackoffMs_ x) (pairBackoffMs_ x) (nextTunnelConnectMs_ x)
    (tunnelBackoffMs_ x) (tunnelBackoffIndex_ x) (lastTunnelPingMs_ x)
    (tunnelRegistered_ x) (approveMissingMacFailed_ x) v (wifiConnecting_ x)
    (httpBusy_ x) (httpRequestCb_ x).
Definition set_wifiConnecting_ (v : bool) (x : node) : node := Build_node
    (cfg_ x) (state_ x) (nodeId_ x) (nodeToken_ x) (tunnelUrl_ x) (tunnelId_
    x) (sessionToken_ x) (sessionExpiresAt_ x) (pairingCode_ x)
    (pairingExpiresAt_ x) (pairingCodeValid_ x) (nextHelloMs_ x) (nextPairMs_
    x) (nextApproveMs_ x) (nextSessionPollMs_ x) (nextRegisterBySlotMs_ x)
    (netBackoffMs_ x) (pairBackoffMs_ x) (nextTunnelConnectMs_ x)
    (tunnelBackoffMs_ x) (tunnelBackoffIndex_ x) (lastTunnelPingMs_ x)
    (tunnelRegistered_ x) (approveMissingMacFailed_ x) (lastHeartbeatMs_ x) v
    (httpBusy_ x) (httpRequestCb_ x).
Definition set_httpBusy_ (v : bool) (x : node) : node := Build_node (cfg_ x)
    (state_ x) (nodeId_ x) (nodeToken_ x) (tunnelUrl_ x) (tunnelId_ x)
    (sessionToken_ x) (sessionExpiresAt_ x) (pairingCode_ x)
    (pairingExpiresAt_ x) (pairingCodeValid_ x) (nextHelloMs_ x) (nextPairMs_
    x) (nextApproveMs_ x) (nextSessionPollMs_ x) (nextRegisterBySlotMs_ x)
    (netBackoffMs_ x) (pairBackoffMs_ x) (nextTunnelConnectMs_ x)
    (tunnelBackoffMs_ x) (tunnelBackoffIndex_ x) (lastTunnelPingMs_ x)
    (tunnelRegistered_ x) (approveMissingMacFailed_ x) (lastHeartbeatMs_ x)
    (wifiConnecting_ x) v (httpRequestCb_ x).
Definition set_httpRequestCb_ (v : option HttpRequestCallback) (x : node) :
    node := Build_node (cfg_ x) (state_ x) (nodeId_ x) (nodeToken_ x)
    (tunnelUrl_ x) (tunnelId_ x) (sessionToken_ x) (sessionExpiresAt_ x)
    (pairingCode_ x) (pairingExpiresAt_ x) (pairingCodeValid_ x) (nextHelloMs_
    x) (nextPairMs_ x) (nextApproveMs_ x) (nextSessionPollMs_ x)
    (nextRegisterBySlotMs_ x) (netBackoffMs_ x) (pairBackoffMs_ x)
    (nextTunnelConnectMs_ x) (tunnelBackoffMs_ x) (tunnelBackoffIndex_ x)
    (lastTunnelPingMs_ x) (tunnelRegistered_ x) (approveMissingMacFailed_ x)
    (lastHeartbeatMs_ x) (wifiConnecting_ x) (httpBusy_ x) v.

(** *** The world around the node

    The clock, the radio, the HTTP transport, the WebSocket client and the
    observers are collaborators outside the repository. The world records
    what they will deliver and what the node did to them. *)

Inductive endpoint : Type :=
| EpHello | EpPair | EpApprove | EpSessionRefresh | EpSessionPoll
| EpRegisterBySlot.

(** What the transport delivers for one POST: whether the connection and the
    header read succeeded, the status line, the body as left in the
    response buffer, what [deserializeJson] makes of it, and the time the
    exchange took. *)
Record http_reply : Type := Build_reply {
  r_connected : bool;
  r_status : Z;
  r_body : string;
  r_json : option jval;
  r_elapsed : Z
}.

Record exchange : Type := Build_exchange {
  x_endpoint : endpoint;
  x_path : string;
  x_body : string;
  x_reply : option http_reply
}.

(** A text frame as received, with what [deserializeJson] makes of it. *)
Record payload : Type := Build_payload {
  p_text : string;
  p_doc : option jval
}.

Inductive ws_event : Type :=
| WStype_CONNECTED
| WStype_DISCONNECTED
| WStype_ERROR
| WStype_TEXT (p : payload)
| WStype_OTHER.     (* BIN, PING, PONG, ... : logged only *)

Inductive note : Type :=
| NoteState (old new : State)
| NoteError (msg : string)
| NoteRegistered (nodeId : string)
| NoteSessionInvalid
| NoteTunnel (connected : bool) (url : string).

Record world : Type := Build_world {
  w_clock : Z;   (* millis() *)
  w_wifi : bool;   (* WiFi.status() == WL_CONNECTED *)
  w_mac : list Z;   (* WiFi.macAddress(mac) *)
  w_reset_reason : option Z;   (* esp_reset_reason() on ESP32, absent on ESP8266 *)
  w_rng : list Z;   (* the values random() returns next *)
  w_replies : list http_reply;   (* what the transport yields for the next POSTs *)
  w_posts : list exchange;   (* the POSTs issued so far, oldest first *)
  w_ws : option bool;   (* s_wsClient / s_nodeForWs: the client and its isConnected() *)
  w_ws_events : list (list ws_event);   (* the events the next calls of loop() deliver *)
  w_disconnect_pending : bool;   (* s_tunnelDisconnectPending *)
  w_sent : list jval;   (* the frames handed to sendTXT, oldest first *)
  w_pins : list (Z * bool);   (* digitalWrite(pin, HIGH?) *)
  w_notes : list note   (* observer invocations, oldest first *)
}.

Definition set_w_clock (v : Z) (x : world) : world := Build_world v (w_wifi x)
    (w_mac x) (w_reset_reason x) (w_rng x) (w_replies x) (w_posts x) (w_ws x)
    (w_ws_events x) (w_disconnect_pending x) (w_sent x) (w_pins x) (w_notes
    x).
Definition set_w_wifi (v : bool) (x : world) : world := Build_world (w_clock
    x) v (w_mac x) (w_reset_reason x) (w_rng x) (w_replies x) (w_posts x)
    (w_ws x) (w_ws_events x) (w_disconnect_pending x) (w_sent x) (w_pins x)
    (w_notes x).
Definition set_w_mac (v : list Z) (x : world) : world := Build_world (w_clock
    x) (w_wifi x) v (w_reset_reason x) (w_rng x) (w_replies x) (w_posts x)
    (w_ws x) (w_ws_events x) (w_disconnect_pending x) (w_sent x) (w_pins x)
    (w_notes x).
Definition set_w_reset_reason (v : option Z) (x : world) : world :=
    Build_world (w_clock x) (w_wifi x) (w_mac x) v (w_rng x) (w_replies x)
    (w_posts x) (w_ws x) (w_ws_events x) (w_disconnect_pending x) (w_sent x)
    (w_pins x) (w_notes x).
Definition set_w_rng (v : list Z) (x : world) : world := Build_world (w_clock
    x) (w_wifi x) (w_mac x) (w_reset_reason x) v (w_replies x) (w_posts x)
    (w_ws x) (w_ws_events x) (w_disconnect_pending x) (w_sent x) (w_pins x)
    (w_notes x).
Definition set_w_replies (v : list http_reply) (x : world) : world :=
    Build_world (w_clock x) (w_wifi x) (w_mac x) (w_reset_reason x) (w_rng x)
    v (w_posts x) (w_ws x) (w_ws_events x) (w_disconnect_pending x) (w_sent x)
    (w_pins x) (w_notes x).
Definition set_w_posts (v : list exchange) (x : world) : world := Build_world
    (w_clock x) (w_wifi x) (w_mac x) (w_reset_reason x) (w_rng x) (w_replies
    x) v (w_ws x) (w_ws_events x) (w_disconnect_pending x) (w_sent x) (w_pins
    x) (w_notes x).
Definition set_w_ws (v : option bool) (x : world) : world := Build_world
    (w_clock x) (w_wifi x) (w_mac x) (w_reset_reason x) (w_rng x) (w_replies
    x) (w_posts x) v (w_ws_events x) (w_disconnect_pending x) (w_sent x)
    (w_pins x) (w_notes x).
Definition set_w_ws_events (v : list (list ws_event)) (x : world) : world :=
    Build_world (w_clock x) (w_wifi x) (w_mac x) (w_reset_reason x) (w_rng x)
    (w_replies x) (w_posts x) (w_ws x) v (w_disconnect_pending x) (w_sent x)
    (w_pins x) (w_notes x).
Definition set_w_disconnect_pending (v : bool) (x : world) : world :=
    Build_world (w_clock x) (w_wifi x) (w_mac x) (w_reset_reason x) (w_rng x)
    (w_replies x) (w_posts x) (w_ws x) (w_ws_events x) v (w_sent x) (w_pins x)
    (w_notes x).
Definition set_w_sent (v : list jval) (x : world) : world := Build_world
    (w_clock x) (w_wifi x) (w_mac x) (w_reset_reason x) (w_rng x) (w_replies
    x) (w_posts x) (w_ws x) (w_ws_events x) (w_disconnect_pending x) v (w_pins
    x) (w_notes x).
Definition set_w_pins (v : list (Z * bool)) (x : world) : world := Build_world
    (w_clock x) (w_wifi x) (w_mac x) (w_reset_reason x) (w_rng x) (w_replies
    x) (w_posts x) (w_ws x) (w_ws_events x) (w_disconnect_pending x) (w_sent
    x) v (w_notes x).
Definition set_w_notes (v : list note) (x : world) : world := Build_world
    (w_clock x) (w_wifi x) (w_mac x) (w_reset_reason x) (w_rng x) (w_replies
    x) (w_posts x) (w_ws x) (w_ws_events x) (w_disconnect_pending x) (w_sent
    x) (w_pins x) v.

Definition millis (w : world) : Z := u32 (w_clock w).

Definition notify (e : note) (w : world) : world :=
  set_w_notes (w_notes w ++ [e]) w.

(** [random(0x7FFFFFFF)] *)
Definition random (w : world) : Z * world :=
  match w_rng w with
  | [] => (0, w)
  | r :: rest => (r mod 2147483647, set_w_rng rest w)
  end.

Definition digitalWrite (pin : Z) (high : bool) (w : world) : world :=
  set_w_pins (w_pins w ++ [(pin, high)]) w.

(** *** State *)

Definition setState (s : State) (n : node) (w : world) : node * world :=
  if State_eqb (state_ n) s then (n, w)
  else
    let old := state_ n in
    let n := set_state_ s n in
    let n := if State_eqb s ACTIVE && enableTunnel (cfg_ n) && nonempty (tunnelUrl_ n)
             then set_nextTunnelConnectMs_ 0 n else n in
    (n, notify (NoteState old s) w).

(** *** MAC and ids *)

Definition mac_byte (w : world) (i : nat) : Z := nth i (w_mac w) 0 mod 256.

(** "%02X:%02X:%02X:%02X:%02X:%02X" *)
Definition getMacCStr (w : world) : string :=
  hex_fixed true 2 (mac_byte w 0) ++ ":" ++ hex_fixed true 2 (mac_byte w 1) ++ ":" ++
  hex_fixed true 2 (mac_byte w 2) ++ ":" ++ hex_fixed true 2 (mac_byte w 3) ++ ":" ++
  hex_fixed true 2 (mac_byte w 4) ++ ":" ++ hex_fixed true 2 (mac_byte w 5).

(** [getMachineId(buf, size)]: the contents of [buf] ([size] > 0). *)
Definition getMachineId (n : node) (w : world) (size : nat) : string :=
  let prefix := or_default (machineIdPrefix (cfg_ n)) "node-" in
  strncpy (size - 1) (prefix ++ getMacCStr w).

Fixpoint hash_str (h : Z) (s : list Z) : Z :=
  match s with
  | [] => h
  | c :: r => hash_str (u32 (h * 31 + c)) r
  end.

Fixpoint hash_caps (h : Z) (caps : list (option string)) : Z :=
  match caps with
  | [] => h
  | None :: r => hash_caps h r
  | Some s :: r => hash_caps (hash_str h (codes s)) r
  end.

Definition computeCapabilitiesHash (n : node) : Z :=
  match capabilities (cfg_ n) with
  | None => 0
  | Some caps => hash_caps 0 caps
  end.

(** *** Pairing helpers *)

Definition clearPairingCode (n : node) : node :=
  set_pairingCodeValid_ false (set_pairingExpiresAt_ EmptyString (set_pairingCode_ EmptyString n)).

Definition storePairingFromHello (code expiresAt : string) (n : node) : node :=
  let n := set_pairingCodeValid_ false n in
  if negb (nonempty code) then n
  else
    let n := set_pairingCode_ (strncpy (kPairingCodeMax - 1) code) n in
    let n := set_pairingExpiresAt_ (strncpy 31 expiresAt) n in
    set_pairingCodeValid_ (nonempty (pairingCode_ n)) n.

#[global] Arguments storePairingFromHello : simpl never.

Definition isPairingExpired (n : node) : bool :=
  if negb (pairingCodeValid_ n) then true else false.

(** *** Backoff *)

Definition advanceNetBackoff (n : node) : node :=
  let next := u32 (netBackoffMs_ n * 2) in
  let next := if kBackoffMaxMs <? next then kBackoffMaxMs else next in
  set_netBackoffMs_ next n.

Definition advancePairBackoff (n : node) : node :=
  set_pairBackoffMs_
    (if pairBackoffMs_ n <? kBackoffMaxMs / 2
     then u32 (pairBackoffMs_ n * 2) else kBackoffMaxMs) n.

Definition resetNetBackoff (n : node) : node := set_netBackoffMs_ kBackoffMinMs n.
Definition resetPairBackoff (n : node) : node := set_pairBackoffMs_ kBackoffMinMs n.

(** *** URL helpers *)

Record ParsedBaseUrl : Type := Build_ParsedBaseUrl {
  host : string;
  basePath : string
}.

Definition skip (k : nat) (s : string) : string :=
  String.substring k (String.length s - k) s.

(** strip one trailing '/' of a path longer than one character *)
Definition strip_slash (s : string) : string :=
  let L := String.length s in
  if Nat.ltb 1 L &&
     match String.get (L - 1) s with Some c => Ascii.eqb c "/" | None => false end
  then String.substring 0 (L - 1) s else s.

(** [parseBaseUrl]: the host and the base path; the port and the choice of
    TLS only feed the transport. *)
Definition parseBaseUrl (base : string) : option ParsedBaseUrl :=
  if negb (nonempty base) then None
  else
    let p := if String.prefix "https://" base then skip 8 base
             else if String.prefix "http://" base then skip 7 base
             else base in
    let portPos := strchr p ":" in
    let pathPos := strchr p "/" in
    let hostLen :=
      match portPos, pathPos with
      | Some a, None => a
      | Some a, Some b => if Nat.ltb a b then a else b
      | None, Some b => b
      | None, None => String.length p
      end in
    if Nat.eqb hostLen 0 || Nat.leb 128 hostLen then None
    else Some (Build_ParsedBaseUrl
                 (String.substring 0 hostLen p)
                 match pathPos with
                 | Some b => strip_slash (strncpy 127 (skip b p))
                 | None => EmptyString
                 end).

(** [buildWsTunnelUrl(hubBaseUrl, out, 256)]: the URL written, when it
    returns true. *)
Definition buildWsTunnelUrl (hubBaseUrl : option string) : option string :=
  match hubBaseUrl with
  | None => None
  | Some base =>
      match parseBaseUrl base with
      | None => None
      | Some u =>
          let url := "wss://" ++ host u ++ "/ws/tunnel" in
          if 256 <=? slen url then None else Some url
      end
  end.

(** [joinPath(basePath, path, out, 256)] *)
Definition joinPath (base path : string) : option string :=
  if negb (nonempty base) then Some (strncpy 255 path)
  else if 256 <=? slen base + slen path + 1 then None
  else Some (base ++ path).

(** [parseTunnelUrlParts] only feeds a log line. *)

(** *** The control HTTP client

    [postJsonUnified] with [safePostJson] behind it: one POST, answered by
    the next reply of the world. The result is the returned flag, the
    status and the response buffer. *)

Record post_result : Type := Build_post_result {
  p_ok : bool;
  p_status : Z;
  p_body : string;
  p_json : option jval
}.

Definition post_failed : post_result := Build_post_result false 0 EmptyString None.

Definition postJsonUnified (c : Config) (ep : endpoint) (path body : string)
    (outBodyMax : nat) (w : world) : post_result * world :=
  match hubBaseUrl c with
  | None => (post_failed, w)
  | Some base =>
      match parseBaseUrl base with
      | None => (post_failed, w)
      | Some u =>
          match joinPath (basePath u) path with
          | None => (post_failed, w)
          | Some full =>
              match w_replies w with
              | [] =>
                  (post_failed,
                   set_w_posts (w_posts w ++ [Build_exchange ep full body None]) w)
              | r :: rest =>
                  let w := set_w_posts
                             (w_posts w ++ [Build_exchange ep full body (Some r)]) w in
                  let w := set_w_replies rest w in
                  let w := set_w_clock (w_clock w + r_elapsed r) w in
                  if r_connected r then
                    let b := strncpy (outBodyMax - 1) (r_body r) in
                    (Build_post_result (nonempty b && (0 <? r_status r))
                                       (r_status r) b (r_json r), w)
                  else (post_failed, w)
              end
          end
      end
  end.

(** *** HELLO *)

(** The pairing code of a Hello response, under any of its three keys. *)
Definition helloPairingCode (doc : jval) : string :=
  if is_str (member doc "pairing_code") then str_or (member doc "pairing_code") EmptyString
  else if is_str (member doc "pairing") then str_or (member doc "pairing") EmptyString
  else if is_str (member doc "code") then str_or (member doc "code") EmptyString
  else EmptyString.

Definition handleHelloResponse (status : Z) (body : string) (json : option jval)
    (n : node) (w : world) : node * world :=
  if status =? 410 then
    let n := clearPairingCode n in
    let w := notify NoteSessionInvalid w in
    let n := set_nextHelloMs_ (u32 (millis w + netBackoffMs_ n)) n in
    let n := advanceNetBackoff n in
    setState HELLO n w
  else if status =? 403 then
    let n := set_nextHelloMs_ (u32 (millis w + netBackoffMs_ n)) n in
    let n := advanceNetBackoff n in
    setState HELLO n w
  else if status =? 401 then
    let n := set_nextHelloMs_ (u32 (millis w + netBackoffMs_ n)) n in
    let n := advanceNetBackoff n in
    setState HELLO n w
  else if (status <? 200) || (300 <=? status) || negb (nonempty body) then
    let n := advanceNetBackoff n in
    (set_nextHelloMs_ (u32 (millis w + netBackoffMs_ n)) n, w)
  else
    match json with
    | None =>
        let n := advanceNetBackoff n in
        (set_nextHelloMs_ (u32 (millis w + netBackoffMs_ n)) n, w)
    | Some doc =>
        let st := str_or (member doc "status") EmptyString in
        let retryMs := int_or (member doc "retry_after_ms") 3000 in
        if String.eqb st "DENIED" then
          let '(n, w) := setState ERROR n w in
          let w := notify (NoteError "HELLO denied") w in
          (set_nextHelloMs_ (u32 (millis w + u32 retryMs)) n, w)
        else
          let pc := helloPairingCode doc in
          let exp := str_or (alt (member doc "pairing_expires_at")
                                 (member doc "expires_at")) EmptyString in
          let n := if nonempty pc then storePairingFromHello pc exp n
                   else clearPairingCode n in
          let n := resetNetBackoff n in
          let n := set_nextHelloMs_ (u32 (millis w + u32 retryMs)) n in
          let n := set_nextSessionPollMs_ (u32 (millis w + u32 retryMs)) n in
          let n := set_nextApproveMs_ (u32 (millis w + 500)) n in
          let n := set_nextPairMs_ (u32 (millis w + 500)) n in
          if pairingCodeValid_ n then
            if enableSelfApprove (cfg_ n) && is_set (approveEndpointPath (cfg_ n))
            then setState PENDING_POLL n w
            else setState PAIR_SUBMIT n w
          else setState HELLO n w
    end.

Definition firmware_of (c : Config) : string := or_default (firmwareVersion c) "1.0.0".

Definition boot_reason (w : world) : string :=
  match w_reset_reason w with
  | Some r => if r =? 1 then "power" else if r =? 3 then "sw"
              else if r =? 4 then "watchdog" else "reboot"
  | None => "reboot"
  end.

Definition helloDoc (n : node) (w : world) (nonce : Z) : jval :=
  JObj ([("slot_id", JStr (or_empty (slotId (cfg_ n))));
         ("firmware", JStr (firmware_of (cfg_ n)))]
        ++ (if sendReconnectHintInHello (cfg_ n)
            then [("reconnect", JBool true); ("boot_reason", JStr (boot_reason w))]
            else [])
        ++ [("capabilities_hash", JStr (hex_fixed false 8 (computeCapabilitiesHash n)));
            ("nonce", JStr (hex_fixed false 8 nonce));
            ("device_info", JObj [("mac", JStr (getMacCStr w));
                                  ("platform", JStr "esp")])]).

Definition tryHello (n : node) (w : world) : node * world :=
  if httpBusy_ n then (n, w)
  else
    let now := millis w in
    if now <? nextHelloMs_ n then (n, w)
    else
      let '(nonce, w) := random w in
      let doc := helloDoc n w nonce in
      let sz := serializeJson doc 512 in
      if (sz =? 0) || (512 <=? sz) then (n, w)
      else
        let n := set_httpBusy_ true n in
        let '(r, w) := postJsonUnified (cfg_ n) EpHello "/api/device/hello"
                                       (text doc) 1024 w in
        let n := set_httpBusy_ false n in
        handleHelloResponse (if p_ok r then p_status r else -1)
                            (p_body r) (p_json r) n w.

(** *** PAIR *)

Definition postDevicePair (n : node) (code : string) (w : world)
  : post_result * world :=
  let doc := JObj [("slot_id", JStr (or_empty (slotId (cfg_ n))));
                   ("pairing_code", JStr code);
                   ("firmware", JStr (firmware_of (cfg_ n)));
                   ("device_info", JObj [("mac", JStr (getMacCStr w));
                                         ("platform", JStr "esp")])] in
  let sz := serializeJson doc 512 in
  if (sz =? 0) || (512 <=? sz) then (post_failed, w)
  else postJsonUnified (cfg_ n) EpPair "/api/device/pair" (text doc) 1024 w.

(** The tunnel URL after a response: the one built from the Hub URL, else the
    one the server sent. [built] tells whether the first branch is tried. *)
Definition adoptTunnelUrl (built : bool) (tun : string) (n : node) : node :=
  match (if built then buildWsTunnelUrl (hubBaseUrl (cfg_ n)) else None) with
  | Some url => set_nextTunnelConnectMs_ 0 (set_tunnelUrl_ url n)
  | None =>
      if nonempty tun
      then set_nextTunnelConnectMs_ 0 (set_tunnelUrl_ (strncpy 255 tun) n)
      else n
  end.

#[global] Arguments adoptTunnelUrl : simpl never.

Definition tryPairIfNeeded (n : node) (w : world) : node * world :=
  if negb (pairingCodeValid_ n) || negb (nonempty (pairingCode_ n)) then (n, w)
  else if httpBusy_ n then (n, w)
  else
    let now := millis w in
    if now <? nextPairMs_ n then (n, w)
    else if isPairingExpired n then
      let n := clearPairingCode n in
      let '(n, w) := setState HELLO n w in
      (set_nextHelloMs_ (u32 (millis w + 1000)) n, w)
    else
      let n := set_httpBusy_ true n in
      let '(r, w) := postDevicePair n (pairingCode_ n) w in
      let n := set_httpBusy_ false n in
      if negb (p_ok r) || (p_status r <? 200) || (300 <=? p_status r) then
        let n := clearPairingCode n in
        let n := advancePairBackoff n in
        let '(n, w) := setState HELLO n w in
        (set_nextHelloMs_ (u32 (millis w + pairBackoffMs_ n)) n, w)
      else
        match p_json r with
        | None =>
            let n := clearPairingCode n in
            let '(n, w) := setState HELLO n w in
            (set_nextHelloMs_ (u32 (millis w + 3000)) n, w)
        | Some doc =>
            if negb (bool_or (member doc "ok") false) then
              let n := clearPairingCode n in
              let n := advancePairBackoff n in
              let '(n, w) := setState HELLO n w in
              (set_nextHelloMs_ (u32 (millis w + pairBackoffMs_ n)) n, w)
            else
              let nid := str_or (alt (alt (member doc "node_id")
                                          (member doc "canonical_node_id"))
                                     (member doc "resolved_node_id")) EmptyString in
              let stok := str_or (member doc "session_token") EmptyString in
              let ntok := str_or (member doc "node_token") EmptyString in
              let tun := str_or (member doc "tunnel_url") EmptyString in
              let n := if nonempty nid then set_nodeId_ (strncpy 63 nid) n else n in
              let n := if nonempty stok then set_sessionToken_ (strncpy 255 stok) n else n in
              let n := if nonempty ntok then set_nodeToken_ (strncpy 255 ntok) n else n in
              let n := adoptTunnelUrl true tun n in
              let n := resetPairBackoff n in
              let n := clearPairingCode n in
              let w := notify (NoteRegistered (nodeId_ n)) w in
              let '(n, w) := setState ACTIVE n w in
              let n := set_lastHeartbeatMs_ (millis w) n in
              (set_nextSessionPollMs_ (u32 (millis w + 60000)) n, w)
        end.

(** *** APPROVE (self-approve) *)

(** One member of the body written by snprintf: "key":"value", unescaped. *)
Definition raw_member (k v : string) : string :=
  dquote ++ k ++ dquote ++ ":" ++ dquote ++ v ++ dquote.

Definition approveBody (n : node) (w : world) : string :=
  "{" ++ raw_member "slot_id" (or_empty (slotId (cfg_ n)))
  ++ "," ++ raw_member "pairing_code" (pairingCode_ n)
  ++ "," ++ raw_member "mac" (getMacCStr w)
  ++ "," ++ raw_member "machine_id" (getMachineId n w 80)
  ++ "," ++ raw_member "firmware" (firmware_of (cfg_ n)) ++ "}".

Definition storeSessionExpiry (exp : string) (n : node) : node :=
  if nonempty exp then
    if slen exp <? 32 then set_sessionExpiresAt_ (strncpy 31 exp) n else n
  else set_sessionExpiresAt_ EmptyString n.

#[global] Arguments storeSessionExpiry : simpl never.

Definition tryApprove (n : node) (w : world) : node * world :=
  if httpBusy_ n || approveMissingMacFailed_ n then (n, w)
  else if negb (is_set (approveEndpointPath (cfg_ n))) then (n, w)
  else
    let now := millis w in
    if now <? nextApproveMs_ n then (n, w)
    else if negb (pairingCodeValid_ n) || negb (nonempty (pairingCode_ n)) then
      (set_nextApproveMs_
         (u32 (millis w + cfgOrDefaultU32 (approveRetryMs (cfg_ n)) 3000)) n, w)
    else if negb (nonempty (getMacCStr w)) then
      (set_approveMissingMacFailed_ true n, notify (NoteError "approve: MAC unavailable") w)
    else
      let buf := approveBody n w in
      if 512 <=? slen buf then (set_nextApproveMs_ (u32 (millis w + 3000)) n, w)
      else
        let n := set_httpBusy_ true n in
        let '(r, w) := postJsonUnified (cfg_ n) EpApprove
                         (or_empty (approveEndpointPath (cfg_ n))) buf 2048 w in
        let n := set_httpBusy_ false n in
        if negb (p_ok r) then
          let n := advanceNetBackoff n in
          (set_nextApproveMs_
             (u32 (millis w + cfgOrDefaultU32 (approveRetryMs (cfg_ n)) 3000)) n, w)
        else if (p_status r =? 400) && strstr (p_body r) "missing_mac" then
          (set_approveMissingMacFailed_ true n,
           notify (NoteError "approve: missing_mac") w)
        else if (p_status r =? 401) || (p_status r =? 403) || (p_status r =? 410) then
          let n := clearPairingCode n in
          let n := set_sessionToken_ EmptyString n in
          let n := set_sessionExpiresAt_ EmptyString n in
          let w := notify NoteSessionInvalid w in
          let n := advanceNetBackoff n in
          let '(n, w) := setState HELLO n w in
          (set_nextHelloMs_ (u32 (millis w + netBackoffMs_ n)) n, w)
        else if (p_status r <? 200) || (300 <=? p_status r) then
          (set_nextApproveMs_
             (u32 (millis w + cfgOrDefaultU32 (approveRetryMs (cfg_ n)) 3000)) n, w)
        else
          match p_json r with
          | None => (set_nextApproveMs_ (u32 (millis w + 3000)) n, w)
          | Some doc =>
              let tok := str_or (member doc "session_token") EmptyString in
              let exp := str_or (alt (member doc "expires_at")
                                     (member doc "session_expires_at")) EmptyString in
              let ntok := str_or (alt (member doc "register_token")
                                      (member doc "node_token")) EmptyString in
              let tun := str_or (member doc "tunnel_url") EmptyString in
              let nid := str_or (alt (alt (member doc "node_id")
                                          (member doc "canonical_node_id"))
                                     (member doc "resolved_node_id")) EmptyString in
              let n := if nonempty tok then set_sessionToken_ (strncpy 255 tok) n else n in
              let n := storeSessionExpiry exp n in
              let n := if nonempty ntok then set_nodeToken_ (strncpy 255 ntok) n else n in
              let n := if nonempty nid then set_nodeId_ (strncpy 63 nid) n else n in
              let n := adoptTunnelUrl (nonempty tok) tun n in
              let n := resetNetBackoff n in
              let n := set_approveMissingMacFailed_ false n in
              let w := notify (NoteRegistered (nodeId_ n)) w in
              let '(n, w) := setState ACTIVE n w in
              let n := set_lastHeartbeatMs_ (millis w) n in
              (set_nextSessionPollMs_ (u32 (millis w + 60000)) n, w)
          end.

(** *** Session refresh and session poll *)

Definition session_path (c : Config) : string :=
  or_default (sessionEndpointPath c) "/api/device/session".

Definition trySessionRefresh (n : node) (w : world) : bool * (node * world) :=
  if negb (nonempty (sessionToken_ n)) || httpBusy_ n then (false, (n, w))
  else
    let doc := JObj [("slot_id", JStr (or_empty (slotId (cfg_ n))));
                     ("session_token", JStr (sessionToken_ n))] in
    let sz := serializeJson doc 384 in
    if (sz =? 0) || (384 <=? sz) then (false, (n, w))
    else
      let n := set_httpBusy_ true n in
      let '(r, w) := postJsonUnified (cfg_ n) EpSessionRefresh
                       (session_path (cfg_ n)) (text doc) 1024 w in
      let n := set_httpBusy_ false n in
      if negb (p_ok r) then (false, (n, w))
      else if (p_status r =? 401) || (p_status r =? 403) || (p_status r =? 410) then
        let n := set_sessionToken_ EmptyString n in
        let n := set_sessionExpiresAt_ EmptyString n in
        (false, (n, notify NoteSessionInvalid w))
      else if negb (p_status r =? 200) && negb (p_status r =? 201) then (false, (n, w))
      else
        match p_json r with
        | None => (false, (n, w))
        | Some doc =>
            let st := str_or (member doc "status") EmptyString in
            if negb (String.eqb st "GRANTED") then (false, (n, w))
            else
              let tok := str_or (member doc "session_token") EmptyString in
              let tun := str_or (member doc "tunnel_url") EmptyString in
              let exp := str_or (alt (member doc "expires_at")
                                     (member doc "session_expires_at")) EmptyString in
              let n := if nonempty tok then set_sessionToken_ (strncpy 255 tok) n else n in
              let n := storeSessionExpiry exp n in
              let n := adoptTunnelUrl true tun n in
              let n := resetNetBackoff n in
              let '(n, w) := setState ACTIVE n w in
              let n := set_lastHeartbeatMs_ (millis w) n in
              (true, (set_nextSessionPollMs_ (u32 (millis w + 60000)) n, w))
        end.

Definition trySessionPoll (n : node) (w : world) : node * world :=
  if httpBusy_ n then (n, w)
  else
    let now := millis w in
    if now <? nextSessionPollMs_ n then (n, w)
    else
      let '(nonce, w) := random w in
      let doc := JObj [("slot_id", JStr (or_empty (slotId (cfg_ n))));
                       ("nonce", JStr (hex_fixed false 8 nonce))] in
      let sz := serializeJson doc 256 in
      if (sz =? 0) || (256 <=? sz) then (n, w)
      else
        let n := set_httpBusy_ true n in
        let '(r, w) := postJsonUnified (cfg_ n) EpSessionPoll
                         (session_path (cfg_ n)) (text doc) 1024 w in
        let n := set_httpBusy_ false n in
        if negb (p_ok r) then
          let n := advanceNetBackoff n in
          (set_nextSessionPollMs_ (u32 (millis w + netBackoffMs_ n)) n, w)
        else if p_status r =? 404 then
          (set_nextSessionPollMs_ (u32 (millis w + 5000)) n, w)
        else if (p_status r =? 401) || (p_status r =? 403) || (p_status r =? 410) then
          let n := set_sessionToken_ EmptyString n in
          let n := set_sessionExpiresAt_ EmptyString n in
          let n := clearPairingCode n in
          let w := notify NoteSessionInvalid w in
          let n := advanceNetBackoff n in
          let '(n, w) := setState HELLO n w in
          (set_nextHelloMs_ (u32 (millis w + netBackoffMs_ n)) n, w)
        else
          match p_json r with
          | None => (set_nextSessionPollMs_ (u32 (millis w + 3000)) n, w)
          | Some doc =>
              let st := str_or (member doc "status") EmptyString in
              let retryMs := int_or (member doc "retry_after_ms") 3000 in
              let '(n, w) :=
                if String.eqb st "GRANTED" then
                  let tok := str_or (member doc "session_token") EmptyString in
                  let exp := str_or (alt (member doc "expires_at")
                                         (member doc "session_expires_at")) EmptyString in
                  let tun := str_or (member doc "tunnel_url") EmptyString in
                  let n := if nonempty tok then set_sessionToken_ (strncpy 255 tok) n
                           else n in
                  let n := if nonempty exp && (slen exp <? 32)
                           then set_sessionExpiresAt_ (strncpy 31 exp) n
                           else set_sessionExpiresAt_ EmptyString n in
                  let n := adoptTunnelUrl (nonempty tok) tun n in
                  let n := resetNetBackoff n in
                  let '(n, w) := setState ACTIVE n w in
                  (set_lastHeartbeatMs_ (millis w) n, w)
                else if String.eqb st "DENIED" then
                  let '(n, w) := setState ERROR n w in
                  (n, notify (NoteError "Session denied") w)
                else (n, w) in
              (set_nextSessionPollMs_ (u32 (millis w + u32 retryMs)) n, w)
          end.

(** *** register_by_slot *)

Definition tryRegisterBySlot (n : node) (w : world) : node * world :=
  if negb (preferRegisterBySlot (cfg_ n)) || negb (is_set (loginToken (cfg_ n)))
  then (n, w)
  else if httpBusy_ n then (n, w)
  else
    let now := millis w in
    if now <? nextRegisterBySlotMs_ n then (n, w)
    else
      let doc := JObj ([("slot_id", JStr (or_empty (slotId (cfg_ n))));
                        ("login_token", JStr (or_empty (loginToken (cfg_ n))));
                        ("machine_id", JStr (getMachineId n w 80));
                        ("platform", JStr "esp")]
                       ++ (if is_set (firmwareVersion (cfg_ n))
                           then [("agent_version",
                                  JStr (or_empty (firmwareVersion (cfg_ n))))]
                           else [])) in
      let sz := serializeJson doc 384 in
      if (sz =? 0) || (384 <=? sz) then (n, w)
      else
        let n := set_httpBusy_ true n in
        let '(r, w) := postJsonUnified (cfg_ n) EpRegisterBySlot
                         "/api/nodes/register_by_slot" (text doc) 1024 w in
        let n := set_httpBusy_ false n in
        let n := set_nextRegisterBySlotMs_
                   (u32 (now + cfgOrDefaultU32 (registerRetryMs (cfg_ n)) 4000)) n in
        if negb (p_ok r) then (n, w)
        else if (p_status r <? 200) || (300 <=? p_status r) then (n, w)
        else
          match p_json r with
          | None => (n, w)
          | Some doc =>
              let nid := str_or (member doc "node_id") EmptyString in
              let authTok := str_or (member doc "node_auth_token") EmptyString in
              let tun := str_or (member doc "tunnel_url") EmptyString in
              if negb (nonempty nid) || negb (nonempty authTok) || negb (nonempty tun)
              then (n, w)
              else
                let n := set_nodeId_ (strncpy 63 nid) n in
                let n := set_nodeToken_ (strncpy 255 authTok) n in
                let n := set_tunnelUrl_ (strncpy 255 tun) n in
                let n := set_nextTunnelConnectMs_ 0 n in
                let n := set_tunnelBackoffIndex_ 0 n in
                let n := set_tunnelBackoffMs_ (nth 0 kTunnelBackoffMs 0) n in
                let w := notify (NoteRegistered (nodeId_ n)) w in
                let '(n, w) := setState ACTIVE n w in
                (set_lastHeartbeatMs_ (millis w) n, w)
          end.

(** *** Heartbeat: the payload is built, nothing is sent. *)


(** *** The response writer *)

Definition new_writer : TunnelHttpResponseWriter :=
  Build_Writer false EmptyString 200 [] [] false.

Definition bodyLen_ (r : TunnelHttpResponseWriter) : Z := Z.of_nat (List.length (body_ r)).

Definition setStatus (code : Z) (r : TunnelHttpResponseWriter) : TunnelHttpResponseWriter :=
  set_statusCode_ code r.

Definition setHeader (key value : option string) (r : TunnelHttpResponseWriter)
  : TunnelHttpResponseWriter :=
  match key, value with
  | Some k, Some v =>
      if Nat.leb TUNNEL_MAX_HEADERS (List.length (headers_ r)) then r
      else set_headers_ (headers_ r ++ [(strncpy 23 k, strncpy 79 v)]) r
  | _, _ => r
  end.

(** [write(const uint8_t* data, size_t len)] with [len] the length of the
    bytes handed over. *)
Definition write (data : option (list Z)) (r : TunnelHttpResponseWriter)
  : TunnelHttpResponseWriter :=
  match data with
  | None => r
  | Some bytes =>
      if ended_ r then r
      else
        let remain := u32 (kBodySize - bodyLen_ r) in
        let len := Z.of_nat (List.length bytes) in
        let len := if remain <? len then remain else len in
        set_body_ (body_ r ++ firstn (Z.to_nat len) bytes) r
  end.

Definition write_str (str : option string) (r : TunnelHttpResponseWriter)
  : TunnelHttpResponseWriter :=
  match str with
  | None => r
  | Some s => write (Some (codes s)) r
  end.

(** *** Sending on the tunnel *)

Definition ws_connected (w : world) : bool :=
  match w_ws w with Some c => c | None => false end.

(** [tunnelSendText]: a connected client accepts the frame. *)
Definition tunnelSendText (frame : jval) (w : world) : bool * world :=
  if ws_connected w then (true, set_w_sent (w_sent w ++ [frame]) w)
  else (false, w).

Definition str_of_codes (l : list Z) : string :=
  string_of_list_ascii (map (fun c => ascii_of_N (Z.to_N c)) l).

Fixpoint headers_obj (hs : list (string * string)) (acc : list (string * jval))
  : list (string * jval) :=
  match hs with
  | [] => acc
  | (k, v) :: r => headers_obj r (jset k (JStr v) acc)
  end.

Definition proxyResponseDoc (r : TunnelHttpResponseWriter) : jval :=
  JObj [("type", JStr "proxy_response");
        ("request_id", JStr (requestId_ r));
        ("status_code", JInt (statusCode_ r));
        ("headers", JObj (headers_obj (headers_ r) []));
        ("body", JStr (str_of_codes (Base64.base64Encode (body_ r))))].

Definition tunnelSendProxyResponse (r : TunnelHttpResponseWriter) (w : world) : world :=
  if negb (ws_connected w) then w
  else
    let doc := proxyResponseDoc r in
    let sz := serializeJson doc 1536 in
    if (0 <? sz) && (sz <? 1536) then snd (tunnelSendText doc w) else w.

Definition writer_end (r : TunnelHttpResponseWriter) (w : world)
  : TunnelHttpResponseWriter * world :=
  if ended_ r then (r, w)
  else
    let r := set_ended_ true r in
    if node_ r then (r, tunnelSendProxyResponse r w) else (r, w).

Definition writer_step (c : writer_call) (r : TunnelHttpResponseWriter) (w : world)
  : TunnelHttpResponseWriter * world :=
  match c with
  | CallSetStatus code => (setStatus code r, w)
  | CallSetHeader k v => (setHeader k v r, w)
  | CallWrite d => (write d r, w)
  | CallWriteStr s => (write_str s r, w)
  | CallEnd => writer_end r w
  end.

Fixpoint writer_run (cs : list writer_call) (r : TunnelHttpResponseWriter) (w : world)
  : TunnelHttpResponseWriter * world :=
  match cs with
  | [] => (r, w)
  | c :: rest => let '(r, w) := writer_step c r w in writer_run rest r w
  end.

(** *** proxy_request *)

Fixpoint request_headers (fs : list (string * jval)) (acc : list (string * string))
  : list (string * string) :=
  match fs with
  | [] => acc
  | (k, v) :: r =>
      if Nat.leb TUNNEL_MAX_HEADERS (List.length acc) then acc
      else match v with
           | JStr s => request_headers r (acc ++ [(strncpy 23 k, strncpy 79 s)])
           | _ => request_headers r acc
           end
  end.

Definition tunnelHandleProxyRequest (p : payload) (n : node) (w : world) : node * world :=
  if negb (nonempty (p_text p)) then (n, w)
  else
    match p_doc p with
    | None => (n, w)
    | Some doc =>
        let reqId := str_or (alt (member doc "request_id") (member doc "req_id")) EmptyString in
        let method := str_or (member doc "method") "GET" in
        let path := str_or (member doc "path") "/" in
        let query := str_or (member doc "query") EmptyString in
        let bodyB64 := str_or (member doc "body") EmptyString in
        let maxBody := cfgOrDefaultSz (maxTunnelBodyBytes (cfg_ n)) kDefaultMaxTunnelBody in
        let too_large :=
          nonempty bodyB64 && (maxBody <? u32 ((slen bodyB64 / 4) * 3 + 4)) in
        if too_large then
          let res := set_node_ true new_writer in
          let res := set_requestId_ (strncpy 47 reqId) res in
          let res := setStatus 413 res in
          let res := setHeader (Some "Content-Type") (Some "text/plain") res in
          let res := write_str (Some "Payload Too Large") res in
          let '(_, w) := writer_end res w in
          (n, w)
        else
          let bodyDec := if nonempty bodyB64 then Base64.base64Decode (codes bodyB64)
                         else [] in
          let req := Build_Request reqId reqId (nodeId_ n) method path query bodyDec
                       match member doc "headers" with
                       | Some (JObj fs) => request_headers fs []
                       | _ => []
                       end in
          let res := set_node_ true new_writer in
          let res := set_requestId_ (strncpy 47 reqId) res in
          let isLedOn := strstr path "led/on" in
          let res := setStatus 200 res in
          let res := setHeader (Some "Content-Type") (Some "application/json") res in
          let res :=
            if isLedOn then
              write_str (Some ("{" ++ dquote ++ "ok" ++ dquote ++ ":true,"
                               ++ dquote ++ "value" ++ dquote ++ ":1}")) res
            else
              let minBody := "{" ++ dquote ++ "ok" ++ dquote ++ ":true,"
                             ++ raw_member "request_id" reqId ++ "}" in
              if (0 <? slen minBody) && (slen minBody <? 128)
              then write_str (Some minBody) res else res in
          let '(res, w) := writer_end res w in
          let '(res, w) :=
            match httpRequestCb_ n with
            | Some cb => writer_run (cb req) res w
            | None => (res, w)
            end in
          let '(_, w) := if negb (ended_ res) then writer_end res w else (res, w) in
          (n, w)
    end.

(** *** Inbound frames *)

Definition tunnelHandleMessage (p : payload) (n : node) (w : world) : node * world :=
  if negb (nonempty (p_text p)) then (n, w)
  else
    match p_doc p with
    | None => (n, w)
    | Some peek =>
        if containsKey peek "id" && containsKey peek "path" then
          (* RPC envelope *)
          let path := str_or (member peek "path") "/" in
          let bodyV := member peek "body" in
          let isLedOn := String.eqb path "/led/on" || strstr path "led/on" in
          let value := if is_obj bodyV
                       then match bodyV with
                            | Some b => int_or (member b "value") 1
                            | None => 1
                            end
                       else 1 in
          let w := if isLedOn && (0 <=? ledPin (cfg_ n))
                   then digitalWrite (ledPin (cfg_ n)) (value =? 0) w else w in
          let id := if is_str (member peek "id") then JStr (str_or (member peek "id") EmptyString)
                    else JInt (as_long (member peek "id")) in
          let resp := JObj [("id", id); ("status", JInt 200);
                            ("body", JObj ([("ok", JBool true)]
                                           ++ (if isLedOn
                                               then [("value", JInt (if value =? 0 then 0 else 1))]
                                               else [])))] in
          let sz := serializeJson resp 512 in
          if (0 <? sz) && (sz <? 512) then (n, snd (tunnelSendText resp w)) else (n, w)
        else
          let type := str_or (member peek "type") EmptyString in
          if negb (nonempty type) then (n, w)
          else if String.eqb type "register_ack" then
            let st := str_or (member peek "status") EmptyString in
            let reason := str_or (member peek "reason") EmptyString in
            let nid := str_or (member peek "node_id") EmptyString in
            let tid := str_or (member peek "tunnel_id") EmptyString in
            let tunUrl := str_or (alt (member peek "tunnel_url") (member peek "ws_url"))
                                 EmptyString in
            if String.eqb st "ok" then
              let n := if nonempty nid then set_nodeId_ (strncpy 63 nid) n else n in
              let n := if nonempty tid then set_tunnelId_ (strncpy 63 tid) n else n in
              let n := if nonempty tunUrl then set_tunnelUrl_ (strncpy 255 tunUrl) n else n in
              let n := set_tunnelRegistered_ true n in
              let n := set_tunnelBackoffIndex_ 0 n in
              let n := set_tunnelBackoffMs_ (nth 0 kTunnelBackoffMs 0) n in
              let '(n, w) := setState TUNNEL_CONNECTED n w in
              (set_lastTunnelPingMs_ (millis w) n, w)
            else if String.eqb reason "MISSING_AUTH_TOKEN" then
              let n := set_sessionToken_ EmptyString n in
              let n := set_nextApproveMs_ 0 n in
              (set_nextTunnelConnectMs_ (u32 (millis w + 3000)) n, w)
            else if String.eqb reason "SLOT_ID_MISMATCH" then
              (set_nextTunnelConnectMs_ (u32 (millis w + tunnelBackoffMs_ n)) n, w)
            else if String.eqb reason "SESSION_TOKEN_MISSING_SLOT_ID" then
              let n := set_nextApproveMs_ 0 n in
              (set_nextTunnelConnectMs_ (u32 (millis w + 3000)) n, w)
            else
              (set_nextTunnelConnectMs_ (u32 (millis w + tunnelBackoffMs_ n)) n, w)
          else if String.eqb type "HTTP_REQ" then
            let streamId := str_or (member peek "stream_id") EmptyString in
            let path := str_or (member peek "path") "/" in
            if negb (nonempty streamId) then (n, w)
            else
              let ledOn := String.eqb path "/led/on" in
              let ledOff := negb ledOn && String.eqb path "/led/off" in
              let pinOk := 0 <=? ledPin (cfg_ n) in
              let '(status, bodyText, w) :=
                if ledOn && pinOk
                then (200, "OK LED ON", digitalWrite (ledPin (cfg_ n)) false w)
                else if ledOff && pinOk
                then (200, "OK LED OFF", digitalWrite (ledPin (cfg_ n)) true w)
                else if (ledOn || ledOff) && negb pinOk
                then (500, "LED pin not configured", w)
                else (200, "OK", w) in
              let respDoc := JObj [("type", JStr "HTTP_RES");
                                   ("stream_id", JStr streamId);
                                   ("status", JInt status);
                                   ("headers", JObj [("content-type", JStr "text/plain")]);
                                   ("body", JStr bodyText)] in
              let respLen := serializeJson respDoc 512 in
              if (0 <? respLen) && (respLen <? 512)
              then (n, snd (tunnelSendText respDoc w))
              else
                let errDoc := JObj [("type", JStr "HTTP_RES");
                                    ("stream_id", JStr streamId);
                                    ("status", JInt 500);
                                    ("headers", JObj [("content-type", JStr "text/plain")]);
                                    ("body", JStr "Internal error: response buffer overflow")] in
                let errLen := serializeJson errDoc 256 in
                if (0 <? errLen) && (errLen <? 256)
                then (n, snd (tunnelSendText errDoc w)) else (n, w)
          else if String.eqb type "proxy_request" then
            tunnelHandleProxyRequest p n w
          else (n, w)
    end.

(** *** The tunnel *)

Definition tunnelSendRegister (n : node) (w : world) : node * world :=
  if negb (ws_connected w) then (n, w)
  else
    let w := notify (NoteTunnel true (tunnelUrl_ n)) w in
    if negb (nonempty (sessionToken_ n)) then (n, w)
    else
      let doc := JObj ([("type", JStr "register")]
                       ++ (if nonempty (nodeId_ n) then [("node_id", JStr (nodeId_ n))] else [])
                       ++ [("slot_id", JStr (or_default (slotId (cfg_ n)) EmptyString));
                           ("machine_id", JStr (getMachineId n w 80));
                           ("mac", JStr (getMacCStr w));
                           ("firmware", JStr (firmware_of (cfg_ n)));
                           ("auth_token", JStr (sessionToken_ n))]) in
      let sz := serializeJson doc 512 in
      if (sz =? 0) || (512 <=? sz) then (n, w)
      else (n, snd (tunnelSendText doc w)).

(** The callback registered with the client. The client is connected from
    the CONNECTED event until the DISCONNECTED one. *)
Definition wsEvent (e : ws_event) (n : node) (w : world) : node * world :=
  match w_ws w with
  | None => (n, w)
  | Some _ =>
      match e with
      | WStype_CONNECTED => tunnelSendRegister n (set_w_ws (Some true) w)
      | WStype_DISCONNECTED =>
          (n, set_w_disconnect_pending true (set_w_ws (Some false) w))
      | WStype_ERROR => (n, set_w_disconnect_pending true w)
      | WStype_TEXT p =>
          if nonempty (p_text p) then tunnelHandleMessage p n w else (n, w)
      | WStype_OTHER => (n, w)
      end
  end.

Fixpoint deliver (es : list ws_event) (n : node) (w : world) : node * world :=
  match es with
  | [] => (n, w)
  | e :: rest => let '(n, w) := wsEvent e n w in deliver rest n w
  end.

(** [s_wsClient->loop()] *)
Definition ws_loop (n : node) (w : world) : node * world :=
  match w_ws_events w with
  | [] => (n, w)
  | es :: later => deliver es n (set_w_ws_events later w)
  end.

Definition tunnelDisconnectCleanup (n : node) (w : world) : node * world :=
  let n := set_tunnelRegistered_ false n in
  let w := notify (NoteTunnel false (tunnelUrl_ n)) w in
  let '(n, w) :=
    if State_eqb (state_ n) TUNNEL_CONNECTING || State_eqb (state_ n) TUNNEL_CONNECTED
    then setState ACTIVE n w else (n, w) in
  let n := if tunnelBackoffIndex_ n <? kTunnelBackoffSteps - 1
           then set_tunnelBackoffIndex_ (tunnelBackoffIndex_ n + 1) n else n in
  let n := set_tunnelBackoffMs_
             (nth (Z.to_nat (tunnelBackoffIndex_ n)) kTunnelBackoffMs 0) n in
  (set_nextTunnelConnectMs_ (u32 (millis w + tunnelBackoffMs_ n)) n, w).

Definition tunnelConnect (n : node) (w : world) : node * world :=
  match w_ws w with
  | Some _ => (n, w)
  | None =>
      let url := tunnelUrl_ n in
      if negb (nonempty url) then (n, w)
      else if negb (nonempty (sessionToken_ n)) then
        let n := set_nextTunnelConnectMs_ (u32 (millis w + 3000)) n in
        (set_nextApproveMs_ 0 n, w)
      else if negb (String.prefix "wss://" url) && negb (String.prefix "ws://" url)
      then (n, w)
      else (n, set_w_ws (Some false) w)
  end.

Definition tunnelLoop (n : node) (w : world) : node * world :=
  let now := millis w in
  if w_disconnect_pending w then
    let w := set_w_disconnect_pending false w in
    match w_ws w with
    | Some _ => tunnelDisconnectCleanup n (set_w_ws None w)
    | None => (n, w)
    end
  else if negb (enableTunnel (cfg_ n)) then (n, w)
  else if negb (nonempty (tunnelUrl_ n)) then (n, w)
  else if negb (nonempty (nodeToken_ n)) && negb (nonempty (sessionToken_ n)) then (n, w)
  else
    match w_ws w with
    | Some _ =>
        let '(n, w) := ws_loop n w in
        match w_ws w with
        | None => (n, w)
        | Some connected =>
            if connected && tunnelRegistered_ n
               && (kTunnelPingIntervalMs <=? u32 (now - lastTunnelPingMs_ n))
            then
              let pingDoc := JObj [("type", JStr "ping")] in
              let sz := serializeJson pingDoc 64 in
              if (0 <? sz) && (sz <? 64) then
                let '(ok, w) := tunnelSendText pingDoc w in
                if ok then (set_lastTunnelPingMs_ now n, w) else (n, w)
              else (n, w)
            else (n, w)
        end
    | None =>
        if now <? nextTunnelConnectMs_ n then (n, w)
        else
          let '(n, w) := setState TUNNEL_CONNECTING n w in
          let '(n, w) := tunnelConnect n w in
          (set_nextTunnelConnectMs_ (u32 (now + tunnelBackoffMs_ n)) n, w)
    end.

(** *** The state machine *)

Definition runStateMachine (n : node) (w : world) : node * world :=
  (* ensureWiFi *)
  let n := set_wifiConnecting_ (negb (w_wifi w)) n in
  if negb (w_wifi w) then (n, w)
  else
    match state_ n with
    | BOOT =>
        if nonempty (sessionToken_ n) then
          let '(ok, (n, w)) := trySessionRefresh n w in
          if ok then (n, w)
          else
            let '(n, w) := setState HELLO n w in
            (set_nextHelloMs_ (u32 (millis w + netBackoffMs_ n)) n, w)
        else
          let '(n, w) := setState HELLO n w in
          (set_nextHelloMs_ (millis w) n, w)
    | HELLO => tryHello n w
    | PAIR_SUBMIT => tryPairIfNeeded n w
    | PENDING_POLL =>
        let '(n, w) :=
          if preferRegisterBySlot (cfg_ n) && is_set (loginToken (cfg_ n))
          then tryRegisterBySlot n w else (n, w) in
        let '(n, w) :=
          if enableSelfApprove (cfg_ n) && is_set (approveEndpointPath (cfg_ n))
             && negb (nonempty (sessionToken_ n)) && negb (approveMissingMacFailed_ n)
          then tryApprove n w else (n, w) in
        if negb (nonempty (sessionToken_ n)) then trySessionPoll n w else (n, w)
    | GRANTED =>
        let '(n, w) := setState ACTIVE n w in
        (set_lastHeartbeatMs_ (millis w) n, w)
    | ACTIVE | TUNNEL_CONNECTING | TUNNEL_CONNECTED => tunnelLoop n w
    | ERROR =>
        let n := set_nextHelloMs_ (u32 (millis w + netBackoffMs_ n)) n in
        setState HELLO n w
    end.

Definition loopTick (n : node) (w : world) : node * world := runStateMachine n w.

(** The node as the constructor leaves it. *)
Definition new_node (c : Config) : node :=
  Build_node c BOOT EmptyString EmptyString EmptyString EmptyString
             EmptyString EmptyString EmptyString EmptyString false
             0 0 0 0 0 kBackoffMinMs kBackoffMinMs
             0 (nth 0 kTunnelBackoffMs 0) 0 0 false false 0 false false None.

(** The host's loop: between two ticks time passes and the radio may
    change. *)
Record tick_input : Type := Build_tick_input {
  t_elapsed : Z;
  t_wifi : bool
}.

Definition tick (i : tick_input) (n : node) (w : world) : node * world :=
  loopTick n (set_w_wifi (t_wifi i) (set_w_clock (w_clock w + t_elapsed i) w)).

Fixpoint run (ins : list tick_input) (n : node) (w : world) : node * world :=
  match ins with
  | [] => (n, w)
  | i :: rest => let '(n, w) := tick i n w in run rest n w
  end.

End Node.

(** ** The simpler implementation (class OrbiSyncNode of the first
       OrbiSyncNode.cpp): heartbeat, identity and the loop *)

Module Simple.
Import Json.

Inductive State : Type := BOOT | HELLO | PENDING_POLL | ACTIVE | ERROR.

Definition State_eqb (a b : State) : bool :=
  match a, b with
  | BOOT, BOOT | HELLO, HELLO | PENDING_POLL, PENDING_POLL
  | ACTIVE, ACTIVE | ERROR, ERROR => true
  | _, _ => false
  end.

Definition kInitialBackoffMs : Z := 1000.
Definition kMaxBackoffMs : Z := 30000.
Definition kMaxResponseLength : Z := 2048.

(** The messages [sendHeartbeat], [responseToJson], [ensureWiFi] and
    [registerNodeIfNeeded] pass to [setLastError] (Korean texts in the
    source). *)
Inductive error : Type :=
| ErrHeartbeatNoSession      (* heartbeat skipped, no session *)
| ErrHeartbeatWifiDown       (* Wi-Fi lost before the heartbeat *)
| ErrHeartbeatBeginFailed    (* heartbeat HTTP setup failed *)
| ErrHeartbeatAuth           (* heartbeat authentication failed *)
| ErrHeartbeatHttp           (* heartbeat HTTP error *)
| ErrResponseTooLarge        (* response size limit exceeded *)
| ErrNoResponseStream        (* no response stream *)
| ErrJsonParse               (* JSON parse failed *)
| ErrWifiCredentials         (* Wi-Fi credentials missing *)
| ErrRegisterMethod          (* no way to register configured *)
| ErrOther (msg : string).   (* a message set elsewhere in the class *)

Definition error_eqb (a b : error) : bool :=
  match a, b with
  | ErrHeartbeatNoSession, ErrHeartbeatNoSession
  | ErrHeartbeatWifiDown, ErrHeartbeatWifiDown
  | ErrHeartbeatBeginFailed, ErrHeartbeatBeginFailed
  | ErrHeartbeatAuth, ErrHeartbeatAuth
  | ErrHeartbeatHttp, ErrHeartbeatHttp
  | ErrResponseTooLarge, ErrResponseTooLarge
  | ErrNoResponseStream, ErrNoResponseStream
  | ErrJsonParse, ErrJsonParse
  | ErrWifiCredentials, ErrWifiCredentials
  | ErrRegisterMethod, ErrRegisterMethod => true
  | ErrOther a, ErrOther b => String.eqb a b
  | _, _ => false
  end.

Inductive platform : Type := ESP8266 | ESP32.

(** [struct Config]: the fields the functions below read. *)
Record Config : Type := Build_Config {
  hubBaseUrl : string;
  slotId : string;
  firmwareVersion : string;
  capabilities : list (option string);   (* capabilityCount is the length *)
  heartbeatIntervalMs : Z;
  ledPin : Z;
  blinkOnHeartbeat : bool;
  machineIdPrefix : option string;
  machineId : option string;
  nodeNamePrefix : option string;
  nodeName : option string;
  appendUniqueSuffix : bool;
  useMacForUniqueId : bool;
  enableCommandPolling : bool;
  commandPollIntervalMs : Z;
  loginToken : option string;
  pairingCode : option string;
  enableNodeRegistration : bool;
  registerRetryMs : Z;
  preferRegisterBySlot : bool;
  enableTunnel : bool
}.


(** The members of the class that the functions below read or write. *)
Record node : Type := Build_node {
  config_ : Config;
  state_ : State;
  wifi_ssid_ : string;
  wifi_password_ : string;
  next_wifi_action_ms_ : Z;
  next_net_action_ms_ : Z;
  next_command_action_ms_ : Z;
  wifi_backoff_ms_ : Z;
  net_backoff_ms_ : Z;
  register_backoff_ms_ : Z;
  next_register_action_ms_ : Z;
  session_expires_at_ms_ : Z;
  last_heartbeat_ms_ : Z;
  session_token_ : string;   (* char[256] *)
  node_id_ : string;   (* char[64] *)
  is_registered_ : bool;
  last_error_ : option error;   (* char[128]; None is the empty string *)
  led_state_ : bool;
  ws_connected_ : bool;
  ws_last_heartbeat_ms_ : Z;
  machine_id_ptr_ : option string;   (* nullptr until the identity is derived *)
  node_name_ptr_ : option string
}.

Definition set_config_ (v : Config) (x : node) : node := Build_node v (state_
    x) (wifi_ssid_ x) (wifi_password_ x) (next_wifi_action_ms_ x)
    (next_net_action_ms_ x) (next_command_action_ms_ x) (wifi_backoff_ms_ x)
    (net_backoff_ms_ x) (register_backoff_ms_ x) (next_register_action_ms_ x)
    (session_expires_at_ms_ x) (last_heartbeat_ms_ x) (session_token_ x)
    (node_id_ x) (is_registered_ x) (last_error_ x) (led_state_ x)
    (ws_connected_ x) (ws_last_heartbeat_ms_ x) (machine_id_ptr_ x)
    (node_name_ptr_ x).
Definition set_state_ (v : State) (x : node) : node := Build_node (config_ x)
    v (wifi_ssid_ x) (wifi_password_ x) (next_wifi_action_ms_ x)
    (next_net_action_ms_ x) (next_command_action_ms_ x) (wifi_backoff_ms_ x)
    (net_backoff_ms_ x) (register_backoff_ms_ x) (next_register_action_ms_ x)
    (session_expires_at_ms_ x) (last_heartbeat_ms_ x) (session_token_ x)
    (node_id_ x) (is_registered_ x) (last_error_ x) (led_state_ x)
    (ws_connected_ x) (ws_last_heartbeat_ms_ x) (machine_id_ptr_ x)
    (node_name_ptr_ x).
Definition set_wifi_ssid_ (v : string) (x : node) : node := Build_node
    (config_ x) (state_ x) v (wifi_password_ x) (next_wifi_action_ms_ x)
    (next_net_action_ms_ x) (next_command_action_ms_ x) (wifi_backoff_ms_ x)
    (net_backoff_ms_ x) (register_backoff_ms_ x) (next_register_action_ms_ x)
    (session_expires_at_ms_ x) (last_heartbeat_ms_ x) (session_token_ x)
    (node_id_ x) (is_registered_ x) (last_error_ x) (led_state_ x)
    (ws_connected_ x) (ws_last_heartbeat_ms_ x) (machine_id_ptr_ x)
    (node_name_ptr_ x).
Definition set_wifi_password_ (v : string) (x : node) : node := Build_node
    (config_ x) (state_ x) (wifi_ssid_ x) v (next_wifi_action_ms_ x)
    (next_net_action_ms_ x) (next_command_action_ms_ x) (wifi_backoff_ms_ x)
    (net_backoff_ms_ x) (register_backoff_ms_ x) (next_register_action_ms_ x)
    (session_expires_at_ms_ x) (last_heartbeat_ms_ x) (session_token_ x)
    (node_id_ x) (is_registered_ x) (last_error_ x) (led_state_ x)
    (ws_connected_ x) (ws_last_heartbeat_ms_ x) (machine_id_ptr_ x)
    (node_name_ptr_ x).
Definition set_next_wifi_action_ms_ (v : Z) (x : node) : node := Build_node
    (config_ x) (state_ x) (wifi_ssid_ x) (wifi_password_ x) v
    (next_net_action_ms_ x) (next_command_action_ms_ x) (wifi_backoff_ms_ x)
    (net_backoff_ms_ x) (register_backoff_ms_ x) (next_register_action_ms_ x)
    (session_expires_at_ms_ x) (last_heartbeat_ms_ x) (session_token_ x)
    (node_id_ x) (is_registered_ x) (last_error_ x) (led_state_ x)
    (ws_connected_ x) (ws_last_heartbeat_ms_ x) (machine_id_ptr_ x)
    (node_name_ptr_ x).
Definition set_next_net_action_ms_ (v : Z) (x : node) : node := Build_node
    (config_ x) (state_ x) (wifi_ssid_ x) (wifi_password_ x)
    (next_wifi_action_ms_ x) v (next_command_action_ms_ x) (wifi_backoff_ms_
    x) (net_backoff_ms_ x) (register_backoff_ms_ x) (next_register_action_ms_
    x) (session_expires_at_ms_ x) (last_heartbeat_ms_ x) (session_token_ x)
    (node_id_ x) (is_registered_ x) (last_error_ x) (led_state_ x)
    (ws_connected_ x) (ws_last_heartbeat_ms_ x) (machine_id_ptr_ x)
    (node_name_ptr_ x).
Definition set_next_command_action_ms_ (v : Z) (x : node) : node := Build_node
    (config_ x) (state_ x) (wifi_ssid_ x) (wifi_password_ x)
    (next_wifi_action_ms_ x) (next_net_action_ms_ x) v (wifi_backoff_ms_ x)
    (net_backoff_ms_ x) (register_backoff_ms_ x) (next_register_action_ms_ x)
    (session_expires_at_ms_ x) (last_heartbeat_ms_ x) (session_token_ x)
    (node_id_ x) (is_registered_ x) (last_error_ x) (led_state_ x)
    (ws_connected_ x) (ws_last_heartbeat_ms_ x) (machine_id_ptr_ x)
    (node_name_ptr_ x).
Definition set_wifi_backoff_ms_ (v : Z) (x : node) : node := Build_node
    (config_ x) (state_ x) (wifi_ssid_ x) (wifi_password_ x)
    (next_wifi_action_ms_ x) (next_net_action_ms_ x) (next_command_action_ms_
    x) v (net_backoff_ms_ x) (register_backoff_ms_ x)
    (next_register_action_ms_ x) (session_expires_at_ms_ x)
    (last_heartbeat_ms_ x) (session_token_ x) (node_id_ x) (is_registered_ x)
    (last_error_ x) (led_state_ x) (ws_connected_ x) (ws_last_heartbeat_ms_ x)
    (machine_id_ptr_ x) (node_name_ptr_ x).
Definition set_net_backoff_ms_ (v : Z) (x : node) : node := Build_node
    (config_ x) (state_ x) (wifi_ssid_ x) (wifi_password_ x)
    (next_wifi_action_ms_ x) (next_net_action_ms_ x) (next_command_action_ms_
    x) (wifi_backoff_ms_ x) v (register_backoff_ms_ x)
    (next_register_action_ms_ x) (session_expires_at_ms_ x)
    (last_heartbeat_ms_ x) (session_token_ x) (node_id_ x) (is_registered_ x)
    (last_error_ x) (led_state_ x) (ws_connected_ x) (ws_last_heartbeat_ms_ x)
    (machine_id_ptr_ x) (node_name_ptr_ x).
Definition set_register_backoff_ms_ (v : Z) (x : node) : node := Build_node
    (config_ x) (state_ x) (wifi_ssid_ x) (wifi_password_ x)
    (next_wifi_action_ms_ x) (next_net_action_ms_ x) (next_command_action_ms_
    x) (wifi_backoff_ms_ x) (net_backoff_ms_ x) v (next_register_action_ms_ x)
    (session_expires_at_ms_ x) (last_heartbeat_ms_ x) (session_token_ x)
    (node_id_ x) (is_registered_ x) (last_error_ x) (led_state_ x)
    (ws_connected_ x) (ws_last_heartbeat_ms_ x) (machine_id_ptr_ x)
    (node_name_ptr_ x).
Definition set_next_register_action_ms_ (v : Z) (x : node) : node :=
    Build_node (config_ x) (state_ x) (wifi_ssid_ x) (wifi_password_ x)
    (next_wifi_action_ms_ x) (next_net_action_ms_ x) (next_command_action_ms_
    x) (wifi_backoff_ms_ x) (net_backoff_ms_ x) (register_backoff_ms_ x) v
    (session_expires_at_ms_ x) (last_heartbeat_ms_ x) (session_token_ x)
    (node_id_ x) (is_registered_ x) (last_error_ x) (led_state_ x)
    (ws_connected_ x) (ws_last_heartbeat_ms_ x) (machine_id_ptr_ x)
    (node_name_ptr_ x).
Definition set_session_expires_at_ms_ (v : Z) (x : node) : node := Build_node
    (config_ x) (state_ x) (wifi_ssid_ x) (wifi_password_ x)
    (next_wifi_action_ms_ x) (next_net_action_ms_ x) (next_command_action_ms_
    x) (wifi_backoff_ms_ x) (net_backoff_ms_ x) (register_backoff_ms_ x)
    (next_register_action_ms_ x) v (last_heartbeat_ms_ x) (session_token_ x)
    (node_id_ x) (is_registered_ x) (last_error_ x) (led_state_ x)
    (ws_connected_ x) (ws_last_heartbeat_ms_ x) (machine_id_ptr_ x)
    (node_name_ptr_ x).
Definition set_last_heartbeat_ms_ (v : Z) (x : node) : node := Build_node
    (config_ x) (state_ x) (wifi_ssid_ x) (wifi_password_ x)
    (next_wifi_action_ms_ x) (next_net_action_ms_ x) (next_command_action_ms_
    x) (wifi_backoff_ms_ x) (net_backoff_ms_ x) (register_backoff_ms_ x)
    (next_register_action_ms_ x) (session_expires_at_ms_ x) v (session_token_
    x) (node_id_ x) (is_registered_ x) (last_error_ x) (led_state_ x)
    (ws_connected_ x) (ws_last_heartbeat_ms_ x) (machine_id_ptr_ x)
    (node_name_ptr_ x).
Definition set_session_token_ (v : string) (x : node) : node := Build_node
    (config_ x) (state_ x) (wifi_ssid_ x) (wifi_password_ x)
    (next_wifi_action_ms_ x) (next_net_action_ms_ x) (next_command_action_ms_
    x) (wifi_backoff_ms_ x) (net_backoff_ms_ x) (register_backoff_ms_ x)
    (next_register_action_ms_ x) (session_expires_at_ms_ x)
    (last_heartbeat_ms_ x) v (node_id_ x) (is_registered_ x) (last_error_ x)
    (led_state_ x) (ws_connected_ x) (ws_last_heartbeat_ms_ x)
    (machine_id_ptr_ x) (node_name_ptr_ x).
Definition set_node_id_ (v : string) (x : node) : node := Build_node (config_
    x) (state_ x) (wifi_ssid_ x) (wifi_password_ x) (next_wifi_action_ms_ x)
    (next_net_action_ms_ x) (next_command_action_ms_ x) (wifi_backoff_ms_ x)
    (net_backoff_ms_ x) (register_backoff_ms_ x) (next_register_action_ms_ x)
    (session_expires_at_ms_ x) (last_heartbeat_ms_ x) (session_token_ x) v
    (is_registered_ x) (last_error_ x) (led_state_ x) (ws_connected_ x)
    (ws_last_heartbeat_ms_ x) (machine_id_ptr_ x) (node_name_ptr_ x).
Definition set_is_registered_ (v : bool) (x : node) : node := Build_node
    (config_ x) (state_ x) (wifi_ssid_ x) (wifi_password_ x)
    (next_wifi_action_ms_ x) (next_net_action_ms_ x) (next_command_action_ms_
    x) (wifi_backoff_ms_ x) (net_backoff_ms_ x) (register_backoff_ms_ x)
    (next_register_action_ms_ x) (session_expires_at_ms_ x)
    (last_heartbeat_ms_ x) (session_token_ x) (node_id_ x) v (last_error_ x)
    (led_state_ x) (ws_connected_ x) (ws_last_heartbeat_ms_ x)
    (machine_id_ptr_ x) (node_name_ptr_ x).
Definition set_last_error_ (v : option error) (x : node) : node := Build_node
    (config_ x) (state_ x) (wifi_ssid_ x) (wifi_password_ x)
    (next_wifi_action_ms_ x) (next_net_action_ms_ x) (next_command_action_ms_
    x) (wifi_backoff_ms_ x) (net_backoff_ms_ x) (register_backoff_ms_ x)
    (next_register_action_ms_ x) (session_expires_at_ms_ x)
    (last_heartbeat_ms_ x) (session_token_ x) (node_id_ x) (is_registered_ x)
    v (led_state_ x) (ws_connected_ x) (ws_last_heartbeat_ms_ x)
    (machine_id_ptr_ x) (node_name_ptr_ x).
Definition set_led_state_ (v : bool) (x : node) : node := Build_node (config_
    x) (state_ x) (wifi_ssid_ x) (wifi_password_ x) (next_wifi_action_ms_ x)
    (next_net_action_ms_ x) (next_command_action_ms_ x) (wifi_backoff_ms_ x)
    (net_backoff_ms_ x) (register_backoff_ms_ x) (next_register_action_ms_ x)
    (session_expires_at_ms_ x) (last_heartbeat_ms_ x) (session_token_ x)
    (node_id_ x) (is_registered_ x) (last_error_ x) v (ws_connected_ x)
    (ws_last_heartbeat_ms_ x) (machine_id_ptr_ x) (node_name_ptr_ x).
Definition set_ws_connected_ (v : bool) (x : node) : node := Build_node
    (config_ x) (state_ x) (wifi_ssid_ x) (wifi_password_ x)
    (next_wifi_action_ms_ x) (next_net_action_ms_ x) (next_command_action_ms_
    x) (wifi_backoff_ms_ x) (net_backoff_ms_ x) (register_backoff_ms_ x)
    (next_register_action_ms_ x) (session_expires_at_ms_ x)
    (last_heartbeat_ms_ x) (session_token_ x) (node_id_ x) (is_registered_ x)
    (last_error_ x) (led_state_ x) v (ws_last_heartbeat_ms_ x)
    (machine_id_ptr_ x) (node_name_ptr_ x).
Definition set_ws_last_heartbeat_ms_ (v : Z) (x : node) : node := Build_node
    (config_ x) (state_ x) (wifi_ssid_ x) (wifi_password_ x)
    (next_wifi_action_ms_ x) (next_net_action_ms_ x) (next_command_action_ms_
    x) (wifi_backoff_ms_ x) (net_backoff_ms_ x) (register_backoff_ms_ x)
    (next_register_action_ms_ x) (session_expires_at_ms_ x)
    (last_heartbeat_ms_ x) (session_token_ x) (node_id_ x) (is_registered_ x)
    (last_error_ x) (led_state_ x) (ws_connected_ x) v (machine_id_ptr_ x)
    (node_name_ptr_ x).
Definition set_machine_id_ptr_ (v : option string) (x : node) : node :=
    Build_node (config_ x) (state_ x) (wifi_ssid_ x) (wifi_password_ x)
    (next_wifi_action_ms_ x) (next_net_action_ms_ x) (next_command_action_ms_
    x) (wifi_backoff_ms_ x) (net_backoff_ms_ x) (register_backoff_ms_ x)
    (next_register_action_ms_ x) (session_expires_at_ms_ x)
    (last_heartbeat_ms_ x) (session_token_ x) (node_id_ x) (is_registered_ x)
    (last_error_ x) (led_state_ x) (ws_connected_ x) (ws_last_heartbeat_ms_ x)
    v (node_name_ptr_ x).
Definition set_node_name_ptr_ (v : option string) (x : node) : node :=
    Build_node (config_ x) (state_ x) (wifi_ssid_ x) (wifi_password_ x)
    (next_wifi_action_ms_ x) (next_net_action_ms_ x) (next_command_action_ms_
    x) (wifi_backoff_ms_ x) (net_backoff_ms_ x) (register_backoff_ms_ x)
    (next_register_action_ms_ x) (session_expires_at_ms_ x)
    (last_heartbeat_ms_ x) (session_token_ x) (node_id_ x) (is_registered_ x)
    (last_error_ x) (led_state_ x) (ws_connected_ x) (ws_last_heartbeat_ms_ x)
    (machine_id_ptr_ x) v.

(** What the HTTP client yields for one POST: the code [POST] returns, the
    Content-Length [getSize] reports, whether a stream is there, what
    parsing the stream gives and whether the 2048-byte reader overflowed,
    the body [getString] returns with its parse, and the time the
    exchange took. *)
Record http_reply : Type := Build_reply {
  r_code : Z;
  r_size : Z;
  r_stream : bool;
  r_stream_json : option jval;
  r_overflow : bool;
  r_string : string;
  r_string_json : option jval;
  r_elapsed : Z
}.

Record http_request : Type := Build_request {
  q_url : string;
  q_headers : list (string * string);
  q_payload : jval
}.

Record world : Type := Build_world {
  w_clock : Z;   (* millis() *)
  w_wifi : bool;   (* WiFi.status() == WL_CONNECTED *)
  w_mac : option (list Z);   (* the MAC address, when the radio reports one *)
  w_platform : platform;
  w_chip_id : Z;   (* ESP.getChipId() / ESP.getEfuseMac() *)
  w_rssi : Z;   (* WiFi.RSSI() *)
  w_free_heap : Z;   (* ESP.getFreeHeap() *)
  w_entropy : list Z;   (* the seeds createNonce draws next *)
  w_begin_ok : bool;   (* what http_.begin returns *)
  w_replies : list http_reply;   (* what the Hub answers to the next POSTs *)
  w_posts : list http_request;   (* the POSTs issued so far, oldest first *)
  w_pins : list (Z * bool);   (* digitalWrite(pin, HIGH?) *)
  w_errors : list error;   (* error_callback_ invocations, oldest first *)
  w_transitions : list (State * State);   (* state_change_callback_ invocations *)
  w_wifi_begins : list (string * string);   (* WiFi.begin(ssid, password) calls *)
  w_registered : list string   (* register_callback_ invocations *)
}.

Definition set_w_clock (v : Z) (x : world) : world := Build_world v (w_wifi x)
    (w_mac x) (w_platform x) (w_chip_id x) (w_rssi x) (w_free_heap x)
    (w_entropy x) (w_begin_ok x) (w_replies x) (w_posts x) (w_pins x)
    (w_errors x) (w_transitions x) (w_wifi_begins x) (w_registered x).
Definition set_w_entropy (v : list Z) (x : world) : world := Build_world
    (w_clock x) (w_wifi x) (w_mac x) (w_platform x) (w_chip_id x) (w_rssi x)
    (w_free_heap x) v (w_begin_ok x) (w_replies x) (w_posts x) (w_pins x)
    (w_errors x) (w_transitions x) (w_wifi_begins x) (w_registered x).
Definition set_w_replies (v : list http_reply) (x : world) : world :=
    Build_world (w_clock x) (w_wifi x) (w_mac x) (w_platform x) (w_chip_id x)
    (w_rssi x) (w_free_heap x) (w_entropy x) (w_begin_ok x) v (w_posts x)
    (w_pins x) (w_errors x) (w_transitions x) (w_wifi_begins x) (w_registered
    x).
Definition set_w_posts (v : list http_request) (x : world) : world :=
    Build_world (w_clock x) (w_wifi x) (w_mac x) (w_platform x) (w_chip_id x)
    (w_rssi x) (w_free_heap x) (w_entropy x) (w_begin_ok x) (w_replies x) v
    (w_pins x) (w_errors x) (w_transitions x) (w_wifi_begins x) (w_registered
    x).
Definition set_w_pins (v : list (Z * bool)) (x : world) : world := Build_world
    (w_clock x) (w_wifi x) (w_mac x) (w_platform x) (w_chip_id x) (w_rssi x)
    (w_free_heap x) (w_entropy x) (w_begin_ok x) (w_replies x) (w_posts x) v
    (w_errors x) (w_transitions x) (w_wifi_begins x) (w_registered x).
Definition set_w_errors (v : list error) (x : world) : world := Build_world
    (w_clock x) (w_wifi x) (w_mac x) (w_platform x) (w_chip_id x) (w_rssi x)
    (w_free_heap x) (w_entropy x) (w_begin_ok x) (w_replies x) (w_posts x)
    (w_pins x) v (w_transitions x) (w_wifi_begins x) (w_registered x).
Definition set_w_transitions (v : list (State * State)) (x : world) : world :=
    Build_world (w_clock x) (w_wifi x) (w_mac x) (w_platform x) (w_chip_id x)
    (w_rssi x) (w_free_heap x) (w_entropy x) (w_begin_ok x) (w_replies x)
    (w_posts x) (w_pins x) (w_errors x) v (w_wifi_begins x) (w_registered x).
Definition set_w_wifi_begins (v : list (string * string)) (x : world) : world
    := Build_world (w_clock x) (w_wifi x) (w_mac x) (w_platform x) (w_chip_id
    x) (w_rssi x) (w_free_heap x) (w_entropy x) (w_begin_ok x) (w_replies x)
    (w_posts x) (w_pins x) (w_errors x) (w_transitions x) v (w_registered x).
Definition set_w_registered (v : list string) (x : world) : world :=
    Build_world (w_clock x) (w_wifi x) (w_mac x) (w_platform x) (w_chip_id x)
    (w_rssi x) (w_free_heap x) (w_entropy x) (w_begin_ok x) (w_replies x)
    (w_posts x) (w_pins x) (w_errors x) (w_transitions x) (w_wifi_begins x) v.

Definition millis (w : world) : Z := u32 (w_clock w).

(** *** Errors, state, schedule *)

Definition setLastError (msg : error) (n : node) (w : world) : node * world :=
  let changed := match last_error_ n with
                 | Some e => negb (error_eqb e msg)
                 | None => true
                 end in
  (set_last_error_ (Some msg) n,
   if changed then set_w_errors (w_errors w ++ [msg]) w else w).

Definition transitionTo (s : State) (n : node) (w : world) : node * world :=
  if State_eqb (state_ n) s then (n, w)
  else (set_state_ s n, set_w_transitions (w_transitions w ++ [(state_ n, s)]) w).

Definition clearSession (n : node) : node :=
  set_session_expires_at_ms_ 0 (set_session_token_ EmptyString n).

(** [scheduleNextNetwork(delayMs)] *)
Definition scheduleNextNetwork (delayMs : Z) (n : node) (w : world) : node :=
  let now := millis w in
  let delay := if delayMs =? 0 then net_backoff_ms_ n else delayMs in
  let n := set_next_net_action_ms_ (u32 (now + delay)) n in
  set_net_backoff_ms_ (Z.min (u32 (net_backoff_ms_ n * 2)) kMaxBackoffMs) n.

Definition isSessionValid (n : node) (w : world) : bool :=
  if negb (nonempty (session_token_ n)) then false
  else if session_expires_at_ms_ n =? 0 then true
  else millis w <? session_expires_at_ms_ n.

(** *** Identity *)

(** [WiFi.macAddress()]: "AA:BB:CC:DD:EE:FF", empty when unavailable. *)
Definition macAddress (w : world) : string :=
  match w_mac w with
  | None => EmptyString
  | Some m =>
      let b i := nth i m 0 mod 256 in
      hex_fixed true 2 (b 0%nat) ++ ":" ++ hex_fixed true 2 (b 1%nat) ++ ":" ++
      hex_fixed true 2 (b 2%nat) ++ ":" ++ hex_fixed true 2 (b 3%nat) ++ ":" ++
      hex_fixed true 2 (b 4%nat) ++ ":" ++ hex_fixed true 2 (b 5%nat)
  end.

(** [s.replace(":", (empty string))]: the colons are removed *)
Fixpoint remove_colons (s : string) : string :=
  match s with
  | EmptyString => EmptyString
  | String c r => if Ascii.eqb c ":" then remove_colons r
                  else String c (remove_colons r)
  end.

Definition lower_char (c : ascii) : ascii :=
  let k := N_of_ascii c in
  if (N.leb 65 k && N.leb k 90)%bool then ascii_of_N (k + 32) else c.

(** [s.toLowerCase()] *)
Fixpoint toLowerCase (s : string) : string :=
  match s with
  | EmptyString => EmptyString
  | String c r => String (lower_char c) (toLowerCase r)
  end.

Definition makeUniqueSuffix (n : node) (w : world) : string :=
  let mac := macAddress w in
  if useMacForUniqueId (config_ n) && nonempty mac
  then toLowerCase (remove_colons mac)
  else match w_platform w with
       | ESP8266 => hex_plain 8 (u32 (w_chip_id w))
       | ESP32 => hex_plain 16 (w_chip_id w mod 18446744073709551616)
       end.

Definition ensureIdentityInitialized (n : node) (w : world) : node :=
  match machine_id_ptr_ n, node_name_ptr_ n with
  | Some _, Some _ => n
  | _, _ =>
      let suffix := makeUniqueSuffix n w in
      let midPrefix :=
        if is_set (machineIdPrefix (config_ n)) then or_empty (machineIdPrefix (config_ n))
        else if is_set (machineId (config_ n)) then or_empty (machineId (config_ n))
        else EmptyString in
      let namePrefix :=
        if is_set (nodeNamePrefix (config_ n)) then or_empty (nodeNamePrefix (config_ n))
        else if is_set (nodeName (config_ n)) then or_empty (nodeName (config_ n))
        else "Node-" in
      if appendUniqueSuffix (config_ n)
      then set_node_name_ptr_ (Some (namePrefix ++ suffix))
             (set_machine_id_ptr_ (Some (midPrefix ++ suffix)) n)
      else set_node_name_ptr_ (Some namePrefix)
             (set_machine_id_ptr_ (Some midPrefix) n)
  end.

Definition getMachineId (n : node) (w : world) : string :=
  or_empty (machine_id_ptr_ (ensureIdentityInitialized n w)).

(** *** Heartbeat *)

(** "%08X-%08X" of two seeds drawn from the platform's entropy. *)
Definition createNonce (w : world) : string * world :=
  match w_entropy w with
  | a :: b :: rest =>
      (hex_fixed true 8 (u32 a) ++ "-" ++ hex_fixed true 8 (u32 b), set_w_entropy rest w)
  | _ => (hex_fixed true 8 0 ++ "-" ++ hex_fixed true 8 0, set_w_entropy [] w)
  end.

Fixpoint hash_str (h : Z) (s : list Z) : Z :=
  match s with
  | [] => h
  | c :: r => hash_str (u32 (h * 31 + c)) r
  end.

Fixpoint hash_caps (h : Z) (caps : list (option string)) : Z :=
  match caps with
  | [] => h
  | None :: r => hash_caps h r
  | Some s :: r => hash_caps (hash_str h (codes s)) r
  end.

Definition capabilitiesHash (n : node) : string :=
  hex_fixed true 8 (hash_caps 0 (capabilities (config_ n))).

(** [responseToJson(doc)]: the document, when it returns true. *)
Definition responseToJson (r : http_reply) (n : node) (w : world)
  : option jval * (node * world) :=
  if (0 <? r_size r) && (kMaxResponseLength <? r_size r)
  then (None, setLastError ErrResponseTooLarge n w)
  else if negb (r_stream r) then (None, setLastError ErrNoResponseStream n w)
  else
    match r_stream_json r, r_overflow r with
    | Some doc, false => (Some doc, (n, w))
    | _, true => (None, setLastError ErrResponseTooLarge n w)
    | None, false =>
        if kMaxResponseLength <? slen (r_string r)
        then (None, setLastError ErrResponseTooLarge n w)
        else match r_string_json r with
             | None => (None, setLastError ErrJsonParse n w)
             | Some doc => (Some doc, (n, w))
             end
    end.

(** [doc[key]] converted to [uint32_t]. *)
Definition as_u32 (v : option jval) : Z :=
  match v with
  | Some (JInt k) => if (0 <=? k) && (k <? 4294967296) then k else 0
  | Some (JBool true) => 1
  | _ => 0
  end.

Definition heartbeatPayload (n : node) (w : world) (nonce : string) : jval :=
  JObj [("slot_id", JStr (slotId (config_ n)));
        ("nonce", JStr nonce);
        ("firmware", JStr (firmwareVersion (config_ n)));
        ("uptime_ms", JInt (millis w));
        ("rssi", JInt (w_rssi w));
        ("free_heap", JInt (w_free_heap w));
        ("capabilities_hash", JStr (capabilitiesHash n));
        ("led_state", JBool (led_state_ n))].

Definition heartbeatHeaders (n : node) : list (string * string) :=
  ("Content-Type", "application/json")
  :: (if nonempty (session_token_ n)
      then [("Authorization", "Bearer " ++ session_token_ n)] else []).

(** [sendHeartbeat]; [applyTlsPolicy] returns true on every path. *)
Definition sendHeartbeat (n : node) (w : world) : bool * (node * world) :=
  if negb (isSessionValid n w) then (false, setLastError ErrHeartbeatNoSession n w)
  else if negb (w_wifi w) then (false, setLastError ErrHeartbeatWifiDown n w)
  else if negb (w_begin_ok w) then
    let '(n, w) := setLastError ErrHeartbeatBeginFailed n w in
    (false, (scheduleNextNetwork 0 n w, w))
  else
    let '(nonce, w) := createNonce w in
    let request := Build_request (hubBaseUrl (config_ n) ++ "/api/device/heartbeat")
                                 (heartbeatHeaders n) (heartbeatPayload n w nonce) in
    let w := set_w_posts (w_posts w ++ [request]) w in
    let reply := match w_replies w with
                 | r :: _ => r
                 | [] => Build_reply (-1) (-1) false None false EmptyString None 0
                 end in
    let w := set_w_replies (tl (w_replies w)) w in
    let w := set_w_clock (w_clock w + r_elapsed reply) w in
    let http_code := r_code reply in
    let '(doc, (n, w)) := responseToJson reply n w in
    match doc with
    | None => (false, (scheduleNextNetwork 0 n w, w))
    | Some doc =>
        let now := millis w in
        if (http_code =? 401) || (http_code =? 403) then
          let '(n, w) := setLastError ErrHeartbeatAuth n w in
          let n := clearSession n in
          let '(n, w) := transitionTo HELLO n w in
          (false, (scheduleNextNetwork 0 n w, w))
        else if (http_code <? 200) || (300 <=? http_code) then
          let '(n, w) := setLastError ErrHeartbeatHttp n w in
          (false, (scheduleNextNetwork 0 n w, w))
        else
          let n := if containsKey doc "ttl_seconds"
                   then set_session_expires_at_ms_
                          (u32 (now + u32 (as_u32 (member doc "ttl_seconds") * 1000))) n
                   else n in
          let '(n, w) :=
            if blinkOnHeartbeat (config_ n) then
              let n := set_led_state_ (negb (led_state_ n)) n in
              (n, set_w_pins (w_pins w ++ [(ledPin (config_ n), led_state_ n)]) w)
            else (n, w) in
          let n := set_last_heartbeat_ms_ now n in
          let n := set_net_backoff_ms_ kInitialBackoffMs n in
          (true, (set_next_net_action_ms_
                    (u32 (now + heartbeatIntervalMs (config_ n))) n, w))
    end.

(** *** Wi-Fi *)

(** [scheduleNextWiFi(delayMs)] *)
Definition scheduleNextWiFi (delayMs : Z) (n : node) (w : world) : node :=
  let now := millis w in
  let delay := if delayMs =? 0 then wifi_backoff_ms_ n else delayMs in
  let n := set_next_wifi_action_ms_ (u32 (now + delay)) n in
  set_wifi_backoff_ms_ (Z.min (u32 (wifi_backoff_ms_ n * 2)) kMaxBackoffMs) n.

(** [ensureWiFi]: true when the radio is connected; a reconnection is
    started when one is due. *)
Definition ensureWiFi (n : node) (w : world) : bool * (node * world) :=
  if w_wifi w then (true, (set_wifi_backoff_ms_ kInitialBackoffMs n, w))
  else
    let now := millis w in
    if now <? next_wifi_action_ms_ n then (false, (n, w))
    else if negb (nonempty (wifi_ssid_ n)) || negb (nonempty (wifi_password_ n)) then
      let '(n, w) := setLastError ErrWifiCredentials n w in
      (false, (scheduleNextWiFi kInitialBackoffMs n w, w))
    else
      let w := set_w_wifi_begins
                 (w_wifi_begins w ++ [(wifi_ssid_ n, wifi_password_ n)]) w in
      (false, (scheduleNextWiFi 0 n w, w)).

(** *** The loop *)

Definition kWsHeartbeatIntervalMs : Z := 30000.

(** The member functions the loop calls whose bodies are not embedded: the
    HTTP exchanges of hello, session poll, command pull and registration,
    and the WebSocket client with the tunnel's frames. What they do is a
    parameter of the loop. *)
Record callees : Type := Build_callees {
  sendHello : node -> world -> bool * (node * world);
  pollSession : node -> world -> bool * (node * world);
  pullCommands : node -> world -> bool * (node * world);
  registerBySlot : node -> world -> bool * (node * world);
  registerByPairing : node -> world -> bool * (node * world);
  ws_client_loop : node -> world -> node * world;   (* ws_client_.loop() *)
  connectTunnelWs : Z -> node -> world -> bool * (node * world);
  sendHeartbeatFrame : node -> world -> bool * (node * world)
}.

(** [scheduleRegisterRetry(now)] *)
Definition scheduleRegisterRetry (now : Z) (n : node) : node :=
  let delay := if register_backoff_ms_ n =? 0 then kInitialBackoffMs
               else register_backoff_ms_ n in
  let n := set_next_register_action_ms_ (u32 (now + delay)) n in
  set_register_backoff_ms_
    (Z.min (if register_backoff_ms_ n =? 0 then kInitialBackoffMs
            else u32 (register_backoff_ms_ n * 2)) kMaxBackoffMs) n.

Definition is_some {A} (p : option A) : bool :=
  match p with Some _ => true | None => false end.

(** [registerNodeIfNeeded(now)]; [config_.slotId] is not null. *)
Definition registerNodeIfNeeded (c : callees) (now : Z) (n : node) (w : world)
  : bool * (node * world) :=
  if negb (enableNodeRegistration (config_ n)) then (true, (n, w))
  else if is_registered_ n then (true, (n, w))
  else if now <? next_register_action_ms_ n then (false, (n, w))
  else
    let '(attempted, (success, (n, w))) :=
      if preferRegisterBySlot (config_ n) then
        let '(attempted, (success, (n, w))) :=
          if is_some (loginToken (config_ n))
          then (true, registerBySlot c n w) else (false, (false, (n, w))) in
        if negb success && is_some (pairingCode (config_ n))
        then (true, registerByPairing c n w) else (attempted, (success, (n, w)))
      else
        let '(attempted, (success, (n, w))) :=
          if is_some (pairingCode (config_ n))
          then (true, registerByPairing c n w) else (false, (false, (n, w))) in
        if negb success && is_some (loginToken (config_ n))
        then (true, registerBySlot c n w) else (attempted, (success, (n, w))) in
    if negb attempted then
      let '(n, w) := setLastError ErrRegisterMethod n w in
      (false, (scheduleRegisterRetry now n, w))
    else if success then
      let n := set_register_backoff_ms_
                 (if registerRetryMs (config_ n) =? 0 then kInitialBackoffMs
                  else registerRetryMs (config_ n)) n in
      let n := set_next_register_action_ms_ now n in
      let n := set_is_registered_ true n in
      let w := if nonempty (node_id_ n)
               then set_w_registered (w_registered w ++ [node_id_ n]) w else w in
      (true, (n, w))
    else (false, (scheduleRegisterRetry now n, w)).

(** [processActive(now)] *)
Definition processActive (c : callees) (now : Z) (n : node) (w : world)
  : node * world :=
  let '(_, (n, w)) := registerNodeIfNeeded c now n w in
  let '(n, w) :=
    if enableTunnel (config_ n) then
      let '(_, (n, w)) := connectTunnelWs c now n w in
      if ws_connected_ n
         && (kWsHeartbeatIntervalMs <=? u32 (now - ws_last_heartbeat_ms_ n))
      then snd (sendHeartbeatFrame c n w) else (n, w)
    else (n, w) in
  let '(n, w) :=
    if next_net_action_ms_ n <=? now then snd (sendHeartbeat n w) else (n, w) in
  if enableCommandPolling (config_ n) then
    let commandDelay :=
      if commandPollIntervalMs (config_ n) =? 0
      then heartbeatIntervalMs (config_ n) else commandPollIntervalMs (config_ n) in
    if next_command_action_ms_ n <=? now then
      let '(_, (n, w)) := pullCommands c n w in
      (set_next_command_action_ms_ (u32 (now + commandDelay)) n, w)
    else (n, w)
  else (n, w).

(** [loopTick] *)
Definition loopTick (c : callees) (n : node) (w : world) : node * world :=
  let now := millis w in
  let '(_, (n, w)) := ensureWiFi n w in
  let '(n, w) :=
    if enableTunnel (config_ n) then
      let '(n, w) := ws_client_loop c n w in
      if negb (ws_connected_ n) then snd (connectTunnelWs c now n w) else (n, w)
    else (n, w) in
  if State_eqb (state_ n) ERROR then (n, w)
  else
    let '(n, w) :=
      if State_eqb (state_ n) BOOT && w_wifi w then
        let '(n, w) := transitionTo HELLO n w in
        (set_next_net_action_ms_ now n, w)
      else (n, w) in
    let '(n, w) :=
      if State_eqb (state_ n) ACTIVE && (negb (isSessionValid n w) || negb (w_wifi w))
      then
        let n := clearSession n in
        let '(n, w) := transitionTo HELLO n w in
        (set_next_net_action_ms_ now n, w)
      else (n, w) in
    if negb (w_wifi w) then (n, w)
    else
      match state_ n with
      | HELLO =>
          if next_net_action_ms_ n <=? now then snd (sendHello c n w) else (n, w)
      | PENDING_POLL =>
          if next_net_action_ms_ n <=? now then snd (pollSession c n w) else (n, w)
      | ACTIVE => processActive c now n w
      | _ => (n, w)
      end.

End Simple.

(** ** Helpers and accessors of the richest implementation *)

Module NodeAux.
Import Json Node.

(** [TunnelHttpRequest::getHeader(key)]: the value of the first header
    whose key is [key]; [None] is [nullptr]. *)
Fixpoint find_header (key : string) (hs : list (string * string)) : option string :=
  match hs with
  | [] => None
  | (k, v) :: r => if String.eqb key k then Some v else find_header key r
  end.

Definition getHeader (req : TunnelHttpRequest) (key : option string) : option string :=
  match key with
  | None => None
  | Some k => find_header k (headers req)
  end.

(** The request [tunnelHandleProxyRequest] hands to the handler. *)
Definition proxyRequest (doc : jval) (n : node) : TunnelHttpRequest :=
  let reqId := str_or (alt (member doc "request_id") (member doc "req_id")) EmptyString in
  let bodyB64 := str_or (member doc "body") EmptyString in
  Build_Request reqId reqId (nodeId_ n)
    (str_or (member doc "method") "GET") (str_or (member doc "path") "/")
    (str_or (member doc "query") EmptyString)
    (if nonempty bodyB64 then Base64.base64Decode (codes bodyB64) else [])
    match member doc "headers" with
    | Some (JObj fs) => request_headers fs []
    | _ => []
    end.

(** [maskPairingForLog(s, buf, bufLen)]: the contents of [buf]
    ([bufLen] > 0). "%.2s**%s" keeps the first two and the last two
    characters. *)
Definition maskPairingForLog (s : option string) (bufLen : nat) : string :=
  match s with
  | None => EmptyString
  | Some s =>
      let len := String.length s in
      if Nat.eqb len 0 then EmptyString
      else if Nat.leb len 2 then strncpy (bufLen - 1) "**"
      else if Nat.eqb len 3 then strncpy (bufLen - 1) (String.substring 0 1 s ++ "**")
      else strncpy (bufLen - 1)
             (String.substring 0 2 s ++ "**" ++ String.substring (len - 2) 2 s)
  end.

(** [logBodyPreview]: the characters printed after "preview=", for a body
    of [len] characters. *)
Definition preview_char (c : Z) : Z :=
  if (c =? 13) || (c =? 10) then 32
  else if (32 <=? c) && (c <? 127) then c
  else 46.

Definition logBodyPreview (body : list Z) : list Z :=
  map preview_char (firstn 200 body)
  ++ (if Nat.ltb 200 (List.length body) then [46; 46; 46] else []).

(** [setSessionToken(token)] *)
Definition setSessionToken (token : option string) (n : node) : node :=
  match token with
  | None => set_sessionExpiresAt_ EmptyString (set_sessionToken_ EmptyString n)
  | Some t => set_sessionToken_ (strncpy 255 t) n
  end.

(** [setSessionExpiresAt(expiresAt)] *)
Definition setSessionExpiresAt (expiresAt : option string) (n : node) : node :=
  match expiresAt with
  | None => set_sessionExpiresAt_ EmptyString n
  | Some e => set_sessionExpiresAt_ (strncpy 31 e) n
  end.

(** [tunnelDisconnect()] *)
Definition tunnelDisconnect (n : node) (w : world) : node * world :=
  tunnelDisconnectCleanup n (set_w_ws None w).

End NodeAux.

(** ** Helpers of the simpler implementation *)

Module SimpleAux.
Import Json Node.

(** [getNodeName()] *)
Definition getNodeName (n : Simple.node) (w : Simple.world) : string :=
  or_empty (Simple.node_name_ptr_ (Simple.ensureIdentityInitialized n w)).

(** What [parseTunnelUrl] writes through its four references. *)
Record tunnel_target : Type := Build_target {
  t_host : string;
  t_port : Z;   (* uint16_t *)
  t_path : string;
  t_secure : bool
}.

Section ParseTunnelUrl.

(** [String::toInt] of the Arduino core. *)
Variable toInt : string -> Z.

(** [parseTunnelUrl(raw, host, port, path, secure)]: the value returned and
    the four references, [out] being what they held before. *)
Definition parseTunnelUrl (raw : option string) (out : tunnel_target)
  : bool * tunnel_target :=
  match raw with
  | None => (false, out)
  | Some raw =>
      if negb (nonempty raw) then (false, out)
      else
        let '(secure, url) :=
          if String.prefix "wss://" raw then (true, skip 6 raw)
          else if String.prefix "ws://" raw then (false, skip 5 raw)
          else if String.prefix "wss:" raw then
            let url := skip 4 raw in
            (true, if String.prefix "//" url then skip 2 url else url)
          else (false, raw) in
        let '(host, path) :=
          match strchr url "/" with
          | Some i => (String.substring 0 i url, skip i url)
          | None => (url, "/")
          end in
        let '(host, port) :=
          match strchr host ":" with
          | Some i => (String.substring 0 i host, toInt (skip (S i) host) mod 65536)
          | None => (host, if secure then 443 else 80)
          end in
        (Nat.ltb 0 (String.length host), Build_target host port path secure)
  end.

End ParseTunnelUrl.

End SimpleAux.

(** * Vocabulary of the properties *)

Import Json Node.

(** What [setState] leaves alone. *)
Definition same_session (n n' : node) : Prop :=
  cfg_ n' = cfg_ n /\
  sessionToken_ n' = sessionToken_ n /\ sessionExpiresAt_ n' = sessionExpiresAt_ n /\
  pairingCode_ n' = pairingCode_ n /\ pairingCodeValid_ n' = pairingCodeValid_ n /\
  nextHelloMs_ n' = nextHelloMs_ n /\ netBackoffMs_ n' = netBackoffMs_ n /\
  httpBusy_ n' = httpBusy_ n.


(** The time from now to the next hello, and a hello that failed to
    connect. *)
Definition hello_delta (n' : node) (w : world) : Z := u32 (nextHelloMs_ n' - millis w).

Definition hello_fail (n : node) (w : world) : node :=
  fst (handleHelloResponse (-1) EmptyString None n w).

Definition next_backoff (b : Z) : Z :=
  if kBackoffMaxMs <? u32 (b * 2) then kBackoffMaxMs else u32 (b * 2).

(** The posts a step adds. *)
Definition adds (w w' : world) (l : list exchange) : Prop :=
  w_posts w' = (w_posts w ++ l)%list.

Definition one_of (ep : endpoint) (l : list exchange) : Prop :=
  l = [] \/ exists x, l = [x] /\ x_endpoint x = ep.

Definition is_auth_status (s : Z) : bool := (s =? 401) || (s =? 403) || (s =? 410).

Inductive session_call : Type := CallSessionPoll | CallApprove.

Definition attempt (c : session_call) : node -> world -> node * world :=
  match c with
  | CallSessionPoll => trySessionPoll
  | CallApprove => tryApprove
  end.

Definition back_to_hello (n n' : node) (w' : world) : Prop :=
  sessionToken_ n' = EmptyString /\ pairingCode_ n' = EmptyString /\
  pairingCodeValid_ n' = false /\
  state_ n' = HELLO /\
  netBackoffMs_ n' = next_backoff (netBackoffMs_ n) /\
  nextHelloMs_ n' = u32 (millis w' + netBackoffMs_ n').

(** What an attempt whose exchange failed leaves as it was. *)
Definition standing (n n' : node) : Prop :=
  state_ n' = state_ n /\ sessionToken_ n' = sessionToken_ n /\
  pairingCode_ n' = pairingCode_ n /\ pairingCodeValid_ n' = pairingCodeValid_ n.

(** The node is back where it says hello: no session, no pairing code. *)
Definition hello_again (n : node) : Prop :=
  sessionToken_ n = EmptyString /\ pairingCode_ n = EmptyString /\
  pairingCodeValid_ n = false /\ state_ n = HELLO.

(** The first exchange of a log, if any, goes to [ep]. *)
Definition first_is (ep : endpoint) (l : list exchange) : Prop :=
  match l with [] => True | x :: _ => x_endpoint x = ep end.

Definition endpoint_eqb (a b : endpoint) : bool :=
  match a, b with
  | EpHello, EpHello | EpPair, EpPair | EpApprove, EpApprove
  | EpSessionRefresh, EpSessionRefresh | EpSessionPoll, EpSessionPoll
  | EpRegisterBySlot, EpRegisterBySlot => true
  | _, _ => false
  end.

(** The endpoints a tick may POST to, in the order it tries them. *)
Definition tick_endpoints (s : State) : list endpoint :=
  match s with
  | BOOT => [EpSessionRefresh]
  | HELLO => [EpHello]
  | PAIR_SUBMIT => [EpPair]
  | PENDING_POLL => [EpRegisterBySlot; EpApprove; EpSessionPoll]
  | _ => []
  end.

Fixpoint subseq (a b : list endpoint) : bool :=
  match b with
  | [] => match a with [] => true | _ => false end
  | y :: b' =>
      match a with
      | [] => true
      | x :: a' => if endpoint_eqb x y then subseq a' b' else subseq a b'
      end
  end.

(** The session-bearing exchange was answered 401, 403 or 410. *)
Definition auth_failed (x : exchange) : bool :=
  match x_endpoint x, x_reply x with
  | (EpApprove | EpSessionPoll), Some r =>
      r_connected r && nonempty (r_body r) && is_auth_status (r_status r)
  | _, _ => false
  end.

(** In a log of exchanges, every auth failure is directly followed by a
    hello request (or by nothing yet). *)
Fixpoint hello_follows_auth_failure (log : list exchange) : bool :=
  match log with
  | [] => true
  | x :: rest =>
      (if auth_failed x
       then match rest with
            | [] => true
            | y :: _ => endpoint_eqb (x_endpoint y) EpHello
            end
       else true) && hello_follows_auth_failure rest
  end.

Definition tick_shape (s : State) (l : list exchange) : Prop :=
  match s with
  | BOOT => one_of EpSessionRefresh l
  | HELLO => one_of EpHello l
  | PAIR_SUBMIT => one_of EpPair l
  | PENDING_POLL =>
      exists l1 l2 l3, l = (l1 ++ l2 ++ l3)%list /\ one_of EpRegisterBySlot l1 /\
                       one_of EpApprove l2 /\ one_of EpSessionPoll l3
  | _ => l = []
  end.

(** The frames a step hands to the socket. *)
Definition sends (w w' : world) (l : list jval) : Prop :=
  w_sent w' = (w_sent w ++ l)%list.

(** What one call leaves of the writer's invariant. *)
Definition writer_inv (r : TunnelHttpResponseWriter) : Prop := bodyLen_ r <= kBodySize.

(** The correlation id a response to the inbound frame [doc] carries: the
    member name and its value; [None] when the frame gets no response. *)
Definition correlation_echo (doc : jval) : option (string * jval) :=
  if containsKey doc "id" && containsKey doc "path" then
    Some ("id", if is_str (member doc "id") then JStr (str_or (member doc "id") EmptyString)
                else JInt (as_long (member doc "id")))
  else
    let type := str_or (member doc "type") EmptyString in
    if String.eqb type "HTTP_REQ" then
      let sid := str_or (member doc "stream_id") EmptyString in
      if nonempty sid then Some ("stream_id", JStr sid) else None
    else if String.eqb type "proxy_request" then
      Some ("request_id",
            JStr (strncpy 47 (str_or (alt (member doc "request_id")
                                          (member doc "req_id")) EmptyString)))
    else None.

Definition echoes (doc : jval) (l : list jval) : Prop :=
  match correlation_echo doc with
  | None => l = []
  | Some (k, v) => forall f, In f l -> member f k = Some v
  end.




Definition tunnel_state (s : Node.State) : bool :=
  match s with
  | Node.ACTIVE | Node.TUNNEL_CONNECTING | Node.TUNNEL_CONNECTED => true
  | _ => false
  end.

(** The MAC as twelve lower-case hexadecimal digits. *)
Definition mac_hex_lower (m : list Z) : string :=
  let b i := nth i m 0 mod 256 in
  hex_fixed false 2 (b 0%nat) ++ hex_fixed false 2 (b 1%nat) ++
  hex_fixed false 2 (b 2%nat) ++ hex_fixed false 2 (b 3%nat) ++
  hex_fixed false 2 (b 4%nat) ++ hex_fixed false 2 (b 5%nat).

(** An upper-case hexadecimal digit: 0 to 9 or A to F. *)
Definition is_upper_hex (c : ascii) : bool :=
  let k := Z.of_N (N_of_ascii c) in
  ((48 <=? k) && (k <=? 57)) || ((65 <=? k) && (k <=? 70)).

(** [pairs] pairs of upper-case hexadecimal digits with a colon between
    one pair and the next: XX:XX:XX:XX:XX:XX for six. *)
Fixpoint mac_shaped (pairs : nat) (s : string) : bool :=
  match pairs, s with
  | 1%nat, String a (String b EmptyString) => is_upper_hex a && is_upper_hex b
  | S k, String a (String b (String c r)) =>
      is_upper_hex a && is_upper_hex b && Ascii.eqb c ":" && mac_shaped k r
  | _, _ => false
  end.

(** The chip id as the simpler implementation prints it. *)
Definition chip_hex (w : Simple.world) : string :=
  match Simple.w_platform w with
  | Simple.ESP8266 => hex_plain 8 (u32 (Simple.w_chip_id w))
  | Simple.ESP32 => hex_plain 16 (Simple.w_chip_id w mod 18446744073709551616)
  end.

(** The prefix the simpler implementation puts in front. *)
Definition simple_prefix (c : Simple.Config) : string :=
  if is_set (Simple.machineIdPrefix c) then or_empty (Simple.machineIdPrefix c)
  else if is_set (Simple.machineId c) then or_empty (Simple.machineId c)
  else EmptyString.

Module Samples.
Import Node.

(** Hub https://h, slot s1, self-approve on, tunnel on. *)
Definition cfg_self_approve : Config :=
  Build_Config (Some "https://h") (Some "s1") None None 5000 (-1) None None true true
               true 0 false true (Some "/api/device/approve") 0 None None 0 false.

(** The same with register-by-slot preferred and a login token. *)
Definition cfg_by_slot : Config :=
  Build_Config (Some "https://h") (Some "s1") None None 5000 (-1) None None true true
               true 0 true true (Some "/api/device/approve") 0 None (Some "login") 0 false.

Definition mac_aabb : list Z := [170; 187; 204; 221; 238; 255].

Definition world_with (replies : list http_reply) : world :=
  Build_world 50 true mac_aabb None [] replies [] None [] false [] [] [].

Definition reply (status : Z) (doc : jval) : http_reply :=
  Build_reply true status (text doc) (Some doc) 10.

Definition hello_pending : jval :=
  JObj [("status", JStr "PENDING"); ("retry_after_ms", JInt 1000);
        ("pairing_code", JStr "ABC")].

Definition granted : jval :=
  JObj [("status", JStr "granted"); ("session_token", JStr "tok");
        ("node_id", JStr "n1")].

Definition session_granted : jval :=
  JObj [("status", JStr "GRANTED"); ("session_token", JStr "tok")].

Definition now_ : tick_input := Build_tick_input 0 true.
Definition later (ms : Z) : tick_input := Build_tick_input ms true.

(** Boot, hello answered PENDING with a pairing code: PENDING_POLL. *)
Definition pending_after (c : Config) (then_ : list http_reply) : node * world :=
  run [now_; now_] (new_node c) (world_with (reply 200 hello_pending :: then_)).

(** Approve answered 401 and the session poll, due in the same tick, answered
    with a session. *)
Definition approve_rejected : node * world :=
  pending_after cfg_self_approve
    [reply 401 (JObj [("error", JStr "expired")]); reply 200 session_granted].

(** Register-by-slot, approve and the session poll all due, the first two
    answered 500. *)
Definition all_three_due : node * world :=
  pending_after cfg_by_slot
    [reply 500 (JObj [("error", JStr "a")]);
     reply 500 (JObj [("error", JStr "b")]);
     reply 200 (JObj [("status", JStr "PENDING")])].

(** Approve answered with a session: ACTIVE. *)
Definition active_node : node * world :=
  run [now_; now_; later 500] (new_node cfg_self_approve)
      (world_with [reply 200 hello_pending; reply 200 granted]).

(** A connected tunnel. *)
Definition tunnel_up : world :=
  Build_world 50 true mac_aabb None [] [] [] (Some true) [] false [] [] [].

Definition long_id : string := "0123456789abcdef0123456789abcdef0123456789abcdef".

Definition proxy_request_doc (id path body : string) : jval :=
  JObj [("type", JStr "proxy_request"); ("request_id", JStr id);
        ("method", JStr "POST"); ("path", JStr path); ("body", JStr body)].

Definition frame (doc : jval) : payload := Build_payload (text doc) (Some doc).

(** 5460 base64 digits: 4095 bytes. *)
Definition body_4095 : string := string_of_list_ascii (repeat "A"%char (Z.to_nat 5460)).

(** A world whose next exchange fails to connect. *)
Definition unreachable : world :=
  world_with [Build_reply false 0 EmptyString None 10].

(** The simpler implementation: an ACTIVE node with a session, and a Hub
    that answers the heartbeat with a new time to live. *)
Definition simple_cfg : Simple.Config :=
  Simple.Build_Config "https://h" "s1" "1.0.0" [Some "heartbeat"] 5000 2 false
                      (Some "node-") None None None true true
                      false 10000 None None false 0 false false.

Definition simple_node : Simple.node :=
  Simple.Build_node simple_cfg Simple.ACTIVE "net" "secret" 0 0 0 1000 1000 1000 0 0 0
                    "tok" EmptyString true None false false 0 None None.

Definition ttl_reply : Simple.http_reply :=
  Simple.Build_reply 200 20 true (Some (JObj [("ttl_seconds", JInt 60)])) false
                     EmptyString None 15.

Definition simple_world : Simple.world :=
  Simple.Build_world 7000 true (Some mac_aabb) Simple.ESP8266 1193046 (-60) 30000 [1; 2]
                     true [ttl_reply] [] [] [] [] [] [].

(** Approve answered 401 with an empty body. *)
Definition approve_bare_401 : node * world :=
  pending_after cfg_self_approve [Build_reply true 401 EmptyString None 10].



(** A 401 whose body is no JSON. *)
Definition bare_unauthorized : Simple.http_reply :=
  Simple.Build_reply 401 12 true None false "Unauthorized" None 15.

(** A handler that answers 404. *)
Definition not_found_handler : HttpRequestCallback :=
  fun _ => [CallSetStatus 404; CallSetHeader (Some "Content-Type") (Some "text/plain");
            CallWriteStr (Some "not found"); CallEnd].

Definition builtin_body (id : string) : string :=
  "{" ++ dquote ++ "ok" ++ dquote ++ ":true," ++ raw_member "request_id" id ++ "}".

End Samples.

(** * Vocabulary of the further properties *)

(** The capability strings of a list, nulls left out, one after the
    other. *)
Fixpoint caps_text (caps : list (option string)) : string :=
  match caps with
  | [] => EmptyString
  | None :: r => caps_text r
  | Some s :: r => s ++ caps_text r
  end.

(** The length of the host part. *)
Definition host_len (p : string) : nat :=
  match strchr p ":", strchr p "/" with
  | Some a, None => a
  | Some a, Some b => if Nat.ltb a b then a else b
  | None, Some b => b
  | None, None => String.length p
  end.

(** The URL after its http(s) scheme, as [parseBaseUrl] reads on from. *)
Definition after_scheme (base : string) : string :=
  if String.prefix "https://" base then skip 8 base
  else if String.prefix "http://" base then skip 7 base
  else base.

(** Every string member is within its buffer. *)
Definition buffers_fit (n : node) : Prop :=
  slen (nodeId_ n) <= 63 /\ slen (nodeToken_ n) <= 255 /\
  slen (tunnelUrl_ n) <= 255 /\ slen (tunnelId_ n) <= 63 /\
  slen (sessionToken_ n) <= 255 /\ slen (sessionExpiresAt_ n) <= 31 /\
  slen (pairingCode_ n) <= 31 /\ slen (pairingExpiresAt_ n) <= 31.

(** The backoffs are within their bounds and the tunnel backoff is the
    entry of the table its index names. *)
Definition backoffs_ok (n : node) : Prop :=
  kBackoffMinMs <= netBackoffMs_ n <= kBackoffMaxMs /\
  kBackoffMinMs <= pairBackoffMs_ n <= kBackoffMaxMs /\
  0 <= tunnelBackoffIndex_ n < kTunnelBackoffSteps /\
  tunnelBackoffMs_ n = nth (Z.to_nat (tunnelBackoffIndex_ n)) kTunnelBackoffMs 0.

(** The pairing code is marked valid exactly when there is one. *)
Definition pairing_ok (n : node) : Prop :=
  pairingCodeValid_ n = nonempty (pairingCode_ n).

Definition well_formed (n : node) : Prop :=
  buffers_fit n /\ backoffs_ok n /\ pairing_ok n.

(** The pair backoff after [advancePairBackoff]. *)
Definition next_pair_backoff (b : Z) : Z :=
  if b <? kBackoffMaxMs / 2 then u32 (b * 2) else kBackoffMaxMs.

(** The node is in ACTIVE or in one of the two tunnel states. *)
Definition in_tunnel (n : node) : Prop := tunnel_state (state_ n) = true.

(** A header within the 24 and 80 bytes of [TunnelHttpHeader]. *)
Definition header_fits (h : string * string) : Prop :=
  (String.length (fst h) <= 23)%nat /\ (String.length (snd h) <= 79)%nat.

(** A header table within its [TUNNEL_MAX_HEADERS] entries. *)
Definition headers_fit (hs : list (string * string)) : Prop :=
  (List.length hs <= TUNNEL_MAX_HEADERS)%nat /\ Forall header_fits hs.

(** What it takes for [tunnelLoop] to open the socket. *)
Definition may_connect (n : node) (w : world) : Prop :=
  tunnel_state (state_ n) = true /\ enableTunnel (cfg_ n) = true /\
  nonempty (sessionToken_ n) = true /\
  (String.prefix "wss://" (tunnelUrl_ n) = true \/
   String.prefix "ws://" (tunnelUrl_ n) = true) /\
  nextTunnelConnectMs_ n <= millis w.

(** Not registered with the tunnel and not in TUNNEL_CONNECTED. *)
Definition quiet (n : node) : Prop :=
  tunnelRegistered_ n = false /\ state_ n <> TUNNEL_CONNECTED.

(** Registered with the tunnel exactly in TUNNEL_CONNECTED. *)
Definition paired (n : node) : Prop :=
  tunnelRegistered_ n = true <-> state_ n = TUNNEL_CONNECTED.

Definition linked (n : node) (w : world) : Prop :=
  paired n /\ (state_ n = TUNNEL_CONNECTED -> w_ws w <> None).

(** The network backoff within its bounds. *)
Definition simple_backoff_ok (n : Simple.node) : Prop :=
  Simple.kInitialBackoffMs <= Simple.net_backoff_ms_ n <= Simple.kMaxBackoffMs.

(** In ACTIVE or a tunnel state, without session token and without
    socket. *)
Definition stranded (n : node) (w : world) : Prop :=
  in_tunnel n /\ nonempty (sessionToken_ n) = false /\ w_ws w = None.

(** The node still runs on the configuration [c]. *)
Definition configured (c : Config) (n : node) : Prop := cfg_ n = c.

(** From [w] to [w'] only the LED pin of [c] was written, and no pin at
    all when [c] names none. *)
Definition led_writes_only (c : Config) (w w' : world) : Prop :=
  exists l, w_pins w' = (w_pins w ++ l)%list /\
            Forall (fun x => fst x = ledPin c /\ 0 <= ledPin c) l.

(** The state of the node is one of [L]. *)
Definition state_in (L : list State) (n : node) : Prop := In (state_ n) L.

(** The states one tick may lead to. *)
Definition next_states (s : State) : list State :=
  match s with
  | BOOT => [BOOT; HELLO; ACTIVE]
  | HELLO => [HELLO; PAIR_SUBMIT; PENDING_POLL; ERROR]
  | PAIR_SUBMIT => [PAIR_SUBMIT; HELLO; ACTIVE]
  | PENDING_POLL => [PENDING_POLL; HELLO; ACTIVE; ERROR]
  | GRANTED => [GRANTED; ACTIVE]
  | ACTIVE | TUNNEL_CONNECTING | TUNNEL_CONNECTED =>
      [ACTIVE; TUNNEL_CONNECTING; TUNNEL_CONNECTED]
  | ERROR => [ERROR; HELLO]
  end.

(** A node in PAIR_SUBMIT that holds the pairing code ABC. *)
Definition pairing_node : node :=
  set_state_ PAIR_SUBMIT
    (set_pairingCodeValid_ true (set_pairingCode_ "ABC" (new_node Samples.cfg_self_approve))).

(** * Properties *)

Module Base64Facts.
Import Base64.

Lemma range_forallb (P : Z -> bool) (n : nat) :
  forallb P (map Z.of_nat (seq 0 n)) = true ->
  forall x, 0 <= x < Z.of_nat n -> P x = true.
Proof.
  intros H x Hx.
  rewrite forallb_forall in H. apply H.
  apply in_map_iff. exists (Z.to_nat x). split; [lia|].
  apply in_seq. lia.
Qed.

Lemma classify_tbl d : 0 <= d < 64 -> classify (tbl d) = Digit d.
Proof.
  intros Hd.
  pose (P := fun d => match classify (tbl d) with
                      | Digit d' => d' =? d | _ => false end).
  assert (HP : P d = true).
  { apply (range_forallb P 64); [vm_compute; reflexivity | exact Hd]. }
  unfold P in HP. destruct (classify (tbl d)); try discriminate.
  apply Z.eqb_eq in HP. now subst.
Qed.

End Base64Facts.
Import Base64Facts.

Module Base64Round.
Import Base64 Base64Facts.

(** The four sextets of a group, as arithmetic on the three bytes. *)
Lemma sextet0 b0 : is_byte b0 -> Z.land (Z.shiftr b0 2) 63 = b0 / 4.
Proof.
  intros H. change 63 with (Z.ones 6). rewrite Z.land_ones by lia.
  rewrite Z.shiftr_div_pow2 by lia. change (2 ^ 2) with 4. change (2 ^ 6) with 64.
  unfold is_byte in H. apply Z.mod_small. split.
  - apply Z.div_pos; lia.
  - apply Z.div_lt_upper_bound; lia.
Qed.

Lemma pairs_forallb (P : Z -> Z -> bool) :
  forallb (fun x => forallb (P x) (map Z.of_nat (seq 0 256)))
          (map Z.of_nat (seq 0 256)) = true ->
  forall x y, is_byte x -> is_byte y -> P x y = true.
Proof.
  intros H x y Hx Hy.
  pose proof (range_forallb _ 256 H x Hx) as H1. cbv beta in H1.
  exact (range_forallb _ 256 H1 y Hy).
Qed.

Lemma sextet1 b0 b1 : is_byte b0 -> is_byte b1 ->
  Z.lor (Z.shiftl (Z.land b0 3) 4) (Z.shiftr b1 4) = (b0 mod 4) * 16 + b1 / 16.
Proof.
  intros H0 H1. apply Z.eqb_eq.
  apply (pairs_forallb (fun x y =>
     Z.lor (Z.shiftl (Z.land x 3) 4) (Z.shiftr y 4) =? (x mod 4) * 16 + y / 16));
    [vm_compute; reflexivity | assumption | assumption].
Qed.

Lemma sextet2 b1 b2 : is_byte b1 -> is_byte b2 ->
  Z.lor (Z.shiftl (Z.land b1 15) 2) (Z.shiftr b2 6) = (b1 mod 16) * 4 + b2 / 64.
Proof.
  intros H0 H1. apply Z.eqb_eq.
  apply (pairs_forallb (fun x y =>
     Z.lor (Z.shiftl (Z.land x 15) 2) (Z.shiftr y 6) =? (x mod 16) * 4 + y / 64));
    [vm_compute; reflexivity | assumption | assumption].
Qed.

Lemma sextet3 b2 : is_byte b2 -> Z.land b2 63 = b2 mod 64.
Proof. intros _. change 63 with (Z.ones 6). now rewrite Z.land_ones by lia. Qed.

Lemma sextet1_tail b0 : is_byte b0 -> Z.shiftl (Z.land b0 3) 4 = (b0 mod 4) * 16.
Proof.
  intros _. change 3 with (Z.ones 2). rewrite Z.land_ones by lia.
  now rewrite Z.shiftl_mul_pow2 by lia.
Qed.

Lemma sextet2_tail b1 : is_byte b1 -> Z.shiftl (Z.land b1 15) 2 = (b1 mod 16) * 4.
Proof.
  intros _. change 15 with (Z.ones 4). rewrite Z.land_ones by lia.
  now rewrite Z.shiftl_mul_pow2 by lia.
Qed.

(** One decoder step on a character of the alphabet. *)
Lemma decode_digit d rest val valb out : 0 <= d < 64 ->
  decode_loop (tbl d :: rest) val valb out =
  let val' := int32 (val * 64 + d) in
  if 0 <=? valb + 6
  then decode_loop rest val' (valb + 6 - 8) (out ++ [(val' / 2 ^ (valb + 6)) mod 256])
  else decode_loop rest val' (valb + 6) out.
Proof.
  intros Hd. cbn [decode_loop]. rewrite (classify_tbl d Hd). cbv zeta.
  rewrite Z.shiftl_mul_pow2 by lia. change (2 ^ 6) with 64.
  destruct (0 <=? valb + 6) eqn:E; [|reflexivity].
  apply Z.leb_le in E.
  rewrite Z.shiftr_div_pow2 by lia.
  change 255 with (Z.ones 8). rewrite Z.land_ones by lia. reflexivity.
Qed.

Lemma decode_pad rest val valb out : decode_loop (pad :: rest) val valb out = out.
Proof. reflexivity. Qed.

End Base64Round.
Import Base64Round.

Module Base64Inverse.
Import Base64 Base64Facts Base64Round.
#[local] Open Scope list_scope.

Lemma byte_hi v d0 d1 b0 b1 :
  is_byte b0 -> is_byte b1 -> d0 = b0 / 4 -> d1 = (b0 mod 4) * 16 + b1 / 16 ->
  (int32 (int32 (v * 64 + d0) * 64 + d1) / 2 ^ 4) mod 256 = b0.
Proof.
  unfold is_byte, int32. intros H0 H1 -> ->. change (2 ^ 4) with 16.
  Z.div_mod_to_equations; lia.
Qed.

Lemma byte_mid w d1 d2 b0 b1 b2 :
  is_byte b0 -> is_byte b1 -> is_byte b2 ->
  d1 = (b0 mod 4) * 16 + b1 / 16 -> d2 = (b1 mod 16) * 4 + b2 / 64 ->
  (int32 (int32 (w * 64 + d1) * 64 + d2) / 2 ^ 2) mod 256 = b1.
Proof.
  unfold is_byte, int32. intros H0 H1 H2 -> ->. change (2 ^ 2) with 4.
  Z.div_mod_to_equations; lia.
Qed.

Lemma byte_lo w d2 d3 b1 b2 :
  is_byte b1 -> is_byte b2 ->
  d2 = (b1 mod 16) * 4 + b2 / 64 -> d3 = b2 mod 64 ->
  (int32 (int32 (w * 64 + d2) * 64 + d3) / 2 ^ 0) mod 256 = b2.
Proof.
  unfold is_byte, int32. intros H1 H2 -> ->. change (2 ^ 0) with 1.
  Z.div_mod_to_equations; lia.
Qed.

Lemma sextet_ranges b0 b1 b2 : is_byte b0 -> is_byte b1 -> is_byte b2 ->
  0 <= b0 / 4 < 64 /\ 0 <= (b0 mod 4) * 16 + b1 / 16 < 64 /\
  0 <= (b1 mod 16) * 4 + b2 / 64 < 64 /\ 0 <= b2 mod 64 < 64 /\
  0 <= (b0 mod 4) * 16 < 64 /\ 0 <= (b1 mod 16) * 4 < 64.
Proof. unfold is_byte. intros. Z.div_mod_to_equations. lia. Qed.

Lemma decode_group b0 b1 b2 rest v out :
  is_byte b0 -> is_byte b1 -> is_byte b2 ->
  exists v',
    decode_loop (base64Encode (b0 :: b1 :: b2 :: rest)) v (-8) out =
    decode_loop (base64Encode rest) v' (-8) (out ++ [b0; b1; b2]).
Proof.
  intros H0 H1 H2.
  destruct (sextet_ranges b0 b1 b2 H0 H1 H2) as (R0 & R1 & R2 & R3 & _ & _).
  cbn [base64Encode].
  rewrite (sextet0 b0 H0), (sextet1 b0 b1 H0 H1), (sextet2 b1 b2 H1 H2), (sextet3 b2 H2).
  rewrite (decode_digit _ _ v (-8) out R0). cbn [Z.add Z.leb Z.compare Z.pos_sub Pos.pred_double].
  cbv zeta. 
  rewrite (decode_digit _ _ _ (-2) out R1).
  cbv zeta. change (0 <=? -2 + 6) with true. cbv iota. change (-2 + 6) with 4. change (4 - 8) with (-4).
  rewrite (byte_hi v _ _ b0 b1 H0 H1 eq_refl eq_refl).
  rewrite (decode_digit _ _ _ (-4) _ R2).
  cbv zeta. change (0 <=? -4 + 6) with true. cbv iota. change (-4 + 6) with 2. change (2 - 8) with (-6).
  rewrite (byte_mid _ _ _ b0 b1 b2 H0 H1 H2 eq_refl eq_refl).
  rewrite (decode_digit _ _ _ (-6) _ R3).
  cbv zeta. change (0 <=? -6 + 6) with true. cbv iota. change (-6 + 6) with 0. change (0 - 8) with (-8).
  rewrite (byte_lo _ _ _ b1 b2 H1 H2 eq_refl eq_refl).
  eexists. rewrite <- !app_assoc. reflexivity.
Qed.

Lemma decode_tail1 b0 v out : is_byte b0 ->
  decode_loop (base64Encode [b0]) v (-8) out = out ++ [b0].
Proof.
  intros H0.
  destruct (sextet_ranges b0 0 0 H0) as (R0 & _ & _ & _ & R1 & _); [unfold is_byte; lia ..|].
  cbn [base64Encode].
  rewrite (sextet0 b0 H0), (sextet1_tail b0 H0).
  rewrite (decode_digit _ _ v (-8) out R0). cbv zeta.
  change (0 <=? -8 + 6) with false. cbv iota. change (-8 + 6) with (-2).
  rewrite (decode_digit _ _ _ (-2) out R1).
  cbv zeta. change (0 <=? -2 + 6) with true. cbv iota. change (-2 + 6) with 4.
  rewrite decode_pad. f_equal. f_equal.
  assert (E : (b0 mod 4) * 16 = (b0 mod 4) * 16 + 0 / 16) by (cbn; lia).
  apply (byte_hi v _ _ b0 0 H0); [unfold is_byte; lia | reflexivity | exact E].
Qed.

Lemma decode_tail2 b0 b1 v out : is_byte b0 -> is_byte b1 ->
  decode_loop (base64Encode [b0; b1]) v (-8) out = out ++ [b0; b1].
Proof.
  intros H0 H1.
  destruct (sextet_ranges b0 b1 0 H0 H1) as (R0 & R1 & _ & _ & _ & R2); [unfold is_byte; lia|].
  cbn [base64Encode].
  rewrite (sextet0 b0 H0), (sextet1 b0 b1 H0 H1), (sextet2_tail b1 H1).
  rewrite (decode_digit _ _ v (-8) out R0). cbv zeta.
  change (0 <=? -8 + 6) with false. cbv iota. change (-8 + 6) with (-2).
  rewrite (decode_digit _ _ _ (-2) out R1).
  cbv zeta. change (0 <=? -2 + 6) with true. cbv iota. change (-2 + 6) with 4. change (4 - 8) with (-4).
  rewrite (byte_hi v _ _ b0 b1 H0 H1 eq_refl eq_refl).
  rewrite (decode_digit _ _ _ (-4) _ R2).
  cbv zeta. change (0 <=? -4 + 6) with true. cbv iota. change (-4 + 6) with 2.
  rewrite decode_pad. rewrite <- app_assoc. cbn [app]. do 3 f_equal.
  assert (E : (b1 mod 16) * 4 = (b1 mod 16) * 4 + 0 / 64) by (cbn; lia).
  apply (byte_mid _ _ _ b0 b1 0 H0 H1); [unfold is_byte; lia | reflexivity | exact E].
Qed.

(** Induction three bytes at a time, as the encoder's loop advances. *)
Lemma triple_ind (P : list Z -> Prop) :
  P [] -> (forall a, P [a]) -> (forall a b, P [a; b]) ->
  (forall a b c l, P l -> P (a :: b :: c :: l)) ->
  forall l, P l.
Proof.
  intros H0 H1 H2 H3.
  fix IH 1. intros [|a [|b [|c l]]];
    [apply H0 | apply H1 | apply H2 | apply H3, IH].
Qed.

Lemma decode_encode_loop b :
  Forall is_byte b -> forall v out, decode_loop (base64Encode b) v (-8) out = out ++ b.
Proof.
  induction b as [| a | a b | a b c l IH] using triple_ind; intros HF v out.
  - cbn. now rewrite app_nil_r.
  - inversion HF; subst. now apply decode_tail1.
  - inversion HF as [|? ? Ha HF']; subst. inversion HF'; subst. now apply decode_tail2.
  - inversion HF as [|? ? Ha HF1]; subst. inversion HF1 as [|? ? Hb HF2]; subst.
    inversion HF2 as [|? ? Hc HF3]; subst.
    destruct (decode_group a b c l v out Ha Hb Hc) as [v' E]. rewrite E.
    rewrite (IH HF3). now rewrite <- app_assoc.
Qed.

End Base64Inverse.
Import Base64Inverse.

(** C9. Decoding what the tunnel's base64 encoder produces from a list of
    bytes gives the bytes back, and so as many of them. *)
Theorem base64_roundtrip b :
  Forall Base64.is_byte b ->
  Base64.base64Decode (Base64.base64Encode b) = b /\
  List.length (Base64.base64Decode (Base64.base64Encode b)) = List.length b.
Proof.
  intros HF. unfold Base64.base64Decode.
  rewrite (Base64Inverse.decode_encode_loop b HF 0 []). cbn [app]. split; reflexivity.
Qed.

Module NodeFacts.

(** Case analysis on the innermost scrutinee of the goal. *)
Ltac break_inner :=
  match goal with
  | |- context [match ?x with _ => _ end] =>
      lazymatch x with
      | context [match _ with _ => _ end] => fail
      | _ => destruct x eqn:?
      end
  end.

Ltac break_all := repeat (break_inner; cbn [fst snd] in *).

Lemma nonempty_strncpy k s : nonempty (strncpy (S k) s) = nonempty s.
Proof. destruct s; reflexivity. Qed.

Lemma nonempty_strncpy_pos k s : (0 < k)%nat -> nonempty (strncpy k s) = nonempty s.
Proof. destruct k; [lia|]. intros _. apply nonempty_strncpy. Qed.

Lemma State_eqb_eq a b : State_eqb a b = true <-> a = b.
Proof. destruct a, b; cbn; split; intros H; try reflexivity; discriminate. Qed.

Lemma State_eqb_refl a : State_eqb a a = true.
Proof. now destruct a. Qed.

Lemma setState_spec s n w :
  state_ (fst (setState s n w)) = s /\
  same_session n (fst (setState s n w)) /\
  w_posts (snd (setState s n w)) = w_posts w /\
  w_sent (snd (setState s n w)) = w_sent w /\
  millis (snd (setState s n w)) = millis w.
Proof.
  unfold setState, same_session.
  destruct (State_eqb (state_ n) s) eqn:E.
  - apply State_eqb_eq in E. cbn. tauto.
  - destruct (State_eqb s ACTIVE && enableTunnel (cfg_ (set_state_ s n))
              && nonempty (tunnelUrl_ (set_state_ s n))); cbn; tauto.
Qed.

End NodeFacts.
Import NodeFacts.

Module HelloFacts.



End HelloFacts.


Lemma hello_fail_spec n w :
  netBackoffMs_ (hello_fail n w) = netBackoffMs_ (advanceNetBackoff n) /\
  nextHelloMs_ (hello_fail n w) = u32 (millis w + netBackoffMs_ (advanceNetBackoff n)).
Proof. unfold hello_fail, handleHelloResponse. cbn. split; reflexivity. Qed.

Lemma delta_small t d : 0 <= d < 4294967296 -> u32 (u32 (u32 t + d) - u32 t) = d.
Proof. unfold u32. intros. Z.div_mod_to_equations. lia. Qed.

Lemma hello_fail_delta n w b :
  netBackoffMs_ n = b -> 0 <= b ->
  netBackoffMs_ (hello_fail n w) = next_backoff b /\
  hello_delta (hello_fail n w) w = next_backoff b.
Proof.
  intros Hb Hpos. destruct (hello_fail_spec n w) as [H1 H2].
  unfold hello_delta. rewrite H2, H1. unfold advanceNetBackoff. cbn.
  rewrite Hb. fold (next_backoff b). split; [reflexivity|].
  unfold millis. apply delta_small.
  unfold next_backoff, kBackoffMaxMs. destruct (60000 <? u32 (b * 2)); [lia|]. unfold u32.
  apply Z.mod_pos_bound. lia.
Qed.

(** C6. From a net backoff of 2000 ms, six hello attempts in a row
    that fail to connect are rescheduled 4000, 8000, 16000, 32000, 60000 and
    60000 ms later: the backoff is doubled before it is used. A following
    2xx reply with a parsed body whose status is not DENIED sets the backoff
    back to 2000 ms. *)
Theorem hello_backoff_sequence n w1 w2 w3 w4 w5 w6 w7 status body doc :
  netBackoffMs_ n = kBackoffMinMs ->
  200 <= status < 300 -> nonempty body = true ->
  String.eqb (str_or (member doc "status") EmptyString) "DENIED" = false ->
  let n1 := hello_fail n w1 in
  let n2 := hello_fail n1 w2 in
  let n3 := hello_fail n2 w3 in
  let n4 := hello_fail n3 w4 in
  let n5 := hello_fail n4 w5 in
  let n6 := hello_fail n5 w6 in
  let n7 := fst (handleHelloResponse status body (Some doc) n6 w7) in
  [hello_delta n1 w1; hello_delta n2 w2; hello_delta n3 w3;
   hello_delta n4 w4; hello_delta n5 w5; hello_delta n6 w6]
  = [4000; 8000; 16000; 32000; 60000; 60000]
  /\ netBackoffMs_ n7 = kBackoffMinMs.
Proof.
  intros H0 Hs Hb Hd. cbv zeta.
  destruct (hello_fail_delta n w1 2000 H0 ltac:(lia)) as [B1 D1].
  change (next_backoff 2000) with 4000 in B1, D1.
  destruct (hello_fail_delta _ w2 _ B1 ltac:(lia)) as [B2 D2].
  change (next_backoff 4000) with 8000 in B2, D2.
  destruct (hello_fail_delta _ w3 _ B2 ltac:(lia)) as [B3 D3].
  change (next_backoff 8000) with 16000 in B3, D3.
  destruct (hello_fail_delta _ w4 _ B3 ltac:(lia)) as [B4 D4].
  change (next_backoff 16000) with 32000 in B4, D4.
  destruct (hello_fail_delta _ w5 _ B4 ltac:(lia)) as [B5 D5].
  change (next_backoff 32000) with 60000 in B5, D5.
  destruct (hello_fail_delta _ w6 _ B5 ltac:(lia)) as [B6 D6].
  change (next_backoff 60000) with 60000 in B6, D6.
  rewrite D1, D2, D3, D4, D5, D6. split; [reflexivity|].
  unfold handleHelloResponse.
  replace (status =? 410) with false by (symmetry; apply Z.eqb_neq; lia).
  replace (status =? 403) with false by (symmetry; apply Z.eqb_neq; lia).
  replace (status =? 401) with false by (symmetry; apply Z.eqb_neq; lia).
  replace (status <? 200) with false by (symmetry; apply Z.ltb_ge; lia).
  replace (300 <=? status) with false by (symmetry; apply Z.leb_gt; lia).
  rewrite Hb, Hd. cbn [orb negb].
  repeat break_inner; cbn -[setState];
    match goal with
    | |- netBackoffMs_ (fst (setState ?s ?m ?w)) = _ =>
        destruct (setState_spec s m w) as (_ & S & _); destruct S as (_ & _ & _ & _ & _ & _ & S & _);
        rewrite S; reflexivity
    end.
Qed.

Module PostFacts.

Lemma post_cases c ep path body max w r w' :
  postJsonUnified c ep path body max w = (r, w') ->
  (r = post_failed /\ w' = w) \/
  (exists full, r = post_failed /\ w_replies w = [] /\
     w' = set_w_posts (w_posts w ++ [Build_exchange ep full body None]) w) \/
  (exists full rep rest, w_replies w = rep :: rest /\
     w' = set_w_clock (w_clock w + r_elapsed rep)
            (set_w_replies rest
               (set_w_posts (w_posts w ++ [Build_exchange ep full body (Some rep)]) w)) /\
     r = if r_connected rep
         then Build_post_result
                (nonempty (strncpy (max - 1) (r_body rep)) && (0 <? r_status rep))
                (r_status rep) (strncpy (max - 1) (r_body rep)) (r_json rep)
         else post_failed).
Proof.
  unfold postJsonUnified. intros H.
  destruct (hubBaseUrl c); [|inversion H; auto].
  destruct (parseBaseUrl s); [|inversion H; auto].
  destruct (joinPath (basePath p) path) as [full|]; [|inversion H; auto].
  destruct (w_replies w) as [|rep rest] eqn:E.
  - inversion H; subst. right; left. exists full. auto.
  - right; right. exists full, rep, rest. split; [reflexivity|].
    cbn in H. destruct (r_connected rep); inversion H; subst; cbn; auto.
Qed.

Lemma post_adds c ep path body max w r w' :
  postJsonUnified c ep path body max w = (r, w') ->
  exists l, adds w w' l /\ one_of ep l.
Proof.
  intros H. apply post_cases in H. unfold adds, one_of.
  destruct H as [[_ ->] | [(full & _ & _ & ->) | (full & rep & rest & _ & -> & _)]].
  - exists []. rewrite app_nil_r. auto.
  - eexists. cbn. split; [reflexivity|]. right. eexists. split; reflexivity.
  - eexists. cbn. split; [reflexivity|]. right. eexists. split; reflexivity.
Qed.

Lemma random_posts w : w_posts (snd (random w)) = w_posts w.
Proof. unfold random. destruct (w_rng w); reflexivity. Qed.

Lemma setState_eq s n w n' w' :
  setState s n w = (n', w') ->
  state_ n' = s /\ same_session n n' /\ w_posts w' = w_posts w /\
  w_sent w' = w_sent w /\ millis w' = millis w.
Proof. intros H. pose proof (setState_spec s n w) as P. now rewrite H in P. Qed.

Lemma setState_posts s n w : w_posts (snd (setState s n w)) = w_posts w.
Proof. apply setState_spec. Qed.

Lemma setState_state s n w : state_ (fst (setState s n w)) = s.
Proof. apply setState_spec. Qed.

Create Rewrite HintDb posts.
#[export] Hint Rewrite setState_posts random_posts : posts.

Ltac use_setState :=
  repeat match goal with
  | H : setState _ _ _ = (_, _) |- _ =>
      apply setState_eq in H; destruct H as (_ & _ & H & _ & _); cbn in H
  end.

Ltac use_random :=
  repeat match goal with
  | H : random ?w = (_, ?w') |- _ =>
      let P := fresh "P" in
      pose proof (random_posts w) as P; rewrite H in P; cbn [snd] in P; clear H
  end.

Ltac no_new_post :=
  exists []; unfold adds, one_of; rewrite app_nil_r; split; [cbn; congruence | auto].

Ltac one_new_post Hl Ho :=
  match type of Hl with
  | adds _ _ ?l => exists l; unfold adds in *; split; [cbn in *; congruence | exact Ho]
  end.

Ltac posts_step :=
  break_inner; cbn [fst snd] in *;
  try match goal with
  | H : postJsonUnified _ _ _ _ _ _ = (_, _) |- _ =>
      let l := fresh "l" in let Hl := fresh "Hl" in let Ho := fresh "Ho" in
      apply post_adds in H; destruct H as (l & Hl & Ho)
  end.

Ltac finish_posts :=
  use_setState; use_random; autorewrite with posts;
  first [ match goal with
          | Hl : adds _ _ _, Ho : one_of _ _ |- _ => one_new_post Hl Ho
          end
        | no_new_post ].

Lemma trySessionPoll_adds n w :
  exists l, adds w (snd (trySessionPoll n w)) l /\ one_of EpSessionPoll l.
Proof.
  unfold trySessionPoll. repeat posts_step; finish_posts.
Qed.

Lemma tryHello_adds n w :
  exists l, adds w (snd (tryHello n w)) l /\ one_of EpHello l /\
            (l = [] -> state_ (fst (tryHello n w)) = state_ n).
Proof.
  unfold tryHello.
  destruct (httpBusy_ n); [exists []; unfold adds, one_of; rewrite app_nil_r; auto|].
  destruct (millis w <? nextHelloMs_ n);
    [exists []; unfold adds, one_of; rewrite app_nil_r; auto|].
  destruct (random w) as [nonce wr] eqn:Er.
  destruct ((serializeJson (helloDoc n wr nonce) 512 =? 0)
            || (512 <=? serializeJson (helloDoc n wr nonce) 512));
    [use_random; exists []; unfold adds, one_of; rewrite app_nil_r; cbn; auto|].
  destruct (postJsonUnified _ _ _ _ _ _) as [r wp] eqn:Ep.
  pose proof Ep as Ec. apply post_adds in Ep. destruct Ep as (l & Hl & Ho).
  assert (HP : w_posts (snd (handleHelloResponse (if p_ok r then p_status r else -1)
                               (p_body r) (p_json r) (set_httpBusy_ false (set_httpBusy_ true n)) wp))
               = w_posts wp).
  { unfold handleHelloResponse.
    repeat posts_step; use_setState; autorewrite with posts; cbn in *; congruence. }
  exists l. unfold adds in *. use_random. rewrite HP, Hl. split; [congruence|]. split; [exact Ho|].
  intros ->. apply post_cases in Ec.
  destruct Ec as [[-> ->] | [(full & _ & _ & ->) | (full & rep & rest & _ & -> & _)]].
  - reflexivity.
  - cbn in Hl. rewrite app_nil_r in Hl. symmetry in Hl.
    apply (f_equal (@List.length _)) in Hl. rewrite length_app in Hl. cbn in Hl. lia.
  - cbn in Hl. rewrite app_nil_r in Hl. symmetry in Hl.
    apply (f_equal (@List.length _)) in Hl. rewrite length_app in Hl. cbn in Hl. lia.
Qed.

Lemma tryPairIfNeeded_adds n w :
  exists l, adds w (snd (tryPairIfNeeded n w)) l /\ one_of EpPair l.
Proof.
  unfold tryPairIfNeeded, postDevicePair. repeat posts_step; finish_posts.
Qed.

Lemma tryApprove_adds n w :
  exists l, adds w (snd (tryApprove n w)) l /\ one_of EpApprove l.
Proof.
  unfold tryApprove. repeat posts_step; finish_posts.
Qed.

Lemma trySessionRefresh_adds n w :
  exists l, adds w (snd (snd (trySessionRefresh n w))) l /\ one_of EpSessionRefresh l.
Proof.
  unfold trySessionRefresh. repeat posts_step; finish_posts.
Qed.

Lemma tryRegisterBySlot_adds n w :
  exists l, adds w (snd (tryRegisterBySlot n w)) l /\ one_of EpRegisterBySlot l.
Proof.
  unfold tryRegisterBySlot. repeat posts_step; finish_posts.
Qed.


End PostFacts.
Import PostFacts.

Module TunnelPosts.

(** Facts [w_posts w' = ...] from the equations case analysis leaves. *)
Ltac posts_from_eqs :=
  repeat match goal with
  | H : ?f = (_, ?w') |- _ =>
      let P := fresh "P" in
      assert (P : w_posts (snd f) = w_posts (snd f)) by reflexivity;
      autorewrite with posts in P at 1; 
      rewrite H in P; cbn [snd] in P; clear H
  end.

Ltac same_posts :=
  repeat (break_inner; cbn [fst snd] in * );
  repeat match goal with
  | H : ?f = (_, ?w') |- _ =>
      let P := fresh "P" in
      assert (P : w_posts w' = w_posts (snd f)) by (rewrite H; reflexivity);
      clear H; autorewrite with posts in P; cbn in P
  end;
  autorewrite with posts; cbn; congruence.

Lemma tunnelSendText_posts f w : w_posts (snd (tunnelSendText f w)) = w_posts w.
Proof. unfold tunnelSendText. same_posts. Qed.
#[export] Hint Rewrite tunnelSendText_posts : posts.

Lemma tunnelSendProxyResponse_posts r w :
  w_posts (tunnelSendProxyResponse r w) = w_posts w.
Proof. unfold tunnelSendProxyResponse. same_posts. Qed.
#[export] Hint Rewrite tunnelSendProxyResponse_posts : posts.

Lemma writer_end_posts r w : w_posts (snd (writer_end r w)) = w_posts w.
Proof. unfold writer_end. same_posts. Qed.
#[export] Hint Rewrite writer_end_posts : posts.

Lemma writer_step_posts c r w : w_posts (snd (writer_step c r w)) = w_posts w.
Proof. unfold writer_step. same_posts. Qed.
#[export] Hint Rewrite writer_step_posts : posts.

Lemma writer_run_posts cs : forall r w, w_posts (snd (writer_run cs r w)) = w_posts w.
Proof.
  induction cs as [|c cs IH]; intros r w; [reflexivity|].
  cbn [writer_run]. destruct (writer_step c r w) as [r1 w1] eqn:E.
  rewrite IH. replace w1 with (snd (writer_step c r w)) by now rewrite E.
  apply writer_step_posts.
Qed.
#[export] Hint Rewrite writer_run_posts : posts.

Lemma tunnelHandleProxyRequest_posts p n w :
  w_posts (snd (tunnelHandleProxyRequest p n w)) = w_posts w.
Proof. unfold tunnelHandleProxyRequest. same_posts. Qed.
#[export] Hint Rewrite tunnelHandleProxyRequest_posts : posts.

Lemma tunnelHandleMessage_posts p n w :
  w_posts (snd (tunnelHandleMessage p n w)) = w_posts w.
Proof. unfold tunnelHandleMessage. same_posts. Qed.
#[export] Hint Rewrite tunnelHandleMessage_posts : posts.

Lemma tunnelSendRegister_posts n w :
  w_posts (snd (tunnelSendRegister n w)) = w_posts w.
Proof. unfold tunnelSendRegister. same_posts. Qed.
#[export] Hint Rewrite tunnelSendRegister_posts : posts.

Lemma wsEvent_posts e n w : w_posts (snd (wsEvent e n w)) = w_posts w.
Proof. unfold wsEvent. same_posts. Qed.
#[export] Hint Rewrite wsEvent_posts : posts.

Lemma deliver_posts es : forall n w, w_posts (snd (deliver es n w)) = w_posts w.
Proof.
  induction es as [|e es IH]; intros n w; [reflexivity|].
  cbn [deliver]. destruct (wsEvent e n w) as [n1 w1] eqn:E.
  rewrite IH. replace w1 with (snd (wsEvent e n w)) by now rewrite E.
  apply wsEvent_posts.
Qed.
#[export] Hint Rewrite deliver_posts : posts.

Lemma ws_loop_posts n w : w_posts (snd (ws_loop n w)) = w_posts w.
Proof. unfold ws_loop. same_posts. Qed.
#[export] Hint Rewrite ws_loop_posts : posts.

Lemma tunnelDisconnectCleanup_posts n w :
  w_posts (snd (tunnelDisconnectCleanup n w)) = w_posts w.
Proof. unfold tunnelDisconnectCleanup. same_posts. Qed.
#[export] Hint Rewrite tunnelDisconnectCleanup_posts : posts.

Lemma tunnelConnect_posts n w : w_posts (snd (tunnelConnect n w)) = w_posts w.
Proof. unfold tunnelConnect. same_posts. Qed.
#[export] Hint Rewrite tunnelConnect_posts : posts.

Lemma tunnelLoop_posts n w : w_posts (snd (tunnelLoop n w)) = w_posts w.
Proof. unfold tunnelLoop. same_posts. Qed.
#[export] Hint Rewrite tunnelLoop_posts : posts.

End TunnelPosts.
Import TunnelPosts.

Module AuthFacts.

Lemma no_growth {A} (l : list A) x : l = (l ++ [x])%list -> False.
Proof.
  intros H. apply (f_equal (@List.length _)) in H. rewrite length_app in H.
  cbn in H. lia.
Qed.

Lemma auth_cases s : is_auth_status s = true -> s = 401 \/ s = 403 \/ s = 410.
Proof. unfold is_auth_status. lia. Qed.

Lemma setState_back n0 n w :
  sessionToken_ n = EmptyString -> pairingCode_ n = EmptyString -> pairingCodeValid_ n = false ->
  netBackoffMs_ n = next_backoff (netBackoffMs_ n0) ->
  match setState HELLO n w with
  | (n1, w1) =>
      back_to_hello n0 (set_nextHelloMs_ (u32 (millis w1 + netBackoffMs_ n1)) n1) w1
      /\ w_posts w1 = w_posts w
  end.
Proof.
  intros H1 H2 H3 H4. destruct (setState HELLO n w) as [n1 w1] eqn:E.
  apply setState_eq in E. destruct E as (S1 & S2 & S3 & _).
  destruct S2 as (_ & T1 & _ & T2 & T3 & _ & T4 & _).
  unfold back_to_hello. cbn. rewrite T1, T2, T3, T4. tauto.
Qed.

Ltac stuck :=
  match goal with
  | H : w_posts ?w = (w_posts ?w ++ [_])%list |- _ => destruct (no_growth _ _ H)
  | H : w_posts ?a = (w_posts ?b ++ [_])%list, E : w_posts ?a = w_posts ?b |- _ =>
      rewrite E in H; destruct (no_growth _ _ H)
  end.

Lemma trySessionPoll_auth n w x rep :
  w_posts (snd (trySessionPoll n w)) = (w_posts w ++ [x])%list ->
  x_reply x = Some rep -> r_connected rep = true -> nonempty (r_body rep) = true ->
  is_auth_status (r_status rep) = true ->
  back_to_hello n (fst (trySessionPoll n w)) (snd (trySessionPoll n w)).
Proof.
  unfold trySessionPoll. intros HP Hx Hc Hb Ha.
  destruct (httpBusy_ n); [cbn in HP; stuck|].
  destruct (millis w <? nextSessionPollMs_ n); [cbn in HP; stuck|].
  destruct (random w) as [nonce wr] eqn:Er.
  assert (Hr : w_posts wr = w_posts w)
    by (pose proof (random_posts w) as P; now rewrite Er in P).
  match type of HP with context [if ?c then _ else _] => destruct c end;
    [cbn in HP; stuck|].
  destruct (postJsonUnified _ _ _ _ _ _) as [r wp] eqn:Ep.
  apply post_cases in Ep.
  destruct Ep as [[-> ->] | [(full & -> & _ & ->) | (full & rep0 & rest & _ & -> & ->)]].
  - cbn in HP. stuck.
  - cbn in HP. rewrite Hr in HP. apply app_inj_tail in HP. destruct HP as [_ <-].
    discriminate.
  - assert (rep0 = rep).
    { match type of HP with
      | w_posts (snd ?t) = _ =>
          assert (Q : w_posts (snd t) =
                      (w_posts wr ++ [Build_exchange EpSessionPoll full
                         (text (JObj [("slot_id", JStr (or_empty (slotId (cfg_ n))));
                                      ("nonce", JStr (hex_fixed false 8 nonce))]))
                         (Some rep0)])%list)
            by same_posts
      end.
      rewrite Q, Hr in HP. apply app_inj_tail in HP. destruct HP as [_ <-].
      cbn in Hx. congruence. }
    subst rep0. clear HP. rewrite Hc.
    rewrite nonempty_strncpy_pos by lia. rewrite Hb.
    apply auth_cases in Ha.
    destruct Ha as [Ha | [Ha | Ha]]; rewrite Ha; cbn -[setState millis next_backoff];
      match goal with
      | |- context [setState HELLO ?m ?v] =>
          pose proof (setState_back n m v eq_refl eq_refl eq_refl eq_refl) as B;
          destruct (setState HELLO m v) as [n1 w1]; cbn [fst snd]; apply B
      end.
Qed.

Lemma tryApprove_auth n w x rep :
  w_posts (snd (tryApprove n w)) = (w_posts w ++ [x])%list ->
  x_reply x = Some rep -> r_connected rep = true -> nonempty (r_body rep) = true ->
  is_auth_status (r_status rep) = true ->
  back_to_hello n (fst (tryApprove n w)) (snd (tryApprove n w)).
Proof.
  unfold tryApprove. intros HP Hx Hc Hb Ha.
  destruct (httpBusy_ n || approveMissingMacFailed_ n); [cbn in HP; stuck|].
  destruct (negb (is_set (approveEndpointPath (cfg_ n)))); [cbn in HP; stuck|].
  destruct (millis w <? nextApproveMs_ n); [cbn in HP; stuck|].
  destruct (negb (pairingCodeValid_ n) || negb (nonempty (pairingCode_ n)));
    [cbn in HP; stuck|].
  destruct (negb (nonempty (getMacCStr w))); [cbn in HP; stuck|].
  destruct (512 <=? slen (approveBody n w)); [cbn in HP; stuck|].
  destruct (postJsonUnified _ _ _ _ _ _) as [r wp] eqn:Ep.
  apply post_cases in Ep.
  destruct Ep as [[-> ->] | [(full & -> & _ & ->) | (full & rep0 & rest & _ & -> & ->)]].
  - cbn in HP. stuck.
  - cbn in HP. apply app_inj_tail in HP. destruct HP as [_ <-]. discriminate.
  - assert (rep0 = rep).
    { match type of HP with
      | w_posts (snd ?t) = _ =>
          assert (Q : w_posts (snd t) =
                      (w_posts w ++ [Build_exchange EpApprove full (approveBody n w)
                                       (Some rep0)])%list)
            by same_posts
      end.
      rewrite Q in HP. apply app_inj_tail in HP. destruct HP as [_ <-].
      cbn in Hx. congruence. }
    subst rep0. clear HP. rewrite Hc.
    rewrite nonempty_strncpy_pos by lia. rewrite Hb.
    apply auth_cases in Ha.
    destruct Ha as [Ha | [Ha | Ha]]; rewrite Ha; cbn -[setState millis next_backoff];
      match goal with
      | |- context [setState HELLO ?m ?v] =>
          pose proof (setState_back n m v eq_refl eq_refl eq_refl eq_refl) as B;
          destruct (setState HELLO m v) as [n1 w1]; cbn [fst snd]; apply B
      end.
Qed.

Lemma runStateMachine_adds n w :
  exists l, adds w (snd (runStateMachine n w)) l /\
            (state_ n = HELLO -> first_is EpHello l /\
                                 (l = [] -> state_ (fst (runStateMachine n w)) = HELLO)).
Proof.
  unfold runStateMachine.
  destruct (negb (w_wifi w)).
  { exists []. unfold adds. rewrite app_nil_r. cbn. split; [reflexivity|].
    intros H. split; [exact I|]. intros _. exact H. }
  destruct (state_ n) eqn:Es; cbn [state_ set_wifiConnecting_].
  all: rewrite ?Es.
  - (* BOOT *)
    destruct (nonempty _).
    + destruct (trySessionRefresh _ w) as [ok [n1 w1]] eqn:E.
      pose proof (trySessionRefresh_adds (set_wifiConnecting_ false n) w) as (l & Hl & _).
      rewrite E in Hl. cbn [snd] in Hl. exists l. split; [|discriminate].
      unfold adds in *. destruct ok; [exact Hl|].
      destruct (setState HELLO n1 w1) as [n2 w2] eqn:E2. cbn.
      apply setState_eq in E2. destruct E2 as (_ & _ & -> & _). exact Hl.
    + exists []. unfold adds. rewrite app_nil_r. split; [|discriminate].
      destruct (setState HELLO _ w) as [n2 w2] eqn:E2. cbn.
      apply setState_eq in E2. now destruct E2 as (_ & _ & -> & _).
  - (* HELLO *)
    destruct (tryHello_adds (set_wifiConnecting_ false n) w) as (l & Hl & Ho & Hs).
    exists l. split; [exact Hl|]. intros _. split.
    + destruct Ho as [-> | (x & -> & Hx)]; [exact I | exact Hx].
    + intros Hn. rewrite (Hs Hn). cbn. exact Es.
  - destruct (tryPairIfNeeded_adds (set_wifiConnecting_ false n) w) as (l & Hl & _).
    exists l. split; [exact Hl | discriminate].
  - (* PENDING_POLL *)
    match goal with
    | |- context [if ?c then tryRegisterBySlot ?a ?b else _] =>
        assert (H1 : exists l, adds w (snd (if c then tryRegisterBySlot a b else (a, b))) l)
          by (destruct c; [destruct (tryRegisterBySlot_adds a b) as (l & ? & _); eauto
                          | exists []; unfold adds; now rewrite app_nil_r]);
        destruct (if c then tryRegisterBySlot a b else (a, b)) as [n1 w1]
    end.
    match goal with
    | |- context [if ?c then tryApprove ?a ?b else _] =>
        assert (H2 : exists l, adds w1 (snd (if c then tryApprove a b else (a, b))) l)
          by (destruct c; [destruct (tryApprove_adds a b) as (l & ? & _); eauto
                          | exists []; unfold adds; now rewrite app_nil_r]);
        destruct (if c then tryApprove a b else (a, b)) as [n2 w2]
    end.
    match goal with
    | |- context [if ?c then trySessionPoll ?a ?b else _] =>
        assert (H3 : exists l, adds w2 (snd (if c then trySessionPoll a b else (a, b))) l)
          by (destruct c; [destruct (trySessionPoll_adds a b) as (l & ? & _); eauto
                          | exists []; unfold adds; now rewrite app_nil_r]);
        destruct (if c then trySessionPoll a b else (a, b)) as [n3 w3]
    end.
    cbn [snd] in *. destruct H1 as (l1 & H1), H2 as (l2 & H2), H3 as (l3 & H3).
    exists (l1 ++ l2 ++ l3)%list. unfold adds in *. split; [|discriminate].
    rewrite H3, H2, H1. now rewrite !app_assoc.
  - exists []. unfold adds. rewrite app_nil_r. split; [|discriminate].
    destruct (setState ACTIVE _ w) as [n2 w2] eqn:E2. cbn.
    apply setState_eq in E2. now destruct E2 as (_ & _ & -> & _).
  - exists []. unfold adds. rewrite app_nil_r. split; [|discriminate].
    apply tunnelLoop_posts.
  - exists []. unfold adds. rewrite app_nil_r. split; [|discriminate].
    apply tunnelLoop_posts.
  - exists []. unfold adds. rewrite app_nil_r. split; [|discriminate].
    apply tunnelLoop_posts.
  - exists []. unfold adds. rewrite app_nil_r. split; [|discriminate].
    apply setState_posts.
Qed.

Lemma run_adds ins : forall n w,
  exists l, adds w (snd (run ins n w)) l /\ (state_ n = HELLO -> first_is EpHello l).
Proof.
  induction ins as [|i ins IH]; intros n w.
  - exists []. unfold adds. rewrite app_nil_r. cbn. auto.
  - cbn [run]. unfold tick, loopTick.
    set (wt := set_w_wifi (t_wifi i) (set_w_clock (w_clock w + t_elapsed i) w)).
    destruct (runStateMachine_adds n wt) as (l1 & H1 & F1).
    destruct (runStateMachine n wt) as [n1 w1]. cbn [fst snd] in *.
    destruct (IH n1 w1) as (l2 & H2 & F2).
    exists (l1 ++ l2)%list. unfold adds in *. split.
    + rewrite H2, H1. subst wt. cbn. now rewrite app_assoc.
    + intros Hs. destruct (F1 Hs) as [G1 G2].
      destruct l1 as [|x l1]; [|exact G1].
      cbn. apply F2, G2. reflexivity.
Qed.

End AuthFacts.
Import AuthFacts.

Module BusyFacts.

Lemma setState_busy s n w : httpBusy_ (fst (setState s n w)) = httpBusy_ n.
Proof. apply setState_spec. Qed.

Create Rewrite HintDb busy.
#[export] Hint Rewrite setState_busy : busy.

Lemma storePairingFromHello_busy c e n :
  httpBusy_ (storePairingFromHello c e n) = httpBusy_ n.
Proof. unfold storePairingFromHello. destruct (negb (nonempty c)); reflexivity. Qed.

Lemma adoptTunnelUrl_busy b t n : httpBusy_ (adoptTunnelUrl b t n) = httpBusy_ n.
Proof. unfold adoptTunnelUrl. repeat break_inner; reflexivity. Qed.

Lemma storeSessionExpiry_busy e n : httpBusy_ (storeSessionExpiry e n) = httpBusy_ n.
Proof. unfold storeSessionExpiry. repeat break_inner; reflexivity. Qed.
#[export] Hint Rewrite storePairingFromHello_busy adoptTunnelUrl_busy
  storeSessionExpiry_busy : busy.

Ltac same_busy :=
  repeat (break_inner; cbn [fst snd] in * );
  repeat match goal with
  | H : ?f = (?n', _) |- _ =>
      let P := fresh "P" in
      assert (P : httpBusy_ n' = httpBusy_ (fst f)) by (rewrite H; reflexivity);
      clear H; repeat (progress (autorewrite with busy in P; cbn in P))
  | H : ?f = (_, (?n', _)) |- _ =>
      let P := fresh "P" in
      assert (P : httpBusy_ n' = httpBusy_ (fst (snd f))) by (rewrite H; reflexivity);
      clear H; repeat (progress (autorewrite with busy in P; cbn in P))
  end;
  repeat (progress (autorewrite with busy; cbn));
  repeat match goal with
  | H : _ || _ = false |- _ => apply orb_false_elim in H; destruct H
  end;
  first [ congruence
        | match goal with
          | H : context [post_failed] |- _ => cbn in H; discriminate
          end ].

Lemma handleHelloResponse_busy st b j n w :
  httpBusy_ (fst (handleHelloResponse st b j n w)) = httpBusy_ n.
Proof. unfold handleHelloResponse. same_busy. Qed.
#[export] Hint Rewrite handleHelloResponse_busy : busy.

Lemma tryHello_busy n w : httpBusy_ (fst (tryHello n w)) = httpBusy_ n.
Proof. unfold tryHello. same_busy. Qed.

Lemma tryPairIfNeeded_busy n w : httpBusy_ (fst (tryPairIfNeeded n w)) = httpBusy_ n.
Proof. unfold tryPairIfNeeded. same_busy. Qed.

Lemma tryApprove_busy n w : httpBusy_ (fst (tryApprove n w)) = httpBusy_ n.
Proof. unfold tryApprove. same_busy. Qed.

Lemma trySessionRefresh_busy n w :
  httpBusy_ (fst (snd (trySessionRefresh n w))) = httpBusy_ n.
Proof. unfold trySessionRefresh. same_busy. Qed.

Lemma trySessionPoll_busy n w : httpBusy_ (fst (trySessionPoll n w)) = httpBusy_ n.
Proof. unfold trySessionPoll. same_busy. Qed.

Lemma tryRegisterBySlot_busy n w : httpBusy_ (fst (tryRegisterBySlot n w)) = httpBusy_ n.
Proof. unfold tryRegisterBySlot. same_busy. Qed.
#[export] Hint Rewrite tryHello_busy tryPairIfNeeded_busy tryApprove_busy
  trySessionRefresh_busy trySessionPoll_busy tryRegisterBySlot_busy : busy.

Lemma tunnelHandleProxyRequest_busy p n w :
  httpBusy_ (fst (tunnelHandleProxyRequest p n w)) = httpBusy_ n.
Proof. unfold tunnelHandleProxyRequest. same_busy. Qed.
#[export] Hint Rewrite tunnelHandleProxyRequest_busy : busy.

Lemma tunnelHandleMessage_busy p n w :
  httpBusy_ (fst (tunnelHandleMessage p n w)) = httpBusy_ n.
Proof. unfold tunnelHandleMessage. same_busy. Qed.
#[export] Hint Rewrite tunnelHandleMessage_busy : busy.

Lemma tunnelSendRegister_busy n w : httpBusy_ (fst (tunnelSendRegister n w)) = httpBusy_ n.
Proof. unfold tunnelSendRegister. same_busy. Qed.
#[export] Hint Rewrite tunnelSendRegister_busy : busy.

Lemma wsEvent_busy e n w : httpBusy_ (fst (wsEvent e n w)) = httpBusy_ n.
Proof. unfold wsEvent. same_busy. Qed.
#[export] Hint Rewrite wsEvent_busy : busy.

Lemma deliver_busy es : forall n w, httpBusy_ (fst (deliver es n w)) = httpBusy_ n.
Proof.
  induction es as [|e es IH]; intros n w; [reflexivity|].
  cbn [deliver]. destruct (wsEvent e n w) as [n1 w1] eqn:E.
  rewrite IH. replace n1 with (fst (wsEvent e n w)) by now rewrite E.
  apply wsEvent_busy.
Qed.
#[export] Hint Rewrite deliver_busy : busy.

Lemma ws_loop_busy n w : httpBusy_ (fst (ws_loop n w)) = httpBusy_ n.
Proof. unfold ws_loop. same_busy. Qed.
#[export] Hint Rewrite ws_loop_busy : busy.

Lemma tunnelDisconnectCleanup_busy n w :
  httpBusy_ (fst (tunnelDisconnectCleanup n w)) = httpBusy_ n.
Proof. unfold tunnelDisconnectCleanup. same_busy. Qed.
#[export] Hint Rewrite tunnelDisconnectCleanup_busy : busy.

Lemma tunnelConnect_busy n w : httpBusy_ (fst (tunnelConnect n w)) = httpBusy_ n.
Proof. unfold tunnelConnect. same_busy. Qed.
#[export] Hint Rewrite tunnelConnect_busy : busy.

Lemma tunnelLoop_busy n w : httpBusy_ (fst (tunnelLoop n w)) = httpBusy_ n.
Proof. unfold tunnelLoop. same_busy. Qed.
#[export] Hint Rewrite tunnelLoop_busy : busy.

Lemma runStateMachine_busy n w : httpBusy_ (fst (runStateMachine n w)) = httpBusy_ n.
Proof. unfold runStateMachine. same_busy. Qed.

End BusyFacts.
Import BusyFacts.

Module TickFacts.

Lemma one_of_nil ep : one_of ep [].
Proof. now left. Qed.

Lemma runStateMachine_shape n w :
  w_wifi w = true ->
  exists l, adds w (snd (runStateMachine n w)) l /\ tick_shape (state_ n) l.
Proof.
  intros Hw. unfold runStateMachine. rewrite Hw. cbn [negb].
  destruct (state_ n) eqn:Es; cbn [state_ set_wifiConnecting_ tick_shape].
  all: rewrite ?Es.
  - destruct (nonempty _).
    + destruct (trySessionRefresh _ w) as [ok [n1 w1]] eqn:E.
      pose proof (trySessionRefresh_adds (set_wifiConnecting_ false n) w) as (l & Hl & Ho).
      rewrite E in Hl. cbn [snd] in Hl. exists l. split; [|exact Ho].
      unfold adds in *. destruct ok; [exact Hl|].
      destruct (setState HELLO n1 w1) as [n2 w2] eqn:E2. cbn.
      apply setState_eq in E2. destruct E2 as (_ & _ & -> & _). exact Hl.
    + exists []. unfold adds. rewrite app_nil_r. split; [|apply one_of_nil].
      destruct (setState HELLO _ w) as [n2 w2] eqn:E2. cbn.
      apply setState_eq in E2. now destruct E2 as (_ & _ & -> & _).
  - destruct (tryHello_adds (set_wifiConnecting_ false n) w) as (l & Hl & Ho & _). eauto.
  - destruct (tryPairIfNeeded_adds (set_wifiConnecting_ false n) w) as (l & Hl & Ho). eauto.
  - match goal with
    | |- context [if ?c then tryRegisterBySlot ?a ?b else _] =>
        assert (H1 : exists l, adds w (snd (if c then tryRegisterBySlot a b else (a, b))) l
                               /\ one_of EpRegisterBySlot l)
          by (destruct c; [apply tryRegisterBySlot_adds
                          | exists []; unfold adds; rewrite app_nil_r; split;
                            [reflexivity | apply one_of_nil]]);
        destruct (if c then tryRegisterBySlot a b else (a, b)) as [n1 w1]
    end.
    match goal with
    | |- context [if ?c then tryApprove ?a ?b else _] =>
        assert (H2 : exists l, adds w1 (snd (if c then tryApprove a b else (a, b))) l
                               /\ one_of EpApprove l)
          by (destruct c; [apply tryApprove_adds
                          | exists []; unfold adds; rewrite app_nil_r; split;
                            [reflexivity | apply one_of_nil]]);
        destruct (if c then tryApprove a b else (a, b)) as [n2 w2]
    end.
    match goal with
    | |- context [if ?c then trySessionPoll ?a ?b else _] =>
        assert (H3 : exists l, adds w2 (snd (if c then trySessionPoll a b else (a, b))) l
                               /\ one_of EpSessionPoll l)
          by (destruct c; [apply trySessionPoll_adds
                          | exists []; unfold adds; rewrite app_nil_r; split;
                            [reflexivity | apply one_of_nil]]);
        destruct (if c then trySessionPoll a b else (a, b)) as [n3 w3]
    end.
    cbn [snd] in *.
    destruct H1 as (l1 & H1 & O1), H2 as (l2 & H2 & O2), H3 as (l3 & H3 & O3).
    exists (l1 ++ l2 ++ l3)%list. unfold adds in *. split.
    + rewrite H3, H2, H1. now rewrite !app_assoc.
    + exists l1, l2, l3. auto.
  - exists []. unfold adds. rewrite app_nil_r. split; [|reflexivity].
    destruct (setState ACTIVE _ w) as [n2 w2] eqn:E2. cbn.
    apply setState_eq in E2. now destruct E2 as (_ & _ & -> & _).
  - exists []. unfold adds. rewrite app_nil_r. split; [apply tunnelLoop_posts|reflexivity].
  - exists []. unfold adds. rewrite app_nil_r. split; [apply tunnelLoop_posts|reflexivity].
  - exists []. unfold adds. rewrite app_nil_r. split; [apply tunnelLoop_posts|reflexivity].
  - exists []. unfold adds. rewrite app_nil_r. split; [apply setState_posts|reflexivity].
Qed.

Lemma shape_bounds s l :
  tick_shape s l ->
  subseq (map x_endpoint l) (tick_endpoints s) = true /\
  (List.length l <= if State_eqb s PENDING_POLL then 3 else 1)%nat.
Proof.
  unfold tick_shape, one_of.
  destruct s; cbn [tick_endpoints State_eqb].
  4: { intros (l1 & l2 & l3 & -> & [-> | (x1 & -> & E1)] & [-> | (x2 & -> & E2)]
               & [-> | (x3 & -> & E3)]); cbn; rewrite ?E1, ?E2, ?E3; cbn; split; (reflexivity || lia). }
  all: try (intros [-> | (x & -> & E)]; cbn; rewrite ?E; cbn; split; (reflexivity || lia)).
  all: intros ->; cbn; split; (reflexivity || lia).
Qed.

End TickFacts.
Import TickFacts.

(** C2. One tick appends to the log of control requests a
    subsequence of the endpoints its state may try, in that order: up to
    three requests in PENDING_POLL (register-by-slot, approve, session poll),
    at most one in every other state. The busy flag is the same after the
    tick as before: it is raised and lowered inside each attempt, so it never
    holds back a later attempt of the same tick. *)
Theorem tick_posts_bounded n w :
  exists l,
    w_posts (snd (loopTick n w)) = (w_posts w ++ l)%list /\
    subseq (map x_endpoint l) (tick_endpoints (state_ n)) = true /\
    (List.length l <= if State_eqb (state_ n) PENDING_POLL then 3 else 1)%nat /\
    httpBusy_ (fst (loopTick n w)) = httpBusy_ n.
Proof.
  unfold loopTick. destruct (w_wifi w) eqn:Hw.
  - destruct (runStateMachine_shape n w Hw) as (l & Hl & Hs).
    exists l. split; [exact Hl|]. destruct (shape_bounds _ _ Hs) as [S1 S2].
    split; [exact S1|]. split; [exact S2|]. apply runStateMachine_busy.
  - exists []. unfold runStateMachine. rewrite Hw. cbn. rewrite app_nil_r.
    split; [reflexivity|]. split; [now destruct (state_ n)|].
    split; [destruct (State_eqb (state_ n) PENDING_POLL); lia | reflexivity].
Qed.

Module AuthTick.

Lemma standing_refl n : standing n n.
Proof. repeat split. Qed.

Lemma trySessionPoll_failed n w :
  (w_posts (snd (trySessionPoll n w)) = w_posts w \/
   exists x rep, w_posts (snd (trySessionPoll n w)) = (w_posts w ++ [x])%list /\
                 x_reply x = Some rep /\ nonempty (r_body rep) = false) ->
  standing n (fst (trySessionPoll n w)).
Proof.
  unfold trySessionPoll. intros HP.
  destruct (httpBusy_ n); [apply standing_refl|].
  destruct (millis w <? nextSessionPollMs_ n); [apply standing_refl|].
  destruct (random w) as [nonce wr] eqn:Er.
  assert (Hr : w_posts wr = w_posts w)
    by (pose proof (random_posts w) as P; now rewrite Er in P).
  match type of HP with context [if ?c then _ else _] => destruct c end;
    [apply standing_refl|].
  destruct (postJsonUnified _ _ _ _ _ _) as [r wp] eqn:Ep.
  apply post_cases in Ep.
  destruct Ep as [[-> ->] | [(full & -> & _ & ->) | (full & rep0 & rest & _ & -> & ->)]].
  - cbn. repeat split.
  - cbn. repeat split.
  - assert (E : r_connected rep0 = false \/ nonempty (r_body rep0) = false).
    { destruct (nonempty (r_body rep0)) eqn:Eb; [|now right].
      destruct HP as [HP | (x & rep & HP & Hx & Hb)].
      - exfalso.
        match type of HP with
        | w_posts (snd ?t) = _ =>
          assert (Q : w_posts (snd t) =
                      (w_posts wr ++ [Build_exchange EpSessionPoll full
                         (text (JObj [("slot_id", JStr (or_empty (slotId (cfg_ n))));
                                      ("nonce", JStr (hex_fixed false 8 nonce))]))
                         (Some rep0)])%list)
            by same_posts
        end.
        rewrite Q, Hr in HP. eapply no_growth. symmetry. exact HP.
      - exfalso.
        match type of HP with
        | w_posts (snd ?t) = _ =>
          assert (Q : w_posts (snd t) =
                      (w_posts wr ++ [Build_exchange EpSessionPoll full
                         (text (JObj [("slot_id", JStr (or_empty (slotId (cfg_ n))));
                                      ("nonce", JStr (hex_fixed false 8 nonce))]))
                         (Some rep0)])%list)
            by same_posts
        end.
        rewrite Q, Hr in HP. apply app_inj_tail in HP. destruct HP as [_ <-].
        cbn in Hx. congruence. }
    clear HP. destruct E as [E | E].
    + rewrite E. cbn. repeat split.
    + destruct (r_connected rep0); [|cbn; repeat split].
      rewrite nonempty_strncpy_pos by lia. rewrite E. cbn. repeat split.
Qed.

Lemma tryApprove_failed n w x rep :
  w_posts (snd (tryApprove n w)) = (w_posts w ++ [x])%list ->
  x_reply x = Some rep -> nonempty (r_body rep) = false ->
  standing n (fst (tryApprove n w)).
Proof.
  unfold tryApprove. intros HP Hx Hb.
  destruct (httpBusy_ n || approveMissingMacFailed_ n); [apply standing_refl|].
  destruct (negb (is_set (approveEndpointPath (cfg_ n)))); [apply standing_refl|].
  destruct (millis w <? nextApproveMs_ n); [apply standing_refl|].
  destruct (negb (pairingCodeValid_ n) || negb (nonempty (pairingCode_ n)));
    [cbn; repeat split|].
  destruct (negb (nonempty (getMacCStr w))); [cbn; repeat split|].
  destruct (512 <=? slen (approveBody n w)); [cbn; repeat split|].
  destruct (postJsonUnified _ _ _ _ _ _) as [r wp] eqn:Ep.
  apply post_cases in Ep.
  destruct Ep as [[-> ->] | [(full & -> & _ & ->) | (full & rep0 & rest & _ & -> & ->)]].
  - cbn. repeat split.
  - cbn. repeat split.
  - assert (rep0 = rep).
    { match type of HP with
      | w_posts (snd ?t) = _ =>
          assert (Q : w_posts (snd t) =
                      (w_posts w ++ [Build_exchange EpApprove full (approveBody n w)
                                       (Some rep0)])%list)
            by same_posts
      end.
      rewrite Q in HP. apply app_inj_tail in HP. destruct HP as [_ <-].
      cbn in Hx. congruence. }
    subst rep0. clear HP.
    destruct (r_connected rep); [|cbn; repeat split].
    rewrite nonempty_strncpy_pos by lia. rewrite Hb. cbn. repeat split.
Qed.

Lemma last_one {A} (l : list A) x y : (l ++ [x])%list = [y] -> l = [] /\ x = y.
Proof.
  intros H. change [y] with ([] ++ [y])%list in H. apply app_inj_tail in H. exact H.
Qed.

Lemma not_auth ep l x :
  one_of ep (l ++ [x])%list -> ep <> EpApprove -> ep <> EpSessionPoll ->
  auth_failed x = true -> False.
Proof.
  intros [H | (y & H & E)] H1 H2 Ha.
  - destruct l; discriminate.
  - apply last_one in H. destruct H as [_ ->].
    unfold auth_failed in Ha. rewrite E in Ha. destruct ep; congruence.
Qed.

Lemma auth_reply x :
  auth_failed x = true ->
  exists rep, x_reply x = Some rep /\ r_connected rep = true /\
              nonempty (r_body rep) = true /\ is_auth_status (r_status rep) = true.
Proof.
  unfold auth_failed. destruct (x_endpoint x); try discriminate.
  all: destruct (x_reply x) as [rep|]; [|discriminate].
  all: intros H; apply andb_prop in H; destruct H as [H H3];
       apply andb_prop in H; destruct H as [H1 H2]; exists rep; auto.
Qed.

Lemma back_hello_again n n' w' : back_to_hello n n' w' -> hello_again n'.
Proof. unfold back_to_hello, hello_again. tauto. Qed.

Lemma standing_hello_again n n' : hello_again n -> standing n n' -> hello_again n'.
Proof.
  unfold hello_again, standing. intros (A & B & C & D) (E & F & G & H).
  rewrite E, F, G, H. auto.
Qed.

Lemma runStateMachine_auth n w l x :
  adds w (snd (runStateMachine n w)) (l ++ [x]) -> auth_failed x = true ->
  hello_again (fst (runStateMachine n w)).
Proof.
  intros HP Ha.
  destruct (w_wifi w) eqn:Hw.
  2: { exfalso. unfold runStateMachine, adds in HP. rewrite Hw in HP. cbn in HP.
       apply (f_equal (@List.length _)) in HP. rewrite !length_app in HP.
       cbn in HP. lia. }
  destruct (runStateMachine_shape n w Hw) as (l0 & Hl & Hs).
  assert (l0 = (l ++ [x])%list).
  { unfold adds in *. rewrite Hl in HP. now apply app_inv_head in HP. }
  subst l0. clear Hl.
  destruct (state_ n) eqn:Es; cbn [tick_shape] in Hs;
    try (exfalso; eapply not_auth; [exact Hs | discriminate | discriminate | exact Ha]);
    try (exfalso; destruct l; discriminate).
  clear Hs. revert HP.
  unfold runStateMachine. rewrite Hw. cbn [negb state_ set_wifiConnecting_]. rewrite Es.
  match goal with
  | |- context [if ?c then tryRegisterBySlot ?a ?b else _] =>
      assert (H1 : exists l, adds w (snd (if c then tryRegisterBySlot a b else (a, b))) l
                             /\ one_of EpRegisterBySlot l)
        by (destruct c; [apply tryRegisterBySlot_adds
                        | exists []; unfold adds; rewrite app_nil_r; split;
                          [reflexivity | apply one_of_nil]]);
      destruct (if c then tryRegisterBySlot a b else (a, b)) as [n1 w1]
  end.
  destruct H1 as (l1 & H1 & O1). cbn [snd] in H1.
  match goal with
  | |- context [if ?c then tryApprove ?a ?b else _] =>
      assert (H2 : (fst (if c then tryApprove a b else (a, b)) = n1 /\
                    snd (if c then tryApprove a b else (a, b)) = w1) \/
                   (if c then tryApprove a b else (a, b)) = tryApprove n1 w1)
        by (destruct c; [now right | now left]);
      destruct (if c then tryApprove a b else (a, b)) as [n2 w2]
  end.
  cbn [fst snd] in H2.
  assert (H3 : exists l2, adds w1 w2 l2 /\ one_of EpApprove l2).
  { destruct H2 as [[_ ->] | H2].
    - exists []. unfold adds. rewrite app_nil_r. split; [reflexivity | apply one_of_nil].
    - pose proof (tryApprove_adds n1 w1) as P. rewrite <- H2 in P. exact P. }
  destruct H3 as (l2 & H3 & O2).
  destruct (negb (nonempty (sessionToken_ n2))) eqn:Et.
  - (* the session poll is called *)
    destruct (trySessionPoll_adds n2 w2) as (l3 & H4 & O3).
    intros HP. unfold adds in *.
    assert (E : (l ++ [x])%list = (l1 ++ l2 ++ l3)%list).
    { rewrite H4, H3, H1, <- !app_assoc in HP. now apply app_inv_head in HP. }
    destruct O3 as [-> | (x3 & -> & E3)].
    + (* it posted nothing *)
      rewrite app_nil_r in E, H4.
      destruct O2 as [-> | (x2 & -> & E2)].
      * exfalso. rewrite app_nil_r in E. rewrite <- E in O1.
        eapply not_auth; [exact O1 | discriminate | discriminate | exact Ha].
      * rewrite ?app_assoc in E. apply app_inj_tail in E. destruct E as [_ ->].
        destruct H2 as [[_ ->] | H2]; [exfalso; eapply no_growth; exact H3|].
        destruct (auth_reply _ Ha) as (rep & R1 & R2 & R3 & R4).
        pose proof (tryApprove_auth n1 w1 x2 rep) as B.
        rewrite <- H2 in B. cbn [fst snd] in B.
        specialize (B H3 R1 R2 R3 R4).
        eapply standing_hello_again; [exact (back_hello_again _ _ _ B)|].
        apply trySessionPoll_failed. left. rewrite H4. reflexivity.
    + (* the session poll is the last exchange *)
      rewrite !app_assoc in E. apply app_inj_tail in E. destruct E as [_ ->].
      destruct (auth_reply _ Ha) as (rep & R1 & R2 & R3 & R4).
      exact (back_hello_again _ _ _ (trySessionPoll_auth n2 w2 x3 rep H4 R1 R2 R3 R4)).
  - (* a session token is held: approve was not the one rejected *)
    intros HP. exfalso. cbn [snd] in HP. unfold adds in *.
    assert (E : (l ++ [x])%list = (l1 ++ l2)%list).
    { rewrite H3, H1, <- !app_assoc in HP. now apply app_inv_head in HP. }
    destruct O2 as [-> | (x2 & -> & E2)].
    + rewrite app_nil_r in E. rewrite <- E in O1.
      eapply not_auth; [exact O1 | discriminate | discriminate | exact Ha].
    + rewrite ?app_assoc in E. apply app_inj_tail in E. destruct E as [_ ->].
      destruct H2 as [[_ ->] | H2]; [eapply no_growth; exact H3|].
      destruct (auth_reply _ Ha) as (rep & R1 & R2 & R3 & R4).
      pose proof (tryApprove_auth n1 w1 x2 rep) as B.
      rewrite <- H2 in B. cbn [fst snd] in B.
      specialize (B H3 R1 R2 R3 R4). destruct B as (B & _).
      rewrite B in Et. discriminate.
Qed.

End AuthTick.
Import AuthTick.

(** C1. When the approve or the session-poll attempt is answered 401, 403 or
    410 with a non-empty body, then on return from that attempt the session
    token is empty, the pairing code is cleared, the state is HELLO, the net
    backoff has been doubled (capped at 60 s) and the hello is due one such
    backoff after the reply; answered with an empty body, the attempt leaves
    state, session token and pairing code as they were. A tick whose last
    exchange is such a rejection with a non-empty body ends with the token
    empty, the pairing code cleared and the state HELLO, and whatever ticks
    follow it, the first request they issue is the hello one. *)
Theorem auth_failure_returns_to_hello :
  (forall c n w x rep,
      w_posts (snd (attempt c n w)) = (w_posts w ++ [x])%list ->
      x_reply x = Some rep -> r_connected rep = true ->
      is_auth_status (r_status rep) = true ->
      (nonempty (r_body rep) = true ->
       back_to_hello n (fst (attempt c n w)) (snd (attempt c n w))) /\
      (nonempty (r_body rep) = false -> standing n (fst (attempt c n w)))) /\
  (forall i n w l x,
      w_posts (snd (tick i n w)) = (w_posts w ++ l ++ [x])%list ->
      auth_failed x = true ->
      hello_again (fst (tick i n w)) /\
      forall ins, exists l',
        w_posts (snd (run ins (fst (tick i n w)) (snd (tick i n w))))
        = (w_posts (snd (tick i n w)) ++ l')%list /\ first_is EpHello l').
Proof.
  split.
  - intros c n w x rep HP Hx Hc Ha. split; intros Hb.
    + destruct c; cbn [attempt] in *.
      * now apply (trySessionPoll_auth n w x rep).
      * now apply (tryApprove_auth n w x rep).
    + destruct c; cbn [attempt] in *.
      * apply trySessionPoll_failed. right. exists x, rep. auto.
      * now apply (tryApprove_failed n w x rep).
  - intros i n w l x HP Ha.
    assert (B : hello_again (fst (tick i n w))).
    { unfold tick, loopTick in *.
      eapply runStateMachine_auth; [|exact Ha]. unfold adds. exact HP. }
    split; [exact B|]. intros ins.
    destruct (run_adds ins (fst (tick i n w)) (snd (tick i n w))) as (l' & Hl & Hf).
    exists l'. split; [exact Hl|]. apply Hf. apply B.
Qed.

Module WriterFacts.

Lemma sends_nil w : sends w w [].
Proof. unfold sends. now rewrite app_nil_r. Qed.

Lemma sends_trans w1 w2 w3 l1 l2 :
  sends w1 w2 l1 -> sends w2 w3 l2 -> sends w1 w3 (l1 ++ l2).
Proof. unfold sends. intros -> ->. now rewrite app_assoc. Qed.

Lemma tunnelSendProxyResponse_sends r w :
  sends w (tunnelSendProxyResponse r w) [] \/
  sends w (tunnelSendProxyResponse r w) [proxyResponseDoc r].
Proof.
  unfold tunnelSendProxyResponse, tunnelSendText.
  destruct (ws_connected w); cbn [negb]; [|left; apply sends_nil].
  destruct ((0 <? _) && (_ <? 1536)); [|left; apply sends_nil].
  right. reflexivity.
Qed.

Lemma write_spec d r :
  bodyLen_ r <= kBodySize ->
  bodyLen_ (write d r) <= kBodySize /\
  ended_ (write d r) = ended_ r /\ node_ (write d r) = node_ r /\
  requestId_ (write d r) = requestId_ r /\
  (ended_ r = true -> write d r = r) /\
  (ended_ r = false -> forall bytes, d = Some bytes ->
     body_ (write d r) =
     (body_ r ++ firstn (Z.to_nat (kBodySize - bodyLen_ r)) bytes)%list).
Proof.
  unfold write, bodyLen_, kBodySize. intros Hb.
  destruct d as [bytes|]; [|repeat split; auto; discriminate].
  destruct (ended_ r) eqn:E; [repeat split; auto; discriminate|].
  assert (Hu : u32 (2048 - Z.of_nat (List.length (body_ r)))
               = 2048 - Z.of_nat (List.length (body_ r))).
  { unfold u32. apply Z.mod_small. lia. }
  rewrite Hu. cbn [body_ set_body_ ended_ node_ requestId_].
  repeat split; auto; try discriminate.
  - rewrite length_app, length_firstn.
    destruct (_ <? _) eqn:L; [apply Z.ltb_lt in L | apply Z.ltb_ge in L]; lia.
  - intros _ b [= <-]. f_equal.
    destruct (_ <? _) eqn:L; [reflexivity | apply Z.ltb_ge in L].
    rewrite !firstn_all2 by lia. reflexivity.
Qed.

Lemma setHeader_spec k v r :
  body_ (setHeader k v r) = body_ r /\ ended_ (setHeader k v r) = ended_ r /\
  node_ (setHeader k v r) = node_ r /\ requestId_ (setHeader k v r) = requestId_ r /\
  statusCode_ (setHeader k v r) = statusCode_ r.
Proof. unfold setHeader. repeat break_inner; cbn; tauto. Qed.

Lemma writer_step_spec c r w :
  writer_inv r ->
  match writer_step c r w with
  | (r', w') =>
      writer_inv r' /\ requestId_ r' = requestId_ r /\ node_ r' = node_ r /\
      (ended_ r = true -> ended_ r' = true /\ w' = w /\ body_ r' = body_ r) /\
      (ended_ r = false ->
         (ended_ r' = false /\ w' = w) \/
         (ended_ r' = true /\
          (sends w w' [] \/ sends w w' [proxyResponseDoc r])))
  end.
Proof.
  intros Hi. unfold writer_step, writer_inv in *.
  destruct c as [code | k v | d | s |].
  - cbn. split; [exact Hi|]. do 2 (split; [reflexivity|]). split; intros He; auto.
  - destruct (setHeader_spec k v r) as (B & E & N & R & _).
    unfold bodyLen_. rewrite B, E, N, R.
    split; [exact Hi|]. do 2 (split; [reflexivity|]). split; intros He; auto.
  - destruct (write_spec d r Hi) as (B & E & N & R & W & _).
    rewrite E. split; [exact B|]. split; [exact R|]. split; [exact N|].
    split; intros He; auto. rewrite (W He). auto.
  - unfold write_str. destruct s as [s|].
    + destruct (write_spec (Some (codes s)) r Hi) as (B & E & N & R & W & _).
      rewrite E. split; [exact B|]. split; [exact R|]. split; [exact N|].
      split; intros He; auto. rewrite (W He). auto.
    + split; [exact Hi|]. do 2 (split; [reflexivity|]). split; intros He; auto.
  - unfold writer_end. destruct (ended_ r) eqn:E.
    + split; [exact Hi|]. do 2 (split; [reflexivity|]). split; intros He; auto.
      discriminate.
    + cbn [ended_ set_ended_ node_ requestId_].
      destruct (node_ r) eqn:N; cbn [fst snd].
      * split; [exact Hi|]. split; [reflexivity|]. split; [exact N|].
        split; [discriminate|]. intros _. right. split; [reflexivity|].
        apply (tunnelSendProxyResponse_sends (set_ended_ true r) w).
      * split; [exact Hi|]. split; [reflexivity|]. split; [exact N|].
        split; [discriminate|]. intros _. right. split; [reflexivity|].
        left. apply sends_nil.
Qed.

Lemma writer_run_ended cs : forall r w,
  writer_inv r -> ended_ r = true ->
  match writer_run cs r w with
  | (r', w') => writer_inv r' /\ ended_ r' = true /\ w' = w /\ body_ r' = body_ r
  end.
Proof.
  induction cs as [|c cs IH]; intros r w Hi He; cbn [writer_run]; [auto|].
  pose proof (writer_step_spec c r w Hi) as S.
  destruct (writer_step c r w) as [r1 w1].
  destruct S as (I1 & _ & _ & S & _). destruct (S He) as (E1 & -> & B1).
  specialize (IH r1 w I1 E1). destruct (writer_run cs r1 w) as [r2 w2].
  destruct IH as (? & ? & ? & ?). repeat split; auto. congruence.
Qed.

Lemma writer_run_spec cs : forall r w,
  writer_inv r ->
  match writer_run cs r w with
  | (r', w') =>
      writer_inv r' /\
      exists l, sends w w' l /\
                (List.length l <= if ended_ r then 0 else 1)%nat /\
                (ended_ r = true -> body_ r' = body_ r)
  end.
Proof.
  induction cs as [|c cs IH]; intros r w Hi; cbn [writer_run].
  - split; [exact Hi|]. exists []. split; [apply sends_nil|].
    split; [destruct (ended_ r); cbn; lia | reflexivity].
  - destruct (ended_ r) eqn:He.
    + pose proof (writer_run_ended (c :: cs) r w Hi He) as R. cbn [writer_run] in R.
      destruct (writer_step c r w) as [r1 w1]. destruct (writer_run cs r1 w1) as [r2 w2].
      destruct R as (I & _ & -> & B). split; [exact I|].
      exists []. split; [apply sends_nil|]. split; [cbn; lia | auto].
    + pose proof (writer_step_spec c r w Hi) as S.
      destruct (writer_step c r w) as [r1 w1].
      destruct S as (I1 & _ & _ & _ & S). destruct (S He) as [[E1 ->] | [E1 Hs]].
      * specialize (IH r1 w I1). destruct (writer_run cs r1 w) as [r2 w2].
        destruct IH as (I2 & l & Hl & Hn & _). rewrite E1 in Hn.
        split; [exact I2|]. exists l. split; [exact Hl|]. split; [exact Hn|discriminate].
      * pose proof (writer_run_ended cs r1 w1 I1 E1) as R.
        destruct (writer_run cs r1 w1) as [r2 w2]. destruct R as (I2 & _ & -> & _).
        split; [exact I2|].
        destruct Hs as [Hs | Hs]; eexists; (split; [exact Hs|]); split;
          (cbn; lia) || discriminate.
Qed.

Lemma writer_end_idem r w :
  writer_end (fst (writer_end r w)) (snd (writer_end r w)) = writer_end r w.
Proof.
  unfold writer_end. destruct (ended_ r) eqn:E; cbn [fst snd].
  - now rewrite E.
  - cbv zeta. cbn [node_ set_ended_]. destruct (node_ r); cbn; reflexivity.
Qed.

End WriterFacts.
Import WriterFacts.

Module WriterEnd.

Lemma writer_run_app a : forall b r w,
  writer_run (a ++ b) r w = writer_run b (fst (writer_run a r w)) (snd (writer_run a r w)).
Proof.
  induction a as [|c a IH]; intros b r w; cbn [writer_run app fst snd]; [reflexivity|].
  destruct (writer_step c r w) as [r1 w1]. apply IH.
Qed.

Lemma writer_end_spec r w :
  ended_ (fst (writer_end r w)) = true /\ body_ (fst (writer_end r w)) = body_ r /\
  statusCode_ (fst (writer_end r w)) = statusCode_ r /\
  headers_ (fst (writer_end r w)) = headers_ r.
Proof.
  unfold writer_end. destruct (ended_ r) eqn:E; cbn [fst]; [auto|].
  cbv zeta. cbn [node_ set_ended_]. destruct (node_ r); cbn; auto.
Qed.

Lemma writer_run_inv cs r w : writer_inv r -> writer_inv (fst (writer_run cs r w)).
Proof.
  intros Hi. pose proof (writer_run_spec cs r w Hi) as S.
  destruct (writer_run cs r w). apply S.
Qed.

Lemma after_end cs r w :
  writer_inv r ->
  body_ (fst (writer_run (CallEnd :: cs) r w)) = body_ r /\
  snd (writer_run (CallEnd :: cs) r w) = snd (writer_end r w).
Proof.
  intros Hi. cbn [writer_run writer_step].
  destruct (writer_end_spec r w) as (E & B & _).
  destruct (writer_end r w) as [r1 w1] eqn:Ee. cbn [fst snd] in *.
  assert (I1 : writer_inv r1) by (unfold writer_inv, bodyLen_ in *; now rewrite B).
  pose proof (writer_run_ended cs r1 w1 I1 E) as R.
  destruct (writer_run cs r1 w1) as [r2 w2]. cbn [fst snd].
  destruct R as (_ & _ & -> & ->). auto.
Qed.

End WriterEnd.

(** C10. A response writer whose body fits its 2048-byte buffer still fits
    it after any sequence of calls, and the sequence sends at most one frame
    (none when the writer was ended before). A write after [end] changes
    nothing, a write before it appends what fits and drops the rest, and a
    second [end] changes nothing. [end] marks the writer ended, and whatever
    calls follow it in a sequence, the body stays what it was at that [end]
    and nothing more is sent. *)
Theorem writer_body_bounded_one_frame cs r w :
  bodyLen_ r <= kBodySize ->
  bodyLen_ (fst (writer_run cs r w)) <= kBodySize /\
  (exists l, w_sent (snd (writer_run cs r w)) = (w_sent w ++ l)%list /\
             (List.length l <= if ended_ r then 0 else 1)%nat) /\
  (forall d, ended_ r = true -> write d r = r) /\
  (forall bytes, ended_ r = false ->
     body_ (write (Some bytes) r) =
     (body_ r ++ firstn (Z.to_nat (kBodySize - bodyLen_ r)) bytes)%list) /\
  writer_end (fst (writer_end r w)) (snd (writer_end r w)) = writer_end r w /\
  ended_ (fst (writer_end r w)) = true /\
  (forall rest,
     body_ (fst (writer_run (cs ++ CallEnd :: rest) r w))
       = body_ (fst (writer_run cs r w)) /\
     w_sent (snd (writer_run (cs ++ CallEnd :: rest) r w))
       = w_sent (snd (writer_run (cs ++ [CallEnd]) r w))).
Proof.
  intros Hi. split; [|split; [|split; [|split; [|split; [|split]]]]].
  - apply (WriterEnd.writer_run_inv cs r w Hi).
  - pose proof (writer_run_spec cs r w Hi) as S.
    destruct (writer_run cs r w) as [r' w']. destruct S as (I & l & Hl & Hn & _).
    exists l; auto.
  - intros d He; now apply (write_spec d r Hi).
  - intros bytes He; now apply (write_spec (Some bytes) r Hi).
  - apply writer_end_idem.
  - apply WriterEnd.writer_end_spec.
  - intros rest. rewrite !WriterEnd.writer_run_app.
    pose proof (WriterEnd.writer_run_inv cs r w Hi) as I.
    destruct (WriterEnd.after_end rest _ (snd (writer_run cs r w)) I) as [B S].
    destruct (WriterEnd.after_end [] _ (snd (writer_run cs r w)) I) as [_ S0].
    rewrite B, S, S0. auto.
Qed.

Module FrameFacts.

Lemma tunnelSendText_sends f w :
  sends w (snd (tunnelSendText f w)) [] \/ sends w (snd (tunnelSendText f w)) [f].
Proof.
  unfold tunnelSendText. destruct (ws_connected w); [right; reflexivity | left; apply sends_nil].
Qed.

Lemma setState_sent s n w : w_sent (snd (setState s n w)) = w_sent w.
Proof. apply setState_spec. Qed.

Lemma write_str_spec s r :
  writer_inv r ->
  writer_inv (write_str s r) /\ ended_ (write_str s r) = ended_ r /\
  node_ (write_str s r) = node_ r /\ requestId_ (write_str s r) = requestId_ r.
Proof.
  intros Hi. unfold write_str. destruct s as [s|]; [|auto].
  destruct (write_spec (Some (codes s)) r Hi) as (B & E & N & R & _). auto.
Qed.

Lemma writer_inv_new : writer_inv new_writer.
Proof. unfold writer_inv, bodyLen_, kBodySize. cbn. lia. Qed.

(** The writer the node ends before the handler runs. *)
Lemma proxy_request_world p doc n w :
  nonempty (p_text p) = true -> p_doc p = Some doc ->
  exists res,
    writer_inv res /\ ended_ res = false /\ node_ res = true /\
    requestId_ res = strncpy 47 (str_or (alt (member doc "request_id")
                                             (member doc "req_id")) EmptyString) /\
    forall cb,
      tunnelHandleProxyRequest p (set_httpRequestCb_ cb n) w =
      (set_httpRequestCb_ cb n, snd (writer_end res w)).
Proof.
  intros Ht Hd. unfold tunnelHandleProxyRequest. rewrite Ht, Hd. cbn [negb].
  cbn [cfg_ nodeId_ set_httpRequestCb_ httpRequestCb_].
  set (reqId := str_or (alt (member doc "request_id") (member doc "req_id")) EmptyString).
  set (r0 := set_requestId_ (strncpy 47 reqId) (set_node_ true new_writer)).
  assert (I0 : writer_inv r0) by apply writer_inv_new.
  match goal with |- context [if ?c then _ else _] => destruct c end.
  - set (res := write_str (Some "Payload Too Large")
                  (setHeader (Some "Content-Type") (Some "text/plain") (setStatus 413 r0))).
    exists res.
    assert (I1 : writer_inv (setHeader (Some "Content-Type") (Some "text/plain")
                               (setStatus 413 r0))).
    { unfold writer_inv, bodyLen_.
      destruct (setHeader_spec (Some "Content-Type") (Some "text/plain") (setStatus 413 r0))
        as (B & _). rewrite B. exact I0. }
    destruct (write_str_spec (Some "Payload Too Large") _ I1) as (I2 & E2 & N2 & R2).
    destruct (setHeader_spec (Some "Content-Type") (Some "text/plain") (setStatus 413 r0))
      as (_ & E1 & N1 & R1 & _).
    split; [exact I2|]. split; [subst res; rewrite E2, E1; reflexivity|].
    split; [subst res; rewrite N2, N1; reflexivity|].
    split; [subst res; rewrite R2, R1; reflexivity|].
    intros cb. fold res. destruct (writer_end res w). reflexivity.
  - match goal with
    | |- context [writer_end ?r w] => set (res := r)
    end.
    exists res.
    assert (I1 : writer_inv (setHeader (Some "Content-Type") (Some "application/json")
                               (setStatus 200 r0))).
    { unfold writer_inv, bodyLen_.
      destruct (setHeader_spec (Some "Content-Type") (Some "application/json")
                  (setStatus 200 r0)) as (B & _). rewrite B. exact I0. }
    destruct (setHeader_spec (Some "Content-Type") (Some "application/json")
                (setStatus 200 r0)) as (_ & E1 & N1 & R1 & _).
    assert (S : writer_inv res /\ ended_ res = false /\ node_ res = true /\
                requestId_ res = strncpy 47 reqId).
    { subst res. repeat break_inner;
        try match goal with
        | |- context [write_str ?s ?r] =>
            destruct (write_str_spec s r I1) as (I2 & E2 & N2 & R2);
            rewrite E2, N2, R2
        end; rewrite E1, N1, R1; auto. }
    destruct S as (I2 & E2 & N2 & R2).
    split; [exact I2|]. split; [exact E2|]. split; [exact N2|]. split; [exact R2|].
    intros cb.
    pose proof (writer_step_spec CallEnd res w I2) as S. cbn [writer_step] in S.
    destruct (writer_end res w) as [r1 w1] eqn:Ew.
    destruct S as (I3 & _ & _ & _ & S). destruct (S E2) as [[F _] | [E3 _]].
    { unfold writer_end in Ew. rewrite E2 in Ew. destruct (node_ (set_ended_ true res));
        inversion Ew; subst; cbn in F; discriminate. }
    destruct cb as [cb|].
    + match goal with |- context [writer_run ?cs r1 w1] =>
        pose proof (writer_run_ended cs r1 w1 I3 E3) as R;
        destruct (writer_run cs r1 w1) as [r2 w2]
      end.
      destruct R as (_ & E4 & -> & _). rewrite E4. reflexivity.
    + rewrite E3. reflexivity.
Qed.

Lemma proxy_request_empty p n w :
  nonempty (p_text p) = false \/ p_doc p = None ->
  tunnelHandleProxyRequest p n w = (n, w).
Proof.
  unfold tunnelHandleProxyRequest. intros [-> | H]; [reflexivity|].
  rewrite H. now destruct (nonempty (p_text p)).
Qed.

Lemma node_cb n : set_httpRequestCb_ (httpRequestCb_ n) n = n.
Proof. now destruct n. Qed.

Lemma writer_end_sends res w :
  ended_ res = false ->
  sends w (snd (writer_end res w)) [] \/
  sends w (snd (writer_end res w)) [proxyResponseDoc res].
Proof.
  intros E. unfold writer_end. rewrite E. cbn [node_ set_ended_].
  destruct (node_ res); cbn [snd]; [|left; apply sends_nil].
  apply (tunnelSendProxyResponse_sends (set_ended_ true res) w).
Qed.

Lemma echoes_one doc k v f :
  correlation_echo doc = Some (k, v) -> member f k = Some v ->
  forall l, l = [] \/ l = [f] -> echoes doc l.
Proof.
  intros H M l [-> | ->]; unfold echoes; rewrite H; intros g [].
  - now subst.
  - contradiction.
Qed.

End FrameFacts.
Import FrameFacts.

Module EchoFacts.

Lemma echoes_nil doc : echoes doc [].
Proof. unfold echoes. destruct (correlation_echo doc) as [[k v]|]; [intros f []|reflexivity]. Qed.

Lemma digitalWrite_sent pin h w : w_sent (digitalWrite pin h w) = w_sent w.
Proof. reflexivity. Qed.

Lemma send_result doc f w w0 k v :
  w_sent w0 = w_sent w ->
  correlation_echo doc = Some (k, v) -> member f k = Some v ->
  exists l, w_sent (snd (tunnelSendText f w0)) = (w_sent w ++ l)%list /\
            (List.length l <= 1)%nat /\ echoes doc l.
Proof.
  intros H0 Hc Hm.
  destruct (tunnelSendText_sends f w0) as [S | S]; unfold sends in S; rewrite H0 in S.
  - exists []. split; [exact S|]. split; [cbn; lia | apply echoes_nil].
  - exists [f]. split; [exact S|]. split; [cbn; lia|].
    apply (echoes_one doc k v f Hc Hm). now right.
Qed.

Lemma no_send doc w : 
  exists l, w_sent w = (w_sent w ++ l)%list /\ (List.length l <= 1)%nat /\ echoes doc l.
Proof.
  exists []. rewrite app_nil_r. split; [reflexivity|]. split; [cbn; lia | apply echoes_nil].
Qed.

Lemma handle_echo p n w doc :
  p_doc p = Some doc ->
  exists l, w_sent (snd (tunnelHandleMessage p n w)) = (w_sent w ++ l)%list /\
            (List.length l <= 1)%nat /\ echoes doc l.
Proof.
  intros Hd. unfold tunnelHandleMessage. rewrite Hd.
  destruct (nonempty (p_text p)) eqn:Ht; cbn [negb]; [|apply no_send].
  destruct (containsKey doc "id" && containsKey doc "path") eqn:Erpc.
  - (* RPC envelope *)
    match goal with |- context [if ?c then (n, snd (tunnelSendText ?f ?w0)) else _] =>
      destruct c; cbn [snd];
        [apply (send_result doc f w w0 "id"
                  (if is_str (member doc "id") then JStr (str_or (member doc "id") EmptyString)
                   else JInt (as_long (member doc "id"))))
        | ]
    end.
    + repeat break_inner; reflexivity.
    + unfold correlation_echo. now rewrite Erpc.
    + reflexivity.
    + repeat break_inner; cbn; apply no_send.
  - destruct (nonempty (str_or (member doc "type") EmptyString)) eqn:Ety; cbn [negb];
      [|apply no_send].
    destruct (String.eqb (str_or (member doc "type") EmptyString) "register_ack") eqn:Era.
    { assert (Hn : correlation_echo doc = None).
      { unfold correlation_echo. rewrite Erpc. apply String.eqb_eq in Era. rewrite Era.
        reflexivity. }
      exists []. rewrite app_nil_r. split; [|split; [cbn; lia | apply echoes_nil]].
      repeat break_inner; cbn [fst snd];
        repeat match goal with
        | H : setState ?s ?m ?v = (_, ?w') |- _ =>
            let P := fresh "P" in
            pose proof (setState_sent s m v) as P;
            rewrite H in P; cbn [snd] in P; clear H
        end; cbn; congruence. }
    destruct (String.eqb (str_or (member doc "type") EmptyString) "HTTP_REQ") eqn:Ehr.
    { destruct (nonempty (str_or (member doc "stream_id") EmptyString)) eqn:Esid; cbn [negb];
        [|apply no_send].
      assert (Hc : correlation_echo doc
                   = Some ("stream_id", JStr (str_or (member doc "stream_id") EmptyString))).
      { unfold correlation_echo. now rewrite Erpc, Ehr, Esid. }
      repeat (break_inner; cbn [fst snd]);
        first [ apply no_send
              | rewrite digitalWrite_sent; apply no_send
              | refine (send_result doc _ w _ "stream_id" _ _ Hc _); reflexivity ]. }
    destruct (String.eqb (str_or (member doc "type") EmptyString) "proxy_request") eqn:Epr;
      [|apply no_send].
    assert (Hc : correlation_echo doc
                 = Some ("request_id",
                         JStr (strncpy 47 (str_or (alt (member doc "request_id")
                                                       (member doc "req_id")) EmptyString)))).
    { unfold correlation_echo. now rewrite Erpc, Ehr, Epr. }
    destruct (proxy_request_world p doc n w Ht Hd) as (res & _ & E & _ & R & Hw).
    specialize (Hw (httpRequestCb_ n)). rewrite node_cb in Hw. rewrite Hw. cbn [snd].
    destruct (writer_end_sends res w E) as [S | S]; unfold sends in S.
    + exists []. split; [exact S|]. split; [cbn; lia | apply echoes_nil].
    + exists [proxyResponseDoc res]. split; [exact S|]. split; [cbn; lia|].
      apply (echoes_one doc _ _ (proxyResponseDoc res) Hc); [|now right].
      cbn. now rewrite R.
Qed.

Lemma strncpy_short n : forall s, (String.length s <= n)%nat -> strncpy n s = s.
Proof.
  induction n as [|n IH]; intros [|c s] H; cbn in *; try reflexivity; try lia.
  unfold strncpy. fold strncpy. f_equal. apply IH. lia.
Qed.

End EchoFacts.
Import EchoFacts.

Module EchoCases.

Lemma unparsed_frame p n w : p_doc p = None -> tunnelHandleMessage p n w = (n, w).
Proof.
  intros H. unfold tunnelHandleMessage. rewrite H. now destruct (negb (nonempty (p_text p))).
Qed.

End EchoCases.

(** C3. An inbound frame makes the node send at most one frame, and none
    when it does not parse. An RPC envelope (id and path present) is
    answered with its id when that is a string, and else with the integer
    [as<long>] reads from it; an HTTP_REQ whose stream_id is a non-empty
    string is answered with that stream_id; a proxy_request is answered with
    the first 47 bytes of its request_id (of req_id when request_id is absent
    or null) when that is a string, and with the empty id when it is not. An
    HTTP_REQ whose stream_id is missing, empty or not a string, and every
    other frame, is answered with nothing. *)
Theorem tunnel_response_echo p n w :
  exists l,
    w_sent (snd (tunnelHandleMessage p n w)) = (w_sent w ++ l)%list /\
    (List.length l <= 1)%nat /\
    match p_doc p with
    | None => l = []
    | Some doc =>
        if containsKey doc "id" && containsKey doc "path" then
          forall f, In f l ->
            member f "id" = Some (match member doc "id" with
                                  | Some (JStr s) => JStr s
                                  | v => JInt (as_long v)
                                  end)
        else if String.eqb (str_or (member doc "type") EmptyString) "HTTP_REQ" then
          match member doc "stream_id" with
          | Some (JStr s) =>
              if nonempty s
              then forall f, In f l -> member f "stream_id" = Some (JStr s)
              else l = []
          | _ => l = []
          end
        else if String.eqb (str_or (member doc "type") EmptyString) "proxy_request" then
          forall f, In f l ->
            member f "request_id" =
            Some (JStr (strncpy 47
                          match alt (member doc "request_id") (member doc "req_id") with
                          | Some (JStr s) => s
                          | _ => EmptyString
                          end))
        else l = []
    end.
Proof.
  destruct (p_doc p) as [doc|] eqn:Hd.
  - destruct (handle_echo p n w doc Hd) as (l & Hl & Hn & He).
    exists l. split; [exact Hl|]. split; [exact Hn|].
    unfold echoes, correlation_echo in He.
    destruct (containsKey doc "id" && containsKey doc "path").
    + destruct (member doc "id") as [[| | |s| |]|]; exact He.
    + destruct (String.eqb (str_or (member doc "type") EmptyString) "HTTP_REQ").
      * destruct (member doc "stream_id") as [[| | |s| |]|]; cbn in He; try exact He.
        destruct (nonempty s); exact He.
      * destruct (String.eqb (str_or (member doc "type") EmptyString) "proxy_request");
          [|exact He].
        unfold str_or in He. exact He.
  - exists []. rewrite (EchoCases.unparsed_frame p n w Hd). cbn [snd].
    rewrite app_nil_r. split; [reflexivity|]. split; [cbn; lia | reflexivity].
Qed.

(** When the echo is the inbound id itself. *)
Lemma correlation_echo_exact doc :
  (containsKey doc "id" && containsKey doc "path" = true ->
   (forall s, member doc "id" = Some (JStr s) ->
      correlation_echo doc = Some ("id", JStr s)) /\
   (forall k, member doc "id" = Some (JInt k) -> fits_int32 k = true ->
      correlation_echo doc = Some ("id", JInt k))) /\
  (containsKey doc "id" && containsKey doc "path" = false ->
   (str_or (member doc "type") EmptyString = "HTTP_REQ" ->
    (forall s, member doc "stream_id" = Some (JStr s) -> nonempty s = true ->
       correlation_echo doc = Some ("stream_id", JStr s)) /\
    (nonempty (str_or (member doc "stream_id") EmptyString) = false ->
       correlation_echo doc = None)) /\
   (str_or (member doc "type") EmptyString = "proxy_request" ->
    forall s, member doc "request_id" = Some (JStr s) -> (String.length s <= 47)%nat ->
       correlation_echo doc = Some ("request_id", JStr s))).
Proof.
  unfold correlation_echo. split; intros ->.
  - split.
    + intros s ->. reflexivity.
    + intros k -> Hk. cbn. now rewrite Hk.
  - split.
    + intros ->. cbn [String.eqb Ascii.eqb Bool.eqb andb]. split.
      * intros s -> Hs. cbn. now rewrite Hs.
      * intros ->. reflexivity.
    + intros ->. cbn [String.eqb Ascii.eqb Bool.eqb andb].
      intros s -> Hs. cbn [alt str_or]. now rewrite strncpy_short.
Qed.

Module HeartbeatFacts.
Import Simple.





End HeartbeatFacts.
Import HeartbeatFacts.

Module LoopFacts.
Import Simple.






End LoopFacts.
Import LoopFacts.


Module StrFacts.

Lemma strncpy_length k : forall s,
  String.length (strncpy k s) = Nat.min k (String.length s).
Proof.
  induction k as [|k IH]; intros [|c s]; try reflexivity.
  unfold strncpy; fold strncpy. cbn [String.length]. rewrite IH. reflexivity.
Qed.

Lemma slen_strncpy k s : slen (strncpy k s) <= Z.of_nat k.
Proof. unfold slen. rewrite strncpy_length. lia. Qed.

Lemma slen_nonneg s : 0 <= slen s.
Proof. unfold slen. lia. Qed.

Lemma length_append s t :
  String.length (s ++ t) = (String.length s + String.length t)%nat.
Proof. induction s as [|c s IH]; cbn; [reflexivity | now rewrite IH]. Qed.

Lemma slen_append s t : slen (s ++ t) = slen s + slen t.
Proof. unfold slen. rewrite length_append. lia. Qed.

Lemma codes_append s t : codes (s ++ t) = (codes s ++ codes t)%list.
Proof.
  unfold codes. induction s as [|c s IH]; cbn; [reflexivity|]. now rewrite IH.
Qed.

Lemma length_codes s : List.length (codes s) = String.length s.
Proof.
  unfold codes. rewrite length_map. induction s as [|c s IH]; cbn; [reflexivity|].
  now rewrite IH.
Qed.

End StrFacts.
Import StrFacts.

Module IdentityFacts.
Import Simple Base64Facts.

Lemma remove_colons_app a b :
  remove_colons (a ++ b) = remove_colons a ++ remove_colons b.
Proof.
  induction a as [|c a IH]; [reflexivity|]. cbn.
  destruct (Ascii.eqb c ":"); cbn; now rewrite IH.
Qed.

Lemma toLowerCase_app a b : toLowerCase (a ++ b) = toLowerCase a ++ toLowerCase b.
Proof. induction a as [|c a IH]; [reflexivity|]. cbn. now rewrite IH. Qed.

Lemma lower_byte b : 0 <= b < 256 ->
  toLowerCase (remove_colons (hex_fixed true 2 b)) = hex_fixed false 2 b.
Proof.
  intros Hb. apply String.eqb_eq.
  apply (range_forallb (fun b => String.eqb (toLowerCase (remove_colons (hex_fixed true 2 b)))
                                             (hex_fixed false 2 b)) 256);
    [vm_compute; reflexivity | exact Hb].
Qed.

Lemma byte_range m i : 0 <= nth i m 0 mod 256 < 256.
Proof. apply Z.mod_pos_bound. lia. Qed.

Lemma lower_colon : toLowerCase (remove_colons ":") = EmptyString.
Proof. reflexivity. Qed.

Lemma lower_mac m :
  toLowerCase (remove_colons
    (hex_fixed true 2 (nth 0 m 0 mod 256) ++ ":" ++ hex_fixed true 2 (nth 1 m 0 mod 256) ++ ":" ++
     hex_fixed true 2 (nth 2 m 0 mod 256) ++ ":" ++ hex_fixed true 2 (nth 3 m 0 mod 256) ++ ":" ++
     hex_fixed true 2 (nth 4 m 0 mod 256) ++ ":" ++ hex_fixed true 2 (nth 5 m 0 mod 256)))
  = mac_hex_lower m.
Proof.
  unfold mac_hex_lower.
  rewrite !remove_colons_app, !toLowerCase_app, !lower_colon.
  rewrite !lower_byte by apply byte_range. reflexivity.
Qed.

Lemma mac_nonempty m :
  nonempty (hex_fixed true 2 (nth 0 m 0 mod 256) ++ ":" ++ hex_fixed true 2 (nth 1 m 0 mod 256) ++ ":" ++
     hex_fixed true 2 (nth 2 m 0 mod 256) ++ ":" ++ hex_fixed true 2 (nth 3 m 0 mod 256) ++ ":" ++
     hex_fixed true 2 (nth 4 m 0 mod 256) ++ ":" ++ hex_fixed true 2 (nth 5 m 0 mod 256)) = true.
Proof. reflexivity. Qed.

End IdentityFacts.
Import IdentityFacts.

Module MacFacts.

Lemma hex_byte_shape b : 0 <= b < 256 ->
  exists a c, hex_fixed true 2 b = String a (String c EmptyString) /\
              is_upper_hex a = true /\ is_upper_hex c = true.
Proof.
  intros Hb.
  pose (P := fun b => match hex_fixed true 2 b with
                      | String a (String c EmptyString) => is_upper_hex a && is_upper_hex c
                      | _ => false
                      end).
  assert (HP : P b = true).
  { apply (range_forallb P 256); [vm_compute; reflexivity | exact Hb]. }
  unfold P in HP. destruct (hex_fixed true 2 b) as [|a [|c [|]]]; try discriminate.
  apply andb_prop in HP. exists a, c. tauto.
Qed.

Lemma getMacCStr_shaped w :
  mac_shaped 6 (getMacCStr w) = true /\ String.length (getMacCStr w) = 17%nat.
Proof.
  unfold getMacCStr, mac_byte.
  destruct (hex_byte_shape _ (byte_range (w_mac w) 0)) as (a0 & c0 & -> & A0 & C0).
  destruct (hex_byte_shape _ (byte_range (w_mac w) 1)) as (a1 & c1 & -> & A1 & C1).
  destruct (hex_byte_shape _ (byte_range (w_mac w) 2)) as (a2 & c2 & -> & A2 & C2).
  destruct (hex_byte_shape _ (byte_range (w_mac w) 3)) as (a3 & c3 & -> & A3 & C3).
  destruct (hex_byte_shape _ (byte_range (w_mac w) 4)) as (a4 & c4 & -> & A4 & C4).
  destruct (hex_byte_shape _ (byte_range (w_mac w) 5)) as (a5 & c5 & -> & A5 & C5).
  cbn. rewrite A0, C0, A1, C1, A2, C2, A3, C3, A4, C4, A5, C5. split; reflexivity.
Qed.

Lemma hex_fixed_length u k n : String.length (hex_fixed u k n) = k.
Proof. induction k as [|k IH]; cbn; [reflexivity | now rewrite IH]. Qed.

Lemma mac_hex_lower_length m : String.length (mac_hex_lower m) = 12%nat.
Proof. unfold mac_hex_lower. rewrite !length_append, !hex_fixed_length. reflexivity. Qed.

End MacFacts.

(** C8. The richest implementation's machine id is the prefix
    followed by the MAC text, cut to the buffer. The MAC text is six pairs
    of upper-case hexadecimal digits with colons between them, 17 characters;
    in a buffer that holds it whole the machine id is the prefix followed by
    that text, and in one with room for 13 characters after the prefix it is
    never the prefix followed by the twelve lower-case digits; lower-casing
    the text and stripping the colons gives those twelve digits. The simpler implementation's is the prefix alone, or with
    append_unique_suffix the prefix followed by the MAC as twelve lower-case
    digits (MAC available and chosen) or by the chip id in hexadecimal. Both
    give the same id again for the same device and configuration. *)
Theorem machine_id_derivation
    (n n2 : Node.node) (w w2 : Node.world) (size : nat)
    (sn sn2 : Simple.node) (sw sw2 : Simple.world) :
  (* same device, same configuration *)
  Node.machineIdPrefix (Node.cfg_ n2) = Node.machineIdPrefix (Node.cfg_ n) ->
  Node.w_mac w2 = Node.w_mac w ->
  Simple.config_ sn2 = Simple.config_ sn ->
  Simple.w_mac sw2 = Simple.w_mac sw -> Simple.w_platform sw2 = Simple.w_platform sw ->
  Simple.w_chip_id sw2 = Simple.w_chip_id sw ->
  (* the identity is not derived yet *)
  Simple.machine_id_ptr_ sn = None -> Simple.machine_id_ptr_ sn2 = None ->
  (* the richest implementation *)
  Node.getMachineId n w size
    = strncpy (size - 1) (or_default (Node.machineIdPrefix (Node.cfg_ n)) "node-"
                          ++ Node.getMacCStr w) /\
  mac_shaped 6 (Node.getMacCStr w) = true /\
  String.length (Node.getMacCStr w) = 17%nat /\
  ((String.length (or_default (Node.machineIdPrefix (Node.cfg_ n)) "node-") + 17 < size)%nat ->
   Node.getMachineId n w size
     = or_default (Node.machineIdPrefix (Node.cfg_ n)) "node-" ++ Node.getMacCStr w) /\
  ((String.length (or_default (Node.machineIdPrefix (Node.cfg_ n)) "node-") + 13 < size)%nat ->
   Node.getMachineId n w size
     <> or_default (Node.machineIdPrefix (Node.cfg_ n)) "node-"
        ++ mac_hex_lower (Node.w_mac w)) /\
  Simple.toLowerCase (Simple.remove_colons (Node.getMacCStr w)) = mac_hex_lower (Node.w_mac w) /\
  Node.getMachineId n2 w2 size = Node.getMachineId n w size /\
  (* the simpler implementation *)
  Simple.getMachineId sn sw =
    (if Simple.appendUniqueSuffix (Simple.config_ sn)
     then simple_prefix (Simple.config_ sn)
          ++ match Simple.w_mac sw with
             | Some m => if Simple.useMacForUniqueId (Simple.config_ sn)
                         then mac_hex_lower m else chip_hex sw
             | None => chip_hex sw
             end
     else simple_prefix (Simple.config_ sn)) /\
  Simple.getMachineId sn2 sw2 = Simple.getMachineId sn sw.
Proof.
  intros Hp Hm Hc Hsm Hsp Hsc Hn Hn2.
  assert (G : forall a b, Simple.machine_id_ptr_ a = None ->
    Simple.getMachineId a b =
    (if Simple.appendUniqueSuffix (Simple.config_ a)
     then simple_prefix (Simple.config_ a)
          ++ match Simple.w_mac b with
             | Some m => if Simple.useMacForUniqueId (Simple.config_ a)
                         then mac_hex_lower m else chip_hex b
             | None => chip_hex b
             end
     else simple_prefix (Simple.config_ a))).
  { intros a b H. unfold Simple.getMachineId, Simple.ensureIdentityInitialized.
    rewrite H. fold (simple_prefix (Simple.config_ a)).
    destruct (Simple.appendUniqueSuffix (Simple.config_ a)); [|reflexivity].
    cbn [Simple.machine_id_ptr_ Simple.set_node_name_ptr_ Simple.set_machine_id_ptr_ or_empty].
    f_equal. unfold Simple.makeUniqueSuffix, Simple.macAddress, chip_hex.
    destruct (Simple.w_mac b) as [m|].
    - cbv zeta. rewrite mac_nonempty, lower_mac.
      destruct (Simple.useMacForUniqueId (Simple.config_ a)); reflexivity.
    - rewrite andb_false_r. reflexivity. }
  destruct (MacFacts.getMacCStr_shaped w) as [F L].
  split; [reflexivity|].
  split; [exact F|]. split; [exact L|].
  split.
  { intros Hs. unfold Node.getMachineId. apply strncpy_short.
    rewrite length_append, L. lia. }
  split.
  { intros Hs E. apply (f_equal String.length) in E. unfold Node.getMachineId in E.
    rewrite strncpy_length, !length_append, L, MacFacts.mac_hex_lower_length in E. lia. }
  split; [apply (lower_mac (Node.w_mac w))|].
  split.
  { unfold Node.getMachineId, Node.getMacCStr, Node.mac_byte. now rewrite Hp, Hm. }
  split; [exact (G sn sw Hn)|].
  rewrite (G sn2 sw2 Hn2), (G sn sw Hn). unfold chip_hex. now rewrite Hc, Hsm, Hsp, Hsc.
Qed.

(** ** The properties at the sample devices *)

Import Samples.

(** C1: approve answered 401 with an empty body counts as a failed exchange;
    the node stays in PENDING_POLL with its pairing code and asks for
    approval again. *)
Lemma bare_401_keeps_pairing :
  state_ (fst approve_bare_401) = PENDING_POLL /\
  map (fun x => (x_endpoint x, option_map r_status (x_reply x)))
      (w_posts (snd (tick (later 600) (fst approve_bare_401) (snd approve_bare_401))))
    = [(EpHello, Some 200); (EpApprove, Some 401)] /\
  state_ (fst (tick (later 600) (fst approve_bare_401) (snd approve_bare_401)))
    = PENDING_POLL /\
  pairingCode_ (fst (tick (later 600) (fst approve_bare_401) (snd approve_bare_401)))
    = "ABC" /\
  map x_endpoint
      (w_posts (snd (run [later 600; later 5000]
                         (fst approve_bare_401) (snd approve_bare_401))))
    = [EpHello; EpApprove; EpApprove; EpSessionPoll].
Proof. vm_compute. repeat split. Qed.

(** After approve is answered 401 with a body, a session poll that is due
    in the same tick is still issued, and the tick ends ACTIVE with the
    token the poll returned. *)
Lemma session_poll_follows_rejected_approve :
  state_ (fst approve_rejected) = PENDING_POLL /\
  map x_endpoint
      (w_posts (snd (tick (later 2000) (fst approve_rejected) (snd approve_rejected))))
    = [EpHello; EpApprove; EpSessionPoll] /\
  hello_follows_auth_failure
      (w_posts (snd (tick (later 2000) (fst approve_rejected) (snd approve_rejected))))
    = false /\
  sessionToken_ (fst (tick (later 2000) (fst approve_rejected) (snd approve_rejected)))
    = "tok" /\
  state_ (fst (tick (later 2000) (fst approve_rejected) (snd approve_rejected)))
    = ACTIVE.
Proof. vm_compute. repeat split. Qed.

(** C2: one tick in PENDING_POLL issues three control requests. *)
Lemma pending_poll_tick_posts_three :
  state_ (fst all_three_due) = PENDING_POLL /\
  map x_endpoint
      (skipn (List.length (w_posts (snd all_three_due)))
             (w_posts (snd (tick (later 2000) (fst all_three_due) (snd all_three_due)))))
    = [EpRegisterBySlot; EpApprove; EpSessionPoll].
Proof. vm_compute. split; reflexivity. Qed.

(** C1 at the rejected approve of [approve_rejected], at the one answered
    with an empty body, and at the tick that ends on the rejected approve. *)
Lemma auth_failure_returns_to_hello_witness :
  back_to_hello (fst approve_rejected)
    (fst (attempt CallApprove (fst approve_rejected)
            (set_w_clock 2050 (snd approve_rejected))))
    (snd (attempt CallApprove (fst approve_rejected)
            (set_w_clock 2050 (snd approve_rejected)))) /\
  standing (fst approve_bare_401)
    (fst (attempt CallApprove (fst approve_bare_401)
            (set_w_clock 660 (snd approve_bare_401)))) /\
  hello_again (fst (tick (later 600) (fst approve_rejected) (snd approve_rejected))).
Proof.
  destruct auth_failure_returns_to_hello as [A B]. split; [|split].
  - eapply (A CallApprove (fst approve_rejected)
              (set_w_clock 2050 (snd approve_rejected))).
    + vm_compute. reflexivity.
    + reflexivity.
    + reflexivity.
    + vm_compute. reflexivity.
    + vm_compute. reflexivity.
  - eapply (A CallApprove (fst approve_bare_401)
              (set_w_clock 660 (snd approve_bare_401))).
    + vm_compute. reflexivity.
    + reflexivity.
    + reflexivity.
    + vm_compute. reflexivity.
    + vm_compute. reflexivity.
  - eapply (B (later 600) (fst approve_rejected) (snd approve_rejected) []).
    + vm_compute. reflexivity.
    + vm_compute. reflexivity.
Defined.

(** C3: a 48-byte request id comes back cut to 47 bytes, and a request id
    that is a number comes back as the empty string. *)
Lemma long_request_id_truncated :
  map (fun f => member f "request_id")
      (w_sent (snd (tunnelHandleMessage (frame (proxy_request_doc long_id "/x" EmptyString))
                                        (new_node cfg_self_approve) tunnel_up)))
    = [Some (JStr (strncpy 47 long_id))] /\
  member (proxy_request_doc long_id "/x" EmptyString) "request_id" = Some (JStr long_id) /\
  strncpy 47 long_id <> long_id /\
  map (fun f => member f "request_id")
      (w_sent (snd (tunnelHandleMessage
                      (frame (JObj [("type", JStr "proxy_request"); ("request_id", JInt 7);
                                    ("method", JStr "GET"); ("path", JStr "/x")]))
                      (new_node cfg_self_approve) tunnel_up)))
    = [Some (JStr EmptyString)].
Proof. vm_compute. repeat split. discriminate. Qed.

(** C3 at a proxy request with a short id. *)
Lemma tunnel_response_echo_witness :
  exists l,
    w_sent (snd (tunnelHandleMessage (frame (proxy_request_doc "r1" "/x" EmptyString))
                                     (new_node cfg_self_approve) tunnel_up))
      = (w_sent tunnel_up ++ l)%list /\
    (List.length l <= 1)%nat /\
    forall f, In f l -> member f "request_id" = Some (JStr "r1").
Proof.
  exact (tunnel_response_echo (frame (proxy_request_doc "r1" "/x" EmptyString))
           (new_node cfg_self_approve) tunnel_up).
Defined.


(** C6: the first connect failure already schedules the next hello after
    4000 ms. *)
Lemma first_connect_failure_delta :
  netBackoffMs_ (set_state_ HELLO (new_node cfg_self_approve)) = 2000 /\
  map x_reply (w_posts (snd (tryHello (set_state_ HELLO (new_node cfg_self_approve))
                                      unreachable)))
    = [Some (Build_reply false 0 EmptyString None 10)] /\
  hello_delta (fst (tryHello (set_state_ HELLO (new_node cfg_self_approve)) unreachable))
              (snd (tryHello (set_state_ HELLO (new_node cfg_self_approve)) unreachable))
    = 4000.
Proof. vm_compute. repeat split. Qed.

(** C6 from a fresh node, the seventh attempt answered 200. *)
Lemma hello_backoff_sequence_witness :
  netBackoffMs_
    (fst (handleHelloResponse 200 "{}" (Some (JObj []))
            (hello_fail (hello_fail (hello_fail (hello_fail (hello_fail (hello_fail
               (new_node cfg_self_approve) unreachable) unreachable) unreachable)
               unreachable) unreachable) unreachable)
            unreachable))
    = kBackoffMinMs.
Proof.
  apply (hello_backoff_sequence (new_node cfg_self_approve)
           unreachable unreachable unreachable unreachable unreachable unreachable
           unreachable 200 "{}" (JObj []));
    [reflexivity | lia | reflexivity | reflexivity].
Defined.

(** C8: the richest implementation keeps the MAC in upper case with its
    colons. *)
Lemma machine_id_keeps_colons :
  getMachineId (new_node cfg_self_approve) (world_with []) 64 = "node-AA:BB:CC:DD:EE:FF" /\
  or_default (machineIdPrefix cfg_self_approve) "node-" ++ mac_hex_lower mac_aabb
    = "node-aabbccddeeff".
Proof. vm_compute. split; reflexivity. Qed.

(** C8 at the sample device. *)
Lemma machine_id_derivation_witness :
  Simple.getMachineId simple_node simple_world = "node-aabbccddeeff" /\
  getMachineId (new_node cfg_self_approve) (world_with []) 64
    = "node-" ++ getMacCStr (world_with []) /\
  getMachineId (new_node cfg_self_approve) (world_with []) 64
    <> "node-" ++ mac_hex_lower mac_aabb /\
  mac_shaped 6 (getMacCStr (world_with [])) = true.
Proof.
  destruct (machine_id_derivation (new_node cfg_self_approve) (new_node cfg_self_approve)
              (world_with []) (world_with []) 64
              simple_node simple_node simple_world simple_world
              eq_refl eq_refl eq_refl eq_refl eq_refl eq_refl eq_refl eq_refl)
    as (_ & F & _ & I & D & _ & _ & S & _).
  split; [rewrite S; reflexivity|].
  split; [apply I; vm_compute; lia|].
  split; [apply D; vm_compute; lia | exact F].
Defined.

(** C7. What the node sends for a proxy request is settled before the user
    handler runs: the world after [tunnelHandleProxyRequest] is the same
    with any handler as with none. *)
Theorem proxy_response_ignores_handler cb p n w :
  snd (tunnelHandleProxyRequest p (set_httpRequestCb_ cb n) w)
    = snd (tunnelHandleProxyRequest p (set_httpRequestCb_ None n) w).
Proof.
  destruct (nonempty (p_text p)) eqn:Ht.
  - destruct (p_doc p) as [doc|] eqn:Hd.
    + destruct (FrameFacts.proxy_request_world p doc n w Ht Hd) as (res & _ & _ & _ & _ & H).
      now rewrite (H cb), (H None).
    + unfold tunnelHandleProxyRequest. rewrite Ht, Hd. reflexivity.
  - unfold tunnelHandleProxyRequest. rewrite Ht. reflexivity.
Qed.

(** The handler answers 404 and the Hub is sent the built-in 200. *)
Lemma not_found_handler_unheard :
  w_sent (snd (tunnelHandleMessage (frame (proxy_request_doc "r1" "/x" EmptyString))
                 (set_httpRequestCb_ (Some not_found_handler) (new_node cfg_self_approve))
                 tunnel_up))
    = [JObj [("type", JStr "proxy_response"); ("request_id", JStr "r1");
             ("status_code", JInt 200);
             ("headers", JObj [("Content-Type", JStr "application/json")]);
             ("body", JStr (str_of_codes (Base64.base64Encode (codes (builtin_body "r1")))))]].
Proof. vm_compute. reflexivity. Qed.

(** A body of 4095 bytes is refused with 413. *)
Lemma body_4095_refused :
  List.length (Base64.base64Decode (codes body_4095)) = 4095%nat /\
  map (fun f => member f "status_code")
      (w_sent (snd (tunnelHandleMessage (frame (proxy_request_doc "r2" "/x" body_4095))
                      (set_httpRequestCb_ (Some not_found_handler)
                                          (new_node cfg_self_approve))
                      tunnel_up)))
    = [Some (JInt 413)].
Proof. vm_compute. split; reflexivity. Qed.

(** C9 at three bytes and at a two-byte tail. *)
Lemma base64_roundtrip_witness :
  Base64.base64Decode (Base64.base64Encode [77; 97; 110; 255; 0])
    = [77; 97; 110; 255; 0] /\
  List.length (Base64.base64Decode (Base64.base64Encode [77; 97; 110; 255; 0])) = 5%nat.
Proof.
  apply (base64_roundtrip [77; 97; 110; 255; 0]).
  repeat constructor; unfold Base64.is_byte; lia.
Defined.



(** A 401 whose body does not parse leaves the session in place. *)
Lemma heartbeat_401_unparsed :
  fst (Simple.sendHeartbeat simple_node
         (Simple.set_w_replies [bare_unauthorized] simple_world)) = false /\
  Simple.session_token_
    (fst (snd (Simple.sendHeartbeat simple_node
                 (Simple.set_w_replies [bare_unauthorized] simple_world)))) = "tok" /\
  Simple.state_
    (fst (snd (Simple.sendHeartbeat simple_node
                 (Simple.set_w_replies [bare_unauthorized] simple_world))))
    = Simple.ACTIVE.
Proof. vm_compute. repeat split. Qed.



(** C10 at a writer written to, ended, written to again and ended again:
    the late write is dropped and one frame is sent. *)
Lemma writer_body_bounded_one_frame_witness :
  body_ (fst (writer_run ([CallWriteStr (Some "early")] ++
                          CallEnd :: [CallWriteStr (Some "late"); CallEnd])
                         (set_node_ true new_writer) tunnel_up))
    = codes "early" /\
  List.length
    (w_sent (snd (writer_run ([CallWriteStr (Some "early")] ++
                              CallEnd :: [CallWriteStr (Some "late"); CallEnd])
                             (set_node_ true new_writer) tunnel_up))) = 1%nat /\
  bodyLen_ (fst (writer_run [CallWrite (Some (repeat 120 (Z.to_nat 3000)))]
                            (set_node_ true new_writer) tunnel_up)) = 2048.
Proof.
  destruct (writer_body_bounded_one_frame [CallWriteStr (Some "early")]
              (set_node_ true new_writer) tunnel_up) as (_ & _ & _ & _ & _ & _ & L);
    [vm_compute; discriminate|].
  destruct (L [CallWriteStr (Some "late"); CallEnd]) as [B S].
  split; [rewrite B; reflexivity|].
  split; [rewrite S; reflexivity|].
  destruct (writer_body_bounded_one_frame [] (set_node_ true new_writer) tunnel_up)
    as (_ & _ & _ & W & _); [vm_compute; discriminate|].
  unfold bodyLen_. cbn [writer_run writer_step fst].
  rewrite (W (repeat 120 (Z.to_nat 3000)) eq_refl). vm_compute. reflexivity.
Defined.

(** * Further properties *)

(** ** Capability hashes *)

Module HashFacts.

Lemma hash_str_app s t : forall h,
  hash_str h (s ++ t)%list = hash_str (hash_str h s) t.
Proof. induction s as [|c s IH]; intros h; cbn; [reflexivity | apply IH]. Qed.

Lemma hash_caps_text caps : forall h,
  hash_caps h caps = hash_str h (codes (caps_text caps)).
Proof.
  induction caps as [|[s|] r IH]; intros h; cbn [hash_caps caps_text].
  - reflexivity.
  - rewrite codes_append, hash_str_app. apply IH.
  - apply IH.
Qed.

Lemma hash_str_range s : forall h,
  0 <= h < 4294967296 -> 0 <= hash_str h s < 4294967296.
Proof.
  induction s as [|c s IH]; intros h Hh; cbn; [exact Hh|].
  apply IH. unfold u32. apply Z.mod_pos_bound. lia.
Qed.

Lemma simple_hash_caps caps h : Simple.hash_caps h caps = hash_caps h caps.
Proof. reflexivity. Qed.

End HashFacts.

(** X1. The capabilities hash is the hash of the capability strings written
    one after the other: it is an unsigned 32-bit number, null entries do
    not count, and neither does the place where one string ends and the
    next begins. Both implementations compute the same number. *)
Theorem capabilities_hash_of_text (n : node) (sn : Simple.node) :
  let caps := match capabilities (cfg_ n) with Some c => c | None => [] end in
  computeCapabilitiesHash n = hash_str 0 (codes (caps_text caps)) /\
  0 <= computeCapabilitiesHash n < 4294967296 /\
  (forall caps', caps_text caps' = caps_text caps ->
     hash_caps 0 caps' = computeCapabilitiesHash n) /\
  Simple.capabilitiesHash sn
    = hex_fixed true 8 (hash_str 0 (codes (caps_text (Simple.capabilities (Simple.config_ sn))))).
Proof.
  cbv zeta.
  assert (E : computeCapabilitiesHash n
              = hash_str 0 (codes (caps_text match capabilities (cfg_ n) with
                                             | Some c => c | None => [] end))).
  { unfold computeCapabilitiesHash. destruct (capabilities (cfg_ n)); [|reflexivity].
    apply HashFacts.hash_caps_text. }
  split; [exact E|]. split; [rewrite E; apply HashFacts.hash_str_range; lia|].
  split.
  - intros caps' H. rewrite E, <- H. apply HashFacts.hash_caps_text.
  - unfold Simple.capabilitiesHash.
    now rewrite HashFacts.simple_hash_caps, HashFacts.hash_caps_text.
Qed.

(** ** Base64 and the buffers around it *)

Module Base64Bounds.
Import Base64.

Lemma decode_loop_count inp : forall val valb out,
  -8 <= valb ->
  Z.of_nat (List.length (decode_loop inp val valb out))
  <= Z.of_nat (List.length out) + (6 * Z.of_nat (List.length inp) + (valb + 8)) / 8.
Proof.
  induction inp as [|c rest IH]; intros val valb out Hv.
  - cbn [decode_loop List.length]. Z.div_mod_to_equations. lia.
  - cbn [decode_loop]. rewrite length_cons.
    destruct (classify c) as [d| |].
    + cbv zeta. destruct (0 <=? valb + 6) eqn:E.
      * apply Z.leb_le in E.
        specialize (IH (int32 (Z.shiftl val 6 + d)) (valb + 6 - 8)
                       (out ++ [Z.land (Z.shiftr (int32 (Z.shiftl val 6 + d)) (valb + 6)) 255])%list
                       ltac:(lia)).
        rewrite length_app in IH. cbn [List.length] in IH.
        Z.div_mod_to_equations. lia.
      * apply Z.leb_gt in E.
        specialize (IH (int32 (Z.shiftl val 6 + d)) (valb + 6) out ltac:(lia)).
        Z.div_mod_to_equations. lia.
    + Z.div_mod_to_equations. lia.
    + specialize (IH val valb out Hv). Z.div_mod_to_equations. lia.
Qed.

Lemma land_255_byte x : is_byte (Z.land x 255).
Proof.
  unfold is_byte. change 255 with (Z.ones 8). rewrite Z.land_ones by lia.
  apply Z.mod_pos_bound. lia.
Qed.

Lemma decode_loop_bytes inp : forall val valb out,
  Forall is_byte out -> Forall is_byte (decode_loop inp val valb out).
Proof.
  induction inp as [|c rest IH]; intros val valb out Ho; cbn [decode_loop].
  - exact Ho.
  - destruct (classify c) as [d| |]; [|exact Ho|now apply IH].
    cbv zeta. destruct (0 <=? valb + 6); apply IH; [|exact Ho].
    apply Forall_app. split; [exact Ho|]. constructor; [apply land_255_byte|constructor].
Qed.

Lemma tbl_alphabet d : 0 <= d < 64 -> In (tbl d) kBase64Chars.
Proof.
  intros Hd. unfold tbl. apply nth_In.
  change (List.length kBase64Chars) with 64%nat. lia.
Qed.

Lemma encode_length b :
  Z.of_nat (List.length (base64Encode b)) = 4 * ((Z.of_nat (List.length b) + 2) / 3).
Proof.
  induction b as [| a | a b | a b c l IH] using Base64Inverse.triple_ind.
  - reflexivity.
  - reflexivity.
  - reflexivity.
  - cbn [base64Encode]. rewrite !length_cons.
    rewrite !Nat2Z.inj_succ, IH. Z.div_mod_to_equations. lia.
Qed.

Ltac alphabet_step :=
  apply Forall_cons;
  [first [left; apply tbl_alphabet; assumption | right; reflexivity]|].

Lemma encode_alphabet b :
  Forall is_byte b -> Forall (fun c => In c kBase64Chars \/ c = pad) (base64Encode b).
Proof.
  induction b as [| a | a b | a b c l IH] using Base64Inverse.triple_ind; intros HF.
  - constructor.
  - inversion HF as [|? ? Ha _]; subst. cbn [base64Encode].
    destruct (Base64Inverse.sextet_ranges a 0 0 Ha) as (R0 & _ & _ & _ & R1 & _);
      [unfold is_byte; lia ..|].
    rewrite (Base64Round.sextet0 a Ha), (Base64Round.sextet1_tail a Ha).
    repeat alphabet_step. apply Forall_nil.
  - inversion HF as [|? ? Ha HF']; subst. inversion HF' as [|? ? Hb _]; subst.
    cbn [base64Encode].
    destruct (Base64Inverse.sextet_ranges a b 0 Ha Hb) as (R0 & R1 & _ & _ & _ & R2);
      [unfold is_byte; lia|].
    rewrite (Base64Round.sextet0 a Ha), (Base64Round.sextet1 a b Ha Hb),
            (Base64Round.sextet2_tail b Hb).
    repeat alphabet_step. apply Forall_nil.
  - inversion HF as [|? ? Ha HF1]; subst. inversion HF1 as [|? ? Hb HF2]; subst.
    inversion HF2 as [|? ? Hc HF3]; subst. cbn [base64Encode].
    destruct (Base64Inverse.sextet_ranges a b c Ha Hb Hc) as (R0 & R1 & R2 & R3 & _).
    rewrite (Base64Round.sextet0 a Ha), (Base64Round.sextet1 a b Ha Hb),
            (Base64Round.sextet2 b c Hb Hc), (Base64Round.sextet3 c Hc).
    repeat alphabet_step. now apply IH.
Qed.

End Base64Bounds.

(** X2. Whatever the text, [base64Decode] writes bytes, and no more of them
    than three for every four characters read: they fit the buffer of
    (inLen / 4) * 3 + 4 bytes that [tunnelHandleProxyRequest] allocates. *)
Theorem base64_decode_fits_buffer (inp : list Z) :
  Forall Base64.is_byte (Base64.base64Decode inp) /\
  Z.of_nat (List.length (Base64.base64Decode inp)) <= 3 * Z.of_nat (List.length inp) / 4 /\
  Z.of_nat (List.length (Base64.base64Decode inp))
    <= (Z.of_nat (List.length inp) / 4) * 3 + 4.
Proof.
  unfold Base64.base64Decode. split; [|split].
  - apply Base64Bounds.decode_loop_bytes. constructor.
  - pose proof (Base64Bounds.decode_loop_count inp 0 (-8) [] ltac:(lia)) as H.
    cbn [List.length] in H. Z.div_mod_to_equations. lia.
  - pose proof (Base64Bounds.decode_loop_count inp 0 (-8) [] ltac:(lia)) as H.
    cbn [List.length] in H. Z.div_mod_to_equations. lia.
Qed.

(** X3. [base64Encode] writes four characters for every three bytes begun,
    all of them of the alphabet or the padding character, and with the
    terminating NUL they fit the buffer of (bodyLen / 3 + 1) * 4 + 1
    characters that [tunnelSendProxyResponse] allocates. *)
Theorem base64_encode_fits_buffer (b : list Z) :
  Forall Base64.is_byte b ->
  Z.of_nat (List.length (Base64.base64Encode b)) = 4 * ((Z.of_nat (List.length b) + 2) / 3) /\
  Z.of_nat (List.length (Base64.base64Encode b)) + 1
    <= (Z.of_nat (List.length b) / 3 + 1) * 4 + 1 /\
  Forall (fun c => In c Base64.kBase64Chars \/ c = Base64.pad) (Base64.base64Encode b).
Proof.
  intros HF. split; [apply Base64Bounds.encode_length|]. split.
  - rewrite Base64Bounds.encode_length. Z.div_mod_to_equations. lia.
  - now apply Base64Bounds.encode_alphabet.
Qed.

Lemma base64_encode_fits_buffer_witness :
  Z.of_nat (List.length (Base64.base64Encode [104; 105; 33; 10])) = 8.
Proof.
  apply (base64_encode_fits_buffer [104; 105; 33; 10]).
  repeat constructor; unfold Base64.is_byte; lia.
Defined.

(** ** URLs *)

Module UrlFacts.

Lemma substring_all s : String.substring 0 (String.length s) s = s.
Proof. induction s as [|c s IH]; cbn; [reflexivity | now rewrite IH]. Qed.

Lemma substring_app_left h : forall r,
  String.substring 0 (String.length h) (h ++ r) = h.
Proof.
  induction h as [|c h IH]; intros r; cbn.
  - destruct r; reflexivity.
  - now rewrite IH.
Qed.

Lemma length_substring0 k : forall s,
  String.length (String.substring 0 k s) = Nat.min k (String.length s).
Proof.
  induction k as [|k IH]; intros [|c s]; cbn; try reflexivity.
  now rewrite IH.
Qed.

Lemma strchr_lt s c : forall i, strchr s c = Some i -> (i < String.length s)%nat.
Proof.
  induction s as [|d s IH]; intros i H; cbn in H; [discriminate|].
  destruct (Ascii.eqb d c).
  - inversion H. cbn. lia.
  - destruct (strchr s c) as [j|]; [|discriminate]. inversion H; subst.
    specialize (IH j eq_refl). cbn. lia.
Qed.

Lemma strchr_app_none h c r :
  strchr h c = None ->
  strchr (h ++ r) c = match strchr r c with
                      | Some i => Some (String.length h + i)%nat
                      | None => None
                      end.
Proof.
  induction h as [|d h IH]; intros H; cbn in *.
  - destruct (strchr r c); reflexivity.
  - destruct (Ascii.eqb d c); [discriminate|].
    destruct (strchr h c); [discriminate|]. rewrite (IH eq_refl).
    destruct (strchr r c); reflexivity.
Qed.

(** No [c] before the first [c]. *)
Lemma strchr_substring c : forall k s,
  (forall i, strchr s c = Some i -> (k <= i)%nat) ->
  strchr (String.substring 0 k s) c = None.
Proof.
  induction k as [|k IH]; intros [|d s] H; cbn; try reflexivity.
  cbn in H. destruct (Ascii.eqb d c).
  - specialize (H O eq_refl). lia.
  - rewrite IH; [reflexivity|]. intros i Hi. rewrite Hi in H.
    specialize (H (S i) eq_refl). lia.
Qed.

Lemma skip_at c : forall s i,
  strchr s c = Some i -> exists r, skip i s = String c r.
Proof.
  unfold skip. induction s as [|d s IH]; intros i H; cbn in H; [discriminate|].
  destruct (Ascii.eqb d c) eqn:E.
  - inversion H; subst. apply Ascii.eqb_eq in E. subst d. cbn.
    exists (String.substring 0 (String.length s) s). reflexivity.
  - destruct (strchr s c) as [j|] eqn:Ej; [|discriminate]. inversion H; subst.
    destruct (IH j eq_refl) as [r Hr]. exists r. cbn. exact Hr.
Qed.

Lemma strncpy_head k c r : strncpy (S k) (String c r) = String c (strncpy k r).
Proof. reflexivity. Qed.

Lemma strip_slash_spec s c r :
  s = String c r ->
  (String.length (strip_slash s) <= String.length s)%nat /\
  exists r', strip_slash s = String c r'.
Proof.
  intros ->. unfold strip_slash.
  destruct (Nat.ltb 1 (String.length (String c r)) && _) eqn:E.
  - apply andb_true_iff in E. destruct E as [E _]. apply Nat.ltb_lt in E.
    rewrite length_substring0. split; [lia|].
    cbn [String.length] in *. destruct (String.length r) as [|m] eqn:Er; [lia|].
    cbn. eexists. reflexivity.
  - split; [lia|]. eexists. reflexivity.
Qed.

Lemma prefix_substring k : forall s, String.prefix (String.substring 0 k s) s = true.
Proof.
  induction k as [|k IH]; intros [|c s]; cbn; try reflexivity.
  destruct (ascii_dec c c); [apply IH | congruence].
Qed.

Lemma host_len_le p : (host_len p <= String.length p)%nat.
Proof.
  unfold host_len.
  destruct (strchr p ":") as [a|] eqn:Ea; destruct (strchr p "/") as [b|] eqn:Eb;
    try apply strchr_lt in Ea; try apply strchr_lt in Eb;
    try destruct (Nat.ltb a b); lia.
Qed.

Lemma host_len_first p c : c = ":"%char \/ c = "/"%char ->
  forall i, strchr p c = Some i -> (host_len p <= i)%nat.
Proof.
  intros Hc i Hi. unfold host_len.
  destruct (strchr p ":") as [a|] eqn:Ea; destruct (strchr p "/") as [b|] eqn:Eb;
    destruct Hc as [-> | ->]; try congruence;
    try (destruct (Nat.ltb a b) eqn:L;
           [apply Nat.ltb_lt in L | apply Nat.ltb_ge in L]);
    try (rewrite Ea in Hi); try (rewrite Eb in Hi); inversion Hi; subst; lia.
Qed.

End UrlFacts.

Module BaseUrlFacts.

Lemma parseBaseUrl_spec (base : string) (u : ParsedBaseUrl) :
  parseBaseUrl base = Some u ->
  (0 < String.length (host u) < 128)%nat /\
  strchr (host u) ":" = None /\ strchr (host u) "/" = None /\
  String.prefix (host u) (after_scheme base) = true /\
  (String.length (basePath u) <= 127)%nat /\
  (basePath u = EmptyString \/ String.prefix "/" (basePath u) = true) /\
  buildWsTunnelUrl (Some base) = Some ("wss://" ++ host u ++ "/ws/tunnel").
Proof.
  intros H.
  assert (B : buildWsTunnelUrl (Some base)
              = if 256 <=? slen ("wss://" ++ host u ++ "/ws/tunnel") then None
                else Some ("wss://" ++ host u ++ "/ws/tunnel")).
  { unfold buildWsTunnelUrl. now rewrite H. }
  unfold parseBaseUrl in H. destruct (negb (nonempty base)); [discriminate|].
  fold (after_scheme base) in H. set (p := after_scheme base) in *.
  fold (host_len p) in H.
  destruct (Nat.eqb (host_len p) 0 || Nat.leb 128 (host_len p)) eqn:E;
    [discriminate|].
  apply orb_false_iff in E. destruct E as [E0 E1].
  apply Nat.eqb_neq in E0. apply Nat.leb_gt in E1.
  inversion H; subst u; clear H. cbn [host basePath] in *.
  pose proof (UrlFacts.host_len_le p) as Hle.
  assert (L : String.length (String.substring 0 (host_len p) p)
              = host_len p).
  { rewrite UrlFacts.length_substring0. lia. }
  split; [rewrite L; lia|].
  split; [apply UrlFacts.strchr_substring, UrlFacts.host_len_first; auto|].
  split; [apply UrlFacts.strchr_substring, UrlFacts.host_len_first; auto|].
  split; [apply UrlFacts.prefix_substring|].
  assert (P : (String.length match strchr p "/" with
                             | Some b => strip_slash (strncpy 127 (skip b p))
                             | None => EmptyString
                             end <= 127)%nat /\
              (match strchr p "/" with
               | Some b => strip_slash (strncpy 127 (skip b p))
               | None => EmptyString
               end = EmptyString \/
               String.prefix "/" match strchr p "/" with
                                 | Some b => strip_slash (strncpy 127 (skip b p))
                                 | None => EmptyString
                                 end = true)).
  { destruct (strchr p "/") as [b|] eqn:Eb; [|split; [cbn; lia | now left]].
    destruct (UrlFacts.skip_at _ _ _ Eb) as [r Hr]. rewrite Hr.
    change (strncpy 127 (String "/" r)) with (String "/" (strncpy 126 r)).
    destruct (UrlFacts.strip_slash_spec _ "/"%char (strncpy 126 r) eq_refl) as [S1 [r' S2]].
    split.
    - cbn [String.length] in S1. rewrite strncpy_length in S1. lia.
    - right. rewrite S2. destruct r'; reflexivity. }
  destruct P as [P1 P2]. split; [exact P1|]. split; [exact P2|].
  rewrite B.
  replace (256 <=? slen ("wss://" ++ String.substring 0 (host_len p) p ++ "/ws/tunnel"))
    with false; [reflexivity|].
  symmetry. apply Z.leb_gt. rewrite !slen_append. unfold slen at 2. rewrite L.
  change (slen "wss://") with 6. change (slen "/ws/tunnel") with 10. lia.
Qed.

End BaseUrlFacts.

(** X4. The host [parseBaseUrl] returns is not empty, fits its 128-byte
    buffer and contains neither ':' nor '/'; the base path fits too and is
    empty or begins with '/'. The tunnel URL built from the Hub URL is then
    always "wss://<host>/ws/tunnel": the scheme, the port and the path of
    the Hub URL leave no trace in it, and the length check of
    [buildWsTunnelUrl] never fails. *)
Theorem parseBaseUrl_host (base : string) (u : ParsedBaseUrl) :
  parseBaseUrl base = Some u ->
  (0 < String.length (host u) < 128)%nat /\
  strchr (host u) ":" = None /\ strchr (host u) "/" = None /\
  String.prefix (host u) (after_scheme base) = true /\
  (String.length (basePath u) <= 127)%nat /\
  (basePath u = EmptyString \/ String.prefix "/" (basePath u) = true) /\
  buildWsTunnelUrl (Some base) = Some ("wss://" ++ host u ++ "/ws/tunnel").
Proof. apply BaseUrlFacts.parseBaseUrl_spec. Qed.

Lemma parseBaseUrl_host_witness :
  buildWsTunnelUrl (Some "http://hub.example.com:8080/base/")
    = Some "wss://hub.example.com/ws/tunnel".
Proof.
  apply (parseBaseUrl_host "http://hub.example.com:8080/base/"
           (Build_ParsedBaseUrl "hub.example.com" "/base")).
  reflexivity.
Defined.

Module HubUrlFacts.
Import UrlFacts.

Lemma after_scheme_app (tls : bool) x :
  after_scheme ((if tls then "https://" else "http://") ++ x) = x.
Proof.
  assert (E : String.prefix EmptyString x = true) by (destruct x; reflexivity).
  unfold after_scheme, skip.
  destruct tls; cbn; rewrite E, Nat.sub_0_r; apply substring_all.
Qed.

Lemma host_len_app h rest :
  strchr h ":" = None -> strchr h "/" = None ->
  rest = EmptyString \/ (exists r, rest = String ":" r) \/ (exists r, rest = String "/" r) ->
  host_len (h ++ rest) = String.length h.
Proof.
  intros H1 H2 Hr. unfold host_len.
  rewrite (strchr_app_none h ":" rest H1), (strchr_app_none h "/" rest H2).
  destruct Hr as [-> | [[r ->] | [r ->]]]; cbn -[Nat.ltb Nat.add].
  - rewrite length_append. cbn. lia.
  - destruct (strchr r "/"); [|lia].
    replace (Nat.ltb (String.length h + 0) (String.length h + S n)) with true; [lia|].
    symmetry. apply Nat.ltb_lt. lia.
  - destruct (strchr r ":"); [|lia].
    replace (Nat.ltb (String.length h + S n) (String.length h + 0)) with false; [lia|].
    symmetry. apply Nat.ltb_ge. lia.
Qed.

End HubUrlFacts.

(** X5. For a Hub URL "http(s)://<host>" followed by nothing, by a port or by
    a path, with a host of 1 to 127 characters, [parseBaseUrl] succeeds and
    the tunnel URL is "wss://<host>/ws/tunnel". *)
Theorem tunnel_url_of_hub_url (tls : bool) (h rest : string) :
  strchr h ":" = None -> strchr h "/" = None -> (0 < String.length h < 128)%nat ->
  rest = EmptyString \/ (exists r, rest = String ":" r) \/ (exists r, rest = String "/" r) ->
  (exists u, parseBaseUrl ((if tls then "https://" else "http://") ++ h ++ rest) = Some u
             /\ host u = h) /\
  buildWsTunnelUrl (Some ((if tls then "https://" else "http://") ++ h ++ rest))
    = Some ("wss://" ++ h ++ "/ws/tunnel").
Proof.
  intros H1 H2 HL Hr.
  set (base := (if tls then "https://" else "http://") ++ h ++ rest).
  assert (P : exists u, parseBaseUrl base = Some u /\ host u = h).
  { unfold parseBaseUrl.
    replace (nonempty base) with true by (subst base; now destruct tls).
    cbn [negb]. fold (after_scheme base). subst base.
    rewrite HubUrlFacts.after_scheme_app. fold (host_len (h ++ rest)).
    rewrite (HubUrlFacts.host_len_app h rest H1 H2 Hr).
    replace (Nat.eqb (String.length h) 0) with false
      by (symmetry; apply Nat.eqb_neq; lia).
    replace (Nat.leb 128 (String.length h)) with false
      by (symmetry; apply Nat.leb_gt; lia).
    cbn [orb]. eexists. split; [reflexivity|]. cbn [host].
    apply UrlFacts.substring_app_left. }
  split; [exact P|]. destruct P as (u & Pu & Hu).
  destruct (BaseUrlFacts.parseBaseUrl_spec base u Pu) as (_ & _ & _ & _ & _ & _ & B).
  now rewrite B, Hu.
Qed.

(** ** What every tick keeps *)

Module InvFacts.

Lemma next_backoff_range b :
  kBackoffMinMs <= b <= kBackoffMaxMs ->
  kBackoffMinMs <= next_backoff b <= kBackoffMaxMs.
Proof.
  unfold next_backoff, kBackoffMinMs, kBackoffMaxMs, u32. intros H.
  rewrite Z.mod_small by lia. destruct (60000 <? b * 2) eqn:E; lia.
Qed.

Lemma next_pair_backoff_range b :
  kBackoffMinMs <= b <= kBackoffMaxMs ->
  kBackoffMinMs <= next_pair_backoff b <= kBackoffMaxMs.
Proof.
  unfold next_pair_backoff, kBackoffMinMs, kBackoffMaxMs, u32. intros H.
  change (60000 / 2) with 30000.
  destruct (b <? 30000) eqn:E; [|lia]. rewrite Z.mod_small by lia. lia.
Qed.

Lemma advanceNetBackoff_set n :
  advanceNetBackoff n = set_netBackoffMs_ (next_backoff (netBackoffMs_ n)) n.
Proof. reflexivity. Qed.

Lemma advancePairBackoff_set n :
  advancePairBackoff n = set_pairBackoffMs_ (next_pair_backoff (pairBackoffMs_ n)) n.
Proof. reflexivity. Qed.

(** [setState] writes the state and, at most, the time of the next tunnel
    attempt. *)
Lemma setState_shape s n w :
  exists st t, fst (setState s n w) = set_state_ st (set_nextTunnelConnectMs_ t n).
Proof.
  unfold setState. destruct (State_eqb (state_ n) s).
  - exists (state_ n), (nextTunnelConnectMs_ n). now destruct n.
  - destruct (State_eqb s ACTIVE && _ && _); cbn [fst].
    + exists s, 0. reflexivity.
    + exists s, (nextTunnelConnectMs_ n). now destruct n.
Qed.

Lemma storePairing_shape code exp n :
  nonempty code = true ->
  storePairingFromHello code exp n =
  set_pairingCodeValid_ (nonempty (strncpy 31 code))
    (set_pairingExpiresAt_ (strncpy 31 exp)
       (set_pairingCode_ (strncpy 31 code) (set_pairingCodeValid_ false n))).
Proof. unfold storePairingFromHello. intros ->. reflexivity. Qed.

Lemma adoptTunnelUrl_shape built tun n :
  adoptTunnelUrl built tun n = n \/
  exists url, slen url <= 255 /\
    adoptTunnelUrl built tun n = set_nextTunnelConnectMs_ 0 (set_tunnelUrl_ url n).
Proof.
  unfold adoptTunnelUrl.
  destruct (if built then buildWsTunnelUrl (hubBaseUrl (cfg_ n)) else None) as [url|] eqn:E.
  - right. exists url. split; [|reflexivity].
    destruct built; [|discriminate]. unfold buildWsTunnelUrl in E.
    destruct (hubBaseUrl (cfg_ n)); [|discriminate].
    destruct (parseBaseUrl s); [|discriminate].
    destruct (256 <=? slen _) eqn:L; [discriminate|]. inversion E; subst.
    apply Z.leb_gt in L. change (String "w" _) with ("wss://" ++ host p ++ "/ws/tunnel").
    lia.
  - destruct (nonempty tun); [|now left].
    right. exists (strncpy 255 tun). split; [apply slen_strncpy | reflexivity].
Qed.

Lemma storeSessionExpiry_shape exp n :
  storeSessionExpiry exp n = n \/
  exists e, slen e <= 31 /\ storeSessionExpiry exp n = set_sessionExpiresAt_ e n.
Proof.
  unfold storeSessionExpiry. destruct (nonempty exp).
  - destruct (slen exp <? 32); [|now left].
    right. exists (strncpy 31 exp). split; [apply slen_strncpy | reflexivity].
  - right. exists EmptyString. split; [cbn; lia | reflexivity].
Qed.

(** The members the invariant does not read. *)
Lemma keep_state_ v n : well_formed n -> well_formed (set_state_ v n).
Proof. intros H. exact H. Qed.

Lemma keep_nextHelloMs_ v n : well_formed n -> well_formed (set_nextHelloMs_ v n).
Proof. intros H. exact H. Qed.

Lemma keep_nextPairMs_ v n : well_formed n -> well_formed (set_nextPairMs_ v n).
Proof. intros H. exact H. Qed.

Lemma keep_nextApproveMs_ v n : well_formed n -> well_formed (set_nextApproveMs_ v n).
Proof. intros H. exact H. Qed.

Lemma keep_nextSessionPollMs_ v n : well_formed n -> well_formed (set_nextSessionPollMs_ v n).
Proof. intros H. exact H. Qed.

Lemma keep_nextRegisterBySlotMs_ v n :
  well_formed n -> well_formed (set_nextRegisterBySlotMs_ v n).
Proof. intros H. exact H. Qed.

Lemma keep_nextTunnelConnectMs_ v n : well_formed n -> well_formed (set_nextTunnelConnectMs_ v n).
Proof. intros H. exact H. Qed.

Lemma keep_lastTunnelPingMs_ v n : well_formed n -> well_formed (set_lastTunnelPingMs_ v n).
Proof. intros H. exact H. Qed.

Lemma keep_tunnelRegistered_ v n : well_formed n -> well_formed (set_tunnelRegistered_ v n).
Proof. intros H. exact H. Qed.

Lemma keep_approveMissingMacFailed_ v n :
  well_formed n -> well_formed (set_approveMissingMacFailed_ v n).
Proof. intros H. exact H. Qed.

Lemma keep_lastHeartbeatMs_ v n : well_formed n -> well_formed (set_lastHeartbeatMs_ v n).
Proof. intros H. exact H. Qed.

Lemma keep_wifiConnecting_ v n : well_formed n -> well_formed (set_wifiConnecting_ v n).
Proof. intros H. exact H. Qed.

Lemma keep_httpBusy_ v n : well_formed n -> well_formed (set_httpBusy_ v n).
Proof. intros H. exact H. Qed.

Lemma keep_httpRequestCb_ v n : well_formed n -> well_formed (set_httpRequestCb_ v n).
Proof. intros H. exact H. Qed.

(** A string that fits may be stored. *)
Lemma fit_nodeId_ v n : slen v <= 63 -> well_formed n -> well_formed (set_nodeId_ v n).
Proof.
  unfold well_formed, buffers_fit, backoffs_ok, pairing_ok. cbn. tauto.
Qed.

Lemma fit_nodeToken_ v n : slen v <= 255 -> well_formed n -> well_formed (set_nodeToken_ v n).
Proof.
  unfold well_formed, buffers_fit, backoffs_ok, pairing_ok. cbn. tauto.
Qed.

Lemma fit_tunnelUrl_ v n : slen v <= 255 -> well_formed n -> well_formed (set_tunnelUrl_ v n).
Proof.
  unfold well_formed, buffers_fit, backoffs_ok, pairing_ok. cbn. tauto.
Qed.

Lemma fit_tunnelId_ v n : slen v <= 63 -> well_formed n -> well_formed (set_tunnelId_ v n).
Proof.
  unfold well_formed, buffers_fit, backoffs_ok, pairing_ok. cbn. tauto.
Qed.

Lemma fit_sessionToken_ v n :
  slen v <= 255 -> well_formed n -> well_formed (set_sessionToken_ v n).
Proof.
  unfold well_formed, buffers_fit, backoffs_ok, pairing_ok. cbn. tauto.
Qed.

Lemma fit_sessionExpiresAt_ v n :
  slen v <= 31 -> well_formed n -> well_formed (set_sessionExpiresAt_ v n).
Proof.
  unfold well_formed, buffers_fit, backoffs_ok, pairing_ok. cbn. tauto.
Qed.

Lemma wf_clearPairingCode n : well_formed n -> well_formed (clearPairingCode n).
Proof.
  unfold well_formed, buffers_fit, backoffs_ok, pairing_ok. cbn. unfold slen. cbn. intuition lia.
Qed.

Lemma wf_storePairing code exp n :
  nonempty code = true -> well_formed n -> well_formed (storePairingFromHello code exp n).
Proof.
  intros E. rewrite (storePairing_shape code exp n E).
  unfold well_formed, buffers_fit, backoffs_ok, pairing_ok. cbn.
  pose proof (slen_strncpy 31 code). pose proof (slen_strncpy 31 exp). tauto.
Qed.

Lemma wf_netBackoff v n :
  kBackoffMinMs <= v <= kBackoffMaxMs -> well_formed n -> well_formed (set_netBackoffMs_ v n).
Proof.
  unfold well_formed, buffers_fit, backoffs_ok, pairing_ok. cbn. tauto.
Qed.

Lemma wf_pairBackoff v n :
  kBackoffMinMs <= v <= kBackoffMaxMs -> well_formed n -> well_formed (set_pairBackoffMs_ v n).
Proof.
  unfold well_formed, buffers_fit, backoffs_ok, pairing_ok. cbn. tauto.
Qed.

Lemma wf_advanceNetBackoff n : well_formed n -> well_formed (advanceNetBackoff n).
Proof.
  intros H. rewrite advanceNetBackoff_set. apply wf_netBackoff; [|exact H].
  apply next_backoff_range, H.
Qed.

Lemma wf_advancePairBackoff n : well_formed n -> well_formed (advancePairBackoff n).
Proof.
  intros H. rewrite advancePairBackoff_set. apply wf_pairBackoff; [|exact H].
  apply next_pair_backoff_range, H.
Qed.

Lemma wf_resetNetBackoff n : well_formed n -> well_formed (resetNetBackoff n).
Proof. apply wf_netBackoff. unfold kBackoffMinMs, kBackoffMaxMs. lia. Qed.

Lemma wf_resetPairBackoff n : well_formed n -> well_formed (resetPairBackoff n).
Proof. apply wf_pairBackoff. unfold kBackoffMinMs, kBackoffMaxMs. lia. Qed.

(** The index and the backoff it names are written together. *)
Lemma wf_tunnelBackoff i n :
  0 <= i < kTunnelBackoffSteps -> well_formed n ->
  well_formed (set_tunnelBackoffMs_ (nth (Z.to_nat i) kTunnelBackoffMs 0)
                 (set_tunnelBackoffIndex_ i n)).
Proof.
  unfold well_formed, buffers_fit, backoffs_ok, pairing_ok. cbn. tauto.
Qed.

Lemma wf_tunnelBackoff_same n :
  well_formed n ->
  well_formed (set_tunnelBackoffMs_
                 (nth (Z.to_nat (tunnelBackoffIndex_ n)) kTunnelBackoffMs 0) n).
Proof.
  unfold well_formed, buffers_fit, backoffs_ok, pairing_ok. cbn. tauto.
Qed.

Lemma wf_setState s n w : well_formed n -> well_formed (fst (setState s n w)).
Proof.
  intros H. destruct (setState_shape s n w) as (st & t & ->).
  apply keep_state_, keep_nextTunnelConnectMs_, H.
Qed.

Lemma wf_setState_eq s n w n1 w1 :
  setState s n w = (n1, w1) -> well_formed n -> well_formed n1.
Proof. intros E H. pose proof (wf_setState s n w H) as P. now rewrite E in P. Qed.

Lemma wf_adoptTunnelUrl built tun n :
  well_formed n -> well_formed (adoptTunnelUrl built tun n).
Proof.
  intros H. destruct (adoptTunnelUrl_shape built tun n) as [-> | (url & L & ->)];
    [exact H|].
  apply keep_nextTunnelConnectMs_, fit_tunnelUrl_; assumption.
Qed.

Lemma wf_storeSessionExpiry exp n :
  well_formed n -> well_formed (storeSessionExpiry exp n).
Proof.
  intros H. destruct (storeSessionExpiry_shape exp n) as [-> | (e & L & ->)];
    [exact H|].
  apply fit_sessionExpiresAt_; assumption.
Qed.

Lemma slen_empty k : 0 <= k -> slen EmptyString <= k.
Proof. intros H. exact H. Qed.

Lemma wf_if (c : bool) (a b : node) :
  well_formed a -> well_formed b -> well_formed (if c then a else b).
Proof. now destruct c. Qed.

Lemma wf_tunnelBackoff_reset n :
  well_formed n ->
  well_formed (set_tunnelBackoffMs_ (nth 0 kTunnelBackoffMs 0) (set_tunnelBackoffIndex_ 0 n)).
Proof. apply (wf_tunnelBackoff 0). unfold kTunnelBackoffSteps. lia. Qed.

(** The lemmas of the functions proved so far. *)
Ltac wf_call := fail.

(** One update of the chain: the goal is [well_formed e], and the head of
    [e] says which lemma applies. *)
Ltac wf_step :=
  lazymatch goal with
  | H : well_formed ?n |- well_formed ?n => exact H
  | |- well_formed (fst (setState _ _ _)) => apply wf_setState
  | E : nonempty ?c = true |- well_formed (storePairingFromHello ?c _ _) =>
      apply (wf_storePairing _ _ _ E)
  | |- well_formed (if nonempty ?c then storePairingFromHello ?c _ _ else _) =>
      let E := fresh "E" in destruct (nonempty c) eqn:E
  | |- well_formed (if _ then _ else _) => apply wf_if
  | |- well_formed (set_state_ _ _) => apply keep_state_
  | |- well_formed (set_nextHelloMs_ _ _) => apply keep_nextHelloMs_
  | |- well_formed (set_nextPairMs_ _ _) => apply keep_nextPairMs_
  | |- well_formed (set_nextApproveMs_ _ _) => apply keep_nextApproveMs_
  | |- well_formed (set_nextSessionPollMs_ _ _) => apply keep_nextSessionPollMs_
  | |- well_formed (set_nextRegisterBySlotMs_ _ _) => apply keep_nextRegisterBySlotMs_
  | |- well_formed (set_nextTunnelConnectMs_ _ _) => apply keep_nextTunnelConnectMs_
  | |- well_formed (set_lastTunnelPingMs_ _ _) => apply keep_lastTunnelPingMs_
  | |- well_formed (set_tunnelRegistered_ _ _) => apply keep_tunnelRegistered_
  | |- well_formed (set_approveMissingMacFailed_ _ _) => apply keep_approveMissingMacFailed_
  | |- well_formed (set_lastHeartbeatMs_ _ _) => apply keep_lastHeartbeatMs_
  | |- well_formed (set_wifiConnecting_ _ _) => apply keep_wifiConnecting_
  | |- well_formed (set_httpBusy_ _ _) => apply keep_httpBusy_
  | |- well_formed (set_httpRequestCb_ _ _) => apply keep_httpRequestCb_
  | |- well_formed (clearPairingCode _) => apply wf_clearPairingCode
  | |- well_formed (advanceNetBackoff _) => apply wf_advanceNetBackoff
  | |- well_formed (advancePairBackoff _) => apply wf_advancePairBackoff
  | |- well_formed (resetNetBackoff _) => apply wf_resetNetBackoff
  | |- well_formed (resetPairBackoff _) => apply wf_resetPairBackoff
  | |- well_formed (adoptTunnelUrl _ _ _) => apply wf_adoptTunnelUrl
  | |- well_formed (storeSessionExpiry _ _) => apply wf_storeSessionExpiry
  | |- well_formed (set_tunnelBackoffMs_ _ (set_tunnelBackoffIndex_ 0 _)) =>
      apply wf_tunnelBackoff_reset
  | |- well_formed (set_nodeId_ _ _) => apply fit_nodeId_; [apply (slen_strncpy 63)|]
  | |- well_formed (set_nodeToken_ _ _) => apply fit_nodeToken_; [apply (slen_strncpy 255)|]
  | |- well_formed (set_tunnelUrl_ _ _) => apply fit_tunnelUrl_; [apply (slen_strncpy 255)|]
  | |- well_formed (set_tunnelId_ _ _) => apply fit_tunnelId_; [apply (slen_strncpy 63)|]
  | |- well_formed (set_sessionToken_ EmptyString _) =>
      apply fit_sessionToken_; [apply slen_empty; lia|]
  | |- well_formed (set_sessionToken_ _ _) =>
      apply fit_sessionToken_; [apply (slen_strncpy 255)|]
  | |- well_formed (set_sessionExpiresAt_ EmptyString _) =>
      apply fit_sessionExpiresAt_; [apply slen_empty; lia|]
  | |- well_formed (set_sessionExpiresAt_ _ _) =>
      apply fit_sessionExpiresAt_; [apply (slen_strncpy 31)|]
  | |- well_formed (fst _) => wf_call
  end.

Ltac wf_chain := repeat wf_step.

(** Follow the control flow of the function in the goal
    [well_formed (fst e)]. *)
Ltac wf_inner := fail.

Ltac wf_scrutinee x :=
  first
    [ let H := fresh "H" in
      assert (H : well_formed (fst x)) by wf_inner;
      destruct x; cbn [fst] in H
    | let H := fresh "H" in
      assert (H : well_formed (fst (snd x))) by wf_inner;
      let p := fresh "p" in destruct x as [? p]; destruct p; cbn [fst snd] in H
    | destruct x ].

Ltac wf_flow :=
  lazymatch goal with
  | |- well_formed (fst (if ?c then _ else _)) => destruct c
  | |- well_formed (fst (_, _)) => cbn [fst]
  | |- well_formed (fst (snd (if ?c then _ else _))) => destruct c
  | |- well_formed (fst (snd (_, _))) => cbn [fst snd]
  | |- well_formed (fst (snd (match ?x with _ => _ end))) => wf_scrutinee x
  | |- well_formed (fst (match ?x with _ => _ end)) => wf_scrutinee x
  end.

Ltac wf_inner ::= repeat wf_flow; wf_chain.

Ltac wf_go := cbv zeta; repeat wf_flow; wf_chain.

Lemma handleHelloResponse_wf status body json n w :
  well_formed n -> well_formed (fst (handleHelloResponse status body json n w)).
Proof. intros H. unfold handleHelloResponse. wf_go. Qed.

Ltac wf_call ::= first [apply handleHelloResponse_wf].

Lemma tryHello_wf n w : well_formed n -> well_formed (fst (tryHello n w)).
Proof. intros H. unfold tryHello. wf_go. Qed.

Lemma tryPairIfNeeded_wf n w : well_formed n -> well_formed (fst (tryPairIfNeeded n w)).
Proof. intros H. unfold tryPairIfNeeded. wf_go. Qed.

Lemma tryApprove_wf n w : well_formed n -> well_formed (fst (tryApprove n w)).
Proof. intros H. unfold tryApprove. wf_go. Qed.

Lemma trySessionRefresh_wf n w :
  well_formed n -> well_formed (fst (snd (trySessionRefresh n w))).
Proof. intros H. unfold trySessionRefresh. wf_go. Qed.

Lemma trySessionPoll_wf n w : well_formed n -> well_formed (fst (trySessionPoll n w)).
Proof. intros H. unfold trySessionPoll. wf_go. Qed.

Lemma tryRegisterBySlot_wf n w : well_formed n -> well_formed (fst (tryRegisterBySlot n w)).
Proof. intros H. unfold tryRegisterBySlot. wf_go. Qed.

Lemma tunnelHandleProxyRequest_wf p n w :
  well_formed n -> well_formed (fst (tunnelHandleProxyRequest p n w)).
Proof. intros H. unfold tunnelHandleProxyRequest. wf_go. Qed.

Ltac wf_call ::=
  first [ apply handleHelloResponse_wf | apply tryHello_wf | apply tryPairIfNeeded_wf
        | apply tryApprove_wf | apply trySessionPoll_wf | apply tryRegisterBySlot_wf
        | apply tunnelHandleProxyRequest_wf ].

Lemma tunnelHandleMessage_wf p n w :
  well_formed n -> well_formed (fst (tunnelHandleMessage p n w)).
Proof. intros H. unfold tunnelHandleMessage. wf_go. Qed.

Lemma tunnelSendRegister_wf n w :
  well_formed n -> well_formed (fst (tunnelSendRegister n w)).
Proof. intros H. unfold tunnelSendRegister. wf_go. Qed.

Ltac wf_call ::=
  first [ apply handleHelloResponse_wf | apply tryHello_wf | apply tryPairIfNeeded_wf
        | apply tryApprove_wf | apply trySessionPoll_wf | apply tryRegisterBySlot_wf
        | apply tunnelHandleProxyRequest_wf | apply tunnelHandleMessage_wf
        | apply tunnelSendRegister_wf ].

Lemma wsEvent_wf e n w : well_formed n -> well_formed (fst (wsEvent e n w)).
Proof. intros H. unfold wsEvent. wf_go. Qed.

Lemma deliver_wf es : forall n w, well_formed n -> well_formed (fst (deliver es n w)).
Proof.
  induction es as [|e es IH]; intros n w H; cbn [deliver]; [exact H|].
  pose proof (wsEvent_wf e n w H) as P. destruct (wsEvent e n w) as [n1 w1].
  apply IH, P.
Qed.

Lemma ws_loop_wf n w : well_formed n -> well_formed (fst (ws_loop n w)).
Proof.
  intros H. unfold ws_loop. destruct (w_ws_events w); [exact H | now apply deliver_wf].
Qed.

Lemma tunnelDisconnectCleanup_wf n w :
  well_formed n -> well_formed (fst (tunnelDisconnectCleanup n w)).
Proof.
  intros H. unfold tunnelDisconnectCleanup. cbv zeta.
  assert (H1 : well_formed (fst (if State_eqb (state_ (set_tunnelRegistered_ false n))
                                       TUNNEL_CONNECTING
                                   || State_eqb (state_ (set_tunnelRegistered_ false n))
                                        TUNNEL_CONNECTED
                                 then setState ACTIVE (set_tunnelRegistered_ false n)
                                        (notify (NoteTunnel false
                                                   (tunnelUrl_ (set_tunnelRegistered_ false n))) w)
                                 else (set_tunnelRegistered_ false n,
                                       notify
                                         (NoteTunnel false
                                            (tunnelUrl_ (set_tunnelRegistered_ false n)))
                                         w)))).
  { destruct (_ || _); wf_go. }
  destruct (if _ || _ then _ else _) as [n1 w1]. cbn [fst] in *.
  apply keep_nextTunnelConnectMs_.
  destruct (tunnelBackoffIndex_ n1 <? kTunnelBackoffSteps - 1) eqn:E.
  - apply wf_tunnelBackoff; [|exact H1].
    apply Z.ltb_lt in E. destruct H1 as (_ & (_ & _ & R & _) & _).
    unfold kTunnelBackoffSteps in *. lia.
  - apply wf_tunnelBackoff_same, H1.
Qed.

Lemma tunnelConnect_wf n w : well_formed n -> well_formed (fst (tunnelConnect n w)).
Proof. intros H. unfold tunnelConnect. wf_go. Qed.

Ltac wf_call ::=
  first [ apply handleHelloResponse_wf | apply tryHello_wf | apply tryPairIfNeeded_wf
        | apply tryApprove_wf | apply trySessionPoll_wf | apply tryRegisterBySlot_wf
        | apply tunnelHandleProxyRequest_wf | apply tunnelHandleMessage_wf
        | apply tunnelSendRegister_wf | apply ws_loop_wf | apply tunnelDisconnectCleanup_wf
        | apply tunnelConnect_wf | apply trySessionRefresh_wf ].

Lemma tunnelLoop_wf n w : well_formed n -> well_formed (fst (tunnelLoop n w)).
Proof. intros H. unfold tunnelLoop. wf_go. Qed.

Ltac wf_call ::=
  first [ apply handleHelloResponse_wf | apply tryHello_wf | apply tryPairIfNeeded_wf
        | apply tryApprove_wf | apply trySessionPoll_wf | apply tryRegisterBySlot_wf
        | apply tunnelHandleProxyRequest_wf | apply tunnelHandleMessage_wf
        | apply tunnelSendRegister_wf | apply ws_loop_wf | apply tunnelDisconnectCleanup_wf
        | apply tunnelConnect_wf | apply trySessionRefresh_wf | apply tunnelLoop_wf ].

Lemma runStateMachine_wf n w : well_formed n -> well_formed (fst (runStateMachine n w)).
Proof. intros H. unfold runStateMachine. wf_go. Qed.

Lemma run_wf ins : forall n w, well_formed n -> well_formed (fst (run ins n w)).
Proof.
  induction ins as [|i ins IH]; intros n w H; cbn [run]; [exact H|].
  unfold tick, loopTick.
  pose proof (runStateMachine_wf n (set_w_wifi (t_wifi i)
                                     (set_w_clock (w_clock w + t_elapsed i) w)) H) as P.
  destruct (runStateMachine n _) as [n1 w1]. apply IH, P.
Qed.

Lemma new_node_wf c : well_formed (new_node c).
Proof.
  unfold well_formed, buffers_fit, backoffs_ok, pairing_ok. cbn.
  unfold slen, kBackoffMinMs, kBackoffMaxMs, kTunnelBackoffSteps. cbn. intuition lia.
Qed.

End InvFacts.

(** X6. Whatever the Hub and the tunnel send and however long the node
    runs, no string member outgrows its buffer. *)
Theorem buffers_always_fit (c : Config) (ins : list tick_input) (w : world) :
  buffers_fit (fst (run ins (new_node c) w)).
Proof. apply (InvFacts.run_wf ins (new_node c) w (InvFacts.new_node_wf c)). Qed.

(** X7. On every run the net and the pair backoff stay between 2 s and 60 s,
    the tunnel backoff index stays below the five steps of its table and
    the tunnel backoff is the entry the index names. *)
Theorem backoffs_always_bounded (c : Config) (ins : list tick_input) (w : world) :
  backoffs_ok (fst (run ins (new_node c) w)).
Proof. apply (InvFacts.run_wf ins (new_node c) w (InvFacts.new_node_wf c)). Qed.

(** X8. A node whose strings fit, whose backoffs are in range and whose
    pairing code is marked valid exactly when present stays so through a
    tick, through an inbound tunnel frame, through [tunnelDisconnect] and
    through the session setters of the API. *)
Theorem well_formed_kept (n : node) (w : world) :
  well_formed n ->
  well_formed (fst (loopTick n w)) /\
  (forall p, well_formed (fst (tunnelHandleMessage p n w))) /\
  well_formed (fst (NodeAux.tunnelDisconnect n w)) /\
  (forall token, well_formed (NodeAux.setSessionToken token n)) /\
  (forall expiresAt, well_formed (NodeAux.setSessionExpiresAt expiresAt n)).
Proof.
  intros H. split; [apply InvFacts.runStateMachine_wf, H|].
  split; [intros p; apply InvFacts.tunnelHandleMessage_wf, H|].
  split; [apply InvFacts.tunnelDisconnectCleanup_wf, H|].
  split.
  - intros [t|]; cbn [NodeAux.setSessionToken].
    + apply InvFacts.fit_sessionToken_; [apply (StrFacts.slen_strncpy 255) | exact H].
    + apply InvFacts.fit_sessionExpiresAt_; [apply InvFacts.slen_empty; lia|].
      apply InvFacts.fit_sessionToken_; [apply InvFacts.slen_empty; lia | exact H].
  - intros [e|]; cbn [NodeAux.setSessionExpiresAt].
    + apply InvFacts.fit_sessionExpiresAt_; [apply (StrFacts.slen_strncpy 31) | exact H].
    + apply InvFacts.fit_sessionExpiresAt_; [apply InvFacts.slen_empty; lia | exact H].
Qed.

(** ** Once ACTIVE *)

Module ActiveFacts.

Lemma in_tunnel_setState s n w :
  tunnel_state s = true -> in_tunnel (fst (setState s n w)).
Proof.
  intros H. unfold in_tunnel. now rewrite (proj1 (setState_spec s n w)).
Qed.

Lemma in_tunnel_if (c : bool) (a b : node) :
  in_tunnel a -> in_tunnel b -> in_tunnel (if c then a else b).
Proof. now destruct c. Qed.

Lemma still_cfg_ v n : in_tunnel n -> in_tunnel (set_cfg_ v n).
Proof. intros H. exact H. Qed.

Lemma still_nodeId_ v n : in_tunnel n -> in_tunnel (set_nodeId_ v n).
Proof. intros H. exact H. Qed.

Lemma still_nodeToken_ v n : in_tunnel n -> in_tunnel (set_nodeToken_ v n).
Proof. intros H. exact H. Qed.

Lemma still_tunnelUrl_ v n : in_tunnel n -> in_tunnel (set_tunnelUrl_ v n).
Proof. intros H. exact H. Qed.

Lemma still_tunnelId_ v n : in_tunnel n -> in_tunnel (set_tunnelId_ v n).
Proof. intros H. exact H. Qed.

Lemma still_sessionToken_ v n : in_tunnel n -> in_tunnel (set_sessionToken_ v n).
Proof. intros H. exact H. Qed.

Lemma still_sessionExpiresAt_ v n : in_tunnel n -> in_tunnel (set_sessionExpiresAt_ v n).
Proof. intros H. exact H. Qed.

Lemma still_pairingCode_ v n : in_tunnel n -> in_tunnel (set_pairingCode_ v n).
Proof. intros H. exact H. Qed.

Lemma still_pairingExpiresAt_ v n : in_tunnel n -> in_tunnel (set_pairingExpiresAt_ v n).
Proof. intros H. exact H. Qed.

Lemma still_pairingCodeValid_ v n : in_tunnel n -> in_tunnel (set_pairingCodeValid_ v n).
Proof. intros H. exact H. Qed.

Lemma still_nextHelloMs_ v n : in_tunnel n -> in_tunnel (set_nextHelloMs_ v n).
Proof. intros H. exact H. Qed.

Lemma still_nextPairMs_ v n : in_tunnel n -> in_tunnel (set_nextPairMs_ v n).
Proof. intros H. exact H. Qed.

Lemma still_nextApproveMs_ v n : in_tunnel n -> in_tunnel (set_nextApproveMs_ v n).
Proof. intros H. exact H. Qed.

Lemma still_nextSessionPollMs_ v n : in_tunnel n -> in_tunnel (set_nextSessionPollMs_ v n).
Proof. intros H. exact H. Qed.

Lemma still_nextRegisterBySlotMs_ v n : in_tunnel n -> in_tunnel (set_nextRegisterBySlotMs_ v n).
Proof. intros H. exact H. Qed.

Lemma still_netBackoffMs_ v n : in_tunnel n -> in_tunnel (set_netBackoffMs_ v n).
Proof. intros H. exact H. Qed.

Lemma still_pairBackoffMs_ v n : in_tunnel n -> in_tunnel (set_pairBackoffMs_ v n).
Proof. intros H. exact H. Qed.

Lemma still_nextTunnelConnectMs_ v n : in_tunnel n -> in_tunnel (set_nextTunnelConnectMs_ v n).
Proof. intros H. exact H. Qed.

Lemma still_tunnelBackoffMs_ v n : in_tunnel n -> in_tunnel (set_tunnelBackoffMs_ v n).
Proof. intros H. exact H. Qed.

Lemma still_tunnelBackoffIndex_ v n : in_tunnel n -> in_tunnel (set_tunnelBackoffIndex_ v n).
Proof. intros H. exact H. Qed.

Lemma still_lastTunnelPingMs_ v n : in_tunnel n -> in_tunnel (set_lastTunnelPingMs_ v n).
Proof. intros H. exact H. Qed.

Lemma still_tunnelRegistered_ v n : in_tunnel n -> in_tunnel (set_tunnelRegistered_ v n).
Proof. intros H. exact H. Qed.

Lemma still_approveMissingMacFailed_ v n :
  in_tunnel n -> in_tunnel (set_approveMissingMacFailed_ v n).
Proof. intros H. exact H. Qed.

Lemma still_lastHeartbeatMs_ v n : in_tunnel n -> in_tunnel (set_lastHeartbeatMs_ v n).
Proof. intros H. exact H. Qed.

Lemma still_wifiConnecting_ v n : in_tunnel n -> in_tunnel (set_wifiConnecting_ v n).
Proof. intros H. exact H. Qed.

Lemma still_httpBusy_ v n : in_tunnel n -> in_tunnel (set_httpBusy_ v n).
Proof. intros H. exact H. Qed.

Lemma still_httpRequestCb_ v n : in_tunnel n -> in_tunnel (set_httpRequestCb_ v n).
Proof. intros H. exact H. Qed.

Ltac ts_call := fail.

Ltac ts_step :=
  lazymatch goal with
  | H : in_tunnel ?n |- in_tunnel ?n => exact H
  | |- in_tunnel (fst (setState _ _ _)) => apply in_tunnel_setState; reflexivity
  | |- in_tunnel (if _ then _ else _) => apply in_tunnel_if
  | |- in_tunnel (set_cfg_ _ _) => apply still_cfg_
  | |- in_tunnel (set_nodeId_ _ _) => apply still_nodeId_
  | |- in_tunnel (set_nodeToken_ _ _) => apply still_nodeToken_
  | |- in_tunnel (set_tunnelUrl_ _ _) => apply still_tunnelUrl_
  | |- in_tunnel (set_tunnelId_ _ _) => apply still_tunnelId_
  | |- in_tunnel (set_sessionToken_ _ _) => apply still_sessionToken_
  | |- in_tunnel (set_sessionExpiresAt_ _ _) => apply still_sessionExpiresAt_
  | |- in_tunnel (set_pairingCode_ _ _) => apply still_pairingCode_
  | |- in_tunnel (set_pairingExpiresAt_ _ _) => apply still_pairingExpiresAt_
  | |- in_tunnel (set_pairingCodeValid_ _ _) => apply still_pairingCodeValid_
  | |- in_tunnel (set_nextHelloMs_ _ _) => apply still_nextHelloMs_
  | |- in_tunnel (set_nextPairMs_ _ _) => apply still_nextPairMs_
  | |- in_tunnel (set_nextApproveMs_ _ _) => apply still_nextApproveMs_
  | |- in_tunnel (set_nextSessionPollMs_ _ _) => apply still_nextSessionPollMs_
  | |- in_tunnel (set_nextRegisterBySlotMs_ _ _) => apply still_nextRegisterBySlotMs_
  | |- in_tunnel (set_netBackoffMs_ _ _) => apply still_netBackoffMs_
  | |- in_tunnel (set_pairBackoffMs_ _ _) => apply still_pairBackoffMs_
  | |- in_tunnel (set_nextTunnelConnectMs_ _ _) => apply still_nextTunnelConnectMs_
  | |- in_tunnel (set_tunnelBackoffMs_ _ _) => apply still_tunnelBackoffMs_
  | |- in_tunnel (set_tunnelBackoffIndex_ _ _) => apply still_tunnelBackoffIndex_
  | |- in_tunnel (set_lastTunnelPingMs_ _ _) => apply still_lastTunnelPingMs_
  | |- in_tunnel (set_tunnelRegistered_ _ _) => apply still_tunnelRegistered_
  | |- in_tunnel (set_approveMissingMacFailed_ _ _) => apply still_approveMissingMacFailed_
  | |- in_tunnel (set_lastHeartbeatMs_ _ _) => apply still_lastHeartbeatMs_
  | |- in_tunnel (set_wifiConnecting_ _ _) => apply still_wifiConnecting_
  | |- in_tunnel (set_httpBusy_ _ _) => apply still_httpBusy_
  | |- in_tunnel (set_httpRequestCb_ _ _) => apply still_httpRequestCb_
  | |- in_tunnel (fst _) => ts_call
  end.

Ltac ts_chain := repeat ts_step.

Ltac ts_inner := fail.

Ltac ts_scrutinee x :=
  first
    [ let H := fresh "H" in
      assert (H : in_tunnel (fst x)) by ts_inner;
      destruct x; cbn [fst] in H
    | destruct x ].

Ltac ts_flow :=
  lazymatch goal with
  | |- in_tunnel (fst (if ?c then _ else _)) => destruct c
  | |- in_tunnel (fst (_, _)) => cbn [fst]
  | |- in_tunnel (fst (match ?x with _ => _ end)) => ts_scrutinee x
  end.

Ltac ts_inner ::= repeat ts_flow; ts_chain.

Ltac ts_go := cbv zeta; repeat ts_flow; ts_chain.

Lemma tunnelHandleProxyRequest_tunnel p n w :
  in_tunnel n -> in_tunnel (fst (tunnelHandleProxyRequest p n w)).
Proof. intros H. unfold tunnelHandleProxyRequest. ts_go. Qed.

Ltac ts_call ::= first [apply tunnelHandleProxyRequest_tunnel].

Lemma tunnelHandleMessage_tunnel p n w :
  in_tunnel n -> in_tunnel (fst (tunnelHandleMessage p n w)).
Proof. intros H. unfold tunnelHandleMessage. ts_go. Qed.

Lemma tunnelSendRegister_tunnel n w :
  in_tunnel n -> in_tunnel (fst (tunnelSendRegister n w)).
Proof. intros H. unfold tunnelSendRegister. ts_go. Qed.

Ltac ts_call ::=
  first [ apply tunnelHandleProxyRequest_tunnel | apply tunnelHandleMessage_tunnel
        | apply tunnelSendRegister_tunnel ].

Lemma wsEvent_tunnel e n w : in_tunnel n -> in_tunnel (fst (wsEvent e n w)).
Proof. intros H. unfold wsEvent. ts_go. Qed.

Lemma deliver_tunnel es : forall n w, in_tunnel n -> in_tunnel (fst (deliver es n w)).
Proof.
  induction es as [|e es IH]; intros n w H; cbn [deliver]; [exact H|].
  pose proof (wsEvent_tunnel e n w H) as P. destruct (wsEvent e n w) as [n1 w1].
  apply IH, P.
Qed.

Lemma ws_loop_tunnel n w : in_tunnel n -> in_tunnel (fst (ws_loop n w)).
Proof.
  intros H. unfold ws_loop. destruct (w_ws_events w); [exact H | now apply deliver_tunnel].
Qed.

Lemma tunnelDisconnectCleanup_tunnel n w :
  in_tunnel n -> in_tunnel (fst (tunnelDisconnectCleanup n w)).
Proof. intros H. unfold tunnelDisconnectCleanup. ts_go. Qed.

Lemma tunnelConnect_tunnel n w : in_tunnel n -> in_tunnel (fst (tunnelConnect n w)).
Proof. intros H. unfold tunnelConnect. ts_go. Qed.

Ltac ts_call ::=
  first [ apply tunnelHandleProxyRequest_tunnel | apply tunnelHandleMessage_tunnel
        | apply tunnelSendRegister_tunnel | apply ws_loop_tunnel
        | apply tunnelDisconnectCleanup_tunnel | apply tunnelConnect_tunnel ].

Lemma tunnelLoop_tunnel n w : in_tunnel n -> in_tunnel (fst (tunnelLoop n w)).
Proof. intros H. unfold tunnelLoop. ts_go. Qed.

Lemma loopTick_tunnel n w :
  in_tunnel n ->
  in_tunnel (fst (loopTick n w)) /\ w_posts (snd (loopTick n w)) = w_posts w.
Proof.
  intros H. unfold loopTick, runStateMachine.
  destruct (negb (w_wifi w)); [split; [exact H | reflexivity]|].
  unfold in_tunnel in H. cbn [state_ set_wifiConnecting_].
  destruct (state_ n) eqn:E; try discriminate;
    (split; [apply tunnelLoop_tunnel; unfold in_tunnel; cbn; now rewrite E
            | apply TunnelPosts.tunnelLoop_posts]).
Qed.

Lemma run_tunnel ins : forall n w,
  in_tunnel n ->
  in_tunnel (fst (run ins n w)) /\ w_posts (snd (run ins n w)) = w_posts w.
Proof.
  induction ins as [|i ins IH]; intros n w H; cbn [run]; [split; [exact H | reflexivity]|].
  unfold tick.
  destruct (loopTick_tunnel n (set_w_wifi (t_wifi i)
                                 (set_w_clock (w_clock w + t_elapsed i) w)) H) as [P Q].
  destruct (loopTick n _) as [n1 w1]. cbn [fst snd] in *.
  destruct (IH n1 w1 P) as [P1 Q1]. split; [exact P1|]. now rewrite Q1, Q.
Qed.

End ActiveFacts.

(** X9. ACTIVE and the two tunnel states are never left, and from there the
    node never again sends a control request to the Hub: whatever the ticks
    and whatever arrives on the tunnel, the log of requests stays as it
    is. In particular a session the Hub revokes (a register_ack with
    MISSING_AUTH_TOKEN) is never asked for again. *)
Theorem active_is_final (ins : list tick_input) (n : node) (w : world) :
  in_tunnel n ->
  in_tunnel (fst (run ins n w)) /\
  w_posts (snd (run ins n w)) = w_posts w.
Proof. apply ActiveFacts.run_tunnel. Qed.

(** ** Pairing, refresh and register-by-slot *)

Module AttemptFacts.

(** [setState] as an update of the node. *)
Lemma setState_pair s n w :
  exists t w', (t = 0 \/ t = nextTunnelConnectMs_ n) /\ millis w' = millis w /\
               setState s n w = (set_state_ s (set_nextTunnelConnectMs_ t n), w').
Proof.
  unfold setState. destruct (State_eqb (state_ n) s) eqn:E.
  - apply State_eqb_eq in E. subst s. exists (nextTunnelConnectMs_ n), w.
    split; [now right|]. split; [reflexivity|]. now destruct n.
  - destruct (State_eqb s ACTIVE && _ && _); cbn.
    + eexists 0, _. split; [now left|]. split; [|reflexivity]. reflexivity.
    + exists (nextTunnelConnectMs_ n). eexists. split; [now right|].
      split; [|now destruct n]. reflexivity.
Qed.

Ltac cases := repeat (break_inner; cbn [fst snd] in *).

(** Replace the nodes [setState] returned by what they are. *)
Ltac close_setState :=
  repeat match goal with
  | H : setState ?s ?m ?w = (?n1, ?w1) |- _ =>
      let t := fresh "t" in let w' := fresh "w'" in let E := fresh "E" in
      let T := fresh "T" in let M := fresh "M" in
      destruct (setState_pair s m w) as (t & w' & T & M & E);
      rewrite E in H; clear E; inversion H; subst n1 w1; clear H
  end.

Ltac close_adopt :=
  repeat match goal with
  | |- context [adoptTunnelUrl ?b ?t ?m] =>
      let L := fresh "L" in
      destruct (InvFacts.adoptTunnelUrl_shape b t m) as [-> | (? & L & ->)]
  | |- context [storeSessionExpiry ?e ?m] =>
      let L := fresh "L" in
      destruct (InvFacts.storeSessionExpiry_shape e m) as [-> | (? & L & ->)]
  end.

End AttemptFacts.
Import AttemptFacts.

(** X10. A pairing code is submitted once. When [tryPairIfNeeded] is due with
    a valid code, it leaves the node without pairing code, in ACTIVE (the
    Hub answered 2xx with ok = true; the pair backoff is back at 2 s) or in
    HELLO (anything else), and it has sent at most one request, to the pair
    endpoint. *)
Theorem pairing_code_used_once (n : node) (w : world) :
  pairingCodeValid_ n = true -> nonempty (pairingCode_ n) = true ->
  httpBusy_ n = false -> nextPairMs_ n <= millis w ->
  pairingCode_ (fst (tryPairIfNeeded n w)) = EmptyString /\
  pairingCodeValid_ (fst (tryPairIfNeeded n w)) = false /\
  (state_ (fst (tryPairIfNeeded n w)) = HELLO \/
   state_ (fst (tryPairIfNeeded n w)) = ACTIVE /\
   pairBackoffMs_ (fst (tryPairIfNeeded n w)) = kBackoffMinMs) /\
  exists l, w_posts (snd (tryPairIfNeeded n w)) = (w_posts w ++ l)%list /\
            (l = [] \/ exists x, l = [x] /\ x_endpoint x = EpPair).
Proof.
  intros Hv Hc Hb Hd.
  split; [|split; [|split; [|exact (tryPairIfNeeded_adds n w)]]];
    unfold tryPairIfNeeded, isPairingExpired; rewrite Hv, Hc, Hb; cbn [negb orb];
    replace (millis w <? nextPairMs_ n) with false by (symmetry; apply Z.ltb_ge; lia);
    cbn [pairingCodeValid_ set_httpBusy_ negb];
    cases; close_setState; close_adopt; cbn; auto.
Qed.

(** X11. [trySessionRefresh] returns true only with the node in ACTIVE,
    holding a session token, the net backoff back at 2 s and the next
    session poll a minute away. When it returns false the state is
    untouched, and the session token is either untouched or, on a 401, 403
    or 410, erased together with its expiry. Without a stored token it does
    nothing at all. *)
Theorem session_refresh_outcome (n : node) (w : world) :
  (fst (trySessionRefresh n w) = true ->
     state_ (fst (snd (trySessionRefresh n w))) = ACTIVE /\
     nonempty (sessionToken_ (fst (snd (trySessionRefresh n w)))) = true /\
     netBackoffMs_ (fst (snd (trySessionRefresh n w))) = kBackoffMinMs /\
     nextSessionPollMs_ (fst (snd (trySessionRefresh n w)))
       = u32 (millis (snd (snd (trySessionRefresh n w))) + 60000)) /\
  (fst (trySessionRefresh n w) = false ->
     state_ (fst (snd (trySessionRefresh n w))) = state_ n /\
     (sessionToken_ (fst (snd (trySessionRefresh n w))) = sessionToken_ n \/
      sessionToken_ (fst (snd (trySessionRefresh n w))) = EmptyString /\
      sessionExpiresAt_ (fst (snd (trySessionRefresh n w))) = EmptyString)) /\
  (nonempty (sessionToken_ n) = false -> trySessionRefresh n w = (false, (n, w))).
Proof.
  split; [|split].
  - unfold trySessionRefresh. destruct (nonempty (sessionToken_ n)) eqn:Ht;
      [|cbn; discriminate].
    cbn [negb orb]. cases; try (cbn; discriminate); intros _; close_setState.
    all: close_adopt; cbn.
    all: repeat match goal with
         | |- context [storeSessionExpiry ?e ?m] =>
             destruct (InvFacts.storeSessionExpiry_shape e m) as [-> | (? & _ & ->)]
         end; cbn.
    all: rewrite ?(nonempty_strncpy_pos 255) by lia; auto.
    all: repeat split; auto; cbn in M; now rewrite M.
  - unfold trySessionRefresh. cases; try (cbn; discriminate); intros _; cbn; auto.
  - intros Ht. unfold trySessionRefresh. now rewrite Ht.
Qed.

(** X12. [tryRegisterBySlot] either leaves the identity of the node alone
    (state, node id, node token, tunnel URL) or, when the Hub answered 2xx
    with a node id, a node auth token and a tunnel URL, all three present,
    stores them, resets the tunnel backoff and enters ACTIVE. It never
    provides a session token, and it sends at most one request. *)
Theorem register_by_slot_outcome (n : node) (w : world) :
  (state_ (fst (tryRegisterBySlot n w)) = state_ n /\
   nodeId_ (fst (tryRegisterBySlot n w)) = nodeId_ n /\
   nodeToken_ (fst (tryRegisterBySlot n w)) = nodeToken_ n /\
   tunnelUrl_ (fst (tryRegisterBySlot n w)) = tunnelUrl_ n
   \/
   state_ (fst (tryRegisterBySlot n w)) = ACTIVE /\
   nonempty (nodeId_ (fst (tryRegisterBySlot n w))) = true /\
   nonempty (nodeToken_ (fst (tryRegisterBySlot n w))) = true /\
   nonempty (tunnelUrl_ (fst (tryRegisterBySlot n w))) = true /\
   tunnelBackoffIndex_ (fst (tryRegisterBySlot n w)) = 0 /\
   nextTunnelConnectMs_ (fst (tryRegisterBySlot n w)) = 0) /\
  sessionToken_ (fst (tryRegisterBySlot n w)) = sessionToken_ n /\
  exists l, w_posts (snd (tryRegisterBySlot n w)) = (w_posts w ++ l)%list /\
            (l = [] \/ exists x, l = [x] /\ x_endpoint x = EpRegisterBySlot).
Proof.
  split; [|split; [|exact (tryRegisterBySlot_adds n w)]].
  - unfold tryRegisterBySlot. cases; close_setState; cbn;
      try (left; repeat split; reflexivity).
    all: right;
      match goal with
      | H : negb (nonempty _) || negb (nonempty _) || negb (nonempty _) = false |- _ =>
          apply orb_false_elim in H; destruct H as [H Ht];
          apply orb_false_elim in H; destruct H as [Hi Ha];
          apply negb_false_iff in Hi, Ha, Ht
      end;
      rewrite !nonempty_strncpy_pos by lia; rewrite Hi, Ha, Ht;
      repeat split; try reflexivity; cbn in T; now destruct T.
  - unfold tryRegisterBySlot. cases; close_setState; reflexivity.
Qed.

(** ** Headers *)

Module HeaderFacts.

Lemma header_fits_strncpy k v : header_fits (strncpy 23 k, strncpy 79 v).
Proof. unfold header_fits. cbn [fst snd]. rewrite !strncpy_length. lia. Qed.

Lemma headers_fit_add hs k v :
  headers_fit hs -> Nat.leb TUNNEL_MAX_HEADERS (List.length hs) = false ->
  headers_fit (hs ++ [(strncpy 23 k, strncpy 79 v)])%list.
Proof.
  intros [L F] E. apply Nat.leb_gt in E. split.
  - rewrite length_app. cbn. lia.
  - apply Forall_app. split; [exact F|]. constructor; [apply header_fits_strncpy | constructor].
Qed.

Lemma request_headers_fit fs : forall acc,
  headers_fit acc -> headers_fit (request_headers fs acc).
Proof.
  induction fs as [|[k v] fs IH]; intros acc H; cbn [request_headers]; [exact H|].
  destruct (Nat.leb TUNNEL_MAX_HEADERS (List.length acc)) eqn:E; [exact H|].
  destruct v; try (apply IH, H). apply IH. now apply headers_fit_add.
Qed.

Lemma eqb_length a b : String.eqb a b = true -> String.length a = String.length b.
Proof. intros H. apply String.eqb_eq in H. now subst. Qed.

Lemma find_header_in key hs v :
  NodeAux.find_header key hs = Some v -> In (key, v) hs.
Proof.
  induction hs as [|[k x] hs IH]; cbn [NodeAux.find_header]; [discriminate|].
  destruct (String.eqb key k) eqn:E.
  - intros [= <-]. apply String.eqb_eq in E. subst. now left.
  - intros H. right. now apply IH.
Qed.

Lemma find_header_long key hs :
  Forall header_fits hs -> (23 < String.length key)%nat ->
  NodeAux.find_header key hs = None.
Proof.
  intros F L. destruct (NodeAux.find_header key hs) as [v|] eqn:E; [|reflexivity].
  apply find_header_in in E. rewrite Forall_forall in F.
  destruct (F _ E) as [K _]. cbn [fst] in K. lia.
Qed.

Lemma setHeader_fit k v r : headers_fit (headers_ r) -> headers_fit (headers_ (setHeader k v r)).
Proof.
  intros H. unfold setHeader. destruct k as [k|]; [|exact H]. destruct v as [v|]; [|exact H].
  destruct (Nat.leb TUNNEL_MAX_HEADERS (List.length (headers_ r))) eqn:E; [exact H|].
  cbn [headers_ set_headers_]. now apply headers_fit_add.
Qed.

Lemma write_headers d r : headers_ (write d r) = headers_ r.
Proof. unfold write. destruct d; [|reflexivity]. now destruct (ended_ r). Qed.

Lemma writer_step_fit c r w :
  headers_fit (headers_ r) -> headers_fit (headers_ (fst (writer_step c r w))).
Proof.
  intros H. destruct c as [code | k v | d | s |]; cbn [writer_step fst].
  - exact H.
  - now apply setHeader_fit.
  - now rewrite write_headers.
  - unfold write_str. destruct s; [now rewrite write_headers | exact H].
  - unfold writer_end. destruct (ended_ r); [exact H|]. cbv zeta.
    now destruct (node_ (set_ended_ true r)).
Qed.

Lemma writer_run_fit cs : forall r w,
  headers_fit (headers_ r) -> headers_fit (headers_ (fst (writer_run cs r w))).
Proof.
  induction cs as [|c cs IH]; intros r w H; cbn [writer_run]; [exact H|].
  pose proof (writer_step_fit c r w H) as P. destruct (writer_step c r w) as [r1 w1].
  apply IH, P.
Qed.

End HeaderFacts.

(** X13. The request handed to the HTTP handler carries at most eight
    headers, each key cut to 23 and each value to 79 characters. A lookup
    answers with one of these (cut) values, and a key longer than 23
    characters is never found, whatever the Hub sent. *)
Theorem request_headers_bounded (doc : jval) (n : node) :
  headers_fit (headers (NodeAux.proxyRequest doc n)) /\
  (forall key v, NodeAux.getHeader (NodeAux.proxyRequest doc n) (Some key) = Some v ->
     In (key, v) (headers (NodeAux.proxyRequest doc n)) /\
     (String.length key <= 23)%nat /\ (String.length v <= 79)%nat) /\
  NodeAux.getHeader (NodeAux.proxyRequest doc n) None = None.
Proof.
  assert (F : headers_fit (headers (NodeAux.proxyRequest doc n))).
  { unfold NodeAux.proxyRequest. cbn [headers].
    assert (E : headers_fit []) by (split; [cbn; lia | constructor]).
    destruct (member doc "headers") as [[]|]; try exact E.
    now apply HeaderFacts.request_headers_fit. }
  split; [exact F|]. split; [|reflexivity].
  intros key v H. cbn [NodeAux.getHeader] in H.
  apply HeaderFacts.find_header_in in H. split; [exact H|].
  destruct F as [_ F]. rewrite Forall_forall in F. apply (F _ H).
Qed.

(** X14. A response writer never holds more than eight headers, and each of
    them within 23 and 79 characters, whatever the handler calls. *)
Theorem writer_headers_bounded (cs : list writer_call)
    (r : TunnelHttpResponseWriter) (w : world) :
  headers_fit (headers_ r) -> headers_fit (headers_ (fst (writer_run cs r w))).
Proof. apply HeaderFacts.writer_run_fit. Qed.

Lemma writer_headers_bounded_witness :
  headers_fit (headers_ new_writer) /\
  headers_fit (headers_ (fst (writer_run
    [CallSetHeader (Some "Content-Type") (Some "text/plain"); CallEnd]
    new_writer Samples.tunnel_up))).
Proof.
  assert (H : headers_fit (headers_ new_writer)) by (split; [cbn; lia | constructor]).
  split; [exact H|]. apply (writer_headers_bounded _ new_writer Samples.tunnel_up H).
Defined.

(** ** Logging *)

Module MaskFacts.

Lemma substring_length_le n m : forall s,
  (String.length (String.substring n m s) <= m)%nat.
Proof.
  revert m. induction n as [|n IH]; intros m s.
  - revert s. induction m as [|m IHm]; intros [|c s]; cbn; try lia.
    specialize (IHm s). lia.
  - destruct s as [|c s]; cbn; [lia | apply IH].
Qed.

Lemma strncpy_empty k : strncpy k EmptyString = EmptyString.
Proof. now destruct k. Qed.

End MaskFacts.

(** X15. The masked pairing code written to the log is at most six
    characters long and fits the buffer. It shows the first two and the last
    two characters of the code: a code of four characters is logged in
    full around the two stars. *)
Theorem pairing_mask_reveals (s : string) (bufLen : nat) :
  (String.length (NodeAux.maskPairingForLog (Some s) bufLen) <= 6)%nat /\
  (String.length (NodeAux.maskPairingForLog (Some s) bufLen) <= bufLen - 1)%nat /\
  ((7 <= bufLen)%nat -> String.length s = 4%nat ->
     String.substring 0 2 (NodeAux.maskPairingForLog (Some s) bufLen)
     ++ String.substring 4 2 (NodeAux.maskPairingForLog (Some s) bufLen) = s).
Proof.
  unfold NodeAux.maskPairingForLog. split; [|split].
  - destruct (Nat.eqb (String.length s) 0); [cbn; lia|].
    destruct (Nat.leb (String.length s) 2); [rewrite strncpy_length; cbn; lia|].
    destruct (Nat.eqb (String.length s) 3).
    + rewrite strncpy_length, length_append.
      pose proof (MaskFacts.substring_length_le 0 1 s). cbn [String.length]. lia.
    + rewrite strncpy_length, !length_append.
      pose proof (MaskFacts.substring_length_le 0 2 s).
      pose proof (MaskFacts.substring_length_le (String.length s - 2) 2 s).
      cbn [String.length]. lia.
  - destruct (Nat.eqb (String.length s) 0); [cbn; lia|].
    destruct (Nat.leb (String.length s) 2); [rewrite strncpy_length; lia|].
    destruct (Nat.eqb (String.length s) 3); rewrite strncpy_length; lia.
  - intros Hb Hs.
    destruct s as [|a [|b [|c [|d [|e s]]]]]; try discriminate.
    do 7 (destruct bufLen as [|bufLen]; [lia|]).
    cbn [String.length Nat.eqb Nat.leb Nat.sub String.substring append].
    rewrite !UrlFacts.strncpy_head, MaskFacts.strncpy_empty. reflexivity.
Qed.

(** X16. The preview of a response body written to the log holds printable
    ASCII only and is at most 203 characters long. *)
Theorem body_preview_printable (body : list Z) :
  Forall (fun c => 32 <= c < 127) (NodeAux.logBodyPreview body) /\
  (List.length (NodeAux.logBodyPreview body) <= 203)%nat.
Proof.
  unfold NodeAux.logBodyPreview. split.
  - apply Forall_app. split.
    + apply Forall_map, Forall_forall. intros c _. unfold NodeAux.preview_char.
      destruct ((c =? 13) || (c =? 10)); [lia|].
      destruct ((32 <=? c) && (c <? 127)) eqn:E; lia.
    + destruct (Nat.ltb 200 (List.length body)); repeat constructor; lia.
  - rewrite length_app, length_map, length_firstn.
    destruct (Nat.ltb 200 (List.length body)); cbn [List.length]; lia.
Qed.

(** ** The socket *)

Module SocketFacts.

Lemma setState_ws s n w : w_ws (snd (setState s n w)) = w_ws w.
Proof. unfold setState. now destruct (State_eqb _ _). Qed.

Lemma random_ws w : w_ws (snd (random w)) = w_ws w.
Proof. unfold random. destruct (w_rng w); reflexivity. Qed.

Lemma post_ws c ep path body max w :
  w_ws (snd (postJsonUnified c ep path body max w)) = w_ws w.
Proof.
  destruct (postJsonUnified c ep path body max w) as [r w'] eqn:E.
  apply post_cases in E.
  destruct E as [[_ ->] | [(full & _ & _ & ->) | (full & rep & rest & _ & -> & _)]];
    reflexivity.
Qed.

Create Rewrite HintDb socket.
#[export] Hint Rewrite setState_ws random_ws post_ws : socket.

Ltac same_ws :=
  repeat (break_inner; cbn [fst snd] in * );
  repeat match goal with
  | H : ?f = (_, ?w') |- _ =>
      let P := fresh "P" in
      assert (P : w_ws w' = w_ws (snd f)) by (rewrite H; reflexivity);
      clear H; autorewrite with socket in P; cbn in P
  end;
  autorewrite with socket; cbn; congruence.

Lemma handleHelloResponse_ws status body json n w :
  w_ws (snd (handleHelloResponse status body json n w)) = w_ws w.
Proof. unfold handleHelloResponse. same_ws. Qed.
#[export] Hint Rewrite handleHelloResponse_ws : socket.

Lemma tryHello_ws n w : w_ws (snd (tryHello n w)) = w_ws w.
Proof. unfold tryHello. same_ws. Qed.

Lemma tryPairIfNeeded_ws n w : w_ws (snd (tryPairIfNeeded n w)) = w_ws w.
Proof. unfold tryPairIfNeeded, postDevicePair. same_ws. Qed.

Lemma tryApprove_ws n w : w_ws (snd (tryApprove n w)) = w_ws w.
Proof. unfold tryApprove. same_ws. Qed.

Lemma trySessionRefresh_ws n w : w_ws (snd (snd (trySessionRefresh n w))) = w_ws w.
Proof. unfold trySessionRefresh. same_ws. Qed.

Lemma trySessionPoll_ws n w : w_ws (snd (trySessionPoll n w)) = w_ws w.
Proof. unfold trySessionPoll. same_ws. Qed.

Lemma tryRegisterBySlot_ws n w : w_ws (snd (tryRegisterBySlot n w)) = w_ws w.
Proof. unfold tryRegisterBySlot. same_ws. Qed.

#[export] Hint Rewrite tryHello_ws tryPairIfNeeded_ws tryApprove_ws trySessionRefresh_ws
  trySessionPoll_ws tryRegisterBySlot_ws : socket.

End SocketFacts.
Import SocketFacts.

Module ConnectFacts.

Lemma setState_keeps s n w :
  sessionToken_ (fst (setState s n w)) = sessionToken_ n /\
  tunnelUrl_ (fst (setState s n w)) = tunnelUrl_ n /\
  cfg_ (fst (setState s n w)) = cfg_ n.
Proof.
  unfold setState. destruct (State_eqb _ _); [auto|]. cbv zeta.
  destruct (_ && _ && _); cbn; auto.
Qed.

Lemma tunnelLoop_opens n w :
  w_ws w = None -> w_ws (snd (tunnelLoop n w)) <> None ->
  w_ws (snd (tunnelLoop n w)) = Some false /\
  enableTunnel (cfg_ n) = true /\ nonempty (sessionToken_ n) = true /\
  (String.prefix "wss://" (tunnelUrl_ n) = true \/
   String.prefix "ws://" (tunnelUrl_ n) = true) /\
  nextTunnelConnectMs_ n <= millis w.
Proof.
  intros Hw. unfold tunnelLoop. cbv zeta.
  destruct (w_disconnect_pending w).
  { cbn [w_ws set_w_disconnect_pending]. rewrite Hw. cbn. congruence. }
  destruct (enableTunnel (cfg_ n)); [|cbn; congruence]. cbn [negb].
  destruct (negb (nonempty (tunnelUrl_ n))); [cbn; congruence|].
  destruct (_ && _); [cbn; congruence|].
  rewrite Hw.
  destruct (millis w <? nextTunnelConnectMs_ n) eqn:Ed; [cbn; congruence|].
  apply Z.ltb_ge in Ed.
  pose proof (setState_ws TUNNEL_CONNECTING n w) as W1.
  destruct (setState_keeps TUNNEL_CONNECTING n w) as (K1 & K2 & K3).
  destruct (setState TUNNEL_CONNECTING n w) as [n1 w1]. cbn [fst snd] in *.
  rewrite Hw in W1. unfold tunnelConnect. rewrite W1, K1, K2.
  destruct (negb (nonempty (tunnelUrl_ n))); [cbn; congruence|].
  destruct (nonempty (sessionToken_ n)); [|cbn; congruence]. cbn [negb].
  destruct (String.prefix "wss://" (tunnelUrl_ n)) eqn:E1; cbn [negb andb].
  - cbn. intros _. auto 6.
  - destruct (String.prefix "ws://" (tunnelUrl_ n)) eqn:E2; cbn [negb]; [|cbn; congruence].
    cbn. intros _. auto 6.
Qed.

Lemma loopTick_opens n w :
  w_ws w = None -> w_ws (snd (loopTick n w)) <> None ->
  w_ws (snd (loopTick n w)) = Some false /\ may_connect n w.
Proof.
  intros Hw. unfold loopTick, runStateMachine, may_connect. cbv zeta.
  destruct (negb (w_wifi w)); [cbn; congruence|].
  cbn [state_ set_wifiConnecting_].
  set (m := set_wifiConnecting_ false n).
  destruct (state_ n) eqn:Es.
  - (* BOOT *)
    intros H. exfalso. apply H. clear H.
    destruct (nonempty _).
    + pose proof (trySessionRefresh_ws m w) as P.
      destruct (trySessionRefresh m w) as [ok [n1 w1]]. cbn [snd] in P.
      destruct ok; [cbn; congruence|].
      pose proof (setState_ws HELLO n1 w1) as Q.
      destruct (setState HELLO n1 w1). cbn in *. congruence.
    + pose proof (setState_ws HELLO m w) as Q.
      destruct (setState HELLO m w). cbn in *. congruence.
  - rewrite tryHello_ws. congruence.
  - rewrite tryPairIfNeeded_ws. congruence.
  - intros H. exfalso. apply H. clear H.
    assert (P1 : w_ws (snd (if preferRegisterBySlot (cfg_ m) && is_set (loginToken (cfg_ m))
                            then tryRegisterBySlot m w else (m, w))) = None).
    { destruct (_ && _); [now rewrite tryRegisterBySlot_ws | exact Hw]. }
    destruct (if preferRegisterBySlot (cfg_ m) && is_set (loginToken (cfg_ m))
              then tryRegisterBySlot m w else (m, w)) as [n1 w1]. cbn [snd] in P1.
    assert (P2 : w_ws (snd (if enableSelfApprove (cfg_ n1)
                                 && is_set (approveEndpointPath (cfg_ n1))
                                 && negb (nonempty (sessionToken_ n1))
                                 && negb (approveMissingMacFailed_ n1)
                            then tryApprove n1 w1 else (n1, w1))) = None).
    { destruct (_ && _ && _ && _); [now rewrite tryApprove_ws | exact P1]. }
    destruct (if enableSelfApprove (cfg_ n1) && _ && _ && _ then _ else _) as [n2 w2].
    cbn [snd] in P2.
    destruct (negb _); [now rewrite trySessionPoll_ws | exact P2].
  - intros H. exfalso. apply H. clear H.
    pose proof (setState_ws ACTIVE m w) as Q.
    destruct (setState ACTIVE m w). cbn in *. congruence.
  - intros H. destruct (tunnelLoop_opens _ w Hw H) as (A & B & C & D & E). auto 8.
  - intros H. destruct (tunnelLoop_opens _ w Hw H) as (A & B & C & D & E). auto 8.
  - intros H. destruct (tunnelLoop_opens _ w Hw H) as (A & B & C & D & E). auto 8.
  - rewrite setState_ws. cbn. congruence.
Qed.

End ConnectFacts.

(** X17. A tick opens the tunnel socket only from ACTIVE or a tunnel state,
    with the tunnel enabled, a session token at hand, a tunnel URL that
    begins with wss:// or ws:// and the reconnect time reached. A node
    token alone, as register-by-slot gives it, never opens it. The socket
    just opened is not yet connected. *)
Theorem tunnel_needs_session_token (n : node) (w : world) :
  w_ws w = None -> w_ws (snd (loopTick n w)) <> None ->
  w_ws (snd (loopTick n w)) = Some false /\ may_connect n w.
Proof. apply ConnectFacts.loopTick_opens. Qed.

Lemma tunnel_needs_session_token_witness :
  w_ws (snd Samples.active_node) = None /\
  w_ws (snd (loopTick (fst Samples.active_node) (snd Samples.active_node))) = Some false /\
  may_connect (fst Samples.active_node) (snd Samples.active_node).
Proof.
  split; [reflexivity|].
  apply (tunnel_needs_session_token (fst Samples.active_node) (snd Samples.active_node));
    [reflexivity | vm_compute; discriminate].
Defined.

(** ** Registered and connected *)

Module QuietFacts.

Lemma quiet_setState s n w :
  s <> TUNNEL_CONNECTED -> quiet n -> quiet (fst (setState s n w)).
Proof.
  intros Hs [R S]. unfold quiet, setState.
  destruct (State_eqb (state_ n) s); [now split|]. cbv zeta.
  destruct (_ && _ && _); cbn; now split.
Qed.

Lemma quiet_clearPairingCode n : quiet n -> quiet (clearPairingCode n).
Proof.
  intros H. unfold quiet, clearPairingCode in *. repeat break_inner; exact H.
Qed.

Lemma quiet_storePairingFromHello c e n : quiet n -> quiet (storePairingFromHello c e n).
Proof.
  intros H. unfold quiet, storePairingFromHello in *. repeat break_inner; exact H.
Qed.

Lemma quiet_advanceNetBackoff n : quiet n -> quiet (advanceNetBackoff n).
Proof.
  intros H. unfold quiet, advanceNetBackoff in *. repeat break_inner; exact H.
Qed.

Lemma quiet_advancePairBackoff n : quiet n -> quiet (advancePairBackoff n).
Proof.
  intros H. unfold quiet, advancePairBackoff in *. repeat break_inner; exact H.
Qed.

Lemma quiet_resetNetBackoff n : quiet n -> quiet (resetNetBackoff n).
Proof.
  intros H. unfold quiet, resetNetBackoff in *. repeat break_inner; exact H.
Qed.

Lemma quiet_resetPairBackoff n : quiet n -> quiet (resetPairBackoff n).
Proof.
  intros H. unfold quiet, resetPairBackoff in *. repeat break_inner; exact H.
Qed.

Lemma quiet_adoptTunnelUrl b t n : quiet n -> quiet (adoptTunnelUrl b t n).
Proof.
  intros H. unfold quiet, adoptTunnelUrl in *. repeat break_inner; exact H.
Qed.

Lemma quiet_storeSessionExpiry e n : quiet n -> quiet (storeSessionExpiry e n).
Proof.
  intros H. unfold quiet, storeSessionExpiry in *. repeat break_inner; exact H.
Qed.

Lemma quiet_cfg_ v n : quiet n -> quiet (set_cfg_ v n).
Proof. intros H. exact H. Qed.

Lemma quiet_nodeId_ v n : quiet n -> quiet (set_nodeId_ v n).
Proof. intros H. exact H. Qed.

Lemma quiet_nodeToken_ v n : quiet n -> quiet (set_nodeToken_ v n).
Proof. intros H. exact H. Qed.

Lemma quiet_tunnelUrl_ v n : quiet n -> quiet (set_tunnelUrl_ v n).
Proof. intros H. exact H. Qed.

Lemma quiet_tunnelId_ v n : quiet n -> quiet (set_tunnelId_ v n).
Proof. intros H. exact H. Qed.

Lemma quiet_sessionToken_ v n : quiet n -> quiet (set_sessionToken_ v n).
Proof. intros H. exact H. Qed.

Lemma quiet_sessionExpiresAt_ v n : quiet n -> quiet (set_sessionExpiresAt_ v n).
Proof. intros H. exact H. Qed.

Lemma quiet_pairingCode_ v n : quiet n -> quiet (set_pairingCode_ v n).
Proof. intros H. exact H. Qed.

Lemma quiet_pairingExpiresAt_ v n : quiet n -> quiet (set_pairingExpiresAt_ v n).
Proof. intros H. exact H. Qed.

Lemma quiet_pairingCodeValid_ v n : quiet n -> quiet (set_pairingCodeValid_ v n).
Proof. intros H. exact H. Qed.

Lemma quiet_nextHelloMs_ v n : quiet n -> quiet (set_nextHelloMs_ v n).
Proof. intros H. exact H. Qed.

Lemma quiet_nextPairMs_ v n : quiet n -> quiet (set_nextPairMs_ v n).
Proof. intros H. exact H. Qed.

Lemma quiet_nextApproveMs_ v n : quiet n -> quiet (set_nextApproveMs_ v n).
Proof. intros H. exact H. Qed.

Lemma quiet_nextSessionPollMs_ v n : quiet n -> quiet (set_nextSessionPollMs_ v n).
Proof. intros H. exact H. Qed.

Lemma quiet_nextRegisterBySlotMs_ v n : quiet n -> quiet (set_nextRegisterBySlotMs_ v n).
Proof. intros H. exact H. Qed.

Lemma quiet_netBackoffMs_ v n : quiet n -> quiet (set_netBackoffMs_ v n).
Proof. intros H. exact H. Qed.

Lemma quiet_pairBackoffMs_ v n : quiet n -> quiet (set_pairBackoffMs_ v n).
Proof. intros H. exact H. Qed.

Lemma quiet_nextTunnelConnectMs_ v n : quiet n -> quiet (set_nextTunnelConnectMs_ v n).
Proof. intros H. exact H. Qed.

Lemma quiet_tunnelBackoffMs_ v n : quiet n -> quiet (set_tunnelBackoffMs_ v n).
Proof. intros H. exact H. Qed.

Lemma quiet_tunnelBackoffIndex_ v n : quiet n -> quiet (set_tunnelBackoffIndex_ v n).
Proof. intros H. exact H. Qed.

Lemma quiet_lastTunnelPingMs_ v n : quiet n -> quiet (set_lastTunnelPingMs_ v n).
Proof. intros H. exact H. Qed.

Lemma quiet_approveMissingMacFailed_ v n : quiet n -> quiet (set_approveMissingMacFailed_ v n).
Proof. intros H. exact H. Qed.

Lemma quiet_lastHeartbeatMs_ v n : quiet n -> quiet (set_lastHeartbeatMs_ v n).
Proof. intros H. exact H. Qed.

Lemma quiet_wifiConnecting_ v n : quiet n -> quiet (set_wifiConnecting_ v n).
Proof. intros H. exact H. Qed.

Lemma quiet_httpBusy_ v n : quiet n -> quiet (set_httpBusy_ v n).
Proof. intros H. exact H. Qed.

Lemma quiet_httpRequestCb_ v n : quiet n -> quiet (set_httpRequestCb_ v n).
Proof. intros H. exact H. Qed.

Lemma quiet_if (c : bool) (a b : node) :
  quiet a -> quiet b -> quiet (if c then a else b).
Proof. now destruct c. Qed.

Ltac qt_call := fail.

Ltac qt_step :=
  lazymatch goal with
  | H : quiet ?n |- quiet ?n => exact H
  | |- quiet (fst (setState _ _ _)) => apply quiet_setState; [discriminate|]
  | |- quiet (clearPairingCode _) => apply quiet_clearPairingCode
  | |- quiet (storePairingFromHello _ _ _) => apply quiet_storePairingFromHello
  | |- quiet (advanceNetBackoff _) => apply quiet_advanceNetBackoff
  | |- quiet (advancePairBackoff _) => apply quiet_advancePairBackoff
  | |- quiet (resetNetBackoff _) => apply quiet_resetNetBackoff
  | |- quiet (resetPairBackoff _) => apply quiet_resetPairBackoff
  | |- quiet (adoptTunnelUrl _ _ _) => apply quiet_adoptTunnelUrl
  | |- quiet (storeSessionExpiry _ _) => apply quiet_storeSessionExpiry
  | |- quiet (if _ then _ else _) => apply quiet_if
  | |- quiet (set_cfg_ _ _) => apply quiet_cfg_
  | |- quiet (set_nodeId_ _ _) => apply quiet_nodeId_
  | |- quiet (set_nodeToken_ _ _) => apply quiet_nodeToken_
  | |- quiet (set_tunnelUrl_ _ _) => apply quiet_tunnelUrl_
  | |- quiet (set_tunnelId_ _ _) => apply quiet_tunnelId_
  | |- quiet (set_sessionToken_ _ _) => apply quiet_sessionToken_
  | |- quiet (set_sessionExpiresAt_ _ _) => apply quiet_sessionExpiresAt_
  | |- quiet (set_pairingCode_ _ _) => apply quiet_pairingCode_
  | |- quiet (set_pairingExpiresAt_ _ _) => apply quiet_pairingExpiresAt_
  | |- quiet (set_pairingCodeValid_ _ _) => apply quiet_pairingCodeValid_
  | |- quiet (set_nextHelloMs_ _ _) => apply quiet_nextHelloMs_
  | |- quiet (set_nextPairMs_ _ _) => apply quiet_nextPairMs_
  | |- quiet (set_nextApproveMs_ _ _) => apply quiet_nextApproveMs_
  | |- quiet (set_nextSessionPollMs_ _ _) => apply quiet_nextSessionPollMs_
  | |- quiet (set_nextRegisterBySlotMs_ _ _) => apply quiet_nextRegisterBySlotMs_
  | |- quiet (set_netBackoffMs_ _ _) => apply quiet_netBackoffMs_
  | |- quiet (set_pairBackoffMs_ _ _) => apply quiet_pairBackoffMs_
  | |- quiet (set_nextTunnelConnectMs_ _ _) => apply quiet_nextTunnelConnectMs_
  | |- quiet (set_tunnelBackoffMs_ _ _) => apply quiet_tunnelBackoffMs_
  | |- quiet (set_tunnelBackoffIndex_ _ _) => apply quiet_tunnelBackoffIndex_
  | |- quiet (set_lastTunnelPingMs_ _ _) => apply quiet_lastTunnelPingMs_
  | |- quiet (set_approveMissingMacFailed_ _ _) => apply quiet_approveMissingMacFailed_
  | |- quiet (set_lastHeartbeatMs_ _ _) => apply quiet_lastHeartbeatMs_
  | |- quiet (set_wifiConnecting_ _ _) => apply quiet_wifiConnecting_
  | |- quiet (set_httpBusy_ _ _) => apply quiet_httpBusy_
  | |- quiet (set_httpRequestCb_ _ _) => apply quiet_httpRequestCb_
  | |- quiet (fst _) => qt_call
  end.

Ltac qt_chain := repeat qt_step.

Ltac qt_inner := fail.

Ltac qt_scrutinee x :=
  first
    [ let H := fresh "H" in
      assert (H : quiet (fst x)) by qt_inner;
      destruct x; cbn [fst] in H
    | let H := fresh "H" in
      assert (H : quiet (fst (snd x))) by qt_inner;
      let p := fresh "p" in destruct x as [? p]; destruct p; cbn [fst snd] in H
    | destruct x ].

Ltac qt_flow :=
  lazymatch goal with
  | |- quiet (fst (if ?c then _ else _)) => destruct c
  | |- quiet (fst (_, _)) => cbn [fst]
  | |- quiet (fst (snd (if ?c then _ else _))) => destruct c
  | |- quiet (fst (snd (_, _))) => cbn [fst snd]
  | |- quiet (fst (snd (match ?x with _ => _ end))) => qt_scrutinee x
  | |- quiet (fst (match ?x with _ => _ end)) => qt_scrutinee x
  end.

Ltac qt_inner ::= repeat qt_flow; qt_chain.

Ltac qt_go := cbv zeta; repeat qt_flow; qt_chain.

Lemma handleHelloResponse_quiet status body json n w :
  quiet n -> quiet (fst (handleHelloResponse status body json n w)).
Proof. intros H. unfold handleHelloResponse. qt_go. Qed.

Ltac qt_call ::=
  first [ apply handleHelloResponse_quiet ].

Lemma tryHello_quiet n w :
  quiet n -> quiet (fst (tryHello n w)).
Proof. intros H. unfold tryHello. qt_go. Qed.

Ltac qt_call ::=
  first [ apply handleHelloResponse_quiet
        | apply tryHello_quiet ].

Lemma tryPairIfNeeded_quiet n w :
  quiet n -> quiet (fst (tryPairIfNeeded n w)).
Proof. intros H. unfold tryPairIfNeeded. qt_go. Qed.

Ltac qt_call ::=
  first [ apply handleHelloResponse_quiet
        | apply tryHello_quiet
        | apply tryPairIfNeeded_quiet ].

Lemma tryApprove_quiet n w :
  quiet n -> quiet (fst (tryApprove n w)).
Proof. intros H. unfold tryApprove. qt_go. Qed.

Ltac qt_call ::=
  first [ apply handleHelloResponse_quiet
        | apply tryHello_quiet
        | apply tryPairIfNeeded_quiet
        | apply tryApprove_quiet ].

Lemma trySessionRefresh_quiet n w :
  quiet n -> quiet (fst (snd (trySessionRefresh n w))).
Proof. intros H. unfold trySessionRefresh. qt_go. Qed.

Ltac qt_call ::=
  first [ apply handleHelloResponse_quiet
        | apply tryHello_quiet
        | apply tryPairIfNeeded_quiet
        | apply tryApprove_quiet
        | apply trySessionRefresh_quiet ].

Lemma trySessionPoll_quiet n w :
  quiet n -> quiet (fst (trySessionPoll n w)).
Proof. intros H. unfold trySessionPoll. qt_go. Qed.

Ltac qt_call ::=
  first [ apply handleHelloResponse_quiet
        | apply tryHello_quiet
        | apply tryPairIfNeeded_quiet
        | apply tryApprove_quiet
        | apply trySessionRefresh_quiet
        | apply trySessionPoll_quiet ].

Lemma tryRegisterBySlot_quiet n w :
  quiet n -> quiet (fst (tryRegisterBySlot n w)).
Proof. intros H. unfold tryRegisterBySlot. qt_go. Qed.

Ltac qt_call ::=
  first [ apply handleHelloResponse_quiet
        | apply tryHello_quiet
        | apply tryPairIfNeeded_quiet
        | apply tryApprove_quiet
        | apply trySessionRefresh_quiet
        | apply trySessionPoll_quiet
        | apply tryRegisterBySlot_quiet ].

Lemma tunnelConnect_quiet n w :
  quiet n -> quiet (fst (tunnelConnect n w)).
Proof. intros H. unfold tunnelConnect. qt_go. Qed.

Ltac qt_call ::=
  first [ apply handleHelloResponse_quiet
        | apply tryHello_quiet
        | apply tryPairIfNeeded_quiet
        | apply tryApprove_quiet
        | apply trySessionRefresh_quiet
        | apply trySessionPoll_quiet
        | apply tryRegisterBySlot_quiet
        | apply tunnelConnect_quiet ].

End QuietFacts.

Module PairedFacts.

Lemma paired_connected n w :
  tunnelRegistered_ n = true -> paired (fst (setState TUNNEL_CONNECTED n w)).
Proof.
  intros R. unfold paired, setState.
  destruct (State_eqb (state_ n) TUNNEL_CONNECTED) eqn:E.
  - apply State_eqb_eq in E. cbn. tauto.
  - cbn. tauto.
Qed.

Lemma paired_cfg_ v n : paired n -> paired (set_cfg_ v n).
Proof. intros H. exact H. Qed.

Lemma paired_nodeId_ v n : paired n -> paired (set_nodeId_ v n).
Proof. intros H. exact H. Qed.

Lemma paired_nodeToken_ v n : paired n -> paired (set_nodeToken_ v n).
Proof. intros H. exact H. Qed.

Lemma paired_tunnelUrl_ v n : paired n -> paired (set_tunnelUrl_ v n).
Proof. intros H. exact H. Qed.

Lemma paired_tunnelId_ v n : paired n -> paired (set_tunnelId_ v n).
Proof. intros H. exact H. Qed.

Lemma paired_sessionToken_ v n : paired n -> paired (set_sessionToken_ v n).
Proof. intros H. exact H. Qed.

Lemma paired_sessionExpiresAt_ v n : paired n -> paired (set_sessionExpiresAt_ v n).
Proof. intros H. exact H. Qed.

Lemma paired_pairingCode_ v n : paired n -> paired (set_pairingCode_ v n).
Proof. intros H. exact H. Qed.

Lemma paired_pairingExpiresAt_ v n : paired n -> paired (set_pairingExpiresAt_ v n).
Proof. intros H. exact H. Qed.

Lemma paired_pairingCodeValid_ v n : paired n -> paired (set_pairingCodeValid_ v n).
Proof. intros H. exact H. Qed.

Lemma paired_nextHelloMs_ v n : paired n -> paired (set_nextHelloMs_ v n).
Proof. intros H. exact H. Qed.

Lemma paired_nextPairMs_ v n : paired n -> paired (set_nextPairMs_ v n).
Proof. intros H. exact H. Qed.

Lemma paired_nextApproveMs_ v n : paired n -> paired (set_nextApproveMs_ v n).
Proof. intros H. exact H. Qed.

Lemma paired_nextSessionPollMs_ v n : paired n -> paired (set_nextSessionPollMs_ v n).
Proof. intros H. exact H. Qed.

Lemma paired_nextRegisterBySlotMs_ v n : paired n -> paired (set_nextRegisterBySlotMs_ v n).
Proof. intros H. exact H. Qed.

Lemma paired_netBackoffMs_ v n : paired n -> paired (set_netBackoffMs_ v n).
Proof. intros H. exact H. Qed.

Lemma paired_pairBackoffMs_ v n : paired n -> paired (set_pairBackoffMs_ v n).
Proof. intros H. exact H. Qed.

Lemma paired_nextTunnelConnectMs_ v n : paired n -> paired (set_nextTunnelConnectMs_ v n).
Proof. intros H. exact H. Qed.

Lemma paired_tunnelBackoffMs_ v n : paired n -> paired (set_tunnelBackoffMs_ v n).
Proof. intros H. exact H. Qed.

Lemma paired_tunnelBackoffIndex_ v n : paired n -> paired (set_tunnelBackoffIndex_ v n).
Proof. intros H. exact H. Qed.

Lemma paired_lastTunnelPingMs_ v n : paired n -> paired (set_lastTunnelPingMs_ v n).
Proof. intros H. exact H. Qed.

Lemma paired_approveMissingMacFailed_ v n : paired n -> paired (set_approveMissingMacFailed_ v n).
Proof. intros H. exact H. Qed.

Lemma paired_lastHeartbeatMs_ v n : paired n -> paired (set_lastHeartbeatMs_ v n).
Proof. intros H. exact H. Qed.

Lemma paired_wifiConnecting_ v n : paired n -> paired (set_wifiConnecting_ v n).
Proof. intros H. exact H. Qed.

Lemma paired_httpBusy_ v n : paired n -> paired (set_httpBusy_ v n).
Proof. intros H. exact H. Qed.

Lemma paired_httpRequestCb_ v n : paired n -> paired (set_httpRequestCb_ v n).
Proof. intros H. exact H. Qed.

Lemma paired_if (c : bool) (a b : node) :
  paired a -> paired b -> paired (if c then a else b).
Proof. now destruct c. Qed.

Ltac pr_call := fail.

Ltac pr_step :=
  lazymatch goal with
  | H : paired ?n |- paired ?n => exact H
  | |- paired (fst (setState TUNNEL_CONNECTED _ _)) => apply paired_connected; reflexivity
  | |- paired (if _ then _ else _) => apply paired_if
  | |- paired (set_cfg_ _ _) => apply paired_cfg_
  | |- paired (set_nodeId_ _ _) => apply paired_nodeId_
  | |- paired (set_nodeToken_ _ _) => apply paired_nodeToken_
  | |- paired (set_tunnelUrl_ _ _) => apply paired_tunnelUrl_
  | |- paired (set_tunnelId_ _ _) => apply paired_tunnelId_
  | |- paired (set_sessionToken_ _ _) => apply paired_sessionToken_
  | |- paired (set_sessionExpiresAt_ _ _) => apply paired_sessionExpiresAt_
  | |- paired (set_pairingCode_ _ _) => apply paired_pairingCode_
  | |- paired (set_pairingExpiresAt_ _ _) => apply paired_pairingExpiresAt_
  | |- paired (set_pairingCodeValid_ _ _) => apply paired_pairingCodeValid_
  | |- paired (set_nextHelloMs_ _ _) => apply paired_nextHelloMs_
  | |- paired (set_nextPairMs_ _ _) => apply paired_nextPairMs_
  | |- paired (set_nextApproveMs_ _ _) => apply paired_nextApproveMs_
  | |- paired (set_nextSessionPollMs_ _ _) => apply paired_nextSessionPollMs_
  | |- paired (set_nextRegisterBySlotMs_ _ _) => apply paired_nextRegisterBySlotMs_
  | |- paired (set_netBackoffMs_ _ _) => apply paired_netBackoffMs_
  | |- paired (set_pairBackoffMs_ _ _) => apply paired_pairBackoffMs_
  | |- paired (set_nextTunnelConnectMs_ _ _) => apply paired_nextTunnelConnectMs_
  | |- paired (set_tunnelBackoffMs_ _ _) => apply paired_tunnelBackoffMs_
  | |- paired (set_tunnelBackoffIndex_ _ _) => apply paired_tunnelBackoffIndex_
  | |- paired (set_lastTunnelPingMs_ _ _) => apply paired_lastTunnelPingMs_
  | |- paired (set_approveMissingMacFailed_ _ _) => apply paired_approveMissingMacFailed_
  | |- paired (set_lastHeartbeatMs_ _ _) => apply paired_lastHeartbeatMs_
  | |- paired (set_wifiConnecting_ _ _) => apply paired_wifiConnecting_
  | |- paired (set_httpBusy_ _ _) => apply paired_httpBusy_
  | |- paired (set_httpRequestCb_ _ _) => apply paired_httpRequestCb_
  | |- paired (fst _) => pr_call
  end.

Ltac pr_chain := repeat pr_step.

Ltac pr_inner := fail.

Ltac pr_scrutinee x :=
  first
    [ let H := fresh "H" in
      assert (H : paired (fst x)) by pr_inner;
      destruct x; cbn [fst] in H
    | let H := fresh "H" in
      assert (H : paired (fst (snd x))) by pr_inner;
      let p := fresh "p" in destruct x as [? p]; destruct p; cbn [fst snd] in H
    | destruct x ].

Ltac pr_flow :=
  lazymatch goal with
  | |- paired (fst (if ?c then _ else _)) => destruct c
  | |- paired (fst (_, _)) => cbn [fst]
  | |- paired (fst (snd (if ?c then _ else _))) => destruct c
  | |- paired (fst (snd (_, _))) => cbn [fst snd]
  | |- paired (fst (snd (match ?x with _ => _ end))) => pr_scrutinee x
  | |- paired (fst (match ?x with _ => _ end)) => pr_scrutinee x
  end.

Ltac pr_inner ::= repeat pr_flow; pr_chain.

Ltac pr_go := cbv zeta; repeat pr_flow; pr_chain.

Lemma tunnelHandleProxyRequest_paired p n w :
  paired n -> paired (fst (tunnelHandleProxyRequest p n w)).
Proof. intros H. unfold tunnelHandleProxyRequest. pr_go. Qed.

Ltac pr_call ::=
  first [ apply tunnelHandleProxyRequest_paired ].

Lemma tunnelHandleMessage_paired p n w :
  paired n -> paired (fst (tunnelHandleMessage p n w)).
Proof. intros H. unfold tunnelHandleMessage. pr_go. Qed.

Ltac pr_call ::=
  first [ apply tunnelHandleProxyRequest_paired
        | apply tunnelHandleMessage_paired ].

Lemma tunnelSendRegister_paired n w :
  paired n -> paired (fst (tunnelSendRegister n w)).
Proof. intros H. unfold tunnelSendRegister. pr_go. Qed.

Ltac pr_call ::=
  first [ apply tunnelHandleProxyRequest_paired
        | apply tunnelHandleMessage_paired
        | apply tunnelSendRegister_paired ].

Lemma wsEvent_paired e n w :
  paired n -> paired (fst (wsEvent e n w)).
Proof. intros H. unfold wsEvent. pr_go. Qed.

Ltac pr_call ::=
  first [ apply tunnelHandleProxyRequest_paired
        | apply tunnelHandleMessage_paired
        | apply tunnelSendRegister_paired
        | apply wsEvent_paired ].

End PairedFacts.

Module LinkFacts.
Import QuietFacts PairedFacts.

Lemma tunnelSendText_ws f w : w_ws (snd (tunnelSendText f w)) = w_ws w.
Proof. unfold tunnelSendText. now destruct (ws_connected w). Qed.
#[export] Hint Rewrite tunnelSendText_ws : socket.

Lemma tunnelSendProxyResponse_ws r w : w_ws (tunnelSendProxyResponse r w) = w_ws w.
Proof. unfold tunnelSendProxyResponse. same_ws. Qed.
#[export] Hint Rewrite tunnelSendProxyResponse_ws : socket.

Lemma writer_end_ws r w : w_ws (snd (writer_end r w)) = w_ws w.
Proof. unfold writer_end. same_ws. Qed.
#[export] Hint Rewrite writer_end_ws : socket.

Lemma writer_step_ws c r w : w_ws (snd (writer_step c r w)) = w_ws w.
Proof. unfold writer_step. same_ws. Qed.
#[export] Hint Rewrite writer_step_ws : socket.

Lemma writer_run_ws cs : forall r w, w_ws (snd (writer_run cs r w)) = w_ws w.
Proof.
  induction cs as [|c cs IH]; intros r w; [reflexivity|].
  cbn [writer_run]. destruct (writer_step c r w) as [r1 w1] eqn:E.
  rewrite IH. replace w1 with (snd (writer_step c r w)) by now rewrite E.
  apply writer_step_ws.
Qed.
#[export] Hint Rewrite writer_run_ws : socket.

Lemma tunnelHandleProxyRequest_ws p n w :
  w_ws (snd (tunnelHandleProxyRequest p n w)) = w_ws w.
Proof. unfold tunnelHandleProxyRequest. same_ws. Qed.
#[export] Hint Rewrite tunnelHandleProxyRequest_ws : socket.

Lemma tunnelHandleMessage_ws p n w :
  w_ws (snd (tunnelHandleMessage p n w)) = w_ws w.
Proof. unfold tunnelHandleMessage. same_ws. Qed.
#[export] Hint Rewrite tunnelHandleMessage_ws : socket.

Lemma tunnelSendRegister_ws n w : w_ws (snd (tunnelSendRegister n w)) = w_ws w.
Proof. unfold tunnelSendRegister. same_ws. Qed.
#[export] Hint Rewrite tunnelSendRegister_ws : socket.

(** An event leaves a socket there is. *)
Lemma wsEvent_ws e n w : w_ws w <> None -> w_ws (snd (wsEvent e n w)) <> None.
Proof.
  intros H. unfold wsEvent. destruct (w_ws w) eqn:E; [|congruence].
  destruct e; cbn [snd].
  - rewrite tunnelSendRegister_ws. cbn. congruence.
  - cbn. congruence.
  - cbn. congruence.
  - destruct (nonempty _); [rewrite tunnelHandleMessage_ws|]; cbn; congruence.
  - congruence.
Qed.

Lemma deliver_link es : forall n w,
  paired n -> w_ws w <> None ->
  paired (fst (deliver es n w)) /\ w_ws (snd (deliver es n w)) <> None.
Proof.
  induction es as [|e es IH]; intros n w P W; cbn [deliver]; [now split|].
  pose proof (wsEvent_paired e n w P) as P1. pose proof (wsEvent_ws e n w W) as W1.
  destruct (wsEvent e n w) as [n1 w1]. now apply IH.
Qed.

Lemma ws_loop_link n w :
  paired n -> w_ws w <> None ->
  paired (fst (ws_loop n w)) /\ w_ws (snd (ws_loop n w)) <> None.
Proof.
  intros P W. unfold ws_loop. destruct (w_ws_events w); [now split|].
  now apply deliver_link.
Qed.

Lemma quiet_linked n w : quiet n -> linked n w.
Proof.
  intros [R S]. unfold linked, paired. split; [split; intros H; congruence|].
  intros H. congruence.
Qed.

Lemma linked_quiet n w : linked n w -> state_ n <> TUNNEL_CONNECTED -> quiet n.
Proof.
  intros [P _] S. unfold paired in P. split; [|exact S].
  destruct (tunnelRegistered_ n); [|reflexivity]. exfalso. apply S. now apply P.
Qed.

Lemma setState_registered s n w :
  tunnelRegistered_ (fst (setState s n w)) = tunnelRegistered_ n.
Proof.
  unfold setState. destruct (State_eqb _ _); [reflexivity|]. cbv zeta.
  destruct (_ && _ && _); reflexivity.
Qed.

Lemma tunnelDisconnectCleanup_quiet n w : quiet (fst (tunnelDisconnectCleanup n w)).
Proof.
  unfold tunnelDisconnectCleanup. cbv zeta.
  assert (Q : quiet (fst (if State_eqb (state_ (set_tunnelRegistered_ false n))
                                TUNNEL_CONNECTING
                              || State_eqb (state_ (set_tunnelRegistered_ false n))
                                   TUNNEL_CONNECTED
                          then setState ACTIVE (set_tunnelRegistered_ false n)
                                 (notify (NoteTunnel false
                                            (tunnelUrl_ (set_tunnelRegistered_ false n))) w)
                          else (set_tunnelRegistered_ false n,
                                notify (NoteTunnel false
                                          (tunnelUrl_ (set_tunnelRegistered_ false n))) w)))).
  { cbn [state_ set_tunnelRegistered_ tunnelUrl_].
    destruct (State_eqb (state_ n) TUNNEL_CONNECTING || State_eqb (state_ n) TUNNEL_CONNECTED)
      eqn:E.
    - pose proof (setState_spec ACTIVE (set_tunnelRegistered_ false n)
                    (notify (NoteTunnel false (tunnelUrl_ n)) w)) as (S & _).
      split; [|cbn [state_ set_tunnelRegistered_ tunnelUrl_] in S; rewrite S; discriminate].
      now rewrite setState_registered.
    - cbn [fst]. split; [reflexivity|]. cbn [state_ set_tunnelRegistered_].
      intros S. rewrite S in E. discriminate. }
  destruct (if _ || _ then _ else _) as [n1 w1]. cbn [fst] in *.
  destruct (tunnelBackoffIndex_ n1 <? kTunnelBackoffSteps - 1); exact Q.
Qed.

Lemma tunnelLoop_linked n w : linked n w -> linked (fst (tunnelLoop n w)) (snd (tunnelLoop n w)).
Proof.
  intros L. unfold tunnelLoop. cbv zeta.
  destruct (w_disconnect_pending w).
  { cbn [w_ws set_w_disconnect_pending]. destruct (w_ws w) eqn:E.
    - apply quiet_linked, tunnelDisconnectCleanup_quiet.
    - cbn [fst snd]. destruct L as [P S]. split; [exact P|]. exact S. }
  destruct (negb (enableTunnel (cfg_ n))); [exact L|].
  destruct (negb (nonempty (tunnelUrl_ n))); [exact L|].
  destruct (_ && _); [exact L|].
  destruct (w_ws w) as [c|] eqn:E.
  - assert (W : w_ws w <> None) by congruence.
    destruct (ws_loop_link n w (proj1 L) W) as [P1 W1].
    destruct (ws_loop n w) as [n1 w1]. cbn [fst snd] in *.
    destruct (w_ws w1) as [c1|] eqn:E1; [|congruence].
    assert (L1 : linked n1 w1) by (split; [exact P1 | intros _; congruence]).
    destruct (c1 && tunnelRegistered_ n1 && _); [|exact L1].
    destruct ((0 <? _) && (_ <? 64)); [|exact L1].
    pose proof (tunnelSendText_ws (JObj [("type", JStr "ping")]) w1) as T.
    destruct (tunnelSendText _ w1) as [ok w2]. cbn [snd] in T.
    destruct ok; cbn [fst snd]; (split; [exact P1 | intros _; congruence]).
  - destruct (millis w <? nextTunnelConnectMs_ n); [exact L|].
    apply quiet_linked.
    assert (Q : quiet n).
    { apply (linked_quiet n w L). intros S. destruct L as [_ L]. now apply (L S). }
    pose proof (quiet_setState TUNNEL_CONNECTING n w ltac:(discriminate) Q) as Q1.
    destruct (setState TUNNEL_CONNECTING n w) as [n1 w1]. cbn [fst] in Q1.
    pose proof (tunnelConnect_quiet n1 w1 Q1) as Q2.
    destruct (tunnelConnect n1 w1) as [n2 w2]. exact Q2.
Qed.

Lemma runStateMachine_linked n w :
  linked n w -> linked (fst (runStateMachine n w)) (snd (runStateMachine n w)).
Proof.
  intros L. unfold runStateMachine. cbv zeta.
  destruct (negb (w_wifi w)); [exact L|].
  cbn [state_ set_wifiConnecting_].
  set (m := set_wifiConnecting_ false n).
  assert (Lm : linked m w) by exact L.
  destruct (state_ n) eqn:Es;
    try (apply tunnelLoop_linked; exact Lm);
    apply quiet_linked;
    assert (Q : quiet m)
      by (apply (linked_quiet m w Lm); subst m; cbn [state_ set_wifiConnecting_];
          rewrite Es; discriminate).
  - (* BOOT *)
    destruct (nonempty _).
    + pose proof (trySessionRefresh_quiet m w Q) as Q1.
      destruct (trySessionRefresh m w) as [ok [n1 w1]]. cbn [fst snd] in Q1.
      destruct ok; [exact Q1|].
      pose proof (quiet_setState HELLO n1 w1 ltac:(discriminate) Q1) as Q2.
      destruct (setState HELLO n1 w1). exact Q2.
    + pose proof (quiet_setState HELLO m w ltac:(discriminate) Q) as Q2.
      destruct (setState HELLO m w). exact Q2.
  - now apply tryHello_quiet.
  - now apply tryPairIfNeeded_quiet.
  - assert (Q1 : quiet (fst (if preferRegisterBySlot (cfg_ m) && is_set (loginToken (cfg_ m))
                             then tryRegisterBySlot m w else (m, w)))).
    { destruct (_ && _); [now apply tryRegisterBySlot_quiet | exact Q]. }
    destruct (if preferRegisterBySlot (cfg_ m) && is_set (loginToken (cfg_ m))
              then tryRegisterBySlot m w else (m, w)) as [n1 w1]. cbn [fst] in Q1.
    assert (Q2 : quiet (fst (if enableSelfApprove (cfg_ n1)
                                  && is_set (approveEndpointPath (cfg_ n1))
                                  && negb (nonempty (sessionToken_ n1))
                                  && negb (approveMissingMacFailed_ n1)
                             then tryApprove n1 w1 else (n1, w1)))).
    { destruct (_ && _ && _ && _); [now apply tryApprove_quiet | exact Q1]. }
    destruct (if enableSelfApprove (cfg_ n1) && _ && _ && _ then _ else _) as [n2 w2].
    cbn [fst] in Q2.
    destruct (negb _); [now apply trySessionPoll_quiet | exact Q2].
  - pose proof (quiet_setState ACTIVE m w ltac:(discriminate) Q) as Q2.
    destruct (setState ACTIVE m w). exact Q2.
  - apply quiet_setState; [discriminate|]. exact Q.
Qed.

Lemma run_linked ins : forall n w,
  linked n w -> linked (fst (run ins n w)) (snd (run ins n w)).
Proof.
  induction ins as [|i ins IH]; intros n w L; cbn [run]; [exact L|].
  unfold tick, loopTick.
  pose proof (runStateMachine_linked n
                (set_w_wifi (t_wifi i) (set_w_clock (w_clock w + t_elapsed i) w)) L) as P.
  destruct (runStateMachine n _) as [n1 w1]. apply IH, P.
Qed.

End LinkFacts.

(** X18. On every run the node counts as registered with the tunnel exactly
    while its state is TUNNEL_CONNECTED, and in that state the socket
    exists: a register_ack with status ok gives both, the cleanup after a
    drop takes both away. *)
Theorem registered_iff_connected (c : Config) (ins : list tick_input) (w : world) :
  (tunnelRegistered_ (fst (run ins (new_node c) w)) = true <->
   state_ (fst (run ins (new_node c) w)) = TUNNEL_CONNECTED) /\
  (state_ (fst (run ins (new_node c) w)) = TUNNEL_CONNECTED ->
   w_ws (snd (run ins (new_node c) w)) <> None).
Proof.
  apply (LinkFacts.run_linked ins (new_node c) w).
  apply LinkFacts.quiet_linked. split; [reflexivity | discriminate].
Qed.

Module DropFacts.

Lemma setState_form s n w :
  exists t w', millis w' = millis w /\ w_ws w' = w_ws w /\
               setState s n w = (set_state_ s (set_nextTunnelConnectMs_ t n), w').
Proof.
  unfold setState. destruct (State_eqb (state_ n) s) eqn:E.
  - apply State_eqb_eq in E. subst s. exists (nextTunnelConnectMs_ n), w.
    split; [reflexivity|]. split; [reflexivity|]. now destruct n.
  - destruct (State_eqb s ACTIVE && _ && _); cbn.
    + eexists 0, _. split; [|split; [|reflexivity]]; reflexivity.
    + exists (nextTunnelConnectMs_ n). eexists. split; [|split; [|now destruct n]]; reflexivity.
Qed.

End DropFacts.

(** X19. [tunnelDisconnect] and the cleanup after a dropped socket: the
    socket is gone, the node is no longer registered, a tunnel state falls
    back to ACTIVE, the backoff index moves one step up its table (it stays
    at the last step) and the next connection attempt is one such backoff
    away, between 4 and 60 seconds. *)
Theorem tunnel_drop_backoff (n : node) (w : world) :
  0 <= tunnelBackoffIndex_ n < kTunnelBackoffSteps ->
  let n' := fst (NodeAux.tunnelDisconnect n w) in
  tunnelBackoffIndex_ n' = Z.min (tunnelBackoffIndex_ n + 1) (kTunnelBackoffSteps - 1) /\
  tunnelBackoffMs_ n' = nth (Z.to_nat (tunnelBackoffIndex_ n')) kTunnelBackoffMs 0 /\
  4000 <= tunnelBackoffMs_ n' <= 60000 /\
  nextTunnelConnectMs_ n' = u32 (millis w + tunnelBackoffMs_ n') /\
  tunnelRegistered_ n' = false /\
  state_ n' = (if tunnel_state (state_ n) then ACTIVE else state_ n) /\
  w_ws (snd (NodeAux.tunnelDisconnect n w)) = None.
Proof.
  intros Hi. cbv zeta. unfold NodeAux.tunnelDisconnect, tunnelDisconnectCleanup.
  cbv zeta. cbn [state_ set_tunnelRegistered_ tunnelUrl_].
  set (w0 := notify _ _).
  assert (M0 : millis w0 = millis w) by reflexivity.
  assert (W0 : w_ws w0 = None) by reflexivity.
  clearbody w0.
  assert (S : exists t w1 s1,
    millis w1 = millis w /\ w_ws w1 = None /\
    s1 = (if tunnel_state (state_ n) then ACTIVE else state_ n) /\
    (if State_eqb (state_ n) TUNNEL_CONNECTING || State_eqb (state_ n) TUNNEL_CONNECTED
     then setState ACTIVE (set_tunnelRegistered_ false n) w0
     else (set_tunnelRegistered_ false n, w0))
    = (set_state_ s1 (set_nextTunnelConnectMs_ t (set_tunnelRegistered_ false n)), w1)).
  { destruct (State_eqb (state_ n) TUNNEL_CONNECTING || State_eqb (state_ n) TUNNEL_CONNECTED)
      eqn:E.
    - destruct (DropFacts.setState_form ACTIVE (set_tunnelRegistered_ false n) w0)
        as (t & w1 & M & W & Eq).
      exists t, w1, ACTIVE. rewrite Eq, M, W. repeat split; auto.
      destruct (state_ n); try discriminate; reflexivity.
    - exists (nextTunnelConnectMs_ n), w0, (state_ n).
      split; [exact M0|]. split; [exact W0|]. split.
      + destruct (state_ n); try discriminate; reflexivity.
      + now destruct n. }
  destruct S as (t & w1 & s1 & M1 & W1 & Es & ->).
  cbn [tunnelBackoffIndex_ set_state_ set_nextTunnelConnectMs_ set_tunnelRegistered_].
  unfold kTunnelBackoffSteps in *.
  assert (C : tunnelBackoffIndex_ n = 0 \/ tunnelBackoffIndex_ n = 1 \/
              tunnelBackoffIndex_ n = 2 \/ tunnelBackoffIndex_ n = 3 \/
              tunnelBackoffIndex_ n = 4) by lia.
  destruct C as [C | [C | [C | [C | C]]]]; rewrite C; cbn; rewrite ?C, M1;
    (repeat split; auto; try lia; try (vm_compute; congruence)).
Qed.

Lemma tunnel_drop_backoff_witness :
  0 <= tunnelBackoffIndex_ (fst Samples.active_node) < kTunnelBackoffSteps /\
  tunnelBackoffMs_ (fst (NodeAux.tunnelDisconnect (fst Samples.active_node)
                           (snd Samples.active_node))) = 4000.
Proof.
  assert (H : 0 <= tunnelBackoffIndex_ (fst Samples.active_node) < kTunnelBackoffSteps)
    by (vm_compute; split; [discriminate | reflexivity]).
  split; [exact H|].
  destruct (tunnel_drop_backoff (fst Samples.active_node) (snd Samples.active_node) H)
    as (_ & E & _).
  rewrite E. reflexivity.
Defined.

(** ** The simpler implementation *)

Module SimpleFacts.
Import Simple.

Lemma setLastError_form e n w :
  fst (setLastError e n w) = set_last_error_ (Some e) n /\
  millis (snd (setLastError e n w)) = millis w.
Proof.
  unfold setLastError. split; [reflexivity|]. cbn [snd].
  now destruct (match _ with Some _ => _ | None => _ end).
Qed.

Lemma transitionTo_form s n w :
  fst (transitionTo s n w) = set_state_ s n /\
  millis (snd (transitionTo s n w)) = millis w.
Proof.
  unfold transitionTo. destruct (State_eqb (state_ n) s) eqn:E; cbn [fst snd]; [|now split].
  split; [|reflexivity]. destruct n as [c st]; cbn in *.
  destruct st, s; try discriminate; reflexivity.
Qed.

Lemma responseToJson_cases r n w d n' w' :
  responseToJson r n w = (d, (n', w')) ->
  (d = None /\ (exists e, n' = set_last_error_ (Some e) n) /\ millis w' = millis w) \/
  (exists doc, d = Some doc /\ n' = n /\ w' = w).
Proof.
  unfold responseToJson. intros H.
  repeat match type of H with
  | context [if ?c then _ else _] => destruct c
  | context [match ?x with Some _ => _ | None => _ end] => destruct x
  end;
  match type of H with
  | (None, setLastError ?e ?m ?v) = _ =>
      destruct (setLastError_form e m v) as [F M];
      destruct (setLastError e m v) as [n1 w1]; cbn [fst snd] in F, M;
      inversion H; subst; left; split; [reflexivity|]; split; [eexists; reflexivity | exact M]
  | (Some ?doc, _) = _ => inversion H; subst; right; exists doc; auto
  end.
Qed.

Ltac simple_cases := repeat (NodeFacts.break_inner; cbn [fst snd] in * ).

Ltac close_simple :=
  repeat match goal with
  | H : setLastError ?e ?m ?v = (?n1, ?w1) |- _ =>
      let F := fresh "F" in let M := fresh "M" in
      destruct (setLastError_form e m v) as [F M];
      rewrite H in F, M; cbn [fst snd] in F, M; subst n1; clear H
  | H : transitionTo ?s ?m ?v = (?n1, ?w1) |- _ =>
      let F := fresh "F" in let M := fresh "M" in
      destruct (transitionTo_form s m v) as [F M];
      rewrite H in F, M; cbn [fst snd] in F, M; subst n1; clear H
  | H : responseToJson _ _ _ = (_, (?n1, ?w1)) |- _ =>
      let Hd := fresh "Hd" in let Hn := fresh "Hn" in let Hm := fresh "Hm" in
      let e := fresh "e" in
      apply responseToJson_cases in H;
      destruct H as [(Hd & (e & Hn) & Hm) | (e & Hd & Hn & Hm)];
      [ first [discriminate Hd | subst n1]
      | first [discriminate Hd | subst n1 w1] ]
  end.

Lemma double_capped b :
  kInitialBackoffMs <= b <= kMaxBackoffMs ->
  Z.min (u32 (b * 2)) kMaxBackoffMs = Z.min (2 * b) kMaxBackoffMs /\
  kInitialBackoffMs <= Z.min (u32 (b * 2)) kMaxBackoffMs <= kMaxBackoffMs.
Proof.
  unfold kInitialBackoffMs, kMaxBackoffMs, u32. intros H.
  rewrite Z.mod_small by lia. lia.
Qed.

End SimpleFacts.

(** X20. A heartbeat keeps the network backoff between 1 s and 30 s. A
    heartbeat that succeeds sets it back to 1 s and leaves the last error
    alone; one that fails records an error and either leaves the schedule
    alone (no valid session, no Wi-Fi) or schedules the next network action
    one backoff from now and doubles the backoff, capped at 30 s. *)
Theorem heartbeat_backs_off (n : Simple.node) (w : Simple.world) :
  simple_backoff_ok n ->
  let ok := fst (Simple.sendHeartbeat n w) in
  let n' := fst (snd (Simple.sendHeartbeat n w)) in
  let w' := snd (snd (Simple.sendHeartbeat n w)) in
  simple_backoff_ok n' /\
  (ok = true ->
     Simple.net_backoff_ms_ n' = Simple.kInitialBackoffMs /\
     Simple.last_error_ n' = Simple.last_error_ n /\
     Simple.last_heartbeat_ms_ n' = Simple.millis w') /\
  (ok = false ->
     Simple.last_error_ n' <> None /\
     (Simple.net_backoff_ms_ n' = Simple.net_backoff_ms_ n /\
      Simple.next_net_action_ms_ n' = Simple.next_net_action_ms_ n
      \/
      Simple.net_backoff_ms_ n' =
        Z.min (2 * Simple.net_backoff_ms_ n) Simple.kMaxBackoffMs /\
      Simple.next_net_action_ms_ n' =
        u32 (Simple.millis w' + Simple.net_backoff_ms_ n))).
Proof.
  intros Hb. cbv zeta. destruct (SimpleFacts.double_capped _ Hb) as [D1 D2].
  unfold Simple.sendHeartbeat.
  SimpleFacts.simple_cases; SimpleFacts.close_simple;
    unfold simple_backoff_ok, Simple.scheduleNextNetwork, Simple.clearSession in *;
    cbn -[Z.mul Z.min u32 Simple.millis Simple.kInitialBackoffMs Simple.kMaxBackoffMs];
    (split;
     [first [exact Hb | exact D2
            | unfold Simple.kInitialBackoffMs, Simple.kMaxBackoffMs; lia]|]);
    rewrite ?D1;
    (split;
     [intros E; first [discriminate E | repeat split; reflexivity]
     |intros E;
      first [discriminate E
            | split; [discriminate|];
              first [left; split; reflexivity | right; split; reflexivity]]]).
Qed.

Lemma heartbeat_backs_off_witness :
  simple_backoff_ok Samples.simple_node /\
  Simple.net_backoff_ms_
    (fst (snd (Simple.sendHeartbeat Samples.simple_node Samples.simple_world))) = 1000.
Proof.
  assert (H : simple_backoff_ok Samples.simple_node)
    by (vm_compute; split; discriminate).
  split; [exact H|].
  destruct (heartbeat_backs_off Samples.simple_node Samples.simple_world H) as (_ & S & _).
  apply S. reflexivity.
Defined.

(** X21. The identity is derived once. After [ensureIdentityInitialized]
    a second call changes nothing, whatever the radio and the chip report
    by then, so [getMachineId] and [getNodeName] keep answering what they
    answered first. *)
Theorem identity_is_cached (n : Simple.node) (w w' : Simple.world) :
  Simple.ensureIdentityInitialized (Simple.ensureIdentityInitialized n w) w'
    = Simple.ensureIdentityInitialized n w /\
  Simple.getMachineId (Simple.ensureIdentityInitialized n w) w' = Simple.getMachineId n w /\
  SimpleAux.getNodeName (Simple.ensureIdentityInitialized n w) w'
    = SimpleAux.getNodeName n w.
Proof.
  assert (E : Simple.ensureIdentityInitialized (Simple.ensureIdentityInitialized n w) w'
              = Simple.ensureIdentityInitialized n w).
  { unfold Simple.ensureIdentityInitialized at 1.
    assert (P : exists a b,
              Simple.machine_id_ptr_ (Simple.ensureIdentityInitialized n w) = Some a /\
              Simple.node_name_ptr_ (Simple.ensureIdentityInitialized n w) = Some b).
    { unfold Simple.ensureIdentityInitialized.
      destruct (Simple.machine_id_ptr_ n) eqn:Em; destruct (Simple.node_name_ptr_ n) eqn:En;
        try (destruct (Simple.appendUniqueSuffix (Simple.config_ n)); cbn;
             eexists; eexists; split; reflexivity).
      rewrite Em, En. eexists; eexists; split; reflexivity. }
    destruct P as (a & b & -> & ->). reflexivity. }
  split; [exact E|]. unfold Simple.getMachineId, SimpleAux.getNodeName.
  rewrite E. split; reflexivity.
Qed.

(** ** The tunnel URL of the simpler implementation *)

Module TargetFacts.

Lemma strchr_substring_none c s k :
  strchr s c = None -> strchr (String.substring 0 k s) c = None.
Proof.
  intros H. apply UrlFacts.strchr_substring. intros i Hi. congruence.
Qed.

Lemma prefix_slash r : String.prefix "/" (String "/" r) = true.
Proof. cbn. destruct (ascii_dec "/" "/"); [now destruct r | congruence]. Qed.

Lemma wss_of_wss raw :
  String.prefix "wss://" raw = true -> String.prefix "wss:" raw = true.
Proof.
  intros H. apply String.prefix_correct in H.
  destruct raw as [|a [|b [|c [|d r]]]]; try discriminate.
  cbn in H. inversion H; subst. apply String.prefix_correct. cbn. now destruct r.
Qed.

Lemma wss_of_ws raw :
  String.prefix "ws://" raw = true -> String.prefix "wss:" raw = false.
Proof.
  intros H. apply String.prefix_correct in H.
  destruct raw as [|a [|b [|c r]]]; try discriminate.
  cbn in H. inversion H; subst. reflexivity.
Qed.

End TargetFacts.

(** X22. When [parseTunnelUrl] returns true the host is not empty and holds
    neither a slash nor a colon, the path begins with a slash, the port is
    a 16-bit number (443 or 80 when the URL names none) and the connection
    is secure exactly when the URL begins with wss: . *)
Theorem tunnel_target_parts (toInt : string -> Z) (raw : string)
    (out : SimpleAux.tunnel_target) :
  fst (SimpleAux.parseTunnelUrl toInt (Some raw) out) = true ->
  let t := snd (SimpleAux.parseTunnelUrl toInt (Some raw) out) in
  nonempty (SimpleAux.t_host t) = true /\
  strchr (SimpleAux.t_host t) "/" = None /\
  strchr (SimpleAux.t_host t) ":" = None /\
  String.prefix "/" (SimpleAux.t_path t) = true /\
  0 <= SimpleAux.t_port t < 65536 /\
  SimpleAux.t_secure t = String.prefix "wss:" raw.
Proof.
  unfold SimpleAux.parseTunnelUrl.
  destruct (negb (nonempty raw)); [discriminate|].
  set (su := if String.prefix "wss://" raw then _ else _).
  assert (Hs : fst su = String.prefix "wss:" raw).
  { subst su. destruct (String.prefix "wss://" raw) eqn:E1;
      [now rewrite (TargetFacts.wss_of_wss raw E1)|].
    destruct (String.prefix "ws://" raw) eqn:E2;
      [now rewrite (TargetFacts.wss_of_ws raw E2)|].
    now destruct (String.prefix "wss:" raw). }
  destruct su as [secure url]. cbn [fst] in Hs. subst secure.
  set (hp := match strchr url "/" with Some i => _ | None => _ end).
  assert (Hp : strchr (fst hp) "/" = None /\ String.prefix "/" (snd hp) = true).
  { subst hp. destruct (strchr url "/") as [i|] eqn:E; cbn [fst snd].
    - split.
      + apply UrlFacts.strchr_substring. intros j Hj. rewrite E in Hj. inversion Hj. lia.
      + destruct (UrlFacts.skip_at _ _ _ E) as [r ->]. apply TargetFacts.prefix_slash.
    - split; [exact E | reflexivity]. }
  destruct hp as [host path]. cbn [fst snd] in Hp. destruct Hp as [Hh Hpath].
  destruct (strchr host ":") as [i|] eqn:E; cbn [fst snd SimpleAux.t_host SimpleAux.t_port
    SimpleAux.t_path SimpleAux.t_secure]; intros Hl; cbv zeta;
    cbn [fst snd SimpleAux.t_host SimpleAux.t_port SimpleAux.t_path SimpleAux.t_secure].
  - split; [destruct (String.substring 0 i host); [discriminate | reflexivity]|].
    split; [now apply TargetFacts.strchr_substring_none|].
    split; [apply UrlFacts.strchr_substring; intros j Hj; rewrite E in Hj;
            inversion Hj; lia|].
    split; [exact Hpath|]. split; [apply Z.mod_pos_bound; lia | reflexivity].
  - split; [destruct host; [discriminate | reflexivity]|].
    split; [exact Hh|]. split; [exact E|]. split; [exact Hpath|].
    split; [destruct (String.prefix "wss:" raw); lia | reflexivity].
Qed.

Lemma tunnel_target_parts_witness :
  fst (SimpleAux.parseTunnelUrl (fun _ => 0) (Some "wss://hub.local:8443/ws")
         (SimpleAux.Build_target EmptyString 0 EmptyString false)) = true /\
  strchr (SimpleAux.t_host
            (snd (SimpleAux.parseTunnelUrl (fun _ => 0) (Some "wss://hub.local:8443/ws")
                    (SimpleAux.Build_target EmptyString 0 EmptyString false)))) ":" = None.
Proof.
  split; [reflexivity|].
  destruct (tunnel_target_parts (fun _ => 0) "wss://hub.local:8443/ws"
              (SimpleAux.Build_target EmptyString 0 EmptyString false) eq_refl)
    as (_ & _ & S & _).
  exact S.
Defined.

(** ** A session lost in a tunnel state *)

Module StrandedFacts.

Lemma tunnelLoop_stranded n w :
  stranded n w ->
  stranded (fst (tunnelLoop n w)) (snd (tunnelLoop n w)) /\
  w_sent (snd (tunnelLoop n w)) = w_sent w.
Proof.
  intros (T & S & W). unfold tunnelLoop. cbv zeta.
  destruct (w_disconnect_pending w).
  { cbn [w_ws set_w_disconnect_pending]. rewrite W. cbn [fst snd].
    split; [|reflexivity]. repeat split; assumption. }
  assert (Same : stranded n w /\ w_sent w = w_sent w) by (repeat split; assumption).
  destruct (negb (enableTunnel (cfg_ n))); [exact Same|].
  destruct (negb (nonempty (tunnelUrl_ n))) eqn:Eu; [exact Same|].
  destruct (_ && _); [exact Same|].
  rewrite W.
  destruct (millis w <? nextTunnelConnectMs_ n); [exact Same|].
  pose proof (setState_ws TUNNEL_CONNECTING n w) as W1.
  destruct (ConnectFacts.setState_keeps TUNNEL_CONNECTING n w) as (K1 & K2 & _).
  destruct (setState_spec TUNNEL_CONNECTING n w) as (S1 & _ & _ & X1 & _).
  destruct (setState TUNNEL_CONNECTING n w) as [n1 w1]. cbn [fst snd] in *.
  unfold tunnelConnect. rewrite W1, W, K1, K2, Eu, S. cbn [negb fst snd].
  split; [|exact X1]. unfold stranded, in_tunnel. cbn. rewrite S1, K1, W1, W. auto.
Qed.

Lemma loopTick_stranded n w :
  stranded n w ->
  stranded (fst (loopTick n w)) (snd (loopTick n w)) /\
  w_sent (snd (loopTick n w)) = w_sent w.
Proof.
  intros H. unfold loopTick, runStateMachine. cbv zeta.
  destruct (negb (w_wifi w)).
  { cbn [fst snd]. split; [exact H | reflexivity]. }
  cbn [state_ set_wifiConnecting_].
  assert (Hm : stranded (set_wifiConnecting_ false n) w) by exact H.
  destruct H as (T & _). unfold in_tunnel in T.
  destruct (state_ n); try discriminate; apply tunnelLoop_stranded, Hm.
Qed.

Lemma run_stranded ins : forall n w,
  stranded n w ->
  stranded (fst (run ins n w)) (snd (run ins n w)) /\
  w_sent (snd (run ins n w)) = w_sent w.
Proof.
  induction ins as [|i ins IH]; intros n w H; cbn [run]; [split; [exact H | reflexivity]|].
  unfold tick.
  destruct (loopTick_stranded n (set_w_wifi (t_wifi i)
                                   (set_w_clock (w_clock w + t_elapsed i) w)) H) as [P Q].
  destruct (loopTick n _) as [n1 w1]. cbn [fst snd] in *.
  destruct (IH n1 w1 P) as [P1 Q1]. split; [exact P1|]. now rewrite Q1, Q.
Qed.

End StrandedFacts.

(** X23. A node in ACTIVE or a tunnel state that has lost its session token
    and its socket (a register_ack with MISSING_AUTH_TOKEN followed by a
    drop) stays so: on every run it keeps no token, opens no socket and
    sends no frame; no tick gives it a token back. *)
Theorem lost_session_is_not_recovered (ins : list tick_input) (n : node) (w : world) :
  in_tunnel n -> nonempty (sessionToken_ n) = false -> w_ws w = None ->
  in_tunnel (fst (run ins n w)) /\
  nonempty (sessionToken_ (fst (run ins n w))) = false /\
  w_ws (snd (run ins n w)) = None /\
  w_sent (snd (run ins n w)) = w_sent w.
Proof.
  intros T S W.
  destruct (StrandedFacts.run_stranded ins n w (conj T (conj S W))) as ((A & B & C) & D).
  auto.
Qed.

Lemma lost_session_is_not_recovered_witness :
  in_tunnel (NodeAux.setSessionToken None (fst Samples.active_node)) /\
  w_ws (snd (run [Samples.now_; Samples.later 60000]
               (NodeAux.setSessionToken None (fst Samples.active_node))
               (snd Samples.active_node))) = None.
Proof.
  split; [reflexivity|].
  apply (lost_session_is_not_recovered [Samples.now_; Samples.later 60000]
           (NodeAux.setSessionToken None (fst Samples.active_node))
           (snd Samples.active_node)); reflexivity.
Defined.

(** ** The pins *)

Module ConfigFacts.

Lemma configured_setState c s n w :
  configured c n -> configured c (fst (setState s n w)).
Proof.
  intros H. unfold configured in *.
  destruct (ConnectFacts.setState_keeps s n w) as (_ & _ & K). now rewrite K.
Qed.

Lemma configured_clearPairingCode c n : configured c n -> configured c (clearPairingCode n).
Proof.
  intros H. unfold configured, clearPairingCode in *. repeat break_inner; exact H.
Qed.

Lemma configured_storePairingFromHello c a e n :
  configured c n -> configured c (storePairingFromHello a e n).
Proof.
  intros H. unfold configured, storePairingFromHello in *. repeat break_inner; exact H.
Qed.

Lemma configured_advanceNetBackoff c n : configured c n -> configured c (advanceNetBackoff n).
Proof.
  intros H. unfold configured, advanceNetBackoff in *. repeat break_inner; exact H.
Qed.

Lemma configured_advancePairBackoff c n : configured c n -> configured c (advancePairBackoff n).
Proof.
  intros H. unfold configured, advancePairBackoff in *. repeat break_inner; exact H.
Qed.

Lemma configured_resetNetBackoff c n : configured c n -> configured c (resetNetBackoff n).
Proof.
  intros H. unfold configured, resetNetBackoff in *. repeat break_inner; exact H.
Qed.

Lemma configured_resetPairBackoff c n : configured c n -> configured c (resetPairBackoff n).
Proof.
  intros H. unfold configured, resetPairBackoff in *. repeat break_inner; exact H.
Qed.

Lemma configured_adoptTunnelUrl c b t n : configured c n -> configured c (adoptTunnelUrl b t n).
Proof.
  intros H. unfold configured, adoptTunnelUrl in *. repeat break_inner; exact H.
Qed.

Lemma configured_storeSessionExpiry c e n :
  configured c n -> configured c (storeSessionExpiry e n).
Proof.
  intros H. unfold configured, storeSessionExpiry in *. repeat break_inner; exact H.
Qed.

Lemma configured_state_ c v n : configured c n -> configured c (set_state_ v n).
Proof. intros H. exact H. Qed.

Lemma configured_nodeId_ c v n : configured c n -> configured c (set_nodeId_ v n).
Proof. intros H. exact H. Qed.

Lemma configured_nodeToken_ c v n : configured c n -> configured c (set_nodeToken_ v n).
Proof. intros H. exact H. Qed.

Lemma configured_tunnelUrl_ c v n : configured c n -> configured c (set_tunnelUrl_ v n).
Proof. intros H. exact H. Qed.

Lemma configured_tunnelId_ c v n : configured c n -> configured c (set_tunnelId_ v n).
Proof. intros H. exact H. Qed.

Lemma configured_sessionToken_ c v n : configured c n -> configured c (set_sessionToken_ v n).
Proof. intros H. exact H. Qed.

Lemma configured_sessionExpiresAt_ c v n :
  configured c n -> configured c (set_sessionExpiresAt_ v n).
Proof. intros H. exact H. Qed.

Lemma configured_pairingCode_ c v n : configured c n -> configured c (set_pairingCode_ v n).
Proof. intros H. exact H. Qed.

Lemma configured_pairingExpiresAt_ c v n :
  configured c n -> configured c (set_pairingExpiresAt_ v n).
Proof. intros H. exact H. Qed.

Lemma configured_pairingCodeValid_ c v n :
  configured c n -> configured c (set_pairingCodeValid_ v n).
Proof. intros H. exact H. Qed.

Lemma configured_nextHelloMs_ c v n : configured c n -> configured c (set_nextHelloMs_ v n).
Proof. intros H. exact H. Qed.

Lemma configured_nextPairMs_ c v n : configured c n -> configured c (set_nextPairMs_ v n).
Proof. intros H. exact H. Qed.

Lemma configured_nextApproveMs_ c v n : configured c n -> configured c (set_nextApproveMs_ v n).
Proof. intros H. exact H. Qed.

Lemma configured_nextSessionPollMs_ c v n :
  configured c n -> configured c (set_nextSessionPollMs_ v n).
Proof. intros H. exact H. Qed.

Lemma configured_nextRegisterBySlotMs_ c v n :
  configured c n -> configured c (set_nextRegisterBySlotMs_ v n).
Proof. intros H. exact H. Qed.

Lemma configured_netBackoffMs_ c v n : configured c n -> configured c (set_netBackoffMs_ v n).
Proof. intros H. exact H. Qed.

Lemma configured_pairBackoffMs_ c v n : configured c n -> configured c (set_pairBackoffMs_ v n).
Proof. intros H. exact H. Qed.

Lemma configured_nextTunnelConnectMs_ c v n :
  configured c n -> configured c (set_nextTunnelConnectMs_ v n).
Proof. intros H. exact H. Qed.

Lemma configured_tunnelBackoffMs_ c v n :
  configured c n -> configured c (set_tunnelBackoffMs_ v n).
Proof. intros H. exact H. Qed.

Lemma configured_tunnelBackoffIndex_ c v n :
  configured c n -> configured c (set_tunnelBackoffIndex_ v n).
Proof. intros H. exact H. Qed.

Lemma configured_lastTunnelPingMs_ c v n :
  configured c n -> configured c (set_lastTunnelPingMs_ v n).
Proof. intros H. exact H. Qed.

Lemma configured_tunnelRegistered_ c v n :
  configured c n -> configured c (set_tunnelRegistered_ v n).
Proof. intros H. exact H. Qed.

Lemma configured_approveMissingMacFailed_ c v n :
  configured c n -> configured c (set_approveMissingMacFailed_ v n).
Proof. intros H. exact H. Qed.

Lemma configured_lastHeartbeatMs_ c v n :
  configured c n -> configured c (set_lastHeartbeatMs_ v n).
Proof. intros H. exact H. Qed.

Lemma configured_wifiConnecting_ c v n : configured c n -> configured c (set_wifiConnecting_ v n).
Proof. intros H. exact H. Qed.

Lemma configured_httpBusy_ c v n : configured c n -> configured c (set_httpBusy_ v n).
Proof. intros H. exact H. Qed.

Lemma configured_httpRequestCb_ c v n : configured c n -> configured c (set_httpRequestCb_ v n).
Proof. intros H. exact H. Qed.

Lemma configured_if c (b : bool) (x y : node) :
  configured c x -> configured c y -> configured c (if b then x else y).
Proof. now destruct b. Qed.

Ltac cf_call := fail.

Ltac cf_step :=
  lazymatch goal with
  | H : configured ?c ?n |- configured ?c ?n => exact H
  | |- configured _ (fst (setState _ _ _)) => apply configured_setState
  | |- configured _ (clearPairingCode _) => apply configured_clearPairingCode
  | |- configured _ (storePairingFromHello _ _ _) => apply configured_storePairingFromHello
  | |- configured _ (advanceNetBackoff _) => apply configured_advanceNetBackoff
  | |- configured _ (advancePairBackoff _) => apply configured_advancePairBackoff
  | |- configured _ (resetNetBackoff _) => apply configured_resetNetBackoff
  | |- configured _ (resetPairBackoff _) => apply configured_resetPairBackoff
  | |- configured _ (adoptTunnelUrl _ _ _) => apply configured_adoptTunnelUrl
  | |- configured _ (storeSessionExpiry _ _) => apply configured_storeSessionExpiry
  | |- configured _ (if _ then _ else _) => apply configured_if
  | |- configured _ (set_state_ _ _) => apply configured_state_
  | |- configured _ (set_nodeId_ _ _) => apply configured_nodeId_
  | |- configured _ (set_nodeToken_ _ _) => apply configured_nodeToken_
  | |- configured _ (set_tunnelUrl_ _ _) => apply configured_tunnelUrl_
  | |- configured _ (set_tunnelId_ _ _) => apply configured_tunnelId_
  | |- configured _ (set_sessionToken_ _ _) => apply configured_sessionToken_
  | |- configured _ (set_sessionExpiresAt_ _ _) => apply configured_sessionExpiresAt_
  | |- configured _ (set_pairingCode_ _ _) => apply configured_pairingCode_
  | |- configured _ (set_pairingExpiresAt_ _ _) => apply configured_pairingExpiresAt_
  | |- configured _ (set_pairingCodeValid_ _ _) => apply configured_pairingCodeValid_
  | |- configured _ (set_nextHelloMs_ _ _) => apply configured_nextHelloMs_
  | |- configured _ (set_nextPairMs_ _ _) => apply configured_nextPairMs_
  | |- configured _ (set_nextApproveMs_ _ _) => apply configured_nextApproveMs_
  | |- configured _ (set_nextSessionPollMs_ _ _) => apply configured_nextSessionPollMs_
  | |- configured _ (set_nextRegisterBySlotMs_ _ _) => apply configured_nextRegisterBySlotMs_
  | |- configured _ (set_netBackoffMs_ _ _) => apply configured_netBackoffMs_
  | |- configured _ (set_pairBackoffMs_ _ _) => apply configured_pairBackoffMs_
  | |- configured _ (set_nextTunnelConnectMs_ _ _) => apply configured_nextTunnelConnectMs_
  | |- configured _ (set_tunnelBackoffMs_ _ _) => apply configured_tunnelBackoffMs_
  | |- configured _ (set_tunnelBackoffIndex_ _ _) => apply configured_tunnelBackoffIndex_
  | |- configured _ (set_lastTunnelPingMs_ _ _) => apply configured_lastTunnelPingMs_
  | |- configured _ (set_tunnelRegistered_ _ _) => apply configured_tunnelRegistered_
  | |- configured _ (set_approveMissingMacFailed_ _ _) => apply configured_approveMissingMacFailed_
  | |- configured _ (set_lastHeartbeatMs_ _ _) => apply configured_lastHeartbeatMs_
  | |- configured _ (set_wifiConnecting_ _ _) => apply configured_wifiConnecting_
  | |- configured _ (set_httpBusy_ _ _) => apply configured_httpBusy_
  | |- configured _ (set_httpRequestCb_ _ _) => apply configured_httpRequestCb_
  | |- configured _ (fst _) => cf_call
  end.

Ltac cf_chain := repeat cf_step.

Ltac cf_inner := fail.

Ltac cf_scrutinee c x :=
  first
    [ let H := fresh "H" in
      assert (H : configured c (fst x)) by cf_inner;
      destruct x; cbn [fst] in H
    | let H := fresh "H" in
      assert (H : configured c (fst (snd x))) by cf_inner;
      let p := fresh "p" in destruct x as [? p]; destruct p; cbn [fst snd] in H
    | destruct x ].

Ltac cf_flow :=
  lazymatch goal with
  | |- configured _ (fst (if ?b then _ else _)) => destruct b
  | |- configured _ (fst (_, _)) => cbn [fst]
  | |- configured _ (fst (snd (if ?b then _ else _))) => destruct b
  | |- configured _ (fst (snd (_, _))) => cbn [fst snd]
  | |- configured ?c (fst (snd (match ?x with _ => _ end))) => cf_scrutinee c x
  | |- configured ?c (fst (match ?x with _ => _ end)) => cf_scrutinee c x
  end.

Ltac cf_inner ::= repeat cf_flow; cf_chain.

Ltac cf_go := cbv zeta; repeat cf_flow; cf_chain.

Lemma handleHelloResponse_configured c status body json n w :
  configured c n -> configured c (fst (handleHelloResponse status body json n w)).
Proof. intros H. unfold handleHelloResponse. cf_go. Qed.

Ltac cf_call ::=
  first [ apply handleHelloResponse_configured ].

Lemma tryHello_configured c n w :
  configured c n -> configured c (fst (tryHello n w)).
Proof. intros H. unfold tryHello. cf_go. Qed.

Ltac cf_call ::=
  first [ apply handleHelloResponse_configured
        | apply tryHello_configured ].

Lemma tryPairIfNeeded_configured c n w :
  configured c n -> configured c (fst (tryPairIfNeeded n w)).
Proof. intros H. unfold tryPairIfNeeded. cf_go. Qed.

Ltac cf_call ::=
  first [ apply handleHelloResponse_configured
        | apply tryHello_configured
        | apply tryPairIfNeeded_configured ].

Lemma tryApprove_configured c n w :
  configured c n -> configured c (fst (tryApprove n w)).
Proof. intros H. unfold tryApprove. cf_go. Qed.

Ltac cf_call ::=
  first [ apply handleHelloResponse_configured
        | apply tryHello_configured
        | apply tryPairIfNeeded_configured
        | apply tryApprove_configured ].

Lemma trySessionRefresh_configured c n w :
  configured c n -> configured c (fst (snd (trySessionRefresh n w))).
Proof. intros H. unfold trySessionRefresh. cf_go. Qed.

Ltac cf_call ::=
  first [ apply handleHelloResponse_configured
        | apply tryHello_configured
        | apply tryPairIfNeeded_configured
        | apply tryApprove_configured
        | apply trySessionRefresh_configured ].

Lemma trySessionPoll_configured c n w :
  configured c n -> configured c (fst (trySessionPoll n w)).
Proof. intros H. unfold trySessionPoll. cf_go. Qed.

Ltac cf_call ::=
  first [ apply handleHelloResponse_configured
        | apply tryHello_configured
        | apply tryPairIfNeeded_configured
        | apply tryApprove_configured
        | apply trySessionRefresh_configured
        | apply trySessionPoll_configured ].

Lemma tryRegisterBySlot_configured c n w :
  configured c n -> configured c (fst (tryRegisterBySlot n w)).
Proof. intros H. unfold tryRegisterBySlot. cf_go. Qed.

Ltac cf_call ::=
  first [ apply handleHelloResponse_configured
        | apply tryHello_configured
        | apply tryPairIfNeeded_configured
        | apply tryApprove_configured
        | apply trySessionRefresh_configured
        | apply trySessionPoll_configured
        | apply tryRegisterBySlot_configured ].

Lemma tunnelHandleProxyRequest_configured c p n w :
  configured c n -> configured c (fst (tunnelHandleProxyRequest p n w)).
Proof. intros H. unfold tunnelHandleProxyRequest. cf_go. Qed.

Ltac cf_call ::=
  first [ apply handleHelloResponse_configured
        | apply tryHello_configured
        | apply tryPairIfNeeded_configured
        | apply tryApprove_configured
        | apply trySessionRefresh_configured
        | apply trySessionPoll_configured
        | apply tryRegisterBySlot_configured
        | apply tunnelHandleProxyRequest_configured ].

Lemma tunnelHandleMessage_configured c p n w :
  configured c n -> configured c (fst (tunnelHandleMessage p n w)).
Proof. intros H. unfold tunnelHandleMessage. cf_go. Qed.

Ltac cf_call ::=
  first [ apply handleHelloResponse_configured
        | apply tryHello_configured
        | apply tryPairIfNeeded_configured
        | apply tryApprove_configured
        | apply trySessionRefresh_configured
        | apply trySessionPoll_configured
        | apply tryRegisterBySlot_configured
        | apply tunnelHandleProxyRequest_configured
        | apply tunnelHandleMessage_configured ].

Lemma tunnelSendRegister_configured c n w :
  configured c n -> configured c (fst (tunnelSendRegister n w)).
Proof. intros H. unfold tunnelSendRegister. cf_go. Qed.

Ltac cf_call ::=
  first [ apply handleHelloResponse_configured
        | apply tryHello_configured
        | apply tryPairIfNeeded_configured
        | apply tryApprove_configured
        | apply trySessionRefresh_configured
        | apply trySessionPoll_configured
        | apply tryRegisterBySlot_configured
        | apply tunnelHandleProxyRequest_configured
        | apply tunnelHandleMessage_configured
        | apply tunnelSendRegister_configured ].

Lemma wsEvent_configured c e n w :
  configured c n -> configured c (fst (wsEvent e n w)).
Proof. intros H. unfold wsEvent. cf_go. Qed.

Ltac cf_call ::=
  first [ apply handleHelloResponse_configured
        | apply tryHello_configured
        | apply tryPairIfNeeded_configured
        | apply tryApprove_configured
        | apply trySessionRefresh_configured
        | apply trySessionPoll_configured
        | apply tryRegisterBySlot_configured
        | apply tunnelHandleProxyRequest_configured
        | apply tunnelHandleMessage_configured
        | apply tunnelSendRegister_configured
        | apply wsEvent_configured ].

Lemma tunnelDisconnectCleanup_configured c n w :
  configured c n -> configured c (fst (tunnelDisconnectCleanup n w)).
Proof. intros H. unfold tunnelDisconnectCleanup. cf_go. Qed.

Ltac cf_call ::=
  first [ apply handleHelloResponse_configured
        | apply tryHello_configured
        | apply tryPairIfNeeded_configured
        | apply tryApprove_configured
        | apply trySessionRefresh_configured
        | apply trySessionPoll_configured
        | apply tryRegisterBySlot_configured
        | apply tunnelHandleProxyRequest_configured
        | apply tunnelHandleMessage_configured
        | apply tunnelSendRegister_configured
        | apply wsEvent_configured
        | apply tunnelDisconnectCleanup_configured ].

Lemma tunnelConnect_configured c n w :
  configured c n -> configured c (fst (tunnelConnect n w)).
Proof. intros H. unfold tunnelConnect. cf_go. Qed.

Ltac cf_call ::=
  first [ apply handleHelloResponse_configured
        | apply tryHello_configured
        | apply tryPairIfNeeded_configured
        | apply tryApprove_configured
        | apply trySessionRefresh_configured
        | apply trySessionPoll_configured
        | apply tryRegisterBySlot_configured
        | apply tunnelHandleProxyRequest_configured
        | apply tunnelHandleMessage_configured
        | apply tunnelSendRegister_configured
        | apply wsEvent_configured
        | apply tunnelDisconnectCleanup_configured
        | apply tunnelConnect_configured ].


End ConfigFacts.

Module PinFacts.
Import ConfigFacts.

Lemma setState_pins s n w : w_pins (snd (setState s n w)) = w_pins w.
Proof. unfold setState. now destruct (State_eqb _ _). Qed.

Lemma random_pins w : w_pins (snd (random w)) = w_pins w.
Proof. unfold random. destruct (w_rng w); reflexivity. Qed.

Lemma post_pins c ep path body max w :
  w_pins (snd (postJsonUnified c ep path body max w)) = w_pins w.
Proof.
  destruct (postJsonUnified c ep path body max w) as [r w'] eqn:E.
  apply post_cases in E.
  destruct E as [[_ ->] | [(full & _ & _ & ->) | (full & rep & rest & _ & -> & _)]];
    reflexivity.
Qed.

Lemma tunnelSendText_pins f w : w_pins (snd (tunnelSendText f w)) = w_pins w.
Proof. unfold tunnelSendText. now destruct (ws_connected w). Qed.

Create Rewrite HintDb pins.
#[export] Hint Rewrite setState_pins random_pins post_pins tunnelSendText_pins : pins.

Ltac same_pins :=
  repeat (break_inner; cbn [fst snd] in * );
  repeat match goal with
  | H : ?f = (_, ?w') |- _ =>
      let P := fresh "P" in
      assert (P : w_pins w' = w_pins (snd f)) by (rewrite H; reflexivity);
      clear H; autorewrite with pins in P; cbn in P
  end;
  autorewrite with pins; cbn; congruence.

Lemma handleHelloResponse_pins status body json n w :
  w_pins (snd (handleHelloResponse status body json n w)) = w_pins w.
Proof. unfold handleHelloResponse. same_pins. Qed.
#[export] Hint Rewrite handleHelloResponse_pins : pins.

Lemma tryHello_pins n w : w_pins (snd (tryHello n w)) = w_pins w.
Proof. unfold tryHello. same_pins. Qed.

Lemma tryPairIfNeeded_pins n w : w_pins (snd (tryPairIfNeeded n w)) = w_pins w.
Proof. unfold tryPairIfNeeded, postDevicePair. same_pins. Qed.

Lemma tryApprove_pins n w : w_pins (snd (tryApprove n w)) = w_pins w.
Proof. unfold tryApprove. same_pins. Qed.

Lemma trySessionRefresh_pins n w : w_pins (snd (snd (trySessionRefresh n w))) = w_pins w.
Proof. unfold trySessionRefresh. same_pins. Qed.

Lemma trySessionPoll_pins n w : w_pins (snd (trySessionPoll n w)) = w_pins w.
Proof. unfold trySessionPoll. same_pins. Qed.

Lemma tryRegisterBySlot_pins n w : w_pins (snd (tryRegisterBySlot n w)) = w_pins w.
Proof. unfold tryRegisterBySlot. same_pins. Qed.

Lemma tunnelSendProxyResponse_pins r w : w_pins (tunnelSendProxyResponse r w) = w_pins w.
Proof. unfold tunnelSendProxyResponse. same_pins. Qed.
#[export] Hint Rewrite tunnelSendProxyResponse_pins : pins.

Lemma writer_end_pins r w : w_pins (snd (writer_end r w)) = w_pins w.
Proof. unfold writer_end. same_pins. Qed.
#[export] Hint Rewrite writer_end_pins : pins.

Lemma writer_step_pins c r w : w_pins (snd (writer_step c r w)) = w_pins w.
Proof. unfold writer_step. same_pins. Qed.
#[export] Hint Rewrite writer_step_pins : pins.

Lemma writer_run_pins cs : forall r w, w_pins (snd (writer_run cs r w)) = w_pins w.
Proof.
  induction cs as [|c cs IH]; intros r w; [reflexivity|].
  cbn [writer_run]. destruct (writer_step c r w) as [r1 w1] eqn:E.
  rewrite IH. replace w1 with (snd (writer_step c r w)) by now rewrite E.
  apply writer_step_pins.
Qed.
#[export] Hint Rewrite writer_run_pins : pins.

Lemma tunnelHandleProxyRequest_pins p n w :
  w_pins (snd (tunnelHandleProxyRequest p n w)) = w_pins w.
Proof. unfold tunnelHandleProxyRequest. same_pins. Qed.
#[export] Hint Rewrite tunnelHandleProxyRequest_pins : pins.

Lemma tunnelSendRegister_pins n w : w_pins (snd (tunnelSendRegister n w)) = w_pins w.
Proof. unfold tunnelSendRegister. same_pins. Qed.

Lemma tunnelDisconnectCleanup_pins n w :
  w_pins (snd (tunnelDisconnectCleanup n w)) = w_pins w.
Proof. unfold tunnelDisconnectCleanup. same_pins. Qed.

Lemma tunnelConnect_pins n w : w_pins (snd (tunnelConnect n w)) = w_pins w.
Proof. unfold tunnelConnect. same_pins. Qed.

Lemma led_same c w w' : w_pins w' = w_pins w -> led_writes_only c w w'.
Proof. intros H. exists []. rewrite app_nil_r. split; [exact H | constructor]. Qed.

Lemma led_trans c w1 w2 w3 :
  led_writes_only c w1 w2 -> led_writes_only c w2 w3 -> led_writes_only c w1 w3.
Proof.
  intros (l1 & E1 & F1) (l2 & E2 & F2). exists (l1 ++ l2)%list.
  split; [now rewrite E2, E1, app_assoc | now apply Forall_app].
Qed.

Lemma led_one c w pin high :
  pin = ledPin c -> (0 <=? ledPin c) = true ->
  led_writes_only c w (digitalWrite pin high w).
Proof.
  intros -> H. exists [(ledPin c, high)]. split; [reflexivity|].
  constructor; [|constructor]. split; [reflexivity | now apply Z.leb_le].
Qed.

(** The last conjunct of a true condition. *)
Ltac pin_configured :=
  match goal with
  | H : _ && (0 <=? ledPin ?c) = true |- (0 <=? ledPin ?c) = true =>
      apply andb_true_iff in H; exact (proj2 H)
  end.

Lemma tunnelHandleMessage_led p n w :
  led_writes_only (cfg_ n) w (snd (tunnelHandleMessage p n w)).
Proof.
  unfold tunnelHandleMessage.
  repeat (break_inner; cbn [fst snd] in * );
    repeat match goal with
    | H : setState ?s ?m ?v = (_, ?w') |- _ =>
        let P := fresh "P" in
        assert (P : w_pins w' = w_pins v)
          by (rewrite <- (setState_pins s m v), H; reflexivity);
        clear H
    | H : (_, _, _) = (_, _, _) |- _ => inversion H; subst; clear H
    end;
    first
      [ apply led_same; autorewrite with pins; cbn; congruence
      | match goal with
        | |- led_writes_only _ _ ?W =>
            match W with
            | context [digitalWrite ?pin ?h w] =>
                apply (led_trans _ _ (digitalWrite pin h w));
                [ apply led_one; [reflexivity | pin_configured]
                | apply led_same; autorewrite with pins; reflexivity ]
            end
        end ].
Qed.

Lemma wsEvent_led e n w : led_writes_only (cfg_ n) w (snd (wsEvent e n w)).
Proof.
  unfold wsEvent. destruct (w_ws w); [|now apply led_same].
  destruct e; cbn [snd]; try (apply led_same; reflexivity).
  - apply led_same. now rewrite tunnelSendRegister_pins.
  - destruct (nonempty _); [apply tunnelHandleMessage_led | now apply led_same].
Qed.

Lemma deliver_led es : forall n w, led_writes_only (cfg_ n) w (snd (deliver es n w)).
Proof.
  induction es as [|e es IH]; intros n w; cbn [deliver]; [now apply led_same|].
  pose proof (wsEvent_led e n w) as L. pose proof (wsEvent_configured (cfg_ n) e n w eq_refl) as C.
  destruct (wsEvent e n w) as [n1 w1]. cbn [fst snd] in *.
  apply (led_trans _ _ w1); [exact L|]. unfold configured in C. rewrite <- C. apply IH.
Qed.

Lemma ws_loop_led n w : led_writes_only (cfg_ n) w (snd (ws_loop n w)).
Proof.
  unfold ws_loop. destruct (w_ws_events w); [now apply led_same|].
  apply (led_trans _ _ (set_w_ws_events l0 w)); [now apply led_same | apply deliver_led].
Qed.

Lemma tunnelLoop_led n w : led_writes_only (cfg_ n) w (snd (tunnelLoop n w)).
Proof.
  unfold tunnelLoop. cbv zeta.
  destruct (w_disconnect_pending w).
  { destruct (w_ws (set_w_disconnect_pending false w)); [|now apply led_same].
    apply led_same. now rewrite tunnelDisconnectCleanup_pins. }
  destruct (negb (enableTunnel (cfg_ n))); [now apply led_same|].
  destruct (negb (nonempty (tunnelUrl_ n))); [now apply led_same|].
  destruct (_ && _); [now apply led_same|].
  destruct (w_ws w).
  - pose proof (ws_loop_led n w) as L.
    destruct (ws_loop n w) as [n1 w1]. cbn [snd] in L.
    destruct (w_ws w1); [|exact L].
    destruct (_ && _ && _); [|exact L].
    destruct ((0 <? _) && (_ <? 64)); [|exact L].
    pose proof (tunnelSendText_pins (JObj [("type", JStr "ping")]) w1) as T.
    destruct (tunnelSendText _ w1) as [ok w2]. cbn [snd] in T.
    destruct ok; cbn [snd]; (apply (led_trans _ _ w1); [exact L | now apply led_same]).
  - destruct (millis w <? nextTunnelConnectMs_ n); [now apply led_same|].
    pose proof (setState_pins TUNNEL_CONNECTING n w) as P1.
    destruct (setState TUNNEL_CONNECTING n w) as [n1 w1]. cbn [snd] in P1.
    pose proof (tunnelConnect_pins n1 w1) as P2.
    destruct (tunnelConnect n1 w1) as [n2 w2]. cbn [snd] in *.
    apply led_same. congruence.
Qed.

Lemma tunnelLoop_configured c n w :
  configured c n -> configured c (fst (tunnelLoop n w)).
Proof.
  intros H. unfold tunnelLoop. cbv zeta.
  destruct (w_disconnect_pending w).
  { destruct (w_ws _); [now apply tunnelDisconnectCleanup_configured | exact H]. }
  destruct (negb (enableTunnel (cfg_ n))); [exact H|].
  destruct (negb (nonempty (tunnelUrl_ n))); [exact H|].
  destruct (_ && _); [exact H|].
  destruct (w_ws w).
  - assert (L : configured c (fst (ws_loop n w))).
    { unfold ws_loop. destruct (w_ws_events w) as [|es later]; [exact H|].
      generalize (set_w_ws_events later w). revert n H.
      induction es as [|e es IH]; intros n H v; cbn [deliver]; [exact H|].
      pose proof (wsEvent_configured c e n v H) as C.
      destruct (wsEvent e n v) as [n1 w1]. now apply IH. }
    destruct (ws_loop n w) as [n1 w1]. cbn [fst] in L.
    destruct (w_ws w1); [|exact L].
    destruct (_ && _ && _); [|exact L].
    destruct ((0 <? _) && (_ <? 64)); [|exact L].
    destruct (tunnelSendText _ w1) as [ok w2]. destruct ok; exact L.
  - destruct (millis w <? nextTunnelConnectMs_ n); [exact H|].
    pose proof (configured_setState c TUNNEL_CONNECTING n w H) as C1.
    destruct (setState TUNNEL_CONNECTING n w) as [n1 w1]. cbn [fst] in C1.
    pose proof (tunnelConnect_configured c n1 w1 C1) as C2.
    destruct (tunnelConnect n1 w1) as [n2 w2]. exact C2.
Qed.

Lemma runStateMachine_led c n w :
  configured c n ->
  configured c (fst (runStateMachine n w)) /\
  led_writes_only c w (snd (runStateMachine n w)).
Proof.
  intros H. unfold runStateMachine. cbv zeta.
  destruct (negb (w_wifi w)); [split; [exact H | now apply led_same]|].
  cbn [state_ set_wifiConnecting_].
  set (m := set_wifiConnecting_ false n).
  assert (Hm : configured c m) by exact H.
  assert (Em : cfg_ m = c) by exact H.
  destruct (state_ n).
  - (* BOOT *)
    destruct (nonempty _).
    + pose proof (trySessionRefresh_configured c m w Hm) as C1.
      pose proof (trySessionRefresh_pins m w) as P1.
      destruct (trySessionRefresh m w) as [ok [n1 w1]]. cbn [fst snd] in *.
      destruct ok; [split; [exact C1 | now apply led_same]|].
      pose proof (configured_setState c HELLO n1 w1 C1) as C2.
      pose proof (setState_pins HELLO n1 w1) as P2.
      destruct (setState HELLO n1 w1). cbn [fst snd] in *.
      split; [exact C2 | apply led_same; cbn [snd]; congruence].
    + pose proof (configured_setState c HELLO m w Hm) as C2.
      pose proof (setState_pins HELLO m w) as P2.
      destruct (setState HELLO m w). cbn [fst snd] in *.
      split; [exact C2 | now apply led_same].
  - split; [now apply tryHello_configured | apply led_same, tryHello_pins].
  - split; [now apply tryPairIfNeeded_configured | apply led_same, tryPairIfNeeded_pins].
  - assert (Q1 : configured c (fst (if preferRegisterBySlot (cfg_ m)
                                       && is_set (loginToken (cfg_ m))
                                    then tryRegisterBySlot m w else (m, w))) /\
                 w_pins (snd (if preferRegisterBySlot (cfg_ m)
                                 && is_set (loginToken (cfg_ m))
                              then tryRegisterBySlot m w else (m, w))) = w_pins w).
    { destruct (_ && _);
        [split; [now apply tryRegisterBySlot_configured | apply tryRegisterBySlot_pins]
        | split; [exact Hm | reflexivity]]. }
    destruct (if preferRegisterBySlot (cfg_ m) && is_set (loginToken (cfg_ m))
              then tryRegisterBySlot m w else (m, w)) as [n1 w1]. cbn [fst snd] in Q1.
    destruct Q1 as [C1 P1].
    assert (Q2 : configured c (fst (if enableSelfApprove (cfg_ n1)
                                       && is_set (approveEndpointPath (cfg_ n1))
                                       && negb (nonempty (sessionToken_ n1))
                                       && negb (approveMissingMacFailed_ n1)
                                    then tryApprove n1 w1 else (n1, w1))) /\
                 w_pins (snd (if enableSelfApprove (cfg_ n1)
                                 && is_set (approveEndpointPath (cfg_ n1))
                                 && negb (nonempty (sessionToken_ n1))
                                 && negb (approveMissingMacFailed_ n1)
                              then tryApprove n1 w1 else (n1, w1))) = w_pins w1).
    { destruct (_ && _ && _ && _);
        [split; [now apply tryApprove_configured | apply tryApprove_pins]
        | split; [exact C1 | reflexivity]]. }
    destruct (if enableSelfApprove (cfg_ n1) && _ && _ && _ then _ else _) as [n2 w2].
    cbn [fst snd] in Q2. destruct Q2 as [C2 P2].
    destruct (negb _).
    + split; [now apply trySessionPoll_configured|].
      apply led_same. rewrite trySessionPoll_pins. congruence.
    + split; [exact C2 | apply led_same; cbn [snd]; congruence].
  - pose proof (configured_setState c ACTIVE m w Hm) as C2.
    pose proof (setState_pins ACTIVE m w) as P2.
    destruct (setState ACTIVE m w). cbn [fst snd] in *.
    split; [exact C2 | now apply led_same].
  - split; [now apply tunnelLoop_configured | rewrite <- Em; apply tunnelLoop_led].
  - split; [now apply tunnelLoop_configured | rewrite <- Em; apply tunnelLoop_led].
  - split; [now apply tunnelLoop_configured | rewrite <- Em; apply tunnelLoop_led].
  - split; [now apply configured_setState | apply led_same, setState_pins].
Qed.

Lemma run_led c ins : forall n w,
  configured c n ->
  configured c (fst (run ins n w)) /\ led_writes_only c w (snd (run ins n w)).
Proof.
  induction ins as [|i ins IH]; intros n w H; cbn [run];
    [split; [exact H | now apply led_same]|].
  unfold tick, loopTick.
  destruct (runStateMachine_led c n (set_w_wifi (t_wifi i)
                                      (set_w_clock (w_clock w + t_elapsed i) w)) H) as [C L].
  destruct (runStateMachine n _) as [n1 w1]. cbn [fst snd] in *.
  destruct (IH n1 w1 C) as [C1 L1]. split; [exact C1|].
  apply (led_trans _ _ w1); [|exact L1].
  destruct L as (l & E & F). exists l. split; [exact E | exact F].
Qed.

End PinFacts.

(** X24. The node never changes its configuration, and the only pin it ever
    writes is the LED pin of that configuration, and none when the
    configuration names no LED pin (a negative number): whatever the Hub
    and the tunnel send. *)
Theorem only_led_pin_driven (c : Config) (ins : list tick_input) (w : world) :
  cfg_ (fst (run ins (new_node c) w)) = c /\
  exists l, w_pins (snd (run ins (new_node c) w)) = (w_pins w ++ l)%list /\
            Forall (fun x => fst x = ledPin c /\ 0 <= ledPin c) l.
Proof. apply (PinFacts.run_led c ins (new_node c) w). reflexivity. Qed.

(** ** The state diagram *)

Module DiagramFacts.

Lemma state_in_setState L s n w : In s L -> state_in L (fst (setState s n w)).
Proof. intros H. unfold state_in. now rewrite (proj1 (setState_spec s n w)). Qed.

Lemma state_in_clearPairingCode L n :
  state_in L n -> state_in L (clearPairingCode n).
Proof.
  intros H. unfold state_in, clearPairingCode in *. repeat break_inner; exact H.
Qed.

Lemma state_in_storePairingFromHello L a e n :
  state_in L n -> state_in L (storePairingFromHello a e n).
Proof.
  intros H. unfold state_in, storePairingFromHello in *. repeat break_inner; exact H.
Qed.

Lemma state_in_advanceNetBackoff L n :
  state_in L n -> state_in L (advanceNetBackoff n).
Proof.
  intros H. unfold state_in, advanceNetBackoff in *. repeat break_inner; exact H.
Qed.

Lemma state_in_advancePairBackoff L n :
  state_in L n -> state_in L (advancePairBackoff n).
Proof.
  intros H. unfold state_in, advancePairBackoff in *. repeat break_inner; exact H.
Qed.

Lemma state_in_resetNetBackoff L n :
  state_in L n -> state_in L (resetNetBackoff n).
Proof.
  intros H. unfold state_in, resetNetBackoff in *. repeat break_inner; exact H.
Qed.

Lemma state_in_resetPairBackoff L n :
  state_in L n -> state_in L (resetPairBackoff n).
Proof.
  intros H. unfold state_in, resetPairBackoff in *. repeat break_inner; exact H.
Qed.

Lemma state_in_adoptTunnelUrl L b t n :
  state_in L n -> state_in L (adoptTunnelUrl b t n).
Proof.
  intros H. unfold state_in, adoptTunnelUrl in *. repeat break_inner; exact H.
Qed.

Lemma state_in_storeSessionExpiry L e n :
  state_in L n -> state_in L (storeSessionExpiry e n).
Proof.
  intros H. unfold state_in, storeSessionExpiry in *. repeat break_inner; exact H.
Qed.

Lemma state_in_cfg_ L v n : state_in L n -> state_in L (set_cfg_ v n).
Proof. intros H. exact H. Qed.

Lemma state_in_nodeId_ L v n : state_in L n -> state_in L (set_nodeId_ v n).
Proof. intros H. exact H. Qed.

Lemma state_in_nodeToken_ L v n : state_in L n -> state_in L (set_nodeToken_ v n).
Proof. intros H. exact H. Qed.

Lemma state_in_tunnelUrl_ L v n : state_in L n -> state_in L (set_tunnelUrl_ v n).
Proof. intros H. exact H. Qed.

Lemma state_in_tunnelId_ L v n : state_in L n -> state_in L (set_tunnelId_ v n).
Proof. intros H. exact H. Qed.

Lemma state_in_sessionToken_ L v n : state_in L n -> state_in L (set_sessionToken_ v n).
Proof. intros H. exact H. Qed.

Lemma state_in_sessionExpiresAt_ L v n : state_in L n -> state_in L (set_sessionExpiresAt_ v n).
Proof. intros H. exact H. Qed.

Lemma state_in_pairingCode_ L v n : state_in L n -> state_in L (set_pairingCode_ v n).
Proof. intros H. exact H. Qed.

Lemma state_in_pairingExpiresAt_ L v n : state_in L n -> state_in L (set_pairingExpiresAt_ v n).
Proof. intros H. exact H. Qed.

Lemma state_in_pairingCodeValid_ L v n : state_in L n -> state_in L (set_pairingCodeValid_ v n).
Proof. intros H. exact H. Qed.

Lemma state_in_nextHelloMs_ L v n : state_in L n -> state_in L (set_nextHelloMs_ v n).
Proof. intros H. exact H. Qed.

Lemma state_in_nextPairMs_ L v n : state_in L n -> state_in L (set_nextPairMs_ v n).
Proof. intros H. exact H. Qed.

Lemma state_in_nextApproveMs_ L v n : state_in L n -> state_in L (set_nextApproveMs_ v n).
Proof. intros H. exact H. Qed.

Lemma state_in_nextSessionPollMs_ L v n : state_in L n -> state_in L (set_nextSessionPollMs_ v n).
Proof. intros H. exact H. Qed.

Lemma state_in_nextRegisterBySlotMs_ L v n :
  state_in L n -> state_in L (set_nextRegisterBySlotMs_ v n).
Proof. intros H. exact H. Qed.

Lemma state_in_netBackoffMs_ L v n : state_in L n -> state_in L (set_netBackoffMs_ v n).
Proof. intros H. exact H. Qed.

Lemma state_in_pairBackoffMs_ L v n : state_in L n -> state_in L (set_pairBackoffMs_ v n).
Proof. intros H. exact H. Qed.

Lemma state_in_nextTunnelConnectMs_ L v n :
  state_in L n -> state_in L (set_nextTunnelConnectMs_ v n).
Proof. intros H. exact H. Qed.

Lemma state_in_tunnelBackoffMs_ L v n : state_in L n -> state_in L (set_tunnelBackoffMs_ v n).
Proof. intros H. exact H. Qed.

Lemma state_in_tunnelBackoffIndex_ L v n :
  state_in L n -> state_in L (set_tunnelBackoffIndex_ v n).
Proof. intros H. exact H. Qed.

Lemma state_in_lastTunnelPingMs_ L v n : state_in L n -> state_in L (set_lastTunnelPingMs_ v n).
Proof. intros H. exact H. Qed.

Lemma state_in_tunnelRegistered_ L v n : state_in L n -> state_in L (set_tunnelRegistered_ v n).
Proof. intros H. exact H. Qed.

Lemma state_in_approveMissingMacFailed_ L v n :
  state_in L n -> state_in L (set_approveMissingMacFailed_ v n).
Proof. intros H. exact H. Qed.

Lemma state_in_lastHeartbeatMs_ L v n : state_in L n -> state_in L (set_lastHeartbeatMs_ v n).
Proof. intros H. exact H. Qed.

Lemma state_in_wifiConnecting_ L v n : state_in L n -> state_in L (set_wifiConnecting_ v n).
Proof. intros H. exact H. Qed.

Lemma state_in_httpBusy_ L v n : state_in L n -> state_in L (set_httpBusy_ v n).
Proof. intros H. exact H. Qed.

Lemma state_in_httpRequestCb_ L v n : state_in L n -> state_in L (set_httpRequestCb_ v n).
Proof. intros H. exact H. Qed.

Lemma state_in_if L (b : bool) (x y : node) :
  state_in L x -> state_in L y -> state_in L (if b then x else y).
Proof. now destruct b. Qed.

Ltac sd_call := fail.

Ltac sd_step :=
  lazymatch goal with
  | H : state_in ?L ?n |- state_in ?L ?n => exact H
  | |- state_in _ (fst (setState _ _ _)) => apply state_in_setState; assumption
  | |- state_in _ (clearPairingCode _) => apply state_in_clearPairingCode
  | |- state_in _ (storePairingFromHello _ _ _) => apply state_in_storePairingFromHello
  | |- state_in _ (advanceNetBackoff _) => apply state_in_advanceNetBackoff
  | |- state_in _ (advancePairBackoff _) => apply state_in_advancePairBackoff
  | |- state_in _ (resetNetBackoff _) => apply state_in_resetNetBackoff
  | |- state_in _ (resetPairBackoff _) => apply state_in_resetPairBackoff
  | |- state_in _ (adoptTunnelUrl _ _ _) => apply state_in_adoptTunnelUrl
  | |- state_in _ (storeSessionExpiry _ _) => apply state_in_storeSessionExpiry
  | |- state_in _ (if _ then _ else _) => apply state_in_if
  | |- state_in _ (set_cfg_ _ _) => apply state_in_cfg_
  | |- state_in _ (set_nodeId_ _ _) => apply state_in_nodeId_
  | |- state_in _ (set_nodeToken_ _ _) => apply state_in_nodeToken_
  | |- state_in _ (set_tunnelUrl_ _ _) => apply state_in_tunnelUrl_
  | |- state_in _ (set_tunnelId_ _ _) => apply state_in_tunnelId_
  | |- state_in _ (set_sessionToken_ _ _) => apply state_in_sessionToken_
  | |- state_in _ (set_sessionExpiresAt_ _ _) => apply state_in_sessionExpiresAt_
  | |- state_in _ (set_pairingCode_ _ _) => apply state_in_pairingCode_
  | |- state_in _ (set_pairingExpiresAt_ _ _) => apply state_in_pairingExpiresAt_
  | |- state_in _ (set_pairingCodeValid_ _ _) => apply state_in_pairingCodeValid_
  | |- state_in _ (set_nextHelloMs_ _ _) => apply state_in_nextHelloMs_
  | |- state_in _ (set_nextPairMs_ _ _) => apply state_in_nextPairMs_
  | |- state_in _ (set_nextApproveMs_ _ _) => apply state_in_nextApproveMs_
  | |- state_in _ (set_nextSessionPollMs_ _ _) => apply state_in_nextSessionPollMs_
  | |- state_in _ (set_nextRegisterBySlotMs_ _ _) => apply state_in_nextRegisterBySlotMs_
  | |- state_in _ (set_netBackoffMs_ _ _) => apply state_in_netBackoffMs_
  | |- state_in _ (set_pairBackoffMs_ _ _) => apply state_in_pairBackoffMs_
  | |- state_in _ (set_nextTunnelConnectMs_ _ _) => apply state_in_nextTunnelConnectMs_
  | |- state_in _ (set_tunnelBackoffMs_ _ _) => apply state_in_tunnelBackoffMs_
  | |- state_in _ (set_tunnelBackoffIndex_ _ _) => apply state_in_tunnelBackoffIndex_
  | |- state_in _ (set_lastTunnelPingMs_ _ _) => apply state_in_lastTunnelPingMs_
  | |- state_in _ (set_tunnelRegistered_ _ _) => apply state_in_tunnelRegistered_
  | |- state_in _ (set_approveMissingMacFailed_ _ _) => apply state_in_approveMissingMacFailed_
  | |- state_in _ (set_lastHeartbeatMs_ _ _) => apply state_in_lastHeartbeatMs_
  | |- state_in _ (set_wifiConnecting_ _ _) => apply state_in_wifiConnecting_
  | |- state_in _ (set_httpBusy_ _ _) => apply state_in_httpBusy_
  | |- state_in _ (set_httpRequestCb_ _ _) => apply state_in_httpRequestCb_
  | |- state_in _ (fst _) => sd_call
  end.

Ltac sd_chain := repeat sd_step.

Ltac sd_inner := fail.

Ltac sd_scrutinee L x :=
  first
    [ let H := fresh "H" in
      assert (H : state_in L (fst x)) by sd_inner;
      destruct x; cbn [fst] in H
    | let H := fresh "H" in
      assert (H : state_in L (fst (snd x))) by sd_inner;
      let p := fresh "p" in destruct x as [? p]; destruct p; cbn [fst snd] in H
    | destruct x ].

Ltac sd_flow :=
  lazymatch goal with
  | |- state_in _ (fst (if ?b then _ else _)) => destruct b
  | |- state_in _ (fst (_, _)) => cbn [fst]
  | |- state_in _ (fst (snd (if ?b then _ else _))) => destruct b
  | |- state_in _ (fst (snd (_, _))) => cbn [fst snd]
  | |- state_in ?L (fst (snd (match ?x with _ => _ end))) => sd_scrutinee L x
  | |- state_in ?L (fst (match ?x with _ => _ end)) => sd_scrutinee L x
  end.

Ltac sd_inner ::= repeat sd_flow; sd_chain.

Ltac sd_go := cbv zeta; repeat sd_flow; sd_chain.

Lemma handleHelloResponse_states L status body json n w :
  In HELLO L -> In PAIR_SUBMIT L -> In PENDING_POLL L -> In ERROR L ->
  state_in L n -> state_in L (fst (handleHelloResponse status body json n w)).
Proof. intros HHELLO HPAIR_SUBMIT HPENDING_POLL HERROR H. unfold handleHelloResponse. sd_go. Qed.

Ltac sd_call ::= first [apply handleHelloResponse_states; assumption].

Lemma tryHello_states L n w :
  In HELLO L -> In PAIR_SUBMIT L -> In PENDING_POLL L -> In ERROR L ->
  state_in L n -> state_in L (fst (tryHello n w)).
Proof. intros HHELLO HPAIR_SUBMIT HPENDING_POLL HERROR H. unfold tryHello. sd_go. Qed.

Lemma tryPairIfNeeded_states L n w :
  In HELLO L -> In ACTIVE L ->
  state_in L n -> state_in L (fst (tryPairIfNeeded n w)).
Proof. intros HHELLO HACTIVE H. unfold tryPairIfNeeded. sd_go. Qed.

Lemma tryApprove_states L n w :
  In HELLO L -> In ACTIVE L ->
  state_in L n -> state_in L (fst (tryApprove n w)).
Proof. intros HHELLO HACTIVE H. unfold tryApprove. sd_go. Qed.

Lemma trySessionRefresh_states L n w :
  In ACTIVE L ->
  state_in L n -> state_in L (fst (snd (trySessionRefresh n w))).
Proof. intros HACTIVE H. unfold trySessionRefresh. sd_go. Qed.

Lemma trySessionPoll_states L n w :
  In HELLO L -> In ACTIVE L -> In ERROR L ->
  state_in L n -> state_in L (fst (trySessionPoll n w)).
Proof. intros HHELLO HACTIVE HERROR H. unfold trySessionPoll. sd_go. Qed.

Lemma tryRegisterBySlot_states L n w :
  In ACTIVE L ->
  state_in L n -> state_in L (fst (tryRegisterBySlot n w)).
Proof. intros HACTIVE H. unfold tryRegisterBySlot. sd_go. Qed.


End DiagramFacts.

Module TickDiagram.
Import DiagramFacts.

Ltac listed := cbn; tauto.

Lemma runStateMachine_diagram n w :
  In (state_ (fst (runStateMachine n w))) (next_states (state_ n)).
Proof.
  unfold runStateMachine. cbv zeta.
  destruct (negb (w_wifi w)).
  { cbn [fst state_ set_wifiConnecting_]. destruct (state_ n); listed. }
  cbn [state_ set_wifiConnecting_].
  set (m := set_wifiConnecting_ false n).
  assert (Em : state_ m = state_ n) by reflexivity.
  match goal with
  | |- In (state_ (fst ?X)) ?L => change (state_in L (fst X))
  end.
  destruct (state_ n) eqn:Es; cbn [next_states].
  - (* BOOT *)
    assert (Hm : state_in [BOOT; HELLO; ACTIVE] m) by (unfold state_in; rewrite Em; listed).
    destruct (nonempty _).
    + pose proof (trySessionRefresh_states [BOOT; HELLO; ACTIVE] m w ltac:(listed) Hm) as P.
      destruct (trySessionRefresh m w) as [ok [n1 w1]]. cbn [fst snd] in P.
      destruct ok; [exact P|].
      pose proof (state_in_setState [BOOT; HELLO; ACTIVE] HELLO n1 w1 ltac:(listed)) as Q.
      destruct (setState HELLO n1 w1). exact Q.
    + pose proof (state_in_setState [BOOT; HELLO; ACTIVE] HELLO m w ltac:(listed)) as Q.
      destruct (setState HELLO m w). exact Q.
  - apply tryHello_states; try listed. unfold state_in. rewrite Em. listed.
  - apply tryPairIfNeeded_states; try listed. unfold state_in. rewrite Em. listed.
  - set (L := [PENDING_POLL; HELLO; ACTIVE; ERROR]).
    assert (Hm : state_in L m) by (unfold state_in; rewrite Em; listed).
    assert (Q1 : state_in L (fst (if preferRegisterBySlot (cfg_ m)
                                     && is_set (loginToken (cfg_ m))
                                  then tryRegisterBySlot m w else (m, w)))).
    { destruct (_ && _); [|exact Hm]. apply tryRegisterBySlot_states; [listed | exact Hm]. }
    destruct (if preferRegisterBySlot (cfg_ m) && is_set (loginToken (cfg_ m))
              then tryRegisterBySlot m w else (m, w)) as [n1 w1]. cbn [fst] in Q1.
    assert (Q2 : state_in L (fst (if enableSelfApprove (cfg_ n1)
                                     && is_set (approveEndpointPath (cfg_ n1))
                                     && negb (nonempty (sessionToken_ n1))
                                     && negb (approveMissingMacFailed_ n1)
                                  then tryApprove n1 w1 else (n1, w1)))).
    { destruct (_ && _ && _ && _); [|exact Q1].
      apply tryApprove_states; [listed | listed | exact Q1]. }
    destruct (if enableSelfApprove (cfg_ n1) && _ && _ && _ then _ else _) as [n2 w2].
    cbn [fst] in Q2.
    destruct (negb _); [|exact Q2].
    apply trySessionPoll_states; [listed | listed | listed | exact Q2].
  - pose proof (state_in_setState [GRANTED; ACTIVE] ACTIVE m w ltac:(listed)) as Q.
    destruct (setState ACTIVE m w). exact Q.
  - pose proof (ActiveFacts.tunnelLoop_tunnel m w) as T. unfold in_tunnel, state_in in *.
    rewrite Em in T. specialize (T eq_refl).
    destruct (state_ (fst (tunnelLoop m w))); try discriminate; listed.
  - pose proof (ActiveFacts.tunnelLoop_tunnel m w) as T. unfold in_tunnel, state_in in *.
    rewrite Em in T. specialize (T eq_refl).
    destruct (state_ (fst (tunnelLoop m w))); try discriminate; listed.
  - pose proof (ActiveFacts.tunnelLoop_tunnel m w) as T. unfold in_tunnel, state_in in *.
    rewrite Em in T. specialize (T eq_refl).
    destruct (state_ (fst (tunnelLoop m w))); try discriminate; listed.
  - apply state_in_setState. listed.
Qed.

Lemma run_never_granted ins : forall n w,
  state_ n <> GRANTED -> state_ (fst (run ins n w)) <> GRANTED.
Proof.
  induction ins as [|i ins IH]; intros n w H; cbn [run]; [exact H|].
  unfold tick, loopTick.
  pose proof (runStateMachine_diagram n
                (set_w_wifi (t_wifi i) (set_w_clock (w_clock w + t_elapsed i) w))) as D.
  destruct (runStateMachine n _) as [n1 w1]. cbn [fst] in D. apply IH.
  intros E. rewrite E in D. destruct (state_ n); cbn in D; intuition congruence.
Qed.

End TickDiagram.

(** X25. The state diagram. One tick leads from a state only to a state of
    [next_states]: BOOT goes to HELLO or ACTIVE, HELLO to PAIR_SUBMIT,
    PENDING_POLL or ERROR, PAIR_SUBMIT and PENDING_POLL back to HELLO or
    on to ACTIVE (PENDING_POLL also to ERROR), ERROR to HELLO, and ACTIVE
    and the tunnel states among themselves; any state may stay. No tick
    enters GRANTED, so a node never is in it on any run. *)
Theorem tick_follows_state_diagram (c : Config) (ins : list tick_input)
    (n : node) (w : world) :
  In (state_ (fst (loopTick n w))) (next_states (state_ n)) /\
  state_ (fst (run ins (new_node c) w)) <> GRANTED.
Proof.
  split; [apply TickDiagram.runStateMachine_diagram|].
  apply TickDiagram.run_never_granted. discriminate.
Qed.

(** ** The further properties at the sample devices *)

Lemma tunnel_url_of_hub_url_witness :
  buildWsTunnelUrl (Some "http://hub.local:8080") = Some "wss://hub.local/ws/tunnel".
Proof.
  apply (tunnel_url_of_hub_url false "hub.local" ":8080");
    [reflexivity | reflexivity | cbn; lia
    | right; left; eexists; reflexivity].
Defined.

Lemma well_formed_kept_witness :
  well_formed (new_node cfg_self_approve) /\
  well_formed (fst (loopTick (new_node cfg_self_approve) (world_with []))).
Proof.
  split; [apply InvFacts.new_node_wf|].
  apply (well_formed_kept (new_node cfg_self_approve) (world_with [])
           (InvFacts.new_node_wf cfg_self_approve)).
Defined.

Lemma active_is_final_witness :
  in_tunnel (fst active_node) /\
  w_posts (snd (run [now_; later 30000] (fst active_node) (snd active_node)))
    = w_posts (snd active_node).
Proof.
  split; [reflexivity|].
  apply (active_is_final [now_; later 30000] (fst active_node) (snd active_node)).
  reflexivity.
Defined.

Lemma pairing_code_used_once_witness :
  pairingCodeValid_ pairing_node = true /\
  pairingCode_ (fst (tryPairIfNeeded pairing_node
                       (world_with [reply 200 (JObj [("ok", JBool true)])]))) = EmptyString.
Proof.
  split; [reflexivity|].
  apply (pairing_code_used_once pairing_node
           (world_with [reply 200 (JObj [("ok", JBool true)])]));
    [reflexivity | reflexivity | reflexivity | vm_compute; discriminate].
Defined.
